(* ===== verification/_CoqProject ===== *)
-Q . S2P
Prelude.v
PyFloat.v
PyString.v
PyFormat.v
PyDecimal.v
PyArray.v
Location.v
TextParse.v
TextErrors.v
TextDense.v
TextOrder.v
TextRows.v
TextAccept.v
TextLoads.v
InputBase.v
Codec.v
Dataset.v
NetcdfCf.v
Comps.v
Legacy.v
Dispatch.v
Handles.v
