(* ===== verification/Prelude.v ===== *)
(** * Verification of [verif.input]: multi-format ingestion of verification data

    The program ([src/verif/input.py]) turns a file of observations and
    forecasts into one in-memory object ([Input]): coordinate sequences
    (dates, offsets, locations, thresholds, quantiles) and dense arrays indexed
    by them.  Three decoders exist ([NetcdfCf], [Comps], [Text]) and a
    dispatcher ([get_input]) that probes them in a fixed order.  The text
    decoder is the one that does the work itself: it parses the file into
    sparse tables keyed by coordinates, resolves the identity of locations,
    and assembles the dense arrays.  This development models the text
    decoder from the first line read to the constructed object, the two
    NetCDF decoders over a model of a NetCDF file, the naming codec of the
    legacy format, the dispatcher over a model of the file system, the
    derived names of the base class and the test double [Fake].

    ** Layout of the development

    - [Prelude] (this file): the outcome of fallible Python code ([result],
      with stdpp's monad notation), the exceptions and [verif.util.error]
      messages the program can end with ([error]), loops that can fail
      ([foldlM]) with their rules, a Hoare logic for outcomes ([ensures]),
      Python's [set] as a duplicate-free list in first-seen order ([set_add],
      [distinct]), a [dict] as the list of its writes ([written],
      [last_write]), the shared tactics ([inv_res]) and the hint database
      [verif].
    - [PyFloat]: Python floats as exact rationals plus [NaN] ([pyfloat]),
      with the comparisons and arithmetic the program uses.
    - [PyString]: the [str] methods the program calls ([split], [strip],
      [join], indexing and slicing) and [float()] on decimal literals.
    - [PyFormat]: [str.replace], ["%d"] and ["%g"] on a float, with the
      facts that [float()] reads back what ["%d"] prints.
    - [PyDecimal]: the decimal exponent ([ilog10_spec]), what ["%g"] prints
      for a fraction of at most six digits and that [float()] reads it back.
    - [PyArray]: [numpy] arrays as nested lists behind the interface
      [Tensor] with its laws [TensorLaws]; rank 1 is a list and [nest_tensor]
      adds an axis, so ranks 3 and 4 are instances.  The client theorem
      [fill_loop_full] (a loop of conditional stores over the whole index
      space of a fresh array is a tabulation) is proved against the interface.
    - [Location]: the external [verif.location.Location] record and the
      location registry of the text decoder: identity resolution with conflict
      detection ([resolve_location], lines 441-472 of [input.py]) and deferred
      identifier assignment ([max_location_id], [assign_ids], lines 539-553).
    - [TextParse]: the first pass of [Text.__init__] (lines 350-489): the
      parser state ([state], the method's locals and the [self._*] fields),
      the handlers [parse_comment], [parse_header] and [process_row], the loop
      body [process_line] and the loop [parse_lines]; the parser as a state
      machine ([step], [reachable]) with its invariant [state_inv].
    - [TextErrors]: the errors a text file can end in, by the outcome logic
      [ensures], parametric in the tokens [float()] reads.
    - [TextDense]: the second pass (lines 491-567): the coordinate lists
      ([freeze]), allocation ([allocate]), the nested fill loops ([fill],
      [fill_cell], [fill_axis]), their specification by tabulation ([dense])
      and the constructor as a whole ([Text_init], specified by [snapshot]).
    - [TextOrder]: the constructed object up to the order in which
      [list(set)] lists the coordinate sets: listings as a setoid ([≡] on
      [coords]), the arrays read by coordinates ([place], [read3], [read4]),
      objects up to the order of their coordinates ([≡] on [Text]) and the
      assembly over any listing ([assemble_listed]).
    - [TextRows]: a specification of the text decoder without parser
      state: the rows of a file ([rows]), the identity of each row
      ([identity]), the tables and sets after the rows ([tabulate]), what
      the load prints ([printed]) and the object of the file ([object]);
      the row handler as reading followed by
      recording ([read_raw], [record]) and the simulation of the
      tabulation by the parser ([after]).
    - [InputBase]: the base class [Input] (lines 56-74): [name],
      [shortname], [get_variables]; and [Fake] (lines 591-602), with
      attribute assignment on an instance of a class that has read-only
      properties ([setattr]).
    - [Codec]: the naming codec of [Comps] (lines 200-251):
      [comps_to_verif_threshold], [comps_to_verif_quantile],
      [verif_to_comps_threshold], [verif_to_comps_quantile].
    - [Dataset]: a NetCDF file as the decoders see it ([dataset]: global
      attributes and named variables in file order; [ndarray]: values of
      rank 1, 3 and 4), [verif.util.clean] with the sentinel as a parameter,
      and what the two NetCDF decoders share: the loop that builds the
      locations ([get_locations_from], lines 155-164 and 304-313) and the
      normalisation of units ([get_units], lines 186-193 and 326-333).
    - [NetcdfCf]: the self-describing decoder (lines 254-334):
      [NetcdfCf_init], [NetcdfCf_is_valid] and the array properties.
    - [Comps]: the legacy decoder (lines 77-198): [Comps_init],
      [Comps_is_valid], discovery of thresholds and quantiles from variable
      names ([co_get_thresholds], [co_get_quantiles]) and the stacking loops
      ([co_threshold_scores], [co_quantile_scores], with [stack_step] and
      the slice assignment [assign_last]).
    - [Legacy]: legacy files whose score variables carry the names the
      encoder gives ([score_variables]): the codec, discovery and stacking
      composed.  What the decoder needs of the codec is the interface
      [Naming] (a family of values, the name of each, read back by the
      decoder and rejected by the decoder of the other kind); its instances
      are the integer thresholds, the thresholds that are fractions, the
      quantiles that are whole percents and those below one percent, and
      sums of namings ([sum_naming]).
    - [TextAccept]: the files the text decoder accepts ([well_formed]) and
      the parsing loop as a machine on configurations ([config], [next])
      that halts.
    - [TextLoads]: the exact condition under which the text decoder
      returns ([loads], [row_loads]), and with the object of [TextRows]
      the specification of the constructor on every file.
    - [Dispatch]: the file system ([world]), the constructors from a path
      ([Text_new], [NetcdfCf_new], [Comps_new]), the dispatcher [get_input]
      (lines 14-25) and the interface [Input] of the decoders.
    - [Handles]: the same validity checks, constructors and dispatcher as
      programs of the state-and-error monad [io] over the table of open
      files ([handles]), in the module [IO]: [IO.NetcdfCf_is_valid],
      [IO.Comps_is_valid], [IO.Text_new], [IO.get_input], with [IO.try] for
      [try: ... except:] and [IO.close] for [file.close()].

    How the parts interact: [get_input] checks that the path exists, asks
    [NetcdfCf_is_valid], [Comps_is_valid] and [Text_is_valid] in that order
    and runs the constructor of the first that accepts.  [Text_init] runs
    [parse_lines], whose data-row handler calls [resolve_location] on the
    registry inside the state; the final state is handed to [assemble],
    which freezes the coordinates, allocates, runs [fill] through the
    [Tensor] interface, and assigns the missing identifiers with
    [assign_ids].  [Comps_init] calls the decoders of [Codec] on the name
    of every variable, and [co_threshold_scores] calls the encoders to find
    the variable of each threshold again; the stacking loop writes through
    the [Tensor] interface.

    ** Modelling decisions

    - _Floats._  A Python float is [NaN] or [Fin q] for a canonical rational
      [q : Qc]: arithmetic is exact, there is no rounding, no infinity and no
      negative zero.  Every number the text decoder handles is read by
      [float()] from a decimal literal, subtracted, compared and incremented;
      the model is exact for inputs whose literals a binary64 represents
      without collision (15 significant digits, exponents within range).
      [numpy.nan] is one object: the program only ever obtains a NaN from it
      ([_clean], missing columns), so inside containers NaN is equal to itself
      (identity), which is what Leibniz equality on [pyfloat] gives; the
      comparison operators still answer [false] on NaN.  The literals [nan],
      [inf] and [infinity], which [float()] also accepts, would create other
      NaN objects and infinities: the model stops on them with [Unmodelled].
    - _Sets._  CPython iterates a [set] in hash order.  [freeze] lists the
      sets in first-seen order.  The theorems about [fill] are stated for
      arbitrary coordinate lists, so none depends on that choice, and
      [Text_init_any_order] (in [TextOrder]) says that the choice changes
      the constructed object by the order of its coordinates only.
    - _Errors._  [verif.util.error] ends the load; so does an uncaught
      exception.  Both are values [Err _] of [result]; a failed load carries
      no state.
    - _Files._  A text file is the list of its lines, each with its
      newline, as iterating the file object yields them.  A NetCDF file is a
      [dataset]; dimensions are not modelled, and an array carries its
      extents.  The file system is a finite map from paths to contents and a
      home directory; [os.path.expanduser] replaces a leading tilde, alone
      or before a slash.  [Dispatch] computes results from the file system
      alone; [Handles] adds the table of open files as the state of the
      same code, with handles given out in increasing order ([fresh]), and
      proves that its programs refine the functions of [Dispatch].  An
      error keeps the table it was raised in; Python's garbage collector,
      which may close an unreachable file later, is not modelled.
    - _Arrays of the NetCDF decoders._  A score variable of a rank other
      than 3, or of extents other than those of the first one, stops the
      stacking with [Unmodelled], where numpy raises or broadcasts; so does a
      coordinate variable of a rank other than 1.
    - _[is not] on lengths._  [len(row) is not len(header)] compares object
      identity.  CPython shares the integers -5..256, so the test is the
      inequality of the lengths up to 256 columns and always true beyond
      ([len_is_not]).
    - _Formatting._  ["%g"] rounds the exact rational to 6 significant
      digits.  On an exact tie at the sixth digit Python's answer depends on
      the binary representation of the float, which the model does not have:
      [format_g] stops with [Unmodelled] there.
    - _Fuel and bounds._  Every loop of the program is a [for] over a
      finite sequence and is modelled by structural recursion ([foldlM]
      over a list); [run_halts] states the halting of the parsing loop on
      its configurations, with the number of unread lines as the measure
      and one step per line plus one as the bound.  Fuel appears in two
      helpers of the formatting model
      only: [N_digits] (the decimal digits of a number; the fuel is its
      number of binary digits plus one, which [N_digits_printed] proves
      enough) and [ilog10] (the decimal exponent; the fuel is the number of
      bits of numerator and denominator, which [ilog10_fuel_up] and
      [ilog10_fuel_down] prove enough: [ilog10_spec] holds of every
      positive rational).  Integers are unbounded, as in Python.  The
      round trips of the codec on integers and on fractions, and the
      failure on negative fractions, are proved for every value; the
      lemmas on the whole percents ([encode_percent], [decode_percent]) are
      proved by evaluating the codec on each of the 101 values.

    ** What the theorems show

    - Refinement: the constructor is its specification on every file
      ([Text_init_refines]): it fails exactly when parsing fails and
      otherwise returns [snapshot], whose arrays are tabulations.  The proof
      goes through the interface theorem [fill_loop_full].  The
      constructor is also specified without parser state
      ([Text_init_specified]): it returns exactly on the files of [loads],
      and the object it returns is that of the rows of the file, its log
      included ([printed]), by a simulation in which comments and the
      header are the steps the tabulation does not take
      ([Text_init_object], evaluated on a file with repeated rows in
      [object_repeated]): the coordinates are the distinct values of the rows
      ([Text_init_coordinates]), rows with one identifier share the
      identity of the first ([located_stable]), and every cell holds what
      the last row of its key wrote ([Text_init_last_row]).
    - Invariants: [state_inv] holds in every reachable parser state
      ([reachable_inv]); the header is read once ([header_fixed]); the
      constructed object has arrays of the extents of its coordinates
      ([Text_init_shape]) and distinct, assigned location identifiers
      ([Text_init_ids]).
    - Functional behaviour: a data row is read and then recorded, with the
      errors of the reads in their order ([process_row_reads], and
      [process_row_stores] for what is stored), what a cell holds
      ([fill_cell_value]), that nothing read is lost
      ([Text_init_complete]), how a known identifier is resolved
      ([resolve_known], [resolve_location_warns]), how identifiers are
      assigned ([assign_ids_assigned], [assign_ids_NoDup],
      [assign_ids_all_missing]).
    - Errors: the errors a file can end in ([parse_lines_errors]) and a data
      row can raise ([process_row_errors]); the missing-column and arity
      errors ([process_line_missing_column], [process_row_arity]).
    - The end-to-end scenario evaluates as expected ([Text_init_example]).
    - Order of the sets: what is read at a key of a tabulation does not
      depend on the listing ([read3_dense_proper], [read4_dense_proper]),
      the identifiers in use after [assign_ids] neither
      ([assign_ids_proper]), so the constructed object is the same up to
      the order of its coordinates ([listed_snapshot_proper],
      [Text_init_any_order]); which location gets which number does depend
      on it ([assign_ids_order]).
    - Round trips of the codec: decoding undoes encoding on every integer
      threshold ([threshold_roundtrip_int]), on every positive fraction of
      at most six digits that is not below 0.0001
      ([threshold_roundtrip_fraction], from what [%g] prints,
      [format_g_fraction], and what [float()] reads back,
      [float_of_string_fraction]) and on the quantiles that are whole
      percents or below one percent ([quantile_roundtrip]); it does not on
      the negatives of these fractions, which come back as integers
      ([threshold_negative_fraction]), thresholds are truncated from 1 on
      ([threshold_truncates]), a quantile whose percentage is at least 1
      and has a fractional part gets the name of the quantile of its digits
      ([quantile_collision], by [format_g_mixed]) and the guard accepts
      names without prefix ([decoder_guard]).
    - Derived names: [name_base], [shortname_ext], [shortname_no_dot];
      [Fake] cannot be constructed ([Fake_init_raises]).
    - The NetCDF decoders: what [NetcdfCf.__init__] reads
      ([NetcdfCf_init_reads]) and the errors of both constructors
      ([NetcdfCf_init_ensures], [Comps_init_ensures]); the stacked arrays of
      [Comps] follow the thresholds and quantiles of the input
      ([co_threshold_scores_names], [co_quantile_scores_stacked], by a
      loop invariant over the passes and the interface theorem
      [fill_loop_spec]); the thresholds are discovered in file order
      ([discover_order]); composed with the round trips of the codec
      through the interface [Naming], a file whose score variables are
      named by the encoder loads with its thresholds and quantiles and the
      scores of both kinds stack in their order ([legacy_scores]): no
      threshold name is read as a quantile and no quantile name as a
      threshold ([comps_to_verif_quantile_p],
      [comps_to_verif_threshold_q]); reading the scores raises [KeyError] when
      a decoded threshold does not encode to its variable's name
      ([co_threshold_scores_KeyError]); [Comps.is_valid] can return with the
      file open ([Comps_is_valid_leaves_open]).
    - Acceptance and halting of the text decoder: a well-formed file
      loads ([Text_init_accepts], by instantiating the parametric error
      taxonomy of [TextErrors] with the error predicate [False]); the loop
      halts ([run_halts]) and stops at the first line that fails
      ([parse_lines_first_error]).  The constructor returns exactly on the
      files of [loads] ([Text_init_loads_iff]): the success of a chain of
      calls is computed with the rules of [is_Ok] ([is_Ok_bind_iff],
      [foldlM_is_Ok]), and only the columns a row reads have to hold
      numbers.
    - Ranges: the quantiles of a legacy file lie in the unit interval, so
      the encoder names every one of them ([co_get_quantiles_range]).
    - Open files: the programs of [Handles] refine the functions of
      [Dispatch] ([get_input_refines]); [NetcdfCf.is_valid] closes what it
      opens ([NetcdfCf_is_valid_closes]); [Comps.is_valid] leaves a file
      open when the convention attribute is misnamed
      ([Comps_is_valid_leaks]); [Text.__init__] leaves its file open when a
      line fails ([Text_new_handles]); after a successful [get_input] a
      NetCDF input holds one file and a text input none
      ([get_input_handles]); handles stay fresh ([get_input_fresh]).
    - The dispatcher: the decoder chosen for a file
      ([get_input_chooses]); every NetCDF file without convention attributes
      is read as legacy format ([get_input_legacy_default]); the errors of
      the call ([get_input_errors]), with "does not exist" exactly for the
      missing paths ([get_input_DoesNotExist]) and "is not a valid input
      file" never ([get_input_never_invalid]); a tilde path is refused
      although the constructors expand it ([get_input_tilde]).

    ** Not modelled

    The NetCDF library, [verif.util], [verif.variable] and [verif.field]
    are external and appear through the models above; dimensions of NetCDF
    files, directories and permissions of the file system, and the closing
    of unreachable files by the garbage collector are left out.  Timing
    calls ([time.time()]), the [print] of the elapsed time and the class
    attribute [description] have no effect on the constructed object; of
    the description only the example file it shows is modelled
    ([scenario]), as an input of the decoder. *)

From stdpp Require Export base tactics option list gmap strings.

(** ** Outcomes of fallible code *)

(** A computation either returns a value or ends the load. *)
Inductive result (E A : Type) : Type :=
| Ok (a : A)
| Err (e : E).
Arguments Ok {E A} a.
Arguments Err {E A} e.

#[export] Instance result_ret {E} : MRet (result E) := λ A, Ok.
#[export] Instance result_bind {E} : MBind (result E) :=
  λ A B f r, match r with Ok a => f a | Err e => Err e end.
#[export] Instance result_fmap {E} : FMap (result E) :=
  λ A B f r, match r with Ok a => Ok (f a) | Err e => Err e end.

Definition is_Ok {E A} (r : result E A) : Prop := ∃ a, r = Ok a.

#[export] Instance Ok_inj {E A} : Inj (=) (=) (@Ok E A).
Proof. by intros ?? [= ->]. Qed.

#[export] Instance is_Ok_dec {E A} (r : result E A) : Decision (is_Ok r).
Proof.
  refine (match r with Ok a => left _ | Err e => right _ end);
    [by eexists|by intros [? ?]].
Defined.

(** The error of an outcome: a projection that evaluates without the value. *)
Definition error_of {E A} (r : result E A) : option E :=
  match r with Ok _ => None | Err e => Some e end.

Definition result_of_option {E A} (e : E) (o : option A) : result E A :=
  match o with Some a => Ok a | None => Err e end.

(** Left fold in the outcome monad: a [for] loop whose body may raise. *)
Fixpoint foldlM {E A B} (f : A → B → result E A) (a : A) (l : list B) : result E A :=
  match l with
  | [] => Ok a
  | b :: l => a' ← f a b; foldlM f a' l
  end.

(** ** How a load can end, and what it can emit *)

(** The exceptions the modelled code can raise. *)
Inductive pyexc :=
| IndexError | KeyError | ValueError | AttributeError | TypeError | IOError.

(** The messages of [verif.util.error], which does not return. *)
Inductive message :=
| MissingColumn (filename col : string)
| IncorrectColumns (expecting : nat) (row : string)
| DoesNotExist (filename : string)
| NotValidInput (filename : string).

Inductive error :=
| UtilError (m : message)
| Raised (e : pyexc)
| Unmodelled (what : string).

#[export] Instance pyexc_eq_dec : EqDecision pyexc.
Proof. solve_decision. Defined.
#[export] Instance message_eq_dec : EqDecision message.
Proof. solve_decision. Defined.
#[export] Instance error_eq_dec : EqDecision error.
Proof. solve_decision. Defined.
#[export] Instance result_eq_dec {E A} `{EqDecision E, EqDecision A} :
  EqDecision (result E A).
Proof. solve_decision. Defined.

Abbreviation res := (result error).

(** ** Python sets, in first-seen order *)

Section list_set.
Context {A : Type} `{EqDecision A}.

(** [s.add(x)] *)
Definition set_add (x : A) (l : list A) : list A :=
  if decide (x ∈ l) then l else l ++ [x].

Lemma elem_of_set_add x y l : y ∈ set_add x l ↔ y = x ∨ y ∈ l.
Proof. unfold set_add. case_decide; set_solver. Qed.

Lemma set_add_self x l : x ∈ set_add x l.
Proof. apply elem_of_set_add. by left. Qed.

Lemma set_add_mono x y l : y ∈ l → y ∈ set_add x l.
Proof. intros. apply elem_of_set_add. by right. Qed.

Lemma NoDup_set_add x l : NoDup l → NoDup (set_add x l).
Proof.
  unfold set_add. case_decide; [done|]. intros Hl.
  apply NoDup_app. split_and!; [done| |apply NoDup_singleton].
  intros y Hy ->%list_elem_of_singleton. done.
Qed.

Lemma set_add_elem x l : x ∈ l → set_add x l = l.
Proof. unfold set_add. by case_decide. Qed.

Lemma set_add_idemp x l : set_add x (set_add x l) = set_add x l.
Proof. apply set_add_elem, set_add_self. Qed.

Lemma set_add_prefix x l : l `prefix_of` set_add x l.
Proof. unfold set_add. case_decide; [done|]. by apply prefix_app_r. Qed.

Lemma set_add_lookup x l i y : l !! i = Some y → set_add x l !! i = Some y.
Proof. intros. eapply prefix_lookup_Some; [done|apply set_add_prefix]. Qed.

Lemma set_add_length x l : length l ≤ length (set_add x l) ≤ S (length l).
Proof. unfold set_add. case_decide; rewrite ?length_app; simpl; lia. Qed.

End list_set.

(** ** Listing a set, and tables as lists of writes *)

Section distinct.
Context {A : Type} `{EqDecision A}.
Implicit Types (x : A) (l acc : list A).

(** [list(set(l))], in first-seen order *)
Definition distinct (l : list A) : list A := foldl (λ acc x, set_add x acc) [] l.

Lemma elem_of_foldl_set_add {B} (f : B → A) (bs : list B) acc x :
  x ∈ foldl (λ acc b, set_add (f b) acc) acc bs ↔ x ∈ acc ∨ x ∈ f <$> bs.
Proof.
  revert acc. induction bs as [|b bs IH]; intros acc; simpl; [set_solver|].
  rewrite IH, elem_of_set_add. set_solver.
Qed.

Lemma NoDup_foldl_set_add {B} (f : B → A) (bs : list B) acc :
  NoDup acc → NoDup (foldl (λ acc b, set_add (f b) acc) acc bs).
Proof.
  revert acc. induction bs as [|b bs IH]; intros acc Hacc; simpl; [done|].
  by apply IH, NoDup_set_add.
Qed.

Lemma foldl_set_add_fmap {B} (f : B → A) (bs : list B) acc :
  foldl (λ acc b, set_add (f b) acc) acc bs = foldl (λ acc x, set_add x acc) acc (f <$> bs).
Proof. revert acc. induction bs as [|b bs IH]; intros acc; simpl; [done|]. apply IH. Qed.

Lemma elem_of_distinct l x : x ∈ distinct l ↔ x ∈ l.
Proof.
  unfold distinct. rewrite (elem_of_foldl_set_add id), list_fmap_id. set_solver.
Qed.

Lemma NoDup_distinct l : NoDup (distinct l).
Proof. apply (NoDup_foldl_set_add id), NoDup_nil_2. Qed.

Lemma distinct_snoc l x : distinct (l ++ [x]) = set_add x (distinct l).
Proof. unfold distinct. by rewrite foldl_app. Qed.

(** A list without duplicates is its own listing. *)
Lemma distinct_NoDup l : NoDup l → distinct l = l.
Proof.
  induction l as [|x l IH] using rev_ind; [done|].
  intros [Hl [Hx _]]%NoDup_app. rewrite distinct_snoc, IH by done.
  unfold set_add. rewrite decide_False; [done|]. intros ?. eapply Hx; [done|]. by left.
Qed.

End distinct.

Section written.
Context {K V : Type} `{Countable K}.
Implicit Types (m : gmap K V) (l : list (K * V)) (k : K).

(** A table after a list of writes, a later write over an earlier one. *)
Definition written (l : list (K * V)) : gmap K V :=
  foldl (λ m kv, <[kv.1 := kv.2]> m) ∅ l.

(** What was written last under a key. *)
Definition last_write (k : K) (l : list (K * V)) : option V :=
  snd <$> last (filter (λ kv, kv.1 = k) l).

Lemma written_snoc l k v : written (l ++ [(k, v)]) = <[k := v]> (written l).
Proof. unfold written. by rewrite foldl_app. Qed.

Lemma last_write_snoc l k k' v :
  last_write k (l ++ [(k', v)]) = if decide (k' = k) then Some v else last_write k l.
Proof.
  unfold last_write. rewrite filter_app, filter_cons, filter_nil. simpl.
  case_decide; [by rewrite last_snoc|by rewrite app_nil_r].
Qed.

(** The table holds what was written last. *)
Lemma written_lookup l k : written l !! k = last_write k l.
Proof.
  induction l as [|[k' v] l IH] using rev_ind; [done|].
  by rewrite written_snoc, last_write_snoc, lookup_insert, IH.
Qed.

(** Something was written under a key when the key occurs in the writes. *)
Lemma last_write_is_Some l k : is_Some (last_write k l) ↔ k ∈ l.*1.
Proof.
  induction l as [|[k' v] l IH] using rev_ind; [by rewrite is_Some_alt, elem_of_nil|].
  rewrite last_write_snoc, fmap_app, elem_of_app, <-IH. simpl.
  rewrite list_elem_of_singleton. case_decide; [|naive_solver].
  split; [by right|by eexists].
Qed.

(** The table is empty when nothing was written. *)
Lemma written_size l : size (written l) ≠ 0 ↔ l ≠ [].
Proof.
  destruct l as [|[k v] l] using rev_ind; [done|]. rewrite written_snoc.
  split; [by intros _ [_ ?]%app_eq_nil|]. intros _ H0%map_size_empty_inv.
  by apply insert_non_empty in H0.
Qed.

Lemma foldl_written {X} (f : X → K * V) (xs : list X) :
  foldl (λ m x, <[(f x).1 := (f x).2]> m) ∅ xs = written (f <$> xs).
Proof.
  unfold written. generalize (∅ : gmap K V).
  induction xs as [|x xs IH]; intros m; simpl; [done|]. apply IH.
Qed.

Lemma foldl_written_omap {X} (f : X → option (K * V)) (xs : list X) :
  foldl (λ m x, from_option (λ kv, <[kv.1 := kv.2]> m) m (f x)) ∅ xs = written (omap f xs).
Proof.
  unfold written. generalize (∅ : gmap K V).
  induction xs as [|x xs IH]; intros m; simpl; [done|]. rewrite IH. by destruct (f x).
Qed.

Lemma foldl_written_bind {X} (f : X → list (K * V)) (xs : list X) :
  foldl (λ m x, foldl (λ m kv, <[kv.1 := kv.2]> m) m (f x)) ∅ xs = written (xs ≫= f).
Proof.
  unfold written. generalize (∅ : gmap K V).
  induction xs as [|x xs IH]; intros m; simpl; [done|]. by rewrite IH, foldl_app.
Qed.

End written.

(** A projection of a fold is the fold of the projection. *)
Lemma foldl_project {A B C} (π : A → C) (f : A → B → A) (g : C → B → C) l a :
  (∀ a b, π (f a b) = g (π a) b) → π (foldl f a l) = foldl g (π a) l.
Proof.
  intros Hf. revert a. induction l as [|b l IH]; intros a; simpl; [done|].
  by rewrite IH, Hf.
Qed.

(** The image of a duplicate-free list, restricted to where the function is
    injective, is duplicate-free. *)
Lemma NoDup_filter_fmap {A B} (f : A → B) (P : B → Prop) `{∀ y, Decision (P y)}
    (l : list A) :
  NoDup l →
  (∀ x y, x ∈ l → y ∈ l → P (f x) → f x = f y → x = y) →
  NoDup (filter P (f <$> l)).
Proof.
  induction 1 as [|x l Hx Hl IH]; intros Hinj; [constructor|].
  rewrite fmap_cons, filter_cons.
  assert (NoDup (filter P (f <$> l))) by (apply IH; intros; apply Hinj; set_solver).
  case_decide as HP; [|done]. constructor; [|done].
  intros [_ (y & Hxy & Hy)%list_elem_of_fmap]%list_elem_of_filter.
  apply Hx. rewrite (Hinj x y); set_solver.
Qed.

(** ** Lemmas on outcomes *)

Section result_lemmas.
Context {E A B : Type}.
Implicit Types (r : result E A) (f : A → result E B).

Lemma bind_Ok r f b : r ≫= f = Ok b ↔ ∃ a, r = Ok a ∧ f a = Ok b.
Proof. destruct r; simpl; naive_solver. Qed.

Lemma bind_Err r f e :
  r ≫= f = Err e ↔ r = Err e ∨ ∃ a, r = Ok a ∧ f a = Err e.
Proof. destruct r; simpl; naive_solver. Qed.

Lemma error_of_Some r e : error_of r = Some e ↔ r = Err e.
Proof. destruct r; simpl; naive_solver. Qed.

Lemma fmap_Ok (g : A → B) r b : g <$> r = Ok b ↔ ∃ a, r = Ok a ∧ b = g a.
Proof. destruct r; simpl; naive_solver. Qed.

Lemma result_of_option_Ok (e : E) (o : option A) a :
  result_of_option e o = Ok a ↔ o = Some a.
Proof. destruct o; simpl; naive_solver. Qed.

Lemma result_of_option_Err (e e' : E) (o : option A) :
  result_of_option e o = Err e' ↔ o = None ∧ e' = e.
Proof. destruct o; simpl; naive_solver. Qed.

End result_lemmas.

(** An invariant of the loop body is an invariant of the loop. *)
Lemma foldlM_invariant {E A B} (P : A → Prop) (f : A → B → result E A) l a a' :
  (∀ x b y, P x → f x b = Ok y → P y) →
  P a → foldlM f a l = Ok a' → P a'.
Proof.
  intros Hf. revert a. induction l as [|b l IH]; simpl; intros a Ha.
  - by intros [= <-].
  - intros (y & Hy & Hl)%bind_Ok. eauto.
Qed.

Lemma foldlM_app {E A B} (f : A → B → result E A) l1 l2 a :
  foldlM f a (l1 ++ l2) = a' ← foldlM f a l1; foldlM f a' l2.
Proof.
  revert a. induction l1 as [|b l1 IH]; simpl; intros a; [done|].
  destruct (f a b); simpl; auto.
Qed.

(** Nested loops are one loop over the flattened index list. *)
Lemma foldlM_bind {E A B C} (f : A → C → result E A) (g : B → list C) l a :
  foldlM f a (l ≫= g) = foldlM (λ a b, foldlM f a (g b)) a l.
Proof.
  revert a. induction l as [|b l IH]; intros a; [done|].
  change ((b :: l) ≫= g) with (g b ++ (l ≫= g)). rewrite foldlM_app. simpl.
  destruct (foldlM f a (g b)); simpl; auto.
Qed.

Lemma foldlM_fmap {E A B C} (f : A → C → result E A) (g : B → C) l a :
  foldlM f a (g <$> l) = foldlM (λ a b, f a (g b)) a l.
Proof.
  revert a. induction l as [|b l IH]; intros a; simpl; [done|].
  destruct (f a (g b)); simpl; auto.
Qed.

(** Two bodies that agree on the elements visited give the same loop. *)
Lemma foldlM_ext_in {E A B} (f g : A → B → result E A) l a :
  (∀ a b, b ∈ l → f a b = g a b) → foldlM f a l = foldlM g a l.
Proof.
  revert a. induction l as [|b l IH]; intros a Hfg; simpl; [done|].
  rewrite Hfg by set_solver. destruct (g a b); simpl; [|done].
  apply IH. intros. apply Hfg. set_solver.
Qed.

Lemma foldlM_singleton {E A B} (f : A → B → result E A) a b :
  foldlM f a [b] = f a b.
Proof. simpl. by destruct (f a b). Qed.

(** A loop over pairs in row-major order is a loop in a loop. *)
Lemma foldlM_pairs {E A I K} (f : A → I * K → result E A) (idxs : list I)
    (ks : list K) a :
  foldlM f a (i ← idxs; k ← ks; [(i, k)]) =
  foldlM (λ a i, foldlM (λ a k, f a (i, k)) a ks) a idxs.
Proof.
  rewrite foldlM_bind. apply foldlM_ext_in. intros a' i _.
  rewrite foldlM_bind. apply foldlM_ext_in. intros a'' k _.
  apply foldlM_singleton.
Qed.

(** A loop on a record whose body acts on a field by a function of that
    field alone is, on that field, the loop of that function. *)
Lemma foldlM_proj {E A B X} (P : A → Prop) (π : A → B)
    (f : A → X → result E A) (g : B → X → result E B) l a a' :
  (∀ a x a1, x ∈ l → P a → f a x = Ok a1 → P a1 ∧ g (π a) x = Ok (π a1)) →
  P a → foldlM f a l = Ok a' → P a' ∧ foldlM g (π a) l = Ok (π a').
Proof.
  revert a. induction l as [|x l IH]; intros a Hstep Ha; simpl.
  - by intros [= ->].
  - intros (a1 & Hf & Hrest)%bind_Ok.
    destruct (Hstep a x a1) as [Ha1 ->]; [set_solver|done..|]. simpl.
    apply IH; [|done..]. intros ??? Hin. apply Hstep. set_solver.
Qed.

(** A counting loop with an invariant indexed by the number of passes. *)
Lemma foldlM_seq_invariant {E A} (P : nat → A → Prop) (f : A → nat → result E A)
    (n : nat) (a : A) :
  (∀ k a, k < n → P k a → ∃ a', f a k = Ok a' ∧ P (S k) a') →
  P 0 a → ∃ a', foldlM f a (seq 0 n) = Ok a' ∧ P n a'.
Proof.
  intros Hstep. induction n as [|n IH]; intros Ha; [by exists a|].
  destruct IH as (a1 & Hfold & Ha1); [intros; apply Hstep; [lia|done]|done|].
  destruct (Hstep n a1) as (a2 & Hf & Ha2); [lia|done|]. exists a2.
  rewrite seq_S, foldlM_app, Hfold. simpl. by rewrite Hf.
Qed.

(** A loop whose body never raises is a plain left fold. *)
(** A loop that appends what [d] keeps collects [omap d]. *)
Lemma foldlM_omap {E A X} (f : list A → X → result E (list A)) (d : X → option A)
    (l : list X) (acc : list A) :
  (∀ acc x, x ∈ l → f acc x = Ok (acc ++ option_list (d x))) →
  foldlM f acc l = Ok (acc ++ omap d l).
Proof.
  revert acc. induction l as [|x l IH]; intros acc Hf; simpl.
  - by rewrite app_nil_r.
  - rewrite Hf by left. simpl. rewrite IH by (intros; apply Hf; by right).
    rewrite <-app_assoc. by destruct (d x).
Qed.

Lemma foldlM_total {E A B} (g : A → B → A) l (a : A) :
  foldlM (E:=E) (λ x b, Ok (g x b)) a l = Ok (foldl g a l).
Proof. revert a. induction l; simpl; auto. Qed.

(** ** Outcome specifications

    [ensures P Q r]: if [r] is a value it satisfies [P], if it is an error
    the error satisfies [Q].  The rules below are those of a Hoare logic for
    the error monad; [ensures_foldlM] is the loop rule. *)

Definition ensures {E A} (P : A → Prop) (Q : E → Prop) (r : result E A) : Prop :=
  match r with Ok a => P a | Err e => Q e end.

Section ensures.
Context {E A B : Type}.
Implicit Types (P : A → Prop) (Q : E → Prop) (r : result E A).

Lemma ensures_Ok P Q r a : ensures P Q r → r = Ok a → P a.
Proof. by intros H ->. Qed.

Lemma ensures_Err P Q r e : ensures P Q r → r = Err e → Q e.
Proof. by intros H ->. Qed.

Lemma ensures_intro P Q r :
  (∀ a, r = Ok a → P a) → (∀ e, r = Err e → Q e) → ensures P Q r.
Proof. destruct r; simpl; auto. Qed.

Lemma ensures_mono P P' Q Q' r :
  ensures P Q r → (∀ a, P a → P' a) → (∀ e, Q e → Q' e) → ensures P' Q' r.
Proof. destruct r; simpl; auto. Qed.

Lemma ensures_bind P (R : B → Prop) Q r (f : A → result E B) :
  ensures P Q r → (∀ a, P a → ensures R Q (f a)) → ensures R Q (r ≫= f).
Proof. destruct r; simpl; auto. Qed.

Lemma ensures_fmap (P : B → Prop) Q (g : A → B) r :
  ensures (λ a, P (g a)) Q r → ensures P Q (g <$> r).
Proof. by destruct r. Qed.

Lemma ensures_of_option P Q (e : E) (o : option A) :
  (∀ a, o = Some a → P a) → (o = None → Q e) →
  ensures P Q (result_of_option e o).
Proof. destruct o; simpl; auto. Qed.

End ensures.

Lemma ensures_foldlM {E A X} (P : A → Prop) (Q : E → Prop)
    (f : A → X → result E A) l a :
  (∀ a x, x ∈ l → P a → ensures P Q (f a x)) → P a → ensures P Q (foldlM f a l).
Proof.
  revert a. induction l as [|x l IH]; intros a Hf Ha; simpl; [done|].
  eapply ensures_bind; [apply Hf; [set_solver|done]|].
  intros a1 Ha1. apply IH; [|done]. intros ?? Hin. apply Hf. set_solver.
Qed.


(** ** Success of a computation

    When a chain of calls returns: the rules that turn [is_Ok] of a bind
    and of a loop into the conjunction of the conditions of its steps. *)

Section is_Ok.
Context {E A B : Type}.
Implicit Types (m : result E A) (f : A → result E B).

Lemma is_Ok_Ok (a : A) : is_Ok (E:=E) (Ok a).
Proof. by eexists. Qed.

Lemma is_Ok_Err (e : E) : ¬ is_Ok (A:=A) (Err e).
Proof. by intros [? ?]. Qed.

Lemma is_Ok_bind m f : is_Ok (m ≫= f) ↔ ∃ a, m = Ok a ∧ is_Ok (f a).
Proof.
  destruct m as [a|e]; simpl; [naive_solver|].
  split; [by intros [? ?]|by intros (? & ? & _)].
Qed.

(** A step that succeeds under [Pm], with a continuation that succeeds
    under a condition that does not depend on what the step returns. *)
Lemma is_Ok_bind_iff m f (Pm P : Prop) :
  (is_Ok m ↔ Pm) → (∀ a, m = Ok a → (is_Ok (f a) ↔ P)) →
  is_Ok (m ≫= f) ↔ Pm ∧ P.
Proof.
  intros <- H. rewrite is_Ok_bind. split.
  - intros (a & Hm & Hf). split; [by exists a|by apply (H a)].
  - intros [[a Hm] HP]. exists a. split; [done|by apply (H a)].
Qed.

(** A step followed by calls that always return. *)
Lemma is_Ok_bind_total m f : (∀ a, is_Ok (f a)) → is_Ok (m ≫= f) ↔ is_Ok m.
Proof. intros H. rewrite is_Ok_bind. split; [by intros (a & -> & _); eexists|]. intros [a ->]. eauto. Qed.

Lemma is_Ok_result_of_option (e : E) (o : option A) :
  is_Ok (result_of_option e o) ↔ is_Some o.
Proof.
  destruct o; simpl; [split; intros _; by eexists|split; by intros [? ?]].
Qed.

End is_Ok.

(** A loop returns when every pass does, given an invariant of the
    accumulator under which the success of a pass depends on the element
    only. *)
Lemma foldlM_is_Ok {E A X} (I : A → Prop) (P : X → Prop)
    (f : A → X → result E A) l a :
  (∀ a x, I a → x ∈ l → (is_Ok (f a x) ↔ P x)) →
  (∀ a x a', I a → x ∈ l → f a x = Ok a' → I a') →
  I a → is_Ok (foldlM f a l) ↔ Forall P l.
Proof.
  revert a. induction l as [|x l IH]; intros a Hf HI Ha; simpl.
  { split; [by constructor|intros; apply is_Ok_Ok]. }
  rewrite Forall_cons. apply is_Ok_bind_iff; [apply Hf; [done|set_solver]|].
  intros a' Ha'. apply IH.
  - intros ?? ? ?. apply Hf; [done|set_solver].
  - intros a0 x0 a1 Ha0 Hx0 Hfa. apply (HI a0 x0 a1 Ha0); [set_solver|done].
  - apply (HI a x a' Ha); [set_solver|done].
Qed.

(** A loop that appends the elements it selects is a filter. *)
Lemma foldlM_filter {E X} (Q : X → Prop) `{!∀ x, Decision (Q x)}
    (f : list X → X → result E (list X)) (l acc : list X) :
  (∀ acc x, x ∈ l → f acc x = Ok (if decide (Q x) then acc ++ [x] else acc)) →
  foldlM f acc l = Ok (acc ++ filter Q l).
Proof.
  revert acc. induction l as [|x l IH]; intros acc Hf; simpl.
  { by rewrite app_nil_r. }
  rewrite Hf by set_solver. simpl. rewrite IH by (intros; apply Hf; set_solver).
  rewrite filter_cons. case_decide; [by rewrite <-app_assoc|done].
Qed.

Lemma Forall_filter_impl {X} (P Q : X → Prop) `{!∀ x, Decision (Q x)} (l : list X) :
  Forall P (filter Q l) ↔ Forall (λ x, Q x → P x) l.
Proof.
  induction l as [|x l IH]; [by split; constructor|].
  rewrite filter_cons, Forall_cons. case_decide; rewrite ?Forall_cons, IH; naive_solver.
Qed.


(** ** Automation *)

Create HintDb verif discriminated.
Create Rewrite HintDb verif_rw.
#[export] Hint Resolve set_add_self set_add_mono NoDup_set_add NoDup_nil_2 : verif.
#[export] Hint Rewrite @elem_of_set_add : verif_rw.

(** [inv_res]: take successful monadic chains in the hypotheses apart, and
    close the goals whose hypothesis equates a failure with a success. *)
Ltac inv_res :=
  repeat match goal with
  | H : Err _ = Ok _ |- _ => discriminate H
  | H : Ok _ = Err _ |- _ => discriminate H
  | H : Ok _ = Ok _ |- _ => injection H as H; try subst
  | H : Err _ = Err _ |- _ => injection H as H; try subst
  | H : mbind _ _ = Ok _ |- _ => apply bind_Ok in H; destruct H as (? & ? & H)
  | H : result_of_option _ _ = Ok _ |- _ => apply result_of_option_Ok in H
  | H : (if ?b then Err _ else _) = Ok _ |- _ => destruct b eqn:?; [discriminate H|]
  | H : (if ?b then _ else Err _) = Ok _ |- _ => destruct b eqn:?; [|discriminate H]
  end.
