(* ===== verification/PyFloat.v ===== *)
(** * Python floats, as the program uses them

    A float is [NaN] or a finite value, kept as a canonical rational so that
    equality of values is Leibniz equality (what [dict] and [set] need).
    Arithmetic is exact; comparisons with [NaN] are false, as in IEEE 754.

    The file gives the operations of [input.py] on numbers ([np.isnan],
    [-], [+], [abs], [/], [*], [>], [<], [>=], [<=], [==]), a notation scope
    [%F] for them, the tactic [qc_lra] that takes goals over [Qc] to [lra], and
    the order facts the components share. *)

From Stdlib Require Import QArith Qcanon Qcabs Lqa.
From S2P Require Import Prelude.

Inductive pyfloat :=
| NaN
| Fin (q : Qc).

#[export] Instance pyfloat_eq_dec : EqDecision pyfloat.
Proof. solve_decision. Defined.

#[export] Instance pyfloat_countable : Countable pyfloat.
Proof.
  refine (inj_countable'
    (λ x, match x with NaN => None | Fin q => Some q end)
    (λ o, match o with None => NaN | Some q => Fin q end) _).
  by intros [].
Defined.

#[export] Instance pyfloat_inhabited : Inhabited pyfloat := populate NaN.

(** A float from an integer and from a fraction. *)
Definition of_Z (z : Z) : pyfloat := Fin (Q2Qc (inject_Z z)).
Definition of_Q (q : Q) : pyfloat := Fin (Q2Qc q).

(** [np.isnan(x)] *)
Definition isnan (x : pyfloat) : bool :=
  match x with NaN => true | Fin _ => false end.

Definition lift2 (f : Qc → Qc → Qc) (x y : pyfloat) : pyfloat :=
  match x, y with
  | Fin a, Fin b => Fin (f a b)
  | _, _ => NaN
  end.

Definition cmp2 (f : Qc → Qc → bool) (x y : pyfloat) : bool :=
  match x, y with
  | Fin a, Fin b => f a b
  | _, _ => false
  end.

Definition fadd : pyfloat → pyfloat → pyfloat := lift2 Qcplus.
Definition fsub : pyfloat → pyfloat → pyfloat := lift2 Qcminus.
Definition fmul : pyfloat → pyfloat → pyfloat := lift2 Qcmult.
(** Division is only used with the divisor 100. *)
Definition fdiv : pyfloat → pyfloat → pyfloat := lift2 Qcdiv.

(** [abs(x)] *)
Definition fabs (x : pyfloat) : pyfloat :=
  match x with NaN => NaN | Fin a => Fin (Qcabs a) end.

Definition flt : pyfloat → pyfloat → bool := cmp2 (λ a b, bool_decide (a < b)%Qc).
Definition fle : pyfloat → pyfloat → bool := cmp2 (λ a b, bool_decide (a <= b)%Qc).
Definition fgt (x y : pyfloat) : bool := flt y x.
Definition fge (x y : pyfloat) : bool := fle y x.
(** [x == y]: false when either side is NaN. *)
Definition feq : pyfloat → pyfloat → bool := cmp2 (λ a b, bool_decide (a = b)).

Declare Scope pyfloat_scope.
Delimit Scope pyfloat_scope with F.
Bind Scope pyfloat_scope with pyfloat.
Infix "+" := fadd : pyfloat_scope.
Infix "-" := fsub : pyfloat_scope.
Infix "*" := fmul : pyfloat_scope.
Infix "/" := fdiv : pyfloat_scope.
Infix "<?" := flt : pyfloat_scope.
Infix "<=?" := fle : pyfloat_scope.
Infix ">?" := fgt : pyfloat_scope.
Infix ">=?" := fge : pyfloat_scope.
Infix "==?" := feq (at level 70) : pyfloat_scope.

(** ** From [Qc] to [Q], where [lra] decides *)

Lemma Qclt_Q (a b : Qc) : (a < b)%Qc ↔ (a < b)%Q.
Proof. done. Qed.
Lemma Qcle_Q (a b : Qc) : (a <= b)%Qc ↔ (a <= b)%Q.
Proof. done. Qed.
Lemma Qceq_Q (a b : Qc) : a = b ↔ (a == b)%Q.
Proof. split; [by intros ->|apply Qc_is_canon]. Qed.

(** [qc_lra]: a linear goal over [Qc], hypotheses included. *)
Ltac qc_prep :=
  repeat match goal with
  | H : @eq Qc _ _ |- _ => apply Qceq_Q in H
  | H : ¬ @eq Qc _ _ |- _ => rewrite Qceq_Q in H
  | H : Qclt _ _ |- _ => apply (proj1 (Qclt_Q _ _)) in H
  | H : Qcle _ _ |- _ => apply (proj1 (Qcle_Q _ _)) in H
  end;
  try apply Qclt_Q; try apply Qcle_Q; try apply Qceq_Q;
  unfold Qcminus in *; unfold Qcplus, Qcopp, Qcmult, Q2Qc, inject_Z in *;
  cbn [this] in *;
  repeat match goal with
  | H : context [Qred ?q] |- _ => setoid_rewrite (Qred_correct q) in H
  | |- context [Qred ?q] => setoid_rewrite (Qred_correct q)
  end.
Ltac qc_lra := qc_prep; lra.

(** ** Facts *)

Section pyfloat_facts.
Implicit Types (x y z : pyfloat) (a b : Qc).

Lemma isnan_true x : isnan x = true ↔ x = NaN.
Proof. by destruct x. Qed.

Lemma isnan_false x : isnan x = false ↔ ∃ a, x = Fin a.
Proof. destruct x; naive_solver. Qed.

Lemma flt_Fin a b : (Fin a <? Fin b)%F = true ↔ (a < b)%Qc.
Proof. apply bool_decide_eq_true. Qed.

Lemma fle_Fin a b : (Fin a <=? Fin b)%F = true ↔ (a <= b)%Qc.
Proof. apply bool_decide_eq_true. Qed.

Lemma fgt_Fin a b : (Fin a >? Fin b)%F = true ↔ (b < a)%Qc.
Proof. apply bool_decide_eq_true. Qed.

Lemma feq_true x y : (x ==? y)%F = true ↔ ∃ a, x = Fin a ∧ y = Fin a.
Proof.
  destruct x as [|a], y as [|b]; [split; [done|naive_solver]..|].
  unfold feq; simpl. rewrite bool_decide_eq_true. naive_solver.
Qed.

(** A comparison that holds has finite sides. *)
Lemma fgt_true x y : (x >? y)%F = true ↔ ∃ a b, x = Fin a ∧ y = Fin b ∧ (b < a)%Qc.
Proof.
  destruct x as [|a], y as [|b]; [split; [done|naive_solver]..|].
  rewrite fgt_Fin. naive_solver.
Qed.

Lemma fgt_NaN_l y : (NaN >? y)%F = false.
Proof. by destruct y. Qed.

Lemma fgt_NaN_r x : (x >? NaN)%F = false.
Proof. by destruct x. Qed.

Lemma fgt_irrefl x : (x >? x)%F = false.
Proof.
  destruct x; [done|]. apply bool_decide_eq_false. intros ?. qc_lra.
Qed.

Lemma fgt_trans x y z : (x >? y)%F = true → (y >? z)%F = true → (x >? z)%F = true.
Proof.
  rewrite !fgt_true. intros (a & b & -> & -> & ?) (? & c & [= <-] & -> & ?).
  exists a, c. split_and!; [done..|]. qc_lra.
Qed.

(** Not greater, on finite values, is less-or-equal. *)
Lemma fgt_false_Fin a b : (Fin a >? Fin b)%F = false ↔ (a <= b)%Qc.
Proof.
  unfold fgt, flt; simpl. rewrite bool_decide_eq_false.
  split; intros; [|intros ?]; destruct (Qclt_le_dec b a); try done; qc_lra.
Qed.

Lemma fadd_Fin a b : (Fin a + Fin b)%F = Fin (a + b).
Proof. done. Qed.

Lemma fadd_one_gt a : (Fin a + of_Z 1 >? Fin a)%F = true.
Proof. apply fgt_Fin. qc_lra. Qed.

Lemma of_Z_inj (n m : Z) : of_Z n = of_Z m → n = m.
Proof.
  intros [= H%Qred_eq_iff]. unfold Qeq, inject_Z in H. cbn [Qnum Qden] in H. lia.
Qed.

Lemma of_Z_add (n m : Z) : (of_Z n + of_Z m)%F = of_Z (n + m).
Proof.
  unfold of_Z, fadd, lift2. f_equal. unfold Qcplus. apply Q2Qc_eq_iff.
  cbn [this Q2Qc]. rewrite !Qred_correct. by rewrite inject_Z_plus.
Qed.

End pyfloat_facts.

#[export] Hint Rewrite fgt_NaN_l fgt_NaN_r fgt_irrefl : verif_rw.
#[export] Hint Resolve fadd_one_gt : verif.
