(* ===== verification/PyString.v ===== *)
(** * Python strings, as the program uses them

    The [str] operations of [input.py]: [s.split()] on whitespace, [s.strip()],
    [sep.join(l)], [s[0]], [s[1:]], and the built-in [float(s)] on decimal
    literals ([float_of_string]).  A literal denotes the exact rational it
    spells.  The special literals [nan], [inf] and [infinity] are recognised
    and reported as [Unmodelled]; anything else that is not a decimal literal
    is [ValueError], as in Python.

    Lemmas: the tokens [split] returns are non-empty and free of whitespace
    (so indexing their first character is safe), and [split] undoes [join]
    on such tokens. *)

From Stdlib Require Import Ascii QArith Qcanon.
From S2P Require Import Prelude PyFloat.

Local Open Scope string_scope.

(** ** Characters *)

(** Whitespace for [split] and [strip]: space, \t, \n, \v, \f, \r. *)
Definition is_space (c : ascii) : bool :=
  let n := nat_of_ascii c in
  bool_decide (n = 32 ∨ 9 ≤ n ≤ 13)%nat.

Definition digit_of (c : ascii) : option Z :=
  let n := Z.of_nat (nat_of_ascii c) in
  if bool_decide (48 ≤ n ≤ 57)%Z then Some (n - 48)%Z else None.

(** ASCII lower case, for the case-insensitive special literals. *)
Definition lower (c : ascii) : ascii :=
  let n := nat_of_ascii c in
  if bool_decide (65 ≤ n ≤ 90)%nat then ascii_of_nat (n + 32) else c.

Fixpoint lower_string (s : string) : string :=
  match s with
  | EmptyString => EmptyString
  | String c s => String (lower c) (lower_string s)
  end.

(** ** [split], [strip], [join], indexing *)

Definition flush (acc : string) : list string :=
  if decide (acc = "") then [] else [acc].

Fixpoint split_go (acc s : string) : list string :=
  match s with
  | EmptyString => flush acc
  | String c s =>
      if is_space c then flush acc ++ split_go "" s
      else split_go (acc +:+ String c "") s
  end.

(** [s.split()] *)
Definition split (s : string) : list string := split_go "" s.

Fixpoint lstrip (s : string) : string :=
  match s with
  | EmptyString => EmptyString
  | String c s' => if is_space c then lstrip s' else s
  end.

Definition rstrip (s : string) : string := String.rev (lstrip (String.rev s)).

(** [s.strip()] *)
Definition strip (s : string) : string := rstrip (lstrip s).

(** [sep.join(l)] *)
Fixpoint join (sep : string) (l : list string) : string :=
  match l with
  | [] => ""
  | [x] => x
  | x :: l => x +:+ sep +:+ join sep l
  end.

(** [s[0]]: raises [IndexError] on the empty string. *)
Definition first_char (s : string) : res ascii :=
  match s with
  | EmptyString => Err (Raised IndexError)
  | String c _ => Ok c
  end.

(** [s[1:]]: the empty string has an empty tail. *)
Definition tail (s : string) : string :=
  match s with
  | EmptyString => EmptyString
  | String _ s => s
  end.

(** [l[i]] on a list: raises [IndexError] out of range. *)
Definition list_index {A} (l : list A) (i : nat) : res A :=
  result_of_option (Raised IndexError) (l !! i).

(** ** [float(s)] *)

(** The leading digits of [s]: their value on top of [acc], how many there
    are, and what follows them. *)
Fixpoint digits (acc : Z) (n : nat) (s : string) : Z * nat * string :=
  match s with
  | EmptyString => (acc, n, s)
  | String c s' =>
      match digit_of c with
      | Some d => digits (acc * 10 + d) (S n) s'
      | None => (acc, n, s)
      end
  end.

(** An optional sign: whether it is a minus, and what follows. *)
Definition sign (s : string) : bool * string :=
  match s with
  | String "-" s' => (true, s')
  | String "+" s' => (false, s')
  | _ => (false, s)
  end.

(** The exponent part, [e] or [E], an optional sign and at least one digit,
    up to the end of the string; the empty string is exponent 0. *)
Definition exponent (s : string) : option Z :=
  match s with
  | EmptyString => Some 0%Z
  | String c s' =>
      if bool_decide (c = "e" ∨ c = "E")%char then
        let '(neg, s1) := sign s' in
        match digits 0 0 s1 with
        | (_, O, _) => None
        | (e, _, EmptyString) => Some (if neg then - e else e)%Z
        | _ => None
        end
      else None
  end.

(** The finite value [m * 10^e]. *)
Definition decimal (m e : Z) : pyfloat :=
  of_Q (inject_Z m * Qpower (10 # 1) e).

(** A decimal literal: sign, digits with an optional point (at least one
    digit on one side of it), optional exponent. *)
Definition decimal_literal (s : string) : option pyfloat :=
  let '(neg, s0) := sign s in
  let '(ip, ni, s1) := digits 0 0 s0 in
  let '(m, nf, s2) :=
    match s1 with
    | String "." s1' => let '(m, nf, s2) := digits ip 0 s1' in (m, nf, s2)
    | _ => (ip, O, s1)
    end in
  if bool_decide (ni + nf = 0)%nat then None
  else e ← exponent s2;
       Some (decimal (if neg then - m else m) (e - Z.of_nat nf)).

Definition special_literal (s : string) : bool :=
  let s := lower_string (snd (sign s)) in
  bool_decide (s = "nan" ∨ s = "inf" ∨ s = "infinity").

(** [float(s)] *)
Definition float_of_string (s : string) : res pyfloat :=
  let s := strip s in
  if special_literal s then Err (Unmodelled "float: nan or inf literal")
  else result_of_option (Raised ValueError) (decimal_literal s).

(** [c in s] for a character *)
Fixpoint has (c : ascii) (s : string) : bool :=
  match s with
  | EmptyString => false
  | String c' s => bool_decide (c' = c) || has c s
  end.

(** Only decimal digits. *)
Fixpoint all_digits (s : string) : bool :=
  match s with
  | EmptyString => true
  | String c s => bool_decide (is_Some (digit_of c)) && all_digits s
  end.

(** ** Tokens *)

Fixpoint no_space (s : string) : bool :=
  match s with
  | EmptyString => true
  | String c s => negb (is_space c) && no_space s
  end.

(** A token: non-empty, without whitespace. *)
Definition token (s : string) : Prop := s ≠ "" ∧ no_space s = true.

#[export] Instance token_dec s : Decision (token s).
Proof. unfold token. apply _. Defined.

Section string_facts.
Implicit Types (s t acc : string) (c : ascii) (l : list string).

Lemma app_cons c s t : String c s +:+ t = String c (s +:+ t).
Proof. done. Qed.

Lemma app_empty_r s : s +:+ "" = s.
Proof. induction s; [done|]. rewrite app_cons. congruence. Qed.

Lemma app_assoc' s t u : (s +:+ t) +:+ u = s +:+ (t +:+ u).
Proof. induction s; [done|]. rewrite !app_cons. congruence. Qed.

Lemma app_snoc_ne acc c : acc +:+ String c "" ≠ "".
Proof. by destruct acc. Qed.

Lemma no_space_app s t : no_space (s +:+ t) = no_space s && no_space t.
Proof.
  induction s; rewrite ?app_cons; simpl; [done|]. rewrite IHs. by rewrite andb_assoc.
Qed.

Lemma Forall_token_flush acc : no_space acc = true → Forall token (flush acc).
Proof. unfold flush. case_decide; repeat constructor; done. Qed.

Lemma split_go_tokens acc s : no_space acc = true → Forall token (split_go acc s).
Proof.
  revert acc. induction s as [|c s IH]; simpl; intros acc Hacc.
  - by apply Forall_token_flush.
  - destruct (is_space c) eqn:Hc.
    + apply Forall_app. split; [by apply Forall_token_flush|by apply IH].
    + apply IH. rewrite no_space_app. simpl. by rewrite Hacc, Hc.
Qed.

Lemma split_tokens s : Forall token (split s).
Proof. by apply split_go_tokens. Qed.

Lemma first_char_token s : token s → is_Ok (first_char s).
Proof. intros [? _]. destruct s; [done|]. by eexists. Qed.

(** Reading a token that is followed by whitespace or by the end. *)
Lemma split_go_token acc t s :
  no_space t = true →
  split_go acc (t +:+ s) = split_go (acc +:+ t) s.
Proof.
  revert acc. induction t as [|c t IH]; intros acc Ht.
  - by rewrite app_empty_r.
  - apply andb_true_iff in Ht as [Hc%negb_true_iff Ht].
    rewrite app_cons. simpl. rewrite Hc, IH by done. by rewrite app_assoc'.
Qed.

Lemma split_go_end acc : acc ≠ "" → split_go acc "" = [acc].
Proof. intros. simpl. unfold flush. by case_decide. Qed.

Lemma split_token t : token t → split t = [t].
Proof.
  intros [Hne Ht]. unfold split.
  rewrite <-(app_empty_r t) at 1. rewrite split_go_token by done.
  by apply split_go_end.
Qed.

Lemma split_cons_space t s :
  token t → split (t +:+ " " +:+ s) = t :: split s.
Proof.
  intros [Hne Ht]. unfold split. rewrite split_go_token by done.
  rewrite app_cons. simpl. unfold flush. by case_decide.
Qed.

Lemma join_cons sep t l : l ≠ [] → join sep (t :: l) = t +:+ sep +:+ join sep l.
Proof. by destruct l. Qed.

(** [split] undoes [join] on tokens. *)
Lemma split_join l : Forall token l → split (join " " l) = l.
Proof.
  induction 1 as [|t l Ht Hl IH]; [done|].
  destruct l as [|t' l]; [by apply split_token|].
  rewrite join_cons by done. rewrite split_cons_space by done. by rewrite IH.
Qed.

Lemma has_app c s t : has c (s +:+ t) = has c s || has c t.
Proof.
  induction s; [done|]. rewrite app_cons. simpl. by rewrite IHs, orb_assoc.
Qed.

Lemma all_digits_app s t : all_digits (s +:+ t) = all_digits s && all_digits t.
Proof.
  induction s; [done|]. rewrite app_cons. simpl. by rewrite IHs, andb_assoc.
Qed.

(** A character that is not a digit does not occur among digits. *)
Lemma all_digits_has c s : all_digits s = true → digit_of c = None → has c s = false.
Proof.
  intros Hs Hc. induction s as [|c' s IH]; [done|]. simpl in *.
  apply andb_true_iff in Hs as [Hc'%bool_decide_eq_true Hs].
  rewrite IH, orb_false_r by done. apply bool_decide_eq_false. intros ->.
  rewrite Hc in Hc'. by destruct Hc'.
Qed.

Lemma all_digits_no_space s : all_digits s = true → no_space s = true.
Proof.
  induction s as [|c s IH]; [done|]. simpl.
  intros [Hc%bool_decide_eq_true Hs]%andb_true_iff. rewrite IH by done.
  rewrite andb_true_r. apply negb_true_iff, bool_decide_eq_false.
  unfold digit_of in Hc. case_bool_decide; [lia|]. by destruct Hc.
Qed.

(** Reversal, for [rstrip]. *)
Lemma rev_app_rev_app s acc t :
  String.rev_app (String.rev_app s acc) t = String.rev_app acc (s +:+ t).
Proof.
  revert acc t. induction s as [|c s IH]; intros acc t; [done|].
  simpl. rewrite IH. by rewrite app_cons.
Qed.

Lemma rev_rev s : String.rev (String.rev s) = s.
Proof. unfold String.rev. rewrite rev_app_rev_app. simpl. apply app_empty_r. Qed.

Lemma no_space_rev_app s acc :
  no_space (String.rev_app s acc) = no_space s && no_space acc.
Proof.
  revert acc. induction s as [|c s IH]; intros acc; [done|]. simpl.
  rewrite IH. simpl. destruct (is_space c), (no_space s); simpl; try done.
Qed.

Lemma lstrip_no_space s : no_space s = true → lstrip s = s.
Proof. destruct s as [|c s]; [done|]. simpl. by intros [->%negb_true_iff _]%andb_true_iff. Qed.

(** [strip] leaves a string without whitespace alone. *)
Lemma strip_no_space s : no_space s = true → strip s = s.
Proof.
  intros Hs. unfold strip, rstrip. rewrite (lstrip_no_space s Hs).
  rewrite lstrip_no_space; [apply rev_rev|].
  unfold String.rev. by rewrite no_space_rev_app, Hs.
Qed.

End string_facts.

(** ** The errors of [float(s)] *)

(** The errors of reading a number: not a literal, or a literal outside the
    model. *)
Definition value_error (e : error) : Prop :=
  e = Raised ValueError ∨ ∃ m, e = Unmodelled m.

Lemma float_of_string_ensures v :
  ensures (λ _, True) value_error (float_of_string v).
Proof.
  unfold float_of_string. cbv zeta. case (special_literal _); [right; by eexists|].
  apply ensures_of_option; [done|by left].
Qed.
