(* ===== verification/PyFormat.v ===== *)
(** * Python string formatting and replacement

    What the naming codec calls on strings and numbers: [s.replace(old, new)],
    ["%d" % x] and ["%g" % x] on a float.

    ["%g"] prints 6 significant digits: the value is rounded to 6 digits
    ([round6]), printed in fixed notation when its decimal exponent is
    between -4 and 5 and in exponent notation otherwise, and trailing zeros
    are removed.  The model rounds the exact rational.  When the value is
    exactly half-way between two 6-digit numbers, the digit Python prints
    depends on the binary representation of the float, which the model does
    not have: [format_g] answers [Unmodelled] there.

    The decimal exponent is found by a search with fuel ([ilog10]); the fuel
    is the number of bits of the numerator and the denominator, which bounds
    the number of steps ([ilog10_spec], in [PyDecimal]). *)

From Stdlib Require Import Ascii QArith Qcanon Qround Qabs.
From S2P Require Import Prelude PyFloat PyString.

Local Open Scope string_scope.

(** ** [s.replace(old, new)] *)

(** What follows [p] in [s], when [s] starts with [p]. *)
Fixpoint strip_prefix (p s : string) : option string :=
  match p, s with
  | EmptyString, _ => Some s
  | String a p, String b s => if decide (a = b) then strip_prefix p s else None
  | String _ _, EmptyString => None
  end.

(** The scan of [replace]: [skip] characters of a match remain to be
    passed over. *)
Fixpoint replace_go (old new : string) (skip : nat) (s : string) : string :=
  match s with
  | EmptyString => EmptyString
  | String c s' =>
      match skip with
      | S k => replace_go old new k s'
      | O =>
          match strip_prefix old s with
          | Some _ => new +:+ replace_go old new (String.length old - 1) s'
          | None => String c (replace_go old new 0 s')
          end
      end
  end.

(** [s.replace(old, new)] for a non-empty [old]: every occurrence, left to
    right, without overlap. *)
Definition replace (old new s : string) : string := replace_go old new 0 s.

(** ** Integers in decimal *)

Definition digit_char (d : N) : ascii := ascii_of_N (48 + d).

Fixpoint N_digits (fuel : nat) (n : N) (acc : string) : string :=
  match fuel with
  | O => acc
  | S fuel =>
      let acc := String (digit_char (n mod 10)) acc in
      if (n <? 10)%N then acc else N_digits fuel (n / 10) acc
  end.

(** The decimal spelling of a natural number.  A number has no more decimal
    digits than binary ones. *)
Definition string_of_N (n : N) : string :=
  N_digits (S (N.to_nat (N.size n))) n "".

(** [str(n)] and ["%d" % n] for an integer *)
Definition string_of_Z (z : Z) : string :=
  match z with
  | Zneg p => "-" +:+ string_of_N (Npos p)
  | _ => string_of_N (Z.to_N z)
  end.

(** ["%d" % x] for a float: the integer part, towards zero. *)
Definition format_d (x : pyfloat) : res string :=
  match x with
  | NaN => Err (Raised ValueError)
  | Fin q => Ok (string_of_Z (Z.quot (Qnum q) (Zpos (Qden q))))
  end.

(** ** ["%g" % x] *)

(** The decimal exponent of [a > 0]: the [e] with [10^e <= a < 10^(e+1)]. *)
Fixpoint ilog10_up (fuel : nat) (a : Q) (e : Z) : Z :=
  match fuel with
  | O => e
  | S fuel => if Qle_bool 10%Q a then ilog10_up fuel (a / 10)%Q (e + 1) else e
  end.

Fixpoint ilog10_down (fuel : nat) (a : Q) (e : Z) : Z :=
  match fuel with
  | O => e
  | S fuel => if Qle_bool 1%Q a then e else ilog10_down fuel (a * 10)%Q (e - 1)
  end.

Definition ilog10_fuel (a : Q) : nat :=
  S (Z.to_nat (Z.log2 (Z.abs (Qnum a))) + Pos.to_nat (Pos.size (Qden a))).

Definition ilog10 (a : Q) : Z :=
  if Qle_bool 1%Q a then ilog10_up (ilog10_fuel a) a 0
  else ilog10_down (ilog10_fuel a) a 0.

(** [a * 10^k] *)
Definition scale10 (a : Q) (k : Z) : Q := (a * Qpower 10 k)%Q.

(** Rounding to the nearest integer; a tie has no answer. *)
Definition round_nearest (a : Q) : option Z :=
  let f := Qfloor a in
  match ((a - inject_Z f) ?= (1 # 2))%Q with
  | Lt => Some f
  | Gt => Some (f + 1)%Z
  | Eq => None
  end.

(** [a > 0] to 6 significant digits: the digits as an integer in
    [100000, 999999] and the decimal exponent of the rounded value. *)
Definition round6 (a : Q) : option (Z * Z) :=
  let e := ilog10 a in
  m ← round_nearest (scale10 a (5 - e));
  if (m =? 1000000)%Z then Some (100000%Z, (e + 1)%Z) else Some (m, e).

Fixpoint rstrip_zeros_go (s : string) : string * bool :=
  match s with
  | EmptyString => (EmptyString, true)
  | String c s =>
      let '(s', all) := rstrip_zeros_go s in
      if all && bool_decide (c = "0"%char) then (EmptyString, true)
      else (String c s', false)
  end.

(** The string without its trailing zeros. *)
Definition rstrip_zeros (s : string) : string := (rstrip_zeros_go s).1.

Fixpoint zeros (n : nat) : string :=
  match n with O => "" | S n => String "0" (zeros n) end.

(** The integer and fractional digits joined, without trailing zeros and
    without a point when no fractional digit remains. *)
Definition with_point (int frac : string) : string :=
  let frac := rstrip_zeros frac in
  if decide (frac = "") then int else int +:+ "." +:+ frac.

Fixpoint take_s (n : nat) (s : string) : string :=
  match n, s with
  | S n, String c s => String c (take_s n s)
  | _, _ => ""
  end.

Fixpoint drop_s (n : nat) (s : string) : string :=
  match n, s with
  | S n, String _ s => drop_s n s
  | _, _ => s
  end.

(** Fixed notation of [m * 10^(e-5)], for [-4 <= e < 6]. *)
Definition fixed6 (m e : Z) : string :=
  let ds := string_of_N (Z.to_N m) in
  if (0 <=? e)%Z then
    with_point (take_s (S (Z.to_nat e)) ds) (drop_s (S (Z.to_nat e)) ds)
  else
    with_point "0" (zeros (Z.to_nat (- e - 1)) +:+ ds).

(** The exponent of exponent notation: a sign and at least two digits. *)
Definition exp_part (e : Z) : string :=
  let ds := string_of_N (Z.to_N (Z.abs e)) in
  "e" +:+ (if (e <? 0)%Z then "-" else "+")
      +:+ (if (Z.abs e <? 10)%Z then "0" +:+ ds else ds).

(** Exponent notation of [m * 10^(e-5)]. *)
Definition exp6 (m e : Z) : string :=
  let ds := string_of_N (Z.to_N m) in
  with_point (take_s 1 ds) (drop_s 1 ds) +:+ exp_part e.

(** ["%g" % x] *)
Definition format_g (x : pyfloat) : res string :=
  match x with
  | NaN => Ok "nan"
  | Fin q =>
      if Qeq_bool q 0%Q then Ok "0"
      else
        match round6 (Qabs q) with
        | None => Err (Unmodelled "%g: a tie at the sixth digit")
        | Some (m, e) =>
            let body := if (-4 <=? e)%Z && (e <? 6)%Z then fixed6 m e else exp6 m e in
            Ok (if Qle_bool 0%Q q then body else "-" +:+ body)
        end
  end.

(** ** Facts on [replace] *)

Section replace_facts.
Implicit Types (c : ascii) (s old new : string).

(** A pattern whose first character does not occur is not found. *)
Lemma replace_absent c old new s :
  has c s = false → replace (String c old) new s = s.
Proof.
  unfold replace. induction s as [|c' s IH]; [done|]. simpl.
  intros [Hc%bool_decide_eq_false Hs]%orb_false_iff.
  rewrite decide_False by done. by rewrite IH.
Qed.

(** A one-character pattern at the head. *)
Lemma replace_char_head c new s :
  replace (String c "") new (String c s) = new +:+ replace (String c "") new s.
Proof. unfold replace. simpl. by rewrite decide_True. Qed.

(** No match at the head. *)
Lemma replace_miss old new c s :
  strip_prefix old (String c s) = None →
  replace old new (String c s) = String c (replace old new s).
Proof. unfold replace. simpl. by intros ->. Qed.

(** A one-character pattern passes over a prefix it does not occur in. *)
Lemma replace_absent_app c new s t :
  has c s = false →
  replace (String c "") new (s +:+ t) = s +:+ replace (String c "") new t.
Proof.
  induction s as [|c' s IH]; [done|]. simpl.
  intros [Hc%bool_decide_eq_false Hs]%orb_false_iff. rewrite !app_cons.
  rewrite replace_miss by (simpl; by rewrite decide_False by done). by rewrite IH.
Qed.

End replace_facts.

(** ** Printing and reading integers *)

Section printing.
Implicit Types (n d : N) (a : Z) (k : nat) (body t : string).

Lemma digit_of_digit_char d : (d < 10)%N → digit_of (digit_char d) = Some (Z.of_N d).
Proof.
  intros Hd. unfold digit_of, digit_char, nat_of_ascii.
  rewrite N_ascii_embedding by lia. rewrite bool_decide_eq_true_2 by lia.
  f_equal. lia.
Qed.

Lemma digit_char_nonzero d : (1 <= d < 10)%N → digit_char d ≠ "0"%char.
Proof.
  intros Hd Heq. apply (f_equal N_of_ascii) in Heq. unfold digit_char in Heq.
  rewrite N_ascii_embedding in Heq by lia. simpl in Heq. lia.
Qed.

(** [body] is the decimal spelling of [n]: digits only, no leading zero
    unless [n] is 0, and read back as [n] by [digits]. *)
Definition printed (n : N) (body : string) : Prop :=
  body ≠ "" ∧ all_digits body = true
  ∧ ((1 <= n)%N → ∃ c rest, body = String c rest ∧ c ≠ "0"%char)
  ∧ ∀ a k t, digits a k (body +:+ t)
             = digits (a * 10 ^ Z.of_nat (String.length body) + Z.of_N n)
                 (k + String.length body) t.

Lemma printed_digit d : (d < 10)%N → printed d (String (digit_char d) "").
Proof.
  intros Hd. split_and!; [done| |eauto using digit_char_nonzero with lia|].
  - simpl. by rewrite digit_of_digit_char.
  - intros a k t. rewrite app_cons. simpl. rewrite digit_of_digit_char by done.
    f_equal; lia.
Qed.

Lemma printed_snoc n d body :
  printed n body → (1 <= n)%N → (d < 10)%N →
  printed (10 * n + d) (body +:+ String (digit_char d) "").
Proof.
  intros (Hne & Hall & Hhead & Hread) Hn Hd. split_and!.
  - by destruct body.
  - rewrite all_digits_app, Hall. simpl. by rewrite digit_of_digit_char.
  - intros _. destruct (Hhead Hn) as (c & rest & -> & Hc).
    exists c, (rest +:+ String (digit_char d) ""). by rewrite app_cons.
  - intros a k t. rewrite app_assoc', Hread, app_cons. simpl.
    rewrite digit_of_digit_char by done.
    assert (String.length (body +:+ String (digit_char d) "")
            = S (String.length body)) as ->.
    { clear. induction body; [done|]. rewrite app_cons. simpl. by f_equal. }
    rewrite Nat2Z.inj_succ, Z.pow_succ_r by lia. f_equal; lia.
Qed.

Lemma N_digits_printed fuel n s :
  (n < 2 ^ N.of_nat (S fuel))%N →
  ∃ body, N_digits (S fuel) n s = body +:+ s ∧ printed n body.
Proof.
  revert n s. induction fuel as [|fuel IH]; intros n s Hn.
  - exists (String (digit_char n) ""). simpl in *.
    rewrite N.mod_small by lia. rewrite (proj2 (N.ltb_lt _ _)) by lia.
    split; [done|]. apply printed_digit. lia.
  - change (N_digits (S (S fuel)) n s)
      with (if (n <? 10)%N then String (digit_char (n mod 10)) s
            else N_digits (S fuel) (n / 10) (String (digit_char (n mod 10)) s)).
    destruct (n <? 10)%N eqn:Hlt.
    + apply N.ltb_lt in Hlt. exists (String (digit_char n) "").
      rewrite N.mod_small by done. split; [done|by apply printed_digit].
    + apply N.ltb_ge in Hlt.
      assert (n / 10 < 2 ^ N.of_nat (S fuel))%N as Hdiv.
      { apply N.Div0.div_lt_upper_bound.
        rewrite Nat2N.inj_succ, N.pow_succ_r' in Hn. lia. }
      destruct (IH (n / 10)%N (String (digit_char (n mod 10)) s) Hdiv)
        as (body & -> & Hbody).
      exists (body +:+ String (digit_char (n mod 10)) ""). split.
      * by rewrite app_assoc'.
      * rewrite (N.div_mod n 10) at 1 by done. apply printed_snoc; [done|..].
        -- apply N.div_le_lower_bound; lia.
        -- by apply N.mod_lt.
Qed.

(** The spelling of a natural number is its decimal spelling. *)
Lemma string_of_N_printed n : printed n (string_of_N n).
Proof.
  unfold string_of_N.
  destruct (N_digits_printed (N.to_nat (N.size n)) n "") as (body & -> & Hbody).
  - rewrite Nat2N.inj_succ, N2Nat.id, N.pow_succ_r'. pose proof (N.size_gt n). lia.
  - by rewrite app_empty_r.
Qed.

End printing.

(** ** [float()] reads back what [%d] prints *)

Section reading.
Implicit Types (n : N) (z : Z) (c : ascii) (body r : string).

Lemma sign_digit c r : is_Some (digit_of c) → sign (String c r) = (false, String c r).
Proof.
  intros Hc. destruct c as [[] [] [] [] [] [] [] []]; try done; by destruct Hc.
Qed.

Lemma lower_digit c : is_Some (digit_of c) → lower c = c ∧ c ≠ "n"%char ∧ c ≠ "i"%char.
Proof.
  intros Hc. destruct c as [[] [] [] [] [] [] [] []]; try done; by destruct Hc.
Qed.

(** A string that starts with a digit, after an optional minus, is not one
    of the special literals. *)
Lemma special_literal_digit c r (neg : bool) :
  is_Some (digit_of c) →
  special_literal (if neg then String "-" (String c r) else String c r) = false.
Proof.
  intros Hc. unfold special_literal.
  assert (snd (sign (if neg then String "-" (String c r) else String c r))
          = String c r) as ->.
  { destruct neg; [done|]. by rewrite sign_digit. }
  destruct (lower_digit c Hc) as (Hl & ? & ?). simpl. rewrite Hl.
  apply bool_decide_eq_false. intros [?|[?|?]]; simplify_eq.
Qed.

Lemma printed_head n body :
  printed n body → ∃ c r, body = String c r ∧ is_Some (digit_of c).
Proof.
  intros (Hne & Hall & _). destruct body as [|c r]; [done|]. exists c, r.
  split; [done|]. simpl in Hall. by apply andb_true_iff in Hall as [?%bool_decide_eq_true _].
Qed.

Lemma decimal_Z z : decimal z (0 - Z.of_nat 0) = of_Z z.
Proof.
  unfold decimal, of_Z, of_Q. f_equal. apply Q2Qc_eq_iff. simpl. ring.
Qed.

(** Reading the spelling of a natural number, with or without a minus. *)
Lemma decimal_literal_printed n body (neg : bool) :
  printed n body →
  decimal_literal (if neg then String "-" body else body)
  = Some (of_Z (if neg then - Z.of_N n else Z.of_N n)).
Proof.
  intros Hb. destruct (printed_head n body Hb) as (c & r & -> & Hc).
  destruct Hb as (_ & _ & _ & Hread). unfold decimal_literal.
  assert (sign (if neg then String "-" (String c r) else String c r)
          = (neg, String c r)) as ->.
  { destruct neg; [done|]. by rewrite sign_digit. }
  specialize (Hread 0%Z 0%nat ""). rewrite app_empty_r in Hread. rewrite Hread.
  simpl. rewrite decimal_Z. by destruct neg.
Qed.

Lemma float_of_string_printed n body (neg : bool) :
  printed n body →
  float_of_string (if neg then String "-" body else body)
  = Ok (of_Z (if neg then - Z.of_N n else Z.of_N n)).
Proof.
  intros Hb. unfold float_of_string. cbv zeta.
  pose proof Hb as (_ & Hall%all_digits_no_space & _).
  rewrite strip_no_space by (destruct neg; [simpl|]; by rewrite ?Hall).
  destruct (printed_head n body Hb) as (c & r & -> & Hc).
  rewrite special_literal_digit by done.
  by rewrite (decimal_literal_printed n (String c r) neg Hb).
Qed.

(** [float(str(z)) == z] *)
Lemma float_of_string_Z z : float_of_string (string_of_Z z) = Ok (of_Z z).
Proof.
  destruct z as [|p|p]; unfold string_of_Z.
  - apply (float_of_string_printed 0 _ false), string_of_N_printed.
  - apply (float_of_string_printed (Npos p) _ false), string_of_N_printed.
  - apply (float_of_string_printed (Npos p) _ true), string_of_N_printed.
Qed.

End reading.
