(* ===== verification/PyDecimal.v ===== *)
(** * Decimals of at most six digits under [%g] and [float()]

    The naming codec prints a threshold with ["%g"] and reads the name back
    with [float()].  This file relates the two models of [PyFormat] and
    [PyString] on the values the codec is meant for.

    - The decimal exponent: [ilog10 a] is the [e] with
      [10^e <= a < 10^(e+1)], for every [a > 0] ([ilog10_spec]); the fuel of
      the search, the number of bits of numerator and denominator, is
      enough ([ilog10_fuel_up], [ilog10_fuel_down]).
    - Spelling: the digits of [10 * n + d] are the digits of [n] followed by
      [d] ([string_of_N_snoc]); a number has as many digits as its size in
      base 10 ([string_of_N_length]).
    - Printing: a value [M / 10^n] below 1 and not below 0.0001, with [M] of
      at most six digits and not a multiple of 10, is printed as [0.], the
      zeros that [M] lacks to [n] digits, and the digits of [M]
      ([format_g_fraction]); its negative is printed with a minus in front
      ([format_g_negative]), both by the value of a magnitude
      ([format_g_magnitude]).  A value [M / 10^n] of at least 1 with [n]
      digits behind the point, the last not 0, is printed as the digits of
      [M] with a point before the last [n] ([format_g_mixed]).
    - Reading: [float()] reads that spelling back as [M / 10^n]
      ([float_of_string_fraction]); it reads digits with zeros and a sign
      in front as the integer of the digits ([float_of_string_padded]), which
      is how the name of a negative fraction comes back. *)

From Stdlib Require Import Ascii QArith Qcanon Qround Qabs Qpower Lqa.
From S2P Require Import Prelude PyFloat PyString PyFormat.

Local Open Scope string_scope.

(** [M / 10^n] is a decimal of at most six digits, not below 0.0001 and
    below 1, with [M] not a multiple of 10: every such value has one such
    pair. *)
Definition fraction6 (M : N) (n : nat) : Prop :=
  (1 <= M ∧ M mod 10 ≠ 0 ∧ M < 10 ^ 6
   ∧ M < 10 ^ N.of_nat n ∧ 10 ^ N.of_nat n <= M * 10 ^ 4)%N.

#[export] Instance fraction6_dec M n : Decision (fraction6 M n).
Proof. unfold fraction6. apply _. Defined.

(** How [%g] spells it. *)
Definition spelling (M : N) (n : nat) : string :=
  "0." +:+ zeros (n - String.length (string_of_N M)) +:+ string_of_N M.

(** A value of at least 1 with [n] digits behind the point, the last not 0:
    [M / 10^n] for [M] of at most six digits. *)
Definition mixed6 (M : N) (n : nat) : Prop :=
  (M mod 10 ≠ 0 ∧ M < 10 ^ 6 ∧ 10 ^ N.of_nat n <= M)%N ∧ (1 ≤ n)%nat.

#[export] Instance mixed6_dec M n : Decision (mixed6 M n).
Proof. unfold mixed6. apply _. Defined.

(** How [%g] spells it: the digits, with a point before the last [n]. *)
Definition pointed (M : N) (n : nat) : string :=
  let ds := string_of_N M in
  take_s (String.length ds - n) ds +:+ "." +:+ drop_s (String.length ds - n) ds.

(** ** The decimal exponent *)

(** [lra] with the powers of 10 as unknowns and the division by 10 as a
    product. *)
Ltac pow_lra :=
  unfold Qdiv in *; change (/ 10)%Q with (1 # 10)%Q in *;
  repeat match goal with
  | H : context [Qpower ?b ?e] |- _ =>
      let p := fresh "p" in
      pose proof (Qpower_0_lt b e ltac:(reflexivity));
      set (p := Qpower b e) in *; clearbody p
  | |- context [Qpower ?b ?e] =>
      let p := fresh "p" in
      pose proof (Qpower_0_lt b e ltac:(reflexivity));
      set (p := Qpower b e) in *; clearbody p
  end; split_and?; lra.

Section exponent.
Local Open Scope Q_scope.
Implicit Types (a : Q) (e : Z) (fuel : nat).

Lemma pow10_pos e : 0 < 10 ^ e.
Proof. by apply Qpower_0_lt. Qed.

Lemma pow10_succ e : 10 ^ (e + 1) == 10 ^ e * 10.
Proof. by rewrite Qpower_plus. Qed.

Lemma pow10_pred e : 10 ^ (e - 1) == 10 ^ e / 10.
Proof.
  pose proof (pow10_succ (e - 1)) as H. rewrite Z.sub_add in H. rewrite H.
  field.
Qed.

(** The search upwards, from [a >= 1]. *)
Lemma ilog10_up_spec fuel a e :
  1 <= a → a < 10 ^ Z.of_nat fuel →
  let r := ilog10_up fuel a e in 10 ^ (r - e) <= a ∧ a < 10 ^ (r - e + 1).
Proof.
  revert a e. induction fuel as [|fuel IH]; intros a e H1 Hf.
  { simpl in Hf. lra. }
  cbn [ilog10_up]. destruct (Qle_bool 10 a) eqn:E.
  - apply Qle_bool_iff in E. rewrite Nat2Z.inj_succ in Hf. unfold Z.succ in Hf.
    rewrite pow10_succ in Hf.
    destruct (IH (a / 10) (e + 1)%Z) as [Hlo Hhi]; [pow_lra..|]. cbv zeta.
    replace (ilog10_up fuel (a / 10) (e + 1) - e)%Z
      with (ilog10_up fuel (a / 10) (e + 1) - (e + 1) + 1)%Z by lia.
    rewrite pow10_succ in Hhi. rewrite !pow10_succ. pow_lra.
  - assert (a < 10) by (destruct (Qlt_le_dec a 10) as [|?%Qle_bool_iff]; congruence).
    cbv zeta. rewrite Z.sub_diag. simpl. lra.
Qed.

(** The search downwards, from [a < 1]; it stops at once on [1 <= a < 10]. *)
Lemma ilog10_down_spec fuel a e :
  0 < a → a < 10 → 10 ^ (- Z.of_nat fuel) <= a →
  let r := ilog10_down fuel a e in 10 ^ (r - e) <= a ∧ a < 10 ^ (r - e + 1).
Proof.
  revert a e. induction fuel as [|fuel IH]; intros a e H0 H10 Hf; cbn [ilog10_down].
  { cbv zeta. rewrite Z.sub_diag. simpl in *. lra. }
  destruct (Qle_bool 1 a) eqn:E.
  - apply Qle_bool_iff in E. cbv zeta. rewrite Z.sub_diag. simpl. lra.
  - assert (a < 1) by (destruct (Qlt_le_dec a 1) as [|?%Qle_bool_iff]; congruence).
    replace (- Z.of_nat (S fuel))%Z with (- Z.of_nat fuel - 1)%Z in Hf by lia.
    rewrite pow10_pred in Hf.
    destruct (IH (a * 10) (e - 1)%Z) as [Hlo Hhi]; [pow_lra..|]. cbv zeta.
    replace (ilog10_down fuel (a * 10) (e - 1) - e)%Z
      with (ilog10_down fuel (a * 10) (e - 1) - (e - 1) - 1)%Z by lia.
    rewrite Z.sub_add, pow10_pred. rewrite pow10_succ in Hhi. pow_lra.
Qed.

(** The fuel: a positive rational is below 10 to the number of bits of its
    numerator, and not below 10 to minus the number of bits of its
    denominator. *)
Lemma pow10_inject (k : nat) : inject_Z (10 ^ Z.of_nat k) == 10 ^ Z.of_nat k.
Proof. apply Zpower_Qpower. lia. Qed.

Lemma pow2_le_pow10 (k : Z) : (0 ≤ k → 2 ^ k ≤ 10 ^ k)%Z.
Proof. intros. apply Z.pow_le_mono_l. lia. Qed.

Lemma ilog10_fuel_up a : 0 < a → a < 10 ^ Z.of_nat (ilog10_fuel a).
Proof.
  destruct a as [n d]. unfold Qlt at 1. cbn [Qnum Qden]. intros Hn.
  rewrite <-pow10_inject. unfold ilog10_fuel, Qlt, inject_Z. cbn [Qnum Qden].
  rewrite Z.abs_eq by lia. set (k := Z.of_nat _).
  pose proof (Z.log2_nonneg n).
  assert (Z.succ (Z.log2 n) ≤ k)%Z as Hk by (unfold k; lia).
  pose proof (Z.log2_spec n ltac:(lia)) as [_ Hlt].
  pose proof (Z.pow_le_mono_r 10 _ _ ltac:(lia) Hk).
  pose proof (pow2_le_pow10 (Z.succ (Z.log2 n)) ltac:(lia)). nia.
Qed.

Lemma ilog10_fuel_down a : 0 < a → 10 ^ (- Z.of_nat (ilog10_fuel a)) <= a.
Proof.
  destruct a as [n d]. unfold Qlt at 1. cbn [Qnum Qden]. intros Hn.
  rewrite Qpower_opp, <-pow10_inject. unfold ilog10_fuel. cbn [Qnum Qden].
  set (k := Z.of_nat _).
  assert (Z.pos d < 10 ^ k)%Z as Hd.
  { pose proof (Pos.size_gt d) as Hs. apply Pos2Z.pos_lt_pos in Hs.
    rewrite Pos2Z.inj_pow in Hs.
    pose proof (pow2_le_pow10 (Z.pos (Pos.size d)) ltac:(lia)).
    pose proof (Z.pow_le_mono_r 10 (Z.pos (Pos.size d)) k ltac:(lia)
                  ltac:(unfold k; lia)). lia. }
  destruct (10 ^ k)%Z as [|t|t] eqn:Et; [lia| |lia].
  unfold Qle, Qinv, inject_Z. cbn [Qnum Qden]. nia.
Qed.

(** [ilog10 a] is the decimal exponent of [a]. *)
Lemma ilog10_spec a : 0 < a → 10 ^ ilog10 a <= a ∧ a < 10 ^ (ilog10 a + 1).
Proof.
  intros Ha. unfold ilog10. destruct (Qle_bool 1 a) eqn:E.
  - apply Qle_bool_iff in E.
    pose proof (ilog10_up_spec (ilog10_fuel a) a 0 E (ilog10_fuel_up a Ha)) as H.
    cbv zeta in H. by rewrite Z.sub_0_r in H.
  - assert (a < 1) by (destruct (Qlt_le_dec a 1) as [|?%Qle_bool_iff]; congruence).
    pose proof (ilog10_down_spec (ilog10_fuel a) a 0 Ha ltac:(lra)
                  (ilog10_fuel_down a Ha)) as Hd.
    cbv zeta in Hd. by rewrite Z.sub_0_r in Hd.
Qed.

(** The decimal exponent is unique. *)
Lemma ilog10_unique a e : 10 ^ e <= a → a < 10 ^ (e + 1) → ilog10 a = e.
Proof.
  intros Hlo Hhi.
  assert (0 < a) as Ha by (pose proof (pow10_pos e); lra).
  destruct (ilog10_spec a Ha) as [Hlo' Hhi'].
  assert (10 ^ e < 10 ^ (ilog10 a + 1)) as H1 by lra.
  assert (10 ^ ilog10 a < 10 ^ (e + 1)) as H2 by lra.
  apply Qpower_lt_compat_l_inv in H1, H2; [lia|reflexivity..].
Qed.

End exponent.

(** ** The spelling of a number, digit by digit *)

Section spelling.
Local Open Scope N_scope.
Implicit Types (n d : N) (fuel : nat) (s acc : string).

(** The accumulator is what follows the digits. *)
Lemma N_digits_acc fuel n acc : N_digits fuel n acc = N_digits fuel n "" +:+ acc.
Proof.
  revert n acc. induction fuel as [|fuel IH]; intros n acc; [done|].
  cbn [N_digits]. destruct (n <? 10); [done|].
  rewrite (IH _ (String _ acc)), (IH _ (String _ "")). by rewrite app_assoc'.
Qed.

(** With enough fuel, more fuel prints the same digits. *)
Lemma N_digits_enough fuel fuel' n :
  n < 2 ^ N.of_nat fuel → n < 2 ^ N.of_nat fuel' →
  N_digits (S fuel) n "" = N_digits (S fuel') n "".
Proof.
  revert fuel' n. induction fuel as [|fuel IH]; intros fuel' n Hn Hn'.
  { assert (n = 0) as -> by (simpl in Hn; lia). by destruct fuel'. }
  destruct fuel' as [|fuel'].
  { assert (n = 0) as -> by (simpl in Hn'; lia). done. }
  change (N_digits (S (S ?f)) n "")
    with (if n <? 10 then String (digit_char (n mod 10)) ""
          else N_digits (S f) (n / 10) (String (digit_char (n mod 10)) "")).
  destruct (n <? 10) eqn:E; [done|]. apply N.ltb_ge in E.
  rewrite (N_digits_acc (S fuel)), (N_digits_acc (S fuel')). f_equal.
  rewrite Nat2N.inj_succ, N.pow_succ_r' in Hn, Hn'.
  apply IH; apply N.Div0.div_lt_upper_bound; lia.
Qed.

Lemma string_of_N_digit d : d < 10 → string_of_N d = String (digit_char d) "".
Proof.
  intros Hd. unfold string_of_N. cbn [N_digits].
  by rewrite N.mod_small, (proj2 (N.ltb_lt _ _)) by lia.
Qed.

(** The digits of [10 * n + d] are those of [n], then [d]. *)
Lemma string_of_N_snoc n d :
  1 <= n → d < 10 →
  string_of_N (10 * n + d) = string_of_N n +:+ String (digit_char d) "".
Proof.
  intros Hn Hd. unfold string_of_N.
  assert ((10 * n + d) / 10 = n) as Hdiv.
  { replace (10 * n + d) with (d + n * 10) by lia.
    rewrite N.div_add, N.div_small by lia. lia. }
  assert ((10 * n + d) mod 10 = d) as Hmod.
  { replace (10 * n + d) with (d + n * 10) by lia.
    rewrite N.Div0.mod_add, N.mod_small; lia. }
  cbn [N_digits]. rewrite Hdiv, Hmod, (proj2 (N.ltb_ge _ _)) by lia.
  rewrite N_digits_acc. f_equal.
  destruct (N.to_nat (N.size (10 * n + d))) as [|k] eqn:Ek.
  { pose proof (N.size_gt (10 * n + d)). apply (f_equal N.of_nat) in Ek.
    rewrite N2Nat.id in Ek. rewrite Ek in *. simpl in *. lia. }
  apply N_digits_enough; [|rewrite N2Nat.id; apply N.size_gt].
  pose proof (N.size_gt (10 * n + d)) as Hs.
  rewrite <-(N2Nat.id (N.size _)), Ek, Nat2N.inj_succ, N.pow_succ_r' in Hs. lia.
Qed.

End spelling.

Section digits_of_numbers.
Local Open Scope N_scope.
Implicit Types (n d : N) (k : nat) (s t : string).

Lemma length_app s t : String.length (s +:+ t) = (String.length s + String.length t)%nat.
Proof. induction s; [done|]. rewrite app_cons. simpl. by f_equal. Qed.

Lemma zeros_snoc k : zeros k +:+ "0" = zeros (S k).
Proof. induction k as [|k IH]; [done|]. cbn [zeros]. by rewrite app_cons, IH. Qed.

Lemma zeros_app j k : zeros j +:+ zeros k = zeros (j + k).
Proof. induction j as [|j IH]; [done|]. cbn [zeros Nat.add]. by rewrite app_cons, IH. Qed.

Lemma length_zeros k : String.length (zeros k) = k.
Proof. induction k; simpl; congruence. Qed.

Lemma all_digits_zeros k : all_digits (zeros k) = true.
Proof. induction k as [|k IH]; [done|]. exact IH. Qed.

(** A multiple of a power of 10 ends in zeros. *)
Lemma string_of_N_zeros n k :
  1 <= n → string_of_N (n * 10 ^ N.of_nat k) = string_of_N n +:+ zeros k.
Proof.
  intros Hn. induction k as [|k IH].
  { by rewrite N.mul_1_r, app_empty_r. }
  rewrite Nat2N.inj_succ, N.pow_succ_r'.
  replace (n * (10 * 10 ^ N.of_nat k)) with (10 * (n * 10 ^ N.of_nat k) + 0) by lia.
  rewrite string_of_N_snoc by (pose proof (N.pow_nonzero 10 (N.of_nat k)); nia).
  change (String (digit_char 0) "") with "0".
  by rewrite IH, app_assoc', zeros_snoc.
Qed.

(** The last digit. *)
Lemma string_of_N_last n :
  ∃ pre, string_of_N n = pre +:+ String (digit_char (n mod 10)) "".
Proof.
  destruct (decide (n < 10)) as [Hn|Hn].
  - exists "". rewrite N.mod_small by done. by apply string_of_N_digit.
  - exists (string_of_N (n / 10)). rewrite (N.div_mod n 10) at 1 by done.
    apply string_of_N_snoc; [|by apply N.mod_lt].
    apply N.div_le_lower_bound; lia.
Qed.

(** The number of digits. *)
Lemma string_of_N_length n :
  1 <= n →
  ∃ l, String.length (string_of_N n) = S l
       ∧ 10 ^ N.of_nat l <= n < 10 ^ N.of_nat (S l).
Proof.
  induction (N.lt_wf_0 n) as [n _ IH]. intros Hn.
  destruct (decide (n < 10)) as [H10|H10].
  { exists O. rewrite string_of_N_digit by done. simpl. split; [done|lia]. }
  destruct (IH (n / 10)) as (l & Hl & Hlo & Hhi).
  - apply N.div_lt; lia.
  - apply N.div_le_lower_bound; lia.
  - exists (S l). rewrite (N.div_mod n 10) at 1 by done.
    rewrite string_of_N_snoc; [|apply N.div_le_lower_bound; lia|by apply N.mod_lt].
    rewrite length_app, Hl. split; [simpl; lia|].
    rewrite !Nat2N.inj_succ, !N.pow_succ_r' in *.
    pose proof (N.div_mod n 10 ltac:(done)). pose proof (N.mod_lt n 10 ltac:(done)).
    generalize dependent (10 ^ N.of_nat l). generalize dependent (n `div` 10).
    generalize dependent (n `mod` 10). clear. lia.
Qed.

End digits_of_numbers.

(** ** Trailing zeros *)

Section trailing.
Implicit Types (c : ascii) (k : nat) (s t : string).

Lemma rstrip_zeros_go_zeros k : rstrip_zeros_go (zeros k) = ("", true).
Proof. induction k as [|k IH]; [done|]. cbn [zeros rstrip_zeros_go]. by rewrite IH. Qed.

Lemma rstrip_zeros_go_kept s t :
  (rstrip_zeros_go t).2 = false →
  rstrip_zeros_go (s +:+ t) = (s +:+ (rstrip_zeros_go t).1, false).
Proof.
  destruct (rstrip_zeros_go t) as [u b] eqn:E. simpl. intros ->.
  induction s as [|c s IH]; [done|].
  rewrite !app_cons. cbn [rstrip_zeros_go]. by rewrite IH.
Qed.

(** What is stripped are the zeros after the last digit that is not 0. *)
Lemma rstrip_zeros_end s c k :
  c ≠ "0"%char → rstrip_zeros (s +:+ String c (zeros k)) = s +:+ String c "".
Proof.
  intros Hc. unfold rstrip_zeros.
  assert (rstrip_zeros_go (String c (zeros k)) = (String c "", false)) as H.
  { cbn [rstrip_zeros_go]. rewrite rstrip_zeros_go_zeros. simpl.
    by rewrite bool_decide_eq_false_2. }
  rewrite rstrip_zeros_go_kept; by rewrite H.
Qed.

End trailing.

(** ** Rounding a decimal to six digits *)

Section rounding.
Local Open Scope Q_scope.
Implicit Types (a : Q) (m e : Z) (l n : nat).

Lemma pow10_add e1 e2 : 10 ^ (e1 + e2) == 10 ^ e1 * 10 ^ e2.
Proof. by apply Qpower_plus. Qed.

(** An integer is its own rounding. *)
Lemma round_nearest_Z a m : a == inject_Z m → round_nearest a = Some m.
Proof.
  intros Ha. unfold round_nearest. cbv zeta.
  rewrite (Qfloor_comp _ _ Ha), Qfloor_Z.
  assert ((a - inject_Z m ?= 1 # 2) = Lt) as ->; [|done].
  rewrite Ha. apply (proj1 (Qlt_alt _ _)). generalize (inject_Z m). intros. lra.
Qed.

(** The decimal exponent of [m * 10^-n] for [m] of [l + 1] digits. *)
Lemma decimal_exponent m l n :
  (10 ^ Z.of_nat l ≤ m < 10 ^ Z.of_nat (S l))%Z →
  ∀ a, a == inject_Z m * 10 ^ (- Z.of_nat n) →
  ilog10 a = (Z.of_nat l - Z.of_nat n)%Z.
Proof.
  intros [Hlo Hhi] a Ha. apply ilog10_unique; rewrite Ha.
  - replace (Z.of_nat l - Z.of_nat n)%Z with (Z.of_nat l + - Z.of_nat n)%Z by lia.
    rewrite pow10_add, <-pow10_inject. apply Qmult_le_r; [apply pow10_pos|].
    by rewrite <-Zle_Qle.
  - replace (Z.of_nat l - Z.of_nat n + 1)%Z
      with (Z.of_nat (S l) + - Z.of_nat n)%Z by lia.
    rewrite pow10_add, <-pow10_inject. apply Qmult_lt_r; [apply pow10_pos|].
    by rewrite <-Zlt_Qlt.
Qed.

(** Six digits: the digits of [m], then zeros. *)
Lemma scale_decimal m l n a :
  (l ≤ 5)%nat → a == inject_Z m * 10 ^ (- Z.of_nat n) →
  scale10 a (5 - (Z.of_nat l - Z.of_nat n)) == inject_Z (m * 10 ^ Z.of_nat (5 - l)).
Proof.
  intros Hl Ha. unfold scale10. rewrite Ha, inject_Z_mult, pow10_inject.
  replace (5 - (Z.of_nat l - Z.of_nat n))%Z
    with (Z.of_nat (5 - l) + Z.of_nat n)%Z by lia.
  rewrite pow10_add, Qpower_opp. pose proof (pow10_pos (Z.of_nat n)).
  field. lra.
Qed.

Lemma round6_decimal m l n a :
  (10 ^ Z.of_nat l ≤ m < 10 ^ Z.of_nat (S l))%Z → (l ≤ 5)%nat →
  a == inject_Z m * 10 ^ (- Z.of_nat n) →
  round6 a = Some ((m * 10 ^ Z.of_nat (5 - l))%Z, (Z.of_nat l - Z.of_nat n)%Z).
Proof.
  intros Hm Hl Ha. unfold round6. rewrite (decimal_exponent m l n) by done.
  cbv zeta. rewrite (round_nearest_Z _ _ (scale_decimal m l n a Hl Ha)).
  cbn [mbind option_bind].
  assert (m * 10 ^ Z.of_nat (5 - l) < 1000000)%Z as Hlt.
  { change 1000000%Z with (10 ^ Z.of_nat 6)%Z.
    replace 6%nat with (S l + (5 - l))%nat by lia.
    rewrite (Nat2Z.inj_add (S l)), Z.pow_add_r by lia.
    apply Z.mul_lt_mono_pos_r; [apply Z.pow_pos_nonneg; lia|apply Hm]. }
  by rewrite (proj2 (Z.eqb_neq _ _)) by lia.
Qed.

End rounding.

(** ** Printing a fraction *)

Section printing_fractions.
Implicit Types (M : N) (l j n : nat).

Lemma to_N_scaled M l : Z.to_N (Z.of_N M * 10 ^ Z.of_nat l) = (M * 10 ^ N.of_nat l)%N.
Proof.
  pose proof (Z.pow_nonneg 10 (Z.of_nat l) ltac:(lia)).
  rewrite Z2N.inj_mul by lia. rewrite N2Z.id. rewrite Z2N.inj_pow by lia.
  change (Z.to_N 10) with 10%N. by rewrite <-nat_N_Z, N2Z.id.
Qed.

Lemma last_digit_nonzero M : (M mod 10 ≠ 0)%N → digit_char (M mod 10) ≠ "0"%char.
Proof.
  intros Hmod. apply digit_char_nonzero. pose proof (N.mod_lt M 10 ltac:(done)).
  generalize dependent (M `mod` 10)%N. intros. lia.
Qed.

(** Fixed notation below 1: [0.], the zeros before the first digit, the
    digits without the zeros that fill them up to six. *)
Lemma fixed6_fraction M l j :
  (1 <= M)%N → (M mod 10 ≠ 0)%N →
  fixed6 (Z.of_N M * 10 ^ Z.of_nat l) (- Z.of_nat (S j))
  = "0." +:+ zeros j +:+ string_of_N M.
Proof.
  intros HM Hmod. unfold fixed6. cbv zeta.
  rewrite (proj2 (Z.leb_gt _ _)) by lia.
  replace (Z.to_nat (- - Z.of_nat (S j) - 1)) with j by lia.
  rewrite to_N_scaled, string_of_N_zeros by done.
  destruct (string_of_N_last M) as [pre ->].
  pose proof (last_digit_nonzero M Hmod) as Hc.
  unfold with_point. cbv zeta. rewrite (app_assoc' pre), app_cons.
  change ("" +:+ zeros l) with (zeros l). rewrite <-(app_assoc' (zeros j) pre).
  rewrite rstrip_zeros_end by done.
  rewrite decide_False by apply app_snoc_ne. by rewrite !app_assoc'.
Qed.

(** The number of digits of such a numerator. *)
Lemma fraction6_digits M n :
  fraction6 M n →
  ∃ l j, String.length (string_of_N M) = S l ∧ (l ≤ 5)%nat ∧ n = (S l + j)%nat
    ∧ (j ≤ 3)%nat ∧ (10 ^ Z.of_nat l ≤ Z.of_N M < 10 ^ Z.of_nat (S l))%Z.
Proof.
  intros (H1 & _ & H6 & Hn & H4).
  destruct (string_of_N_length M H1) as (l & Hl & Hlo & Hhi).
  assert (N.of_nat l < 6)%N as Hl6.
  { apply (N.pow_lt_mono_r_iff 10); lia. }
  assert (N.of_nat l < N.of_nat n)%N as Hln.
  { apply (N.pow_lt_mono_r_iff 10); lia. }
  assert (N.of_nat n < N.of_nat (S l) + 4)%N as Hnl.
  { apply (N.pow_lt_mono_r_iff 10); [lia|].
    rewrite N.pow_add_r. eapply N.le_lt_trans; [exact H4|].
    apply N.mul_lt_mono_pos_r; [done|exact Hhi]. }
  exists l, (n - S l)%nat. split_and!; [done|lia..|].
  apply N2Z.inj_le in Hlo. apply N2Z.inj_lt in Hhi.
  by rewrite N2Z.inj_pow, nat_N_Z in Hlo, Hhi.
Qed.

(** The digits of the numerator fit behind the point. *)
Lemma fraction6_length M n : fraction6 M n → (String.length (string_of_N M) ≤ n)%nat.
Proof. intros HF. destruct (fraction6_digits M n HF) as (l & j & -> & _ & -> & _). lia. Qed.

Lemma decimal_value (m e : Z) :
  ∃ q : Qc, decimal m e = Fin q ∧ (q == inject_Z m * 10 ^ e)%Q.
Proof. eexists. split; [done|]. apply Qred_correct. Qed.

(** Such a value lies strictly between 0 and 1. *)
Lemma decimal_fraction M n :
  fraction6 M n →
  ∃ q : Qc, decimal (Z.of_N M) (- Z.of_nat n) = Fin q ∧ (0 < q)%Qc ∧ (q < 1)%Qc.
Proof.
  intros (H1 & _ & _ & Hn & _).
  destruct (decimal_value (Z.of_N M) (- Z.of_nat n)) as (q & -> & Hq).
  exists q. split; [done|]. unfold Qclt. cbn [this Q2Qc]. rewrite Hq, Qpower_opp.
  rewrite <-pow10_inject. apply N2Z.inj_lt in Hn.
  rewrite N2Z.inj_pow, nat_N_Z in Hn. change (Z.of_N 10) with 10%Z in Hn.
  assert (0 < inject_Z (10 ^ Z.of_nat n))%Q as Hp.
  { rewrite pow10_inject. apply pow10_pos. }
  split.
  - apply Qmult_lt_0_compat; [|by apply Qinv_lt_0_compat].
    change 0%Q with (inject_Z 0). rewrite <-Zlt_Qlt. lia.
  - apply Qlt_shift_div_r; [done|]. rewrite Qmult_1_l. by rewrite <-Zlt_Qlt.
Qed.

(** What [%g] prints of a value of magnitude [M / 10^n]: the spelling,
    after a minus sign when the value is negative. *)
Lemma format_g_magnitude (q : Qc) M n :
  fraction6 M n → (Qabs q == inject_Z (Z.of_N M) * 10 ^ (- Z.of_nat n))%Q →
  format_g (Fin q) = Ok ((if Qle_bool 0 q then "" else "-") +:+ spelling M n).
Proof.
  intros HF Hq. destruct (fraction6_digits M n HF) as (l & j & Hl & Hl5 & -> & Hj & Hm).
  destruct HF as (H1 & Hmod & _).
  assert (0 < Qabs q)%Q as Hpos.
  { rewrite Hq. apply Qmult_lt_0_compat; [|apply pow10_pos].
    change 0%Q with (inject_Z 0). rewrite <-Zlt_Qlt. lia. }
  unfold format_g. destruct (Qeq_bool q 0) eqn:E0.
  { apply Qeq_bool_iff in E0. rewrite E0 in Hpos. by apply Qlt_irrefl in Hpos. }
  rewrite (round6_decimal (Z.of_N M) l (S l + j)) by done.
  replace (Z.of_nat l - Z.of_nat (S l + j))%Z with (- Z.of_nat (S j))%Z by lia.
  rewrite (proj2 (andb_true_iff _ _)) by (split; [apply Z.leb_le|apply Z.ltb_lt]; lia).
  rewrite fixed6_fraction by done. unfold spelling. rewrite Hl.
  replace (S l + j - S l)%nat with j by lia. by destruct (Qle_bool 0 q).
Qed.

Lemma format_g_fraction M n :
  fraction6 M n → format_g (decimal (Z.of_N M) (- Z.of_nat n)) = Ok (spelling M n).
Proof.
  intros HF. destruct (decimal_fraction M n HF) as (q & Hd & H0 & _).
  destruct (decimal_value (Z.of_N M) (- Z.of_nat n)) as (q' & Hd' & Hq).
  rewrite Hd in Hd' |- *. injection Hd' as <-.
  rewrite (format_g_magnitude q M n HF) by by rewrite Qabs_pos by by apply Qlt_le_weak.
  by rewrite (proj2 (Qle_bool_iff _ _)) by by apply Qlt_le_weak.
Qed.

(** The negative of such a value. *)
Lemma decimal_negative M n :
  fraction6 M n →
  ∃ q : Qc, decimal (- Z.of_N M) (- Z.of_nat n) = Fin q ∧ (- (1) < q)%Qc ∧ (q < 0)%Qc
    ∧ (Qabs q == inject_Z (Z.of_N M) * 10 ^ (- Z.of_nat n))%Q.
Proof.
  intros HF. destruct (decimal_fraction M n HF) as (p & Hd & H0 & H1).
  destruct (decimal_value (Z.of_N M) (- Z.of_nat n)) as (p' & Hd' & Hp).
  rewrite Hd in Hd'. injection Hd' as <-.
  destruct (decimal_value (- Z.of_N M) (- Z.of_nat n)) as (q & -> & Hq).
  assert (q == - p)%Q as Hqp by (rewrite Hq, Hp, inject_Z_opp; ring).
  exists q. unfold Qclt in *. cbn [this Q2Qc Qcopp] in *.
  change (Qred 0) with 0%Q in *. change (Qred 1) with 1%Q in *.
  rewrite Qred_correct. split_and!; [done|rewrite Hqp; lra..|].
  rewrite Hqp, Qabs_opp, Qabs_pos by lra. done.
Qed.

Lemma format_g_negative M n :
  fraction6 M n →
  format_g (decimal (- Z.of_N M) (- Z.of_nat n)) = Ok ("-" +:+ spelling M n).
Proof.
  intros HF. destruct (decimal_negative M n HF) as (q & -> & _ & H0 & Hq).
  rewrite (format_g_magnitude q M n HF Hq).
  destruct (Qle_bool 0 q) eqn:E; [|done]. apply Qle_bool_iff in E.
  unfold Qclt in H0. change (this 0%Qc) with 0%Q in H0. lra.
Qed.

End printing_fractions.

(** ** Printing a value with an integer part *)

Section printing_mixed.
Implicit Types (M : N) (l k n : nat) (s t : string).

Lemma take_s_app s t k : (k ≤ String.length s)%nat → take_s k (s +:+ t) = take_s k s.
Proof.
  revert k. induction s as [|c s IH]; intros k Hk.
  - assert (k = 0)%nat as -> by (simpl in Hk; lia). by destruct t.
  - destruct k as [|k]; [done|]. rewrite app_cons. cbn [take_s]. f_equal.
    apply IH. simpl in Hk. lia.
Qed.

Lemma drop_s_app s t k :
  (k ≤ String.length s)%nat → drop_s k (s +:+ t) = drop_s k s +:+ t.
Proof.
  revert k. induction s as [|c s IH]; intros k Hk.
  - assert (k = 0)%nat as -> by (simpl in Hk; lia). by destruct t.
  - destruct k as [|k]; [done|]. rewrite app_cons. cbn [drop_s].
    apply IH. simpl in Hk. lia.
Qed.

Lemma take_drop_s s k : take_s k s +:+ drop_s k s = s.
Proof.
  revert k. induction s as [|c s IH]; intros [|k]; try done.
  cbn [take_s drop_s]. by rewrite app_cons, IH.
Qed.

Lemma fixed6_mixed M l n :
  (1 <= M)%N → (M mod 10 ≠ 0)%N → String.length (string_of_N M) = S l →
  (1 ≤ n ≤ l)%nat →
  fixed6 (Z.of_N M * 10 ^ Z.of_nat (5 - l)) (Z.of_nat l - Z.of_nat n) = pointed M n.
Proof.
  intros HM Hmod Hl Hn. unfold fixed6, pointed. cbv zeta.
  rewrite (proj2 (Z.leb_le _ _)) by lia.
  replace (S (Z.to_nat (Z.of_nat l - Z.of_nat n))) with (S l - n)%nat by lia.
  rewrite to_N_scaled, string_of_N_zeros, Hl by done.
  rewrite take_s_app, drop_s_app by lia.
  destruct (string_of_N_last M) as [pre Hpre].
  assert (String.length pre = l) as Hlen.
  { rewrite Hpre, length_app in Hl. simpl in Hl. lia. }
  pose proof (last_digit_nonzero M Hmod) as Hc.
  rewrite Hpre, drop_s_app by lia. unfold with_point. cbv zeta.
  rewrite app_assoc', app_cons. change ("" +:+ ?s) with s.
  rewrite rstrip_zeros_end by done.
  rewrite decide_False by apply app_snoc_ne. by rewrite take_s_app by lia.
Qed.

Lemma mixed6_digits M n :
  mixed6 M n →
  ∃ l, String.length (string_of_N M) = S l ∧ (l ≤ 5)%nat ∧ (1 ≤ n ≤ l)%nat
    ∧ (10 ^ Z.of_nat l ≤ Z.of_N M < 10 ^ Z.of_nat (S l))%Z.
Proof.
  intros [(Hmod & H6 & Hn) H1].
  assert (1 <= M)%N as HM by (pose proof (N.pow_nonzero 10 (N.of_nat n)); lia).
  destruct (string_of_N_length M HM) as (l & Hl & Hlo & Hhi).
  assert (N.of_nat l < 6)%N as Hl6 by (apply (N.pow_lt_mono_r_iff 10); lia).
  assert (N.of_nat n < N.of_nat (S l))%N as Hnl by (apply (N.pow_lt_mono_r_iff 10); lia).
  exists l. split_and!; [done|lia..|].
  apply N2Z.inj_le in Hlo. apply N2Z.inj_lt in Hhi.
  by rewrite N2Z.inj_pow, nat_N_Z in Hlo, Hhi.
Qed.

Lemma format_g_mixed M n :
  mixed6 M n → format_g (decimal (Z.of_N M) (- Z.of_nat n)) = Ok (pointed M n).
Proof.
  intros HF. destruct (mixed6_digits M n HF) as (l & Hl & Hl5 & Hn & Hm).
  destruct HF as [(Hmod & _ & _) _].
  destruct (decimal_value (Z.of_N M) (- Z.of_nat n)) as (q & -> & Hq).
  assert (0 < q)%Q as Hpos.
  { rewrite Hq. apply Qmult_lt_0_compat; [|apply pow10_pos].
    change 0%Q with (inject_Z 0). rewrite <-Zlt_Qlt.
    pose proof (Z.pow_pos_nonneg 10 (Z.of_nat l)). lia. }
  unfold format_g. destruct (Qeq_bool q 0) eqn:E0.
  { apply Qeq_bool_iff in E0. rewrite E0 in Hpos. by apply Qlt_irrefl in Hpos. }
  rewrite (round6_decimal (Z.of_N M) l n) by (done || by rewrite Qabs_pos by lra).
  rewrite (proj2 (andb_true_iff _ _)) by (split; [apply Z.leb_le|apply Z.ltb_lt]; lia).
  rewrite (proj2 (Qle_bool_iff _ _)) by lra.
  rewrite fixed6_mixed; [done| |done..].
  pose proof (Z.pow_pos_nonneg 10 (Z.of_nat l)). lia.
Qed.
End printing_mixed.


(** ** Reading a fraction *)

Section reading_fractions.
Implicit Types (M : N) (j k n : nat) (t : string).

(** Leading zeros after the point count as digits and add nothing. *)
Lemma digits_zeros j k t : digits 0 k (zeros j +:+ t) = digits 0 (k + j) t.
Proof.
  revert k. induction j as [|j IH]; intros k; [by rewrite Nat.add_0_r|].
  cbn [zeros]. rewrite app_cons. cbn [digits].
  change (digit_of "0") with (Some 0%Z). cbn match. rewrite IH. f_equal. lia.
Qed.

Lemma no_space_spelling M n : no_space (spelling M n) = true.
Proof.
  unfold spelling. pose proof (string_of_N_printed M) as (_ & Hall & _).
  rewrite !no_space_app, (all_digits_no_space (zeros _)) by apply all_digits_zeros.
  by rewrite (all_digits_no_space (string_of_N M)).
Qed.

(** [float()] reads the spelling back. *)
Lemma float_of_string_fraction M n :
  (String.length (string_of_N M) ≤ n)%nat →
  float_of_string (spelling M n) = Ok (decimal (Z.of_N M) (- Z.of_nat n)).
Proof.
  intros Hn. unfold float_of_string. cbv zeta.
  rewrite strip_no_space by apply no_space_spelling.
  unfold spelling at 1. rewrite !app_cons.
  rewrite (special_literal_digit "0" _ false) by by eexists.
  fold (spelling M n). unfold spelling, decimal_literal. rewrite !app_cons.
  rewrite sign_digit by by eexists. cbn [digits].
  change (digit_of "0") with (Some 0%Z). change (digit_of ".") with (@None Z).
  cbn match. change ("" +:+ ?s) with s.
  pose proof (string_of_N_printed M) as (_ & _ & _ & Hread).
  rewrite digits_zeros. rewrite <-(app_empty_r (string_of_N M)) at 2.
  rewrite Hread. cbn [digits]. rewrite bool_decide_eq_false_2 by lia.
  cbn [exponent mbind option_bind result_of_option]. do 2 f_equal; lia.
Qed.

(** [float()] reads digits after leading zeros as an integer. *)
Lemma float_of_string_padded (neg : bool) M k :
  float_of_string ((if neg then "-" else "") +:+ "0" +:+ zeros k +:+ string_of_N M)
  = Ok (of_Z (if neg then - Z.of_N M else Z.of_N M)).
Proof.
  pose proof (string_of_N_printed M) as (_ & Hall & _ & Hread).
  assert (all_digits (zeros k +:+ string_of_N M) = true) as HD
    by by rewrite all_digits_app, all_digits_zeros.
  set (D := zeros k +:+ string_of_N M) in *.
  replace ((if neg then "-" else "") +:+ "0" +:+ D)
    with (if neg then String "-" (String "0" D) else String "0" D) by by destruct neg.
  unfold float_of_string. cbv zeta. rewrite strip_no_space.
  2:{ destruct neg; simpl; by rewrite all_digits_no_space. }
  rewrite special_literal_digit by by eexists. unfold decimal_literal.
  assert (sign (if neg then String "-" (String "0" D) else String "0" D)
          = (neg, String "0" D)) as -> by by destruct neg.
  cbn [digits]. change (digit_of "0") with (Some 0%Z). cbn match. unfold D.
  rewrite digits_zeros. rewrite <-(app_empty_r (string_of_N M)). rewrite Hread.
  cbn [digits]. rewrite bool_decide_eq_false_2 by lia.
  cbn [exponent mbind option_bind result_of_option]. rewrite decimal_Z.
  by destruct neg.
Qed.

(** What [%g] prints, [float()] reads back. *)
Lemma float_of_string_format_g M n :
  fraction6 M n →
  format_g (decimal (Z.of_N M) (- Z.of_nat n)) ≫= float_of_string
  = Ok (decimal (Z.of_N M) (- Z.of_nat n)).
Proof.
  intros HF. rewrite format_g_fraction by done. cbn [mbind result_bind].
  by apply float_of_string_fraction, fraction6_length.
Qed.

End reading_fractions.
