(* ===== verification/PyArray.v ===== *)
(** * Dense arrays

    [numpy] arrays as nested lists.  The interface [Tensor] gives what the
    decoders do with an array: read a cell ([aget], [a[i]]), change a cell in
    place ([aalter], and [store] for [a[i] = v], which raises [IndexError] out
    of range), allocate it full of one value ([full], [np.zeros(shape) * nan])
    and, for specifications, tabulate a function over the index space ([tab]).
    Its laws are the class [TensorLaws].  Rank 1 is a list; [nest_tensor] adds
    one trailing axis to any rank, so the ranks 3 and 4 of the program are
    instances by construction and the laws are proved twice, not per rank.

    The client theorem, proved against the interface: a loop that visits
    indices and conditionally stores a value per index ([fill_loop]) never
    raises on in-range indices, keeps the extents, and when it starts from a
    [full] array and visits the whole index space it computes the tabulation
    of the stored values ([fill_loop_full]). *)

From S2P Require Import Prelude.

(** ** The interface *)

Class Tensor (I T A S : Type) := {
  aget : T → I → option A;
  aalter : (A → A) → I → T → T;
  full : S → A → T;
  tab : S → (I → A) → T;
  shape : T → S → Prop;
  inb : S → I → Prop;
  indices : S → list I;
}.
#[export] Hint Mode Tensor - ! - - : typeclass_instances.
(** The index space does not mention the array type: it is named. *)
Arguments inb {I} T {A S _} s i.
Arguments indices {I} T {A S _} s.

Class TensorLaws (I T A S : Type) `{Tensor I T A S} := {
  aget_aalter_eq (f : A → A) (i : I) (t : T) :
    aget (aalter f i t) i = f <$> aget t i;
  aget_aalter_ne (f : A → A) (i j : I) (t : T) :
    i ≠ j → aget (aalter f i t) j = aget t j;
  shape_aalter (f : A → A) (i : I) (t : T) (s : S) :
    shape t s → shape (aalter f i t) s;
  shape_inb (t : T) (s : S) (i : I) :
    shape t s → is_Some (aget t i) ↔ inb T s i;
  shape_full (s : S) (v : A) : shape (full s v : T) s;
  aget_full (s : S) (v : A) (i : I) (a : A) :
    aget (full s v : T) i = Some a → a = v;
  shape_tab (s : S) (f : I → A) : shape (tab s f : T) s;
  aget_tab (s : S) (f : I → A) (i : I) (a : A) :
    aget (tab s f : T) i = Some a → a = f i;
  tensor_ext (t1 t2 : T) (s : S) :
    shape t1 s → shape t2 s → (∀ i : I, aget t1 i = aget t2 i) → t1 = t2;
  elem_of_indices (s : S) (i : I) : i ∈ indices T s ↔ inb T s i;
}.
#[export] Hint Mode TensorLaws - ! - - - : typeclass_instances.

(** ** Rank 1: a list *)

#[export] Instance list_tensor {A} : Tensor nat (list A) A nat := {|
  aget l i := l !! i;
  aalter f i l := alter f i l;
  full n v := replicate n v;
  tab n f := f <$> seq 0 n;
  shape l n := length l = n;
  inb n i := i < n;
  indices n := seq 0 n;
|}.

#[export] Instance list_tensor_laws {A} : TensorLaws nat (list A) A nat.
Proof.
  split; simpl.
  - intros. apply list_lookup_alter_eq.
  - intros. by apply list_lookup_alter_ne.
  - intros. by rewrite length_alter.
  - intros t s i <-. apply lookup_lt_is_Some.
  - intros. apply length_replicate.
  - by intros s v i a [-> _]%lookup_replicate.
  - intros. by rewrite length_fmap, length_seq.
  - intros s f i a (k & -> & [-> _]%lookup_seq)%list_lookup_fmap_Some. done.
  - intros t1 t2 s _ _. apply list_eq.
  - intros. rewrite elem_of_seq. lia.
Qed.

(** ** One more trailing axis *)

#[export] Instance nest_tensor {I T A S} `{Tensor I T (list A) S} :
  Tensor (I * nat) T A (S * nat) := {|
  aget t '(i, k) := r ← aget t i; r !! k;
  aalter f '(i, k) t := aalter (alter f k) i t;
  full '(s, n) v := full s (replicate n v);
  tab '(s, n) f := tab s (λ i, (λ k, f (i, k)) <$> seq 0 n);
  shape t '(s, n) := shape t s ∧ ∀ i r, aget t i = Some r → length r = n;
  inb '(s, n) '(i, k) := inb T s i ∧ k < n;
  indices '(s, n) := i ← indices T s; k ← seq 0 n; [(i, k)];
|}.

Section nest_laws.
Context {I T A S : Type} `{TensorLaws I T (list A) S} `{EqDecision I}.
Implicit Types (t : T) (i j : I) (k : nat) (s : S) (r : list A).

Lemma nest_aget_eq f i k t :
  aget (aalter f (i, k) t) (i, k) = f <$> aget t (i, k).
Proof.
  simpl. rewrite aget_aalter_eq. destruct (aget t i) as [r|]; simpl; [|done].
  apply list_lookup_alter_eq.
Qed.

Lemma nest_aget_ne f i j k k' t :
  (i, k) ≠ (j, k') → aget (aalter f (i, k) t) (j, k') = aget t (j, k').
Proof.
  intros Hne. simpl. destruct (decide (i = j)) as [->|].
  - rewrite aget_aalter_eq. destruct (aget t j) as [r|]; simpl; [|done].
    apply list_lookup_alter_ne. congruence.
  - by rewrite aget_aalter_ne.
Qed.

Lemma nest_shape_aalter f i k t s n :
  shape t (s, n) → shape (aalter f (i, k) t) (s, n).
Proof.
  intros [Hs Hrows]. split; [by apply (shape_aalter (alter f k) i)|].
  intros j r. simpl. destruct (decide (i = j)) as [->|].
  - rewrite aget_aalter_eq. intros (r0 & Hr0 & ->)%fmap_Some.
    rewrite length_alter. eauto.
  - rewrite aget_aalter_ne by done. eauto.
Qed.

Lemma nest_shape_inb t s n i k :
  shape t (s, n) → is_Some (aget t (i, k)) ↔ inb T (s, n) (i, k).
Proof.
  intros [Hs Hrows]. simpl. rewrite <-(shape_inb t s i Hs). split.
  - intros [a (r & Hr & Hk)%bind_Some]. split; [by eexists|].
    rewrite <-(Hrows _ _ Hr). by eapply lookup_lt_Some.
  - intros [[r Hr] Hk]. rewrite Hr. simpl. apply lookup_lt_is_Some.
    by rewrite (Hrows _ _ Hr).
Qed.

Lemma nest_ext t1 t2 s n :
  shape t1 (s, n) → shape t2 (s, n) →
  (∀ ik : I * nat, aget t1 ik = aget t2 ik) → t1 = t2.
Proof.
  intros [Hs1 Hr1] [Hs2 Hr2] Hget. apply (tensor_ext t1 t2 s Hs1 Hs2). intros i.
  pose proof (shape_inb t1 s i Hs1) as H1.
  pose proof (shape_inb t2 s i Hs2) as H2.
  destruct (aget t1 i) as [r1|] eqn:E1, (aget t2 i) as [r2|] eqn:E2.
  - f_equal. apply list_eq. intros k. specialize (Hget (i, k)). simpl in Hget.
    by rewrite E1, E2 in Hget.
  - destruct (proj2 H2) as [? [=]]. apply H1. by eexists.
  - destruct (proj2 H1) as [? [=]]. apply H2. by eexists.
  - done.
Qed.

#[export] Instance nest_tensor_laws : TensorLaws (I * nat) T A (S * nat).
Proof.
  split.
  - intros f [i k] t. apply nest_aget_eq.
  - intros f [i k] [j k'] t. apply nest_aget_ne.
  - intros f [i k] t [s n]. apply nest_shape_aalter.
  - intros t [s n] [i k]. apply nest_shape_inb.
  - intros [s n] v. split; simpl; [apply shape_full|].
    intros i r ->%aget_full. apply length_replicate.
  - intros [s n] v [i k] a. simpl.
    intros (r & ->%aget_full & [-> _]%lookup_replicate)%bind_Some. done.
  - intros [s n] f. split; simpl; [apply shape_tab|].
    intros i r ->%aget_tab. by rewrite length_fmap, length_seq.
  - intros [s n] f [i k] a. simpl. intros (r & ->%aget_tab & Hk)%bind_Some.
    apply list_lookup_fmap_Some in Hk as (? & -> & [-> _]%lookup_seq). done.
  - intros t1 t2 [s n]. apply nest_ext.
  - intros [s n] [i k]. simpl. rewrite list_elem_of_bind. split.
    + intros (j & (k' & [= -> ->]%list_elem_of_singleton & Hk)%list_elem_of_bind & Hj).
      apply elem_of_indices in Hj. apply elem_of_seq in Hk. split; [done|lia].
    + intros [Hi Hk]. exists i. split; [|by apply elem_of_indices].
      apply list_elem_of_bind. exists k. split; [set_solver|].
      apply elem_of_seq. lia.
Qed.

End nest_laws.

(** ** The ranks of the program *)

Abbreviation idx3 := (nat * nat * nat)%type.
Abbreviation idx4 := (nat * nat * nat * nat)%type.
Abbreviation array3 A := (list (list (list A))).
Abbreviation array4 A := (list (list (list (list A)))).

(** ** Stores and fill loops, against the interface *)

Section fill.
Context {I T A S : Type} `{TensorLaws I T A S} `{EqDecision I}.
Implicit Types (t : T) (i j : I) (s : S) (w : I → option A).

(** [t[i] = v] *)
Definition store (i : I) (v : A) (t : T) : res T :=
  match aget t i with
  | Some _ => Ok (aalter (λ _, v) i t)
  | None => Err (Raised IndexError)
  end.

(** [if <w i is present>: t[i] = <its value>] *)
Definition store_if (w : I → option A) (t : T) (i : I) : res T :=
  match w i with
  | Some v => store i v t
  | None => Ok t
  end.

Definition fill_loop (w : I → option A) (idxs : list I) (t : T) : res T :=
  foldlM (store_if w) t idxs.

(** What a cell holds after the loop, given what it held before. *)
Definition filled (w : I → option A) (idxs : list I) (j : I) (a : A) : A :=
  if decide (j ∈ idxs) then default a (w j) else a.

Lemma filled_nil w j a : filled w [] j a = a.
Proof. unfold filled. by rewrite decide_False by set_solver. Qed.

Lemma filled_in w idxs j a : j ∈ idxs → filled w idxs j a = default a (w j).
Proof. intros. unfold filled. by rewrite decide_True. Qed.

Lemma filled_notin w idxs j a : j ∉ idxs → filled w idxs j a = a.
Proof. intros. unfold filled. by rewrite decide_False. Qed.

Lemma filled_cons w i idxs j a :
  filled w idxs j (filled w [i] j a) = filled w (i :: idxs) j a.
Proof.
  unfold filled. repeat case_decide; try set_solver.
  all: by destruct (w j).
Qed.

Lemma store_Ok i v t s :
  shape t s → inb T s i → store i v t = Ok (aalter (λ _, v) i t).
Proof.
  intros Hs Hi. unfold store.
  by destruct (proj2 (shape_inb t s i Hs) Hi) as [a ->].
Qed.

Lemma store_if_spec w t i s :
  shape t s → inb T s i →
  ∃ t', store_if w t i = Ok t' ∧ shape t' s ∧
        ∀ j, aget t' j = filled w [i] j <$> aget t j.
Proof.
  intros Hs Hi. unfold store_if. destruct (w i) as [v|] eqn:Hw.
  - eexists. split; [by eapply store_Ok|]. split; [by apply shape_aalter|].
    intros j. destruct (decide (i = j)) as [<-|].
    + rewrite aget_aalter_eq. destruct (aget t i); [|done].
      cbn [fmap option_fmap option_map]. rewrite filled_in by set_solver.
      by rewrite Hw.
    + rewrite aget_aalter_ne by done. destruct (aget t j); [|done].
      cbn [fmap option_fmap option_map]. by rewrite filled_notin by set_solver.
  - exists t. split_and!; [done..|]. intros j.
    destruct (aget t j) eqn:?; [|done]. cbn [fmap option_fmap option_map].
    f_equal. unfold filled. case_decide as Hj; [|done].
    apply list_elem_of_singleton in Hj as ->. by rewrite Hw.
Qed.

Lemma fill_loop_spec w idxs t s :
  shape t s → Forall (inb T s) idxs →
  ∃ t', fill_loop w idxs t = Ok t' ∧ shape t' s ∧
        ∀ j, aget t' j = filled w idxs j <$> aget t j.
Proof.
  unfold fill_loop. intros Hs Hidxs. revert t Hs.
  induction Hidxs as [|i idxs Hi _ IH]; intros t Hs; simpl.
  - exists t. split_and!; [done..|]. intros j.
    destruct (aget t j); [|done]. cbn [fmap option_fmap option_map].
    by rewrite filled_nil.
  - destruct (store_if_spec w t i s Hs Hi) as (t1 & -> & Hs1 & Hget1). simpl.
    destruct (IH t1 Hs1) as (t' & -> & Hs' & Hget'). exists t'.
    split_and!; [done..|]. intros j. rewrite Hget', Hget1.
    destruct (aget t j); [|done]. cbn [fmap option_fmap option_map].
    by rewrite filled_cons.
Qed.

(** The loop over the whole index space of a fresh array is a tabulation. *)
Lemma fill_loop_full w s (v0 : A) :
  fill_loop w (indices T s) (full s v0 : T) = Ok (tab s (λ i, default v0 (w i))).
Proof.
  destruct (fill_loop_spec w (indices T s) (full s v0 : T) s) as (t' & -> & Hs & Hget).
  { apply shape_full. }
  { apply Forall_forall. intros i. apply elem_of_indices. }
  f_equal. eapply tensor_ext; [done|apply shape_tab|]. intros j.
  rewrite Hget.
  pose proof (shape_inb (full s v0 : T) s j (shape_full s v0)) as Hf.
  pose proof (shape_inb (tab s (λ i, default v0 (w i)) : T) s j (shape_tab _ _)) as Ht.
  destruct (aget (full s v0 : T) j) as [a|] eqn:Ef;
    destruct (aget (tab s _ : T) j) as [b|] eqn:Et; simpl.
  - apply aget_full in Ef as ->. apply aget_tab in Et as ->.
    rewrite filled_in; [done|]. apply elem_of_indices, Hf. by eexists.
  - destruct (proj2 Ht) as [? [=]]. apply Hf. by eexists.
  - destruct (proj2 Hf) as [? [=]]. apply Ht. by eexists.
  - done.
Qed.

(** Reading a tabulation and a fresh array inside the extents. *)
Lemma aget_tab_inb s (f : I → A) i : inb T s i → aget (tab s f : T) i = Some (f i).
Proof.
  intros Hi. destruct (proj2 (shape_inb (tab s f : T) s i (shape_tab s f)) Hi) as [a Ha].
  by rewrite Ha, (aget_tab _ _ _ _ Ha).
Qed.

Lemma aget_tab_None s (f : I → A) i : ¬ inb T s i → aget (tab s f : T) i = None.
Proof.
  intros Hi. apply eq_None_not_Some.
  by rewrite (shape_inb (tab s f : T) s i (shape_tab s f)).
Qed.

Lemma aget_full_inb s (v : A) i : inb T s i → aget (full s v : T) i = Some v.
Proof.
  intros Hi. destruct (proj2 (shape_inb (full s v : T) s i (shape_full s v)) Hi) as [a Ha].
  by rewrite Ha, (aget_full _ _ _ _ Ha).
Qed.

End fill.

(** ** Mapping a function over an array of rank 3 *)

Section fmap3.
Context {A B : Type} (f : A → B).

Definition amap3 (v : array3 A) : array3 B :=
  fmap (M:=list) (fmap (M:=list) (fmap (M:=list) f)) v.

Lemma aget_amap3 (v : array3 A) (i : idx3) : aget (amap3 v) i = f <$> aget v i.
Proof.
  destruct i as [[d o] l]. unfold amap3. simpl. rewrite list_lookup_fmap.
  destruct (v !! d) as [r|]; simpl; [|done]. rewrite list_lookup_fmap.
  destruct (r !! o) as [r'|]; simpl; [|done]. apply list_lookup_fmap.
Qed.

Lemma shape_amap3 (v : array3 A) (s : nat * nat * nat) : shape v s → shape (amap3 v) s.
Proof.
  destruct s as [[Nd No] Nl]. intros [[Hd Ho] Hl]. simpl in *.
  split; [split|].
  - unfold amap3. by rewrite length_fmap.
  - intros d r. unfold amap3. rewrite list_lookup_fmap.
    intros (r0 & Hr0 & ->)%fmap_Some. rewrite length_fmap. eauto.
  - intros [d o] r Hr.
    unfold amap3 in Hr. simpl in Hr. rewrite list_lookup_fmap in Hr.
    destruct (v !! d) as [r1|] eqn:H1; simpl in Hr; [|done].
    rewrite list_lookup_fmap in Hr. destruct (r1 !! o) as [r2|] eqn:H2; simpl in Hr; [|done].
    injection Hr as <-. rewrite length_fmap. apply (Hl (d, o)). simpl. by rewrite H1.
Qed.

End fmap3.
