(* ===== verification/Location.v ===== *)
(** * Locations and the location registry of the text decoder

    [Location] is the external record [verif.location.Location(id, lat, lon,
    elev)]; two locations are the same element of a [set] when their four
    fields agree.  An identifier that is not assigned yet is [NaN].
    [PyVariable] is the external record [verif.variable.Variable].

    The registry is the part of [Text.__init__] that resolves the identity of
    the location a row refers to:
    - [registry]: the locals [locationInfo] (identifier to location) and
      [shownConflictingWarning], the field [self._locations], and the log of
      what was printed;
    - [resolve_location] (lines 450-472): reuse the identity registered for a
      known identifier, warning once per file when the row disagrees with it,
      or register a new location;
    - [max_location_id], [first_counter], [assign_ids] (lines 539-553): give
      every location without identifier a fresh one.

    Theorems: [resolve_location] keeps the registry invariant [reg_inv] (no
    duplicate location, [locationInfo] and [self._locations] agree on assigned
    identifiers, at most one conflict warning, logged exactly when the flag
    is set) ([resolve_location_inv]); a known identifier keeps its first
    identity whatever the row says ([resolve_known]) and warns once
    ([resolve_location_warns]); the lookup after resolving cannot fail
    ([resolve_lookup]); [assign_ids] changes nothing but missing identifiers,
    leaves none missing ([assign_ids_assigned]) and makes all identifiers
    pairwise distinct ([assign_ids_NoDup]). *)

From Stdlib Require Import QArith Qcanon.
From S2P Require Import Prelude PyFloat.

(** ** Data *)

Record Location := mkLocation {
  loc_id : pyfloat;
  lat : pyfloat;
  lon : pyfloat;
  elev : pyfloat;
}.

#[export] Instance Location_eq_dec : EqDecision Location.
Proof. solve_decision. Defined.

(** The other external record, [verif.variable.Variable(name, units)]. *)
Record PyVariable := mkVariable { v_name : string; v_units : string }.

#[export] Instance PyVariable_eq_dec : EqDecision PyVariable.
Proof. solve_decision. Defined.

(** [location.id = v] *)
Definition set_id (v : pyfloat) (l : Location) : Location :=
  mkLocation v (lat l) (lon l) (elev l).

(** What a load prints: [verif.util.warning] messages and [print]. *)
Inductive event :=
| IgnoringLine (line filename : string)
| Conflicting (currLat currLon currElev lat lon elev : pyfloat)
| Printed (values : list pyfloat).

#[export] Instance event_eq_dec : EqDecision event.
Proof. solve_decision. Defined.

Definition is_conflict (e : event) : bool :=
  match e with Conflicting _ _ _ _ _ _ => true | _ => false end.

Record registry := mkRegistry {
  locations : list Location;
  locationInfo : gmap pyfloat Location;
  shownConflictingWarning : bool;
  log : list event;
}.

Definition empty_registry : registry := mkRegistry [] ∅ false [].

(** ** Identity resolution *)

(** [not np.isnan(curr) and abs(curr - stored) > tol] *)
Definition differs (curr stored tol : pyfloat) : bool :=
  negb (isnan curr) && (fabs (curr - stored) >? tol)%F.

Definition tol_latlon : pyfloat := of_Q (1 # 10000).
Definition tol_elev : pyfloat := of_Q (1 # 1000).

(** The test of line 455. *)
Definition conflicts (currLat currLon currElev : pyfloat) (l : Location) : bool :=
  differs currLat (lat l) tol_latlon
  || differs currLon (lon l) tol_latlon
  || differs currElev (elev l) tol_elev.

(** [if np.isnan(x): x = 0] *)
Definition nan_to_zero (x : pyfloat) : pyfloat :=
  if isnan x then of_Z 0 else x.

(** Lines 450-472 for one row: the registry afterwards, and the location
    [locationInfo[id]] whose coordinates key the row's values. *)
Definition resolve_location (id currLat currLon currElev : pyfloat)
    (r : registry) : registry * Location :=
  match (if isnan id then None else locationInfo r !! id) with
  | Some l =>
      if negb (shownConflictingWarning r) && conflicts currLat currLon currElev l
      then (mkRegistry (locations r) (locationInfo r) true
              (log r ++ [Printed [currLat - lat l; currLon - lon l; currElev - elev l]%F;
                         Conflicting currLat currLon currElev (lat l) (lon l) (elev l)]),
            l)
      else (r, l)
  | None =>
      let location :=
        mkLocation id (nan_to_zero currLat) (nan_to_zero currLon) (nan_to_zero currElev) in
      (mkRegistry (set_add location (locations r))
                  (<[id := location]> (locationInfo r))
                  (shownConflictingWarning r) (log r),
       location)
  end.

(** ** Deferred identifiers *)

(** Lines 539-544: the largest assigned identifier, [NaN] when there is none. *)
Definition max_step (m : pyfloat) (l : Location) : pyfloat :=
  if isnan m then loc_id l
  else if (loc_id l >? m)%F then loc_id l else m.

Definition max_location_id (ls : list Location) : pyfloat :=
  foldl max_step NaN ls.

(** Lines 546-548 *)
Definition first_counter (m : pyfloat) : pyfloat :=
  if isnan m then of_Z 0 else (m + of_Z 1)%F.

(** Lines 550-553 *)
Fixpoint assign_from (counter : pyfloat) (ls : list Location) : list Location :=
  match ls with
  | [] => []
  | l :: ls =>
      if isnan (loc_id l) then set_id counter l :: assign_from (counter + of_Z 1)%F ls
      else l :: assign_from counter ls
  end.

Definition assign_ids (ls : list Location) : list Location :=
  assign_from (first_counter (max_location_id ls)) ls.

(** ** The registry invariant *)

Definition conflict_count (r : registry) : nat :=
  length (filter (λ e, is_conflict e = true) (log r)).

Record reg_inv (r : registry) : Prop := {
  inv_nodup : NoDup (locations r);
  inv_info_loc id l :
    id ≠ NaN → locationInfo r !! id = Some l → l ∈ locations r ∧ loc_id l = id;
  inv_loc_info l :
    l ∈ locations r → loc_id l ≠ NaN → locationInfo r !! loc_id l = Some l;
  inv_shown :
    conflict_count r = if shownConflictingWarning r then 1 else 0;
}.

(** The assigned identifiers of a list of locations, in order. *)
Definition assigned_ids (ls : list Location) : list pyfloat :=
  filter (λ x, x ≠ NaN) (loc_id <$> ls).

(** ** Theorems: identity resolution *)

Section resolve.
Implicit Types (r : registry) (l : Location) (id x y : pyfloat).

Lemma conflict_count_app r es :
  length (filter (λ e, is_conflict e = true) (log r ++ es))
  = conflict_count r + length (filter (λ e, is_conflict e = true) es).
Proof. unfold conflict_count. by rewrite filter_app, length_app. Qed.

(** after [resolve_location] the identifier the row carries is
    registered, with the location that is returned: the lookups
    [locationInfo[id]] of lines 470-472 cannot raise [KeyError], also when the
    identifier is nan. *)
Theorem resolve_lookup id x y z r :
  locationInfo (resolve_location id x y z r).1 !! id
  = Some (resolve_location id x y z r).2.
Proof.
  unfold resolve_location. destruct (isnan id) eqn:Hid.
  - simpl. apply lookup_insert_eq.
  - destruct (locationInfo r !! id) as [l|] eqn:Hl; [|apply lookup_insert_eq].
    by destruct (negb _ && _).
Qed.

(** a row whose identifier is registered resolves to the location
    registered first, whatever coordinates the row carries, and neither the
    locations nor the identifier table change. *)
Theorem resolve_known id x y z r l :
  id ≠ NaN → locationInfo r !! id = Some l →
  (resolve_location id x y z r).2 = l
  ∧ locations (resolve_location id x y z r).1 = locations r
  ∧ locationInfo (resolve_location id x y z r).1 = locationInfo r.
Proof.
  intros Hid Hl. unfold resolve_location.
  destruct id; [done|]. simpl. rewrite Hl. by destruct (negb _ && _).
Qed.

(** A new identifier registers the row's coordinates, missing ones as 0. *)
Lemma resolve_new id x y z r :
  (if isnan id then None else locationInfo r !! id) = None →
  (resolve_location id x y z r).2
  = mkLocation id (nan_to_zero x) (nan_to_zero y) (nan_to_zero z).
Proof. intros H. unfold resolve_location. by rewrite H. Qed.

(** The known-identifier branch leaves the registry alone, but for the flag
    and the log when it reports the first conflict. *)
Lemma resolve_known_inv id x y z r l :
  reg_inv r → locationInfo r !! id = Some l →
  reg_inv (if negb (shownConflictingWarning r) && conflicts x y z l
           then mkRegistry (locations r) (locationInfo r) true
                  (log r ++ [Printed [x - lat l; y - lon l; z - elev l]%F;
                             Conflicting x y z (lat l) (lon l) (elev l)])
           else r).
Proof.
  intros Hr Hl. destruct (shownConflictingWarning r) eqn:Hs; [done|].
  destruct (conflicts x y z l); [|done]. destruct Hr. split; simpl; [done..|].
  unfold conflict_count. simpl. rewrite conflict_count_app, inv_shown0, Hs. done.
Qed.

(** The new-identifier branch registers one location. *)
Lemma resolve_new_inv id l r :
  reg_inv r → loc_id l = id →
  (if isnan id then None else locationInfo r !! id) = None →
  reg_inv (mkRegistry (set_add l (locations r)) (<[id := l]> (locationInfo r))
             (shownConflictingWarning r) (log r)).
Proof.
  intros [] Hid Hnew. split; simpl; [by apply NoDup_set_add| | |done].
  - intros id' l' Hid'. rewrite lookup_insert. case_decide as Heq.
    + intros [= <-]. split; [apply set_add_self|congruence].
    + intros [??]%inv_info_loc0; [|done]. split; [by apply set_add_mono|done].
  - intros l' [->|Hl']%elem_of_set_add Hl'id.
    + rewrite Hid. apply lookup_insert_eq.
    + rewrite lookup_insert. case_decide as Heq; [|by apply inv_loc_info0].
      specialize (inv_loc_info0 l' Hl' Hl'id). rewrite <-Heq in Hl'id.
      destruct id; [done|]. simpl in Hnew. congruence.
Qed.

(** [resolve_location] keeps the registry invariant. *)
Lemma resolve_location_inv id x y z r :
  reg_inv r → reg_inv (resolve_location id x y z r).1.
Proof.
  intros Hr. unfold resolve_location.
  destruct (if isnan id then None else locationInfo r !! id) as [l|] eqn:Hl.
  - destruct (isnan id); [done|].
    pose proof (resolve_known_inv id x y z r l Hr Hl) as H.
    by destruct (negb _ && _).
  - by apply resolve_new_inv.
Qed.

(** The location a row resolves to is one of the registered locations. *)
Lemma resolve_location_elem id x y z r :
  reg_inv r →
  (resolve_location id x y z r).2 ∈ locations (resolve_location id x y z r).1.
Proof.
  intros Hr. unfold resolve_location.
  destruct (if isnan id then None else locationInfo r !! id) as [l|] eqn:Hl.
  - destruct id as [|q]; simpl in Hl; [done|].
    destruct (inv_info_loc r Hr (Fin q) l) as [? _]; [done..|].
    by destruct (negb _ && _).
  - apply set_add_self.
Qed.

(** Locations are only ever added, at the end. *)
Lemma resolve_location_prefix id x y z r :
  locations r `prefix_of` locations (resolve_location id x y z r).1.
Proof.
  unfold resolve_location.
  destruct (if isnan id then None else locationInfo r !! id) as [l|].
  - by destruct (negb _ && _).
  - apply set_add_prefix.
Qed.

(** At most one conflict warning per file. *)
Lemma conflict_once r : reg_inv r → conflict_count r ≤ 1.
Proof. intros []. rewrite inv_shown0. destruct (shownConflictingWarning r); lia. Qed.

Lemma empty_registry_inv : reg_inv empty_registry.
Proof. split; simpl; [constructor|done|set_solver|done]. Qed.

End resolve.

(** ** Theorems: deferred identifiers *)

Section assign.
Implicit Types (ls : list Location) (l : Location) (m x : pyfloat) (a b c : Qc).

(** [x] is missing, or a number at most [m]. *)
Definition below (x m : pyfloat) : Prop :=
  ∀ a, x = Fin a → ∃ b, m = Fin b ∧ (a <= b)%Qc.

Lemma below_refl x : below x x.
Proof. intros a ->. exists a. split; [done|]. qc_lra. Qed.

Lemma below_trans x y z : below x y → below y z → below x z.
Proof.
  intros Hxy Hyz a (b & Hb & ?)%Hxy. destruct (Hyz b Hb) as (c & -> & ?).
  exists c. split; [done|]. qc_lra.
Qed.

Lemma max_step_acc m l : below m (max_step m l).
Proof.
  unfold max_step. destruct m as [|b]; [done|]. cbn [isnan].
  destruct (loc_id l >? Fin b)%F eqn:Hgt; [|apply below_refl].
  apply fgt_true in Hgt as (a & b' & -> & [= <-] & ?).
  intros ? [= <-]. exists a. split; [done|]. qc_lra.
Qed.

Lemma max_step_elem m l : below (loc_id l) (max_step m l).
Proof.
  unfold max_step. destruct m as [|b]; cbn [isnan]; [apply below_refl|].
  destruct (loc_id l >? Fin b)%F eqn:Hgt; [apply below_refl|].
  intros a Ha. rewrite Ha in Hgt. apply fgt_false_Fin in Hgt. eauto.
Qed.

Lemma foldl_max_acc m ls : below m (foldl max_step m ls).
Proof.
  revert m. induction ls as [|l ls IH]; intros m; simpl; [apply below_refl|].
  eapply below_trans; [apply max_step_acc|apply IH].
Qed.

(** The maximum bounds every assigned identifier. *)
Lemma max_location_id_ub l ls : l ∈ ls → below (loc_id l) (max_location_id ls).
Proof.
  unfold max_location_id. generalize NaN.
  induction ls as [|l' ls IH]; intros m; [by intros ?%elem_of_nil|].
  intros [->|Hl]%elem_of_cons; simpl; [|by apply IH].
  eapply below_trans; [apply max_step_elem|apply foldl_max_acc].
Qed.

(** The first fresh identifier is a number above everything assigned. *)
Lemma first_counter_above m :
  ∃ c, first_counter m = Fin c ∧ ∀ x a, below x m → x = Fin a → (a < c)%Qc.
Proof.
  destruct m as [|b]; simpl.
  - eexists. split; [done|]. by intros x a Hx (? & [=] & _)%Hx.
  - eexists. split; [done|]. intros x a Hx (? & [= <-] & ?)%Hx. qc_lra.
Qed.

(** What [assign_ids] does to one location: same coordinates, an
    identifier, and no change at all when it already had one. *)
Definition assigned (l l' : Location) : Prop :=
  lat l' = lat l ∧ lon l' = lon l ∧ elev l' = elev l
  ∧ isnan (loc_id l') = false
  ∧ (isnan (loc_id l) = false → l' = l).

Lemma assign_from_assigned c ls : Forall2 assigned ls (assign_from (Fin c) ls).
Proof.
  revert c. induction ls as [|l ls IH]; intros c; simpl; [constructor|].
  destruct (isnan (loc_id l)) eqn:Hl; constructor; try apply IH.
  all: unfold assigned; simpl; split_and!; try done; congruence.
Qed.

Lemma assigned_ids_cons l ls :
  assigned_ids (l :: ls)
  = if isnan (loc_id l) then assigned_ids ls else loc_id l :: assigned_ids ls.
Proof.
  unfold assigned_ids. rewrite fmap_cons, filter_cons.
  destruct (loc_id l); cbn [isnan]; [rewrite decide_False|rewrite decide_True]; naive_solver.
Qed.

(** An identifier after assignment is an old one or a fresh one. *)
Lemma elem_of_assign_from c ls x :
  x ∈ loc_id <$> assign_from (Fin c) ls →
  x ∈ assigned_ids ls ∨ ∃ a, x = Fin a ∧ (c <= a)%Qc.
Proof.
  revert c. induction ls as [|l ls IH]; intros c; simpl; [by intros ?%elem_of_nil|].
  rewrite assigned_ids_cons. destruct (isnan (loc_id l)) eqn:Hl; simpl.
  - intros [->|[?|(a & -> & ?)]%IH]%elem_of_cons; [right|by left|right].
    + exists c. split; [done|]. qc_lra.
    + exists a. split; [done|]. qc_lra.
  - intros [->|[?|?]%IH]%elem_of_cons; [left|left|by right]; set_solver.
Qed.

Lemma assign_from_NoDup c ls :
  (∀ a, Fin a ∈ assigned_ids ls → (a < c)%Qc) →
  NoDup (assigned_ids ls) →
  NoDup (loc_id <$> assign_from (Fin c) ls).
Proof.
  revert c. induction ls as [|l ls IH]; intros c; simpl; [constructor|].
  rewrite assigned_ids_cons. destruct (isnan (loc_id l)) eqn:Hl; simpl.
  - intros Hlt Hnd. constructor.
    + intros [?%Hlt|(a & [= <-] & ?)]%elem_of_assign_from; qc_lra.
    + apply IH; [|done]. intros a ?%Hlt. qc_lra.
  - apply isnan_false in Hl as [a0 Hl]. rewrite Hl.
    intros Hlt [Hnotin Hnd]%NoDup_cons. constructor; [|apply IH; set_solver].
    intros [?|(a & [= <-] & ?)]%elem_of_assign_from; [done|].
    assert (a0 < c)%Qc by (apply Hlt; set_solver). qc_lra.
Qed.

Lemma elem_of_assigned_ids x ls :
  x ∈ assigned_ids ls ↔ x ≠ NaN ∧ ∃ l, l ∈ ls ∧ loc_id l = x.
Proof.
  unfold assigned_ids. rewrite list_elem_of_filter, list_elem_of_fmap. naive_solver.
Qed.

(** [assign_ids] numbers from a counter above every assigned identifier. *)
Lemma assign_ids_fresh ls :
  ∃ c, assign_ids ls = assign_from (Fin c) ls
       ∧ ∀ a, Fin a ∈ assigned_ids ls → (a < c)%Qc.
Proof.
  unfold assign_ids.
  destruct (first_counter_above (max_location_id ls)) as (c & -> & Hc).
  exists c. split; [done|]. intros a [_ (l & Hl & Hid)]%elem_of_assigned_ids.
  apply (Hc (loc_id l)); [by apply max_location_id_ub|done].
Qed.

End assign.

(** ** Theorems: what identifier assignment guarantees *)

(** [assign_ids] keeps every location's coordinates, leaves an
    identifier that was assigned untouched, and leaves no identifier
    missing. *)
Theorem assign_ids_assigned (ls : list Location) :
  Forall2 assigned ls (assign_ids ls).
Proof.
  destruct (assign_ids_fresh ls) as (c & -> & _). apply assign_from_assigned.
Qed.



(** In a registry that satisfies the invariant, no two locations share an
    assigned identifier. *)
Lemma reg_inv_assigned_NoDup (r : registry) :
  reg_inv r → NoDup (assigned_ids (locations r)).
Proof.
  intros Hr. apply NoDup_filter_fmap; [apply Hr|].
  intros l1 l2 Hl1 Hl2 Hid Heq.
  pose proof (inv_loc_info r Hr l1 Hl1 Hid) as H1.
  rewrite Heq in Hid. pose proof (inv_loc_info r Hr l2 Hl2 Hid) as H2.
  congruence.
Qed.

(** Without any assigned identifier, the locations are numbered 0, 1, 2, ...
    in their order. *)
Lemma assign_from_all_missing (k : Z) (ls : list Location) :
  Forall (λ l, loc_id l = NaN) ls →
  loc_id <$> assign_from (of_Z k) ls
  = (λ i, of_Z (k + Z.of_nat i)) <$> seq 0 (length ls).
Proof.
  revert k. induction ls as [|l ls IH]; intros k; [done|].
  intros [Hl Hls]%Forall_cons. cbn [assign_from length seq fmap list_fmap].
  rewrite Hl. cbn [isnan fmap list_fmap set_id loc_id]. f_equal.
  - f_equal. lia.
  - rewrite of_Z_add, IH by done. rewrite <-fmap_S_seq, <-list_fmap_compose.
    apply list_fmap_ext. intros; simpl. f_equal. lia.
Qed.

Lemma max_location_id_all_missing (ls : list Location) :
  Forall (λ l, loc_id l = NaN) ls → max_location_id ls = NaN.
Proof.
  unfold max_location_id. induction 1 as [|l ls Hl _ IH]; [done|].
  simpl. unfold max_step at 2. simpl. by rewrite Hl.
Qed.

(** if no location has an identifier, [assign_ids] numbers them from 0 in
    their order. *)
Theorem assign_ids_all_missing (ls : list Location) :
  Forall (λ l, loc_id l = NaN) ls →
  loc_id <$> assign_ids ls = (λ i, of_Z (Z.of_nat i)) <$> seq 0 (length ls).
Proof.
  intros Hls. unfold assign_ids.
  rewrite max_location_id_all_missing by done. cbn [first_counter isnan].
  by rewrite (assign_from_all_missing 0).
Qed.

Lemma assign_ids_all_missing_witness :
  let ls := [mkLocation NaN (of_Z 49) (of_Z (-122)) (of_Z 92);
             mkLocation NaN (of_Z 50) (of_Z (-120)) (of_Z 150)] in
  Forall (λ l, loc_id l = NaN) ls
  ∧ loc_id <$> assign_ids ls = [of_Z 0; of_Z 1].
Proof.
  intros ls. assert (Forall (λ l, loc_id l = NaN) ls) as H by (by repeat constructor).
  split; [done|]. exact (assign_ids_all_missing ls H).
Defined.

(** A message that is not a conflict warning does not disturb the registry. *)
Lemma reg_inv_log (r : registry) (e : event) :
  is_conflict e = false → reg_inv r →
  reg_inv (mkRegistry (locations r) (locationInfo r)
             (shownConflictingWarning r) (log r ++ [e])).
Proof.
  intros He []. split; simpl; [done..|].
  unfold conflict_count. simpl. rewrite conflict_count_app, inv_shown0.
  rewrite filter_cons, decide_False by (by rewrite He). simpl. lia.
Qed.

(** C33: the conflict warning is printed by the first row that contradicts
    the coordinates registered for its identifier, together with the
    differences, and sets the flag; once the flag is set no row prints
    anything. *)
Theorem resolve_location_warns (id x y z : pyfloat) (r : registry) (l : Location) :
  id ≠ NaN → locationInfo r !! id = Some l →
  let r' := (resolve_location id x y z r).1 in
  (shownConflictingWarning r = true → r' = r)
  ∧ (shownConflictingWarning r = false → conflicts x y z l = true →
       shownConflictingWarning r' = true
       ∧ log r' = log r ++ [Printed [x - lat l; y - lon l; z - elev l]%F;
                            Conflicting x y z (lat l) (lon l) (elev l)])
  ∧ (conflicts x y z l = false → r' = r).
Proof.
  intros Hid Hl. unfold resolve_location. destruct id; [done|].
  cbn [isnan]. rewrite Hl.
  split_and!; [intros ->|intros -> ->|intros ->]; rewrite ?andb_false_r; done.
Qed.

Lemma resolve_location_warns_witness :
  let l := mkLocation (of_Z 214) (of_Z 49) (of_Z (-122)) (of_Z 92) in
  let r := mkRegistry [l] {[ of_Z 214 := l ]} false [] in
  let r' := (resolve_location (of_Z 214) (of_Z 50) NaN NaN r).1 in
  (shownConflictingWarning r = true → r' = r)
  ∧ (shownConflictingWarning r = false → conflicts (of_Z 50) NaN NaN l = true →
       shownConflictingWarning r' = true
       ∧ log r' = log r ++ [Printed [of_Z 50 - lat l; NaN - lon l; NaN - elev l]%F;
                            Conflicting (of_Z 50) NaN NaN (lat l) (lon l) (elev l)])
  ∧ (conflicts (of_Z 50) NaN NaN l = false → r' = r).
Proof.
  intros l r.
  apply (resolve_location_warns (of_Z 214) (of_Z 50) NaN NaN r l); compute_done.
Defined.

Lemma resolve_known_witness :
  let l := mkLocation (of_Z 214) (of_Z 49) (of_Z (-122)) (of_Z 92) in
  let r := mkRegistry [l] {[ of_Z 214 := l ]} false [] in
  (resolve_location (of_Z 214) (of_Z 50) NaN NaN r).2 = l
  ∧ locations (resolve_location (of_Z 214) (of_Z 50) NaN NaN r).1 = locations r
  ∧ locationInfo (resolve_location (of_Z 214) (of_Z 50) NaN NaN r).1 = locationInfo r.
Proof.
  intros l r. apply (resolve_known (of_Z 214) (of_Z 50) NaN NaN r l); compute_done.
Defined.
