(* ===== verification/TextParse.v ===== *)
(** * The text decoder, first pass: parsing

    [Text.__init__] (lines 350-489 of [input.py]) reads the file line by line
    into sparse tables.  The model:
    - [state]: the locals and [self._*] fields the loop updates ([reg] holds
      the four that make the location registry);
    - [clean] ([Text._clean]), [get_quantile_fields], [get_threshold_fields];
    - [parse_comment] (lines 386-394), [parse_header] (lines 399-424) and
      [process_row] (lines 426-489), the three handlers of a line;
    - [process_line], the loop body, and [parse_lines], the loop.

    A file is the list of its lines, as iterating the file object yields them
    (each with its newline).

    The parser is a machine with two phases ([phase]): Header-pending until
    the first line that is not a comment, Data-row from then on.  [step] is its
    transition relation and [reachable] the states a file can produce.

    Theorems: the header is read once and never changes
    ([header_fixed]); the state invariant [state_inv] holds in every reachable
    state ([reachable_inv]); a row of the wrong arity ends the load
    ([process_row_arity]); a successful row stores its values under the key
    of the location it resolves to ([process_row_stores]); a [variable:]
    comment sets the name ([parse_comment_variable]).  The errors a file can
    end in are the subject of [TextErrors].  The sample file [scenario] is
    the input of the witnesses. *)

From Stdlib Require Import Ascii.
From S2P Require Import Prelude PyFloat PyString Location.

Local Open Scope string_scope.

(** ** State *)

(** [(date, offset, lat, lon, elev)] and the same with a quantile or a
    threshold appended. *)
Abbreviation key5 := (pyfloat * pyfloat * pyfloat * pyfloat * pyfloat)%type.
Abbreviation key6 := (key5 * pyfloat)%type.

Record state := mkState {
  units : string;
  variable : string;
  dates : list pyfloat;
  offsets : list pyfloat;
  quantiles : list pyfloat;
  thresholds : list pyfloat;
  obs : gmap key5 pyfloat;
  fcst : gmap key5 pyfloat;
  pit : gmap key5 pyfloat;
  x : gmap key6 pyfloat;
  cdf : gmap key6 pyfloat;
  indices : gmap string nat;
  header : option (list string);
  reg : registry;
}.

(** Lines 354-380 *)
Definition initial_state : state := {|
  units := "Unknown units"; variable := "Unknown";
  dates := []; offsets := []; quantiles := []; thresholds := [];
  obs := ∅; fcst := ∅; pit := ∅; x := ∅; cdf := ∅;
  indices := ∅; header := None; reg := empty_registry;
|}.

(** Assignments to one variable of the state. *)
Definition set_units (v : string) (s : state) : state :=
  mkState v (variable s) (dates s) (offsets s) (quantiles s) (thresholds s)
    (obs s) (fcst s) (pit s) (x s) (cdf s) (indices s) (header s) (reg s).
Definition set_variable (v : string) (s : state) : state :=
  mkState (units s) v (dates s) (offsets s) (quantiles s) (thresholds s)
    (obs s) (fcst s) (pit s) (x s) (cdf s) (indices s) (header s) (reg s).
Definition set_dates (v : list pyfloat) (s : state) : state :=
  mkState (units s) (variable s) v (offsets s) (quantiles s) (thresholds s)
    (obs s) (fcst s) (pit s) (x s) (cdf s) (indices s) (header s) (reg s).
Definition set_offsets (v : list pyfloat) (s : state) : state :=
  mkState (units s) (variable s) (dates s) v (quantiles s) (thresholds s)
    (obs s) (fcst s) (pit s) (x s) (cdf s) (indices s) (header s) (reg s).
Definition set_quantiles (v : list pyfloat) (s : state) : state :=
  mkState (units s) (variable s) (dates s) (offsets s) v (thresholds s)
    (obs s) (fcst s) (pit s) (x s) (cdf s) (indices s) (header s) (reg s).
Definition set_thresholds (v : list pyfloat) (s : state) : state :=
  mkState (units s) (variable s) (dates s) (offsets s) (quantiles s) v
    (obs s) (fcst s) (pit s) (x s) (cdf s) (indices s) (header s) (reg s).
Definition set_obs (v : gmap key5 pyfloat) (s : state) : state :=
  mkState (units s) (variable s) (dates s) (offsets s) (quantiles s) (thresholds s)
    v (fcst s) (pit s) (x s) (cdf s) (indices s) (header s) (reg s).
Definition set_fcst (v : gmap key5 pyfloat) (s : state) : state :=
  mkState (units s) (variable s) (dates s) (offsets s) (quantiles s) (thresholds s)
    (obs s) v (pit s) (x s) (cdf s) (indices s) (header s) (reg s).
Definition set_pit (v : gmap key5 pyfloat) (s : state) : state :=
  mkState (units s) (variable s) (dates s) (offsets s) (quantiles s) (thresholds s)
    (obs s) (fcst s) v (x s) (cdf s) (indices s) (header s) (reg s).
Definition set_x (v : gmap key6 pyfloat) (s : state) : state :=
  mkState (units s) (variable s) (dates s) (offsets s) (quantiles s) (thresholds s)
    (obs s) (fcst s) (pit s) v (cdf s) (indices s) (header s) (reg s).
Definition set_cdf (v : gmap key6 pyfloat) (s : state) : state :=
  mkState (units s) (variable s) (dates s) (offsets s) (quantiles s) (thresholds s)
    (obs s) (fcst s) (pit s) (x s) v (indices s) (header s) (reg s).
Definition set_header (h : list string) (ind : gmap string nat) (s : state) : state :=
  mkState (units s) (variable s) (dates s) (offsets s) (quantiles s) (thresholds s)
    (obs s) (fcst s) (pit s) (x s) (cdf s) ind (Some h) (reg s).
Definition set_reg (v : registry) (s : state) : state :=
  mkState (units s) (variable s) (dates s) (offsets s) (quantiles s) (thresholds s)
    (obs s) (fcst s) (pit s) (x s) (cdf s) (indices s) (header s) v.

(** [verif.util.warning(..)] *)
Definition warn (e : event) (s : state) : state :=
  set_reg (mkRegistry (locations (reg s)) (locationInfo (reg s))
             (shownConflictingWarning (reg s)) (log (reg s) ++ [e])%list) s.

(** ** Helpers of the class *)

(** [Text._clean] (lines 570-574): parse, and turn -999 into nan. *)
Definition clean (value : string) : res pyfloat :=
  fvalue ← float_of_string value;
  Ok (if (fvalue ==? of_Z (-999))%F then NaN else fvalue).

(** [Text._get_quantile_fields] (lines 576-581) *)
Definition get_quantile_fields (fields : list string) : res (list string) :=
  foldlM (λ quantiles att,
    c ← first_char att;
    Ok (if decide (c = "q"%char) then (quantiles ++ [att])%list else quantiles))
    [] fields.

(** [Text._get_threshold_fields] (lines 583-588) *)
Definition get_threshold_fields (fields : list string) : res (list string) :=
  foldlM (λ thresholds att,
    c ← first_char att;
    Ok (if decide (c = "p"%char ∧ att ≠ "pit") then (thresholds ++ [att])%list
        else thresholds)) [] fields.

(** ** Comment lines (lines 386-394) *)

Definition parse_comment (filename rowstr : string) (s : state) : res state :=
  let curr := split (tail rowstr) in
  c0 ← list_index curr 0;
  if decide (c0 = "variable:") then Ok (set_variable (join " " (drop 1 curr)) s)
  else if decide (c0 = "units:") then
    c1 ← list_index curr 1; Ok (set_units c1 s)
  else Ok (warn (IgnoringLine (strip rowstr) filename) s).

(** ** The header line (lines 399-424) *)

(** Lines 401-417, [att = header[i]] and the chain: every branch stores
    [indices[att] = i]. *)
Definition index_step (header : list string) (ind : gmap string nat) (i : nat) :
    gmap string nat :=
  match header !! i with Some att => <[att := i]> ind | None => ind end.

(** Lines 400-417 *)
Definition index_columns (header : list string) (ind : gmap string nat) :
    gmap string nat :=
  foldl (index_step header) ind (seq 0 (length header)).

Definition requiredColumns : list string := ["obs"; "fcst"].

(** Lines 420-424 *)
Definition check_required (filename : string) (ind : gmap string nat) : res () :=
  foldlM (λ _ col,
    match ind !! col with
    | Some _ => Ok ()
    | None => Err (UtilError (MissingColumn filename col))
    end) () requiredColumns.

Definition parse_header (filename : string) (row : list string) (s : state) :
    res state :=
  let ind := index_columns row (indices s) in
  _ ← check_required filename ind;
  Ok (set_header row ind s).

(** ** Data rows (lines 426-489) *)

(** [len(row) is not len(header)]: identity of two integer objects.  CPython
    shares the integers up to 256; above, two calls of [len] give two
    objects. *)
Definition len_is_not (n m : nat) : bool :=
  negb (bool_decide (n = m ∧ n ≤ 256)%nat).

(** [self._clean(row[indices[name]])] *)
Definition field (s : state) (row : list string) (name : string) : res pyfloat :=
  i ← result_of_option (Raised KeyError) (indices s !! name);
  value ← list_index row i;
  clean value.

(** [if name in indices: v = self._clean(row[indices[name]])], the variable
    keeping its earlier value otherwise. *)
Definition field_or (s : state) (row : list string) (name : string)
    (earlier : pyfloat) : res pyfloat :=
  match indices s !! name with
  | Some _ => field s row name
  | None => Ok earlier
  end.

(** Lines 478-479 *)
Definition store_pit (row : list string) (key : key5) (s : state) : res state :=
  match indices s !! "pit" with
  | Some _ => v ← field s row "pit"; Ok (set_pit (<[key := v]> (pit s)) s)
  | None => Ok s
  end.

(** Lines 480-484, the body of the loop over the quantile columns. *)
Definition store_quantile (row : list string) (key : key5) (s : state)
    (fld : string) : res state :=
  quantile ← float_of_string (tail fld);
  let s := set_quantiles (set_add quantile (quantiles s)) s in
  v ← field s row fld;
  Ok (set_x (<[(key, quantile) := v]> (x s)) s).

(** Lines 485-489, the body of the loop over the threshold columns. *)
Definition store_threshold (row : list string) (key : key5) (s : state)
    (fld : string) : res state :=
  threshold ← float_of_string (tail fld);
  let s := set_thresholds (set_add threshold (thresholds s)) s in
  v ← field s row fld;
  Ok (set_cdf (<[(key, threshold) := v]> (cdf s)) s).

(** The key of the row: its date and offset and the coordinates of the
    location it resolves to (line 473). *)
Definition row_key (date offset : pyfloat) (l : Location) : key5 :=
  (date, offset, lat l, lon l, elev l).

(** Lines 426-489.  The locals [date] and [offset] are 0 from line 373 on and
    are assigned only when the column exists; [indices] does not change once
    the header is read, so each row sees either its own value or 0. *)
Definition process_row (rowstr : string) (row hdr : list string) (s : state) :
    res state :=
  if len_is_not (length row) (length hdr)
  then Err (UtilError (IncorrectColumns (length hdr) (strip rowstr)))
  else
    date ← field_or s row "date" (of_Z 0);
    let s := set_dates (set_add date (dates s)) s in
    offset ← field_or s row "offset" (of_Z 0);
    let s := set_offsets (set_add offset (offsets s)) s in
    id ← field_or s row "id" NaN;
    currLat ← field_or s row "lat" NaN;
    currLon ← field_or s row "lon" NaN;
    currElev ← field_or s row "elev" NaN;
    let rl := resolve_location id currLat currLon currElev (reg s) in
    let s := set_reg rl.1 s in
    let key := row_key date offset rl.2 in
    o ← field s row "obs";
    let s := set_obs (<[key := o]> (obs s)) s in
    f ← field s row "fcst";
    let s := set_fcst (<[key := f]> (fcst s)) s in
    quantileFields ← get_quantile_fields hdr;
    thresholdFields ← get_threshold_fields hdr;
    s ← store_pit row key s;
    s ← foldlM (store_quantile row key) s quantileFields;
    foldlM (store_threshold row key) s thresholdFields.

(** ** The loop (lines 385-489) *)

Definition process_line (filename : string) (s : state) (rowstr : string) :
    res state :=
  c ← first_char rowstr;
  if decide (c = "#"%char) then parse_comment filename rowstr s
  else
    let row := split rowstr in
    match header s with
    | None => parse_header filename row s
    | Some hdr => process_row rowstr row hdr s
    end.

Definition parse_lines (filename : string) (lines : list string) : res state :=
  foldlM (process_line filename) initial_state lines.

(** ** The parser as a state machine *)

Inductive phase := HeaderPending | DataRow.

Definition phase_of (s : state) : phase :=
  match header s with None => HeaderPending | Some _ => DataRow end.

(** One line read without error. *)
Inductive step (filename : string) : state → state → Prop :=
| step_line s rowstr s' :
    process_line filename s rowstr = Ok s' → step filename s s'.

Definition reachable (filename : string) (s : state) : Prop :=
  rtc (step filename) initial_state s.

(** ** The state invariant *)

(** A key of the sparse tables is made of registered coordinates. *)
Definition key_in (ds os : list pyfloat) (ls : list Location) (k : key5) : Prop :=
  let '(d, o, la, lo, e) := k in
  d ∈ ds ∧ o ∈ os ∧ ∃ l, l ∈ ls ∧ lat l = la ∧ lon l = lo ∧ elev l = e.

Abbreviation key_ok s k := (key_in (dates s) (offsets s) (locations (reg s)) k).

(** What holds of the header and the column positions: before the header
    there are none, after it they are the ones its line gave. *)
Definition header_ok (header : option (list string)) (indices : gmap string nat) :
    Prop :=
  match header with
  | None => indices = ∅
  | Some hdr =>
      Forall token hdr
      ∧ indices = index_columns hdr ∅
      ∧ is_Some (indices !! "obs") ∧ is_Some (indices !! "fcst")
  end.

Abbreviation header_inv s := (header_ok (header s) (indices s)).

Record state_inv (s : state) : Prop := {
  inv_reg : reg_inv (reg s);
  inv_dates : NoDup (dates s);
  inv_offsets : NoDup (offsets s);
  inv_quantiles : NoDup (quantiles s);
  inv_thresholds : NoDup (thresholds s);
  inv_obs k : is_Some (obs s !! k) → key_ok s k;
  inv_fcst k : is_Some (fcst s !! k) → key_ok s k;
  inv_pit k : is_Some (pit s !! k) → key_ok s k;
  inv_x k q : is_Some (x s !! (k, q)) → key_ok s k ∧ q ∈ quantiles s;
  inv_cdf k t : is_Some (cdf s !! (k, t)) → key_ok s k ∧ t ∈ thresholds s;
  inv_header : header_inv s;
}.

(** [s'] has the coordinates of [s], maybe more, and the same header. *)
Record extends (s s' : state) : Prop := {
  ext_dates : dates s ⊆ dates s';
  ext_offsets : offsets s ⊆ offsets s';
  ext_quantiles : quantiles s ⊆ quantiles s';
  ext_thresholds : thresholds s ⊆ thresholds s';
  ext_locations : locations (reg s) ⊆ locations (reg s');
  ext_header : header s' = header s;
  ext_indices : indices s' = indices s;
}.

#[export] Instance extends_preorder : PreOrder extends.
Proof.
  split.
  - by intros s; split.
  - intros s1 s2 s3 [] []. split; try (by etrans); congruence.
Qed.

Lemma key_ok_extends s s' k : extends s s' → key_ok s k → key_ok s' k.
Proof.
  intros [] Hk. destruct k as [[[[d o] la] lo] e].
  destruct Hk as (? & ? & l & ? & ?). split_and!; [set_solver..|].
  exists l. split; [set_solver|done].
Qed.

Lemma header_inv_extends s s' : extends s s' → header_inv s → header_inv s'.
Proof. intros []. by rewrite ext_header0, ext_indices0. Qed.

(** ** The header *)

Section header.
Implicit Types (hdr : list string) (ind : gmap string nat) (name : string).

Lemma index_go_Some hdr k n ind name i :
  foldl (index_step hdr) ind (seq k n) !! name = Some i →
  ind !! name = Some i ∨ hdr !! i = Some name.
Proof.
  revert k ind. induction n as [|n IH]; intros k ind; simpl; [by left|].
  intros [H|H]%IH; [|by right]. unfold index_step in H.
  destruct (hdr !! k) as [att|] eqn:Hk; [|by left].
  apply lookup_insert_Some in H as [[-> ->]|[_ ?]]; [by right|by left].
Qed.

Lemma index_go_mono hdr k n ind name :
  is_Some (ind !! name) → is_Some (foldl (index_step hdr) ind (seq k n) !! name).
Proof.
  revert k ind. induction n as [|n IH]; intros k ind Hn; simpl; [done|].
  apply IH. unfold index_step. destruct (hdr !! k); [|done].
  rewrite lookup_insert_is_Some'. by right.
Qed.

Lemma index_go_dom hdr k n ind name i :
  k ≤ i < k + n → hdr !! i = Some name →
  is_Some (foldl (index_step hdr) ind (seq k n) !! name).
Proof.
  revert k ind. induction n as [|n IH]; intros k ind Hi Hname; simpl; [lia|].
  destruct (decide (i = k)) as [->|]; [|apply (IH (S k)); [lia|done]].
  apply index_go_mono. unfold index_step. rewrite Hname.
  rewrite lookup_insert_is_Some'. by left.
Qed.

(** A column position is a position of the header that holds the name. *)
Lemma index_columns_Some hdr name i :
  index_columns hdr ∅ !! name = Some i → hdr !! i = Some name.
Proof. by intros [?|?]%index_go_Some. Qed.

(** Every token of the header has a position. *)
Lemma index_columns_dom hdr name :
  name ∈ hdr → is_Some (index_columns hdr ∅ !! name).
Proof.
  intros [i Hi]%list_elem_of_lookup. eapply index_go_dom; [|done].
  apply lookup_lt_Some in Hi. lia.
Qed.

(** Under the invariant a position holds its name, and every name has one. *)
Lemma header_ok_position hdr ind name i :
  header_ok (Some hdr) ind → ind !! name = Some i → hdr !! i = Some name.
Proof. intros (_ & -> & _). apply index_columns_Some. Qed.

Lemma header_ok_dom hdr ind name :
  header_ok (Some hdr) ind → name ∈ hdr → is_Some (ind !! name).
Proof. intros (_ & -> & _). apply index_columns_dom. Qed.

Lemma check_required_Ok filename ind :
  check_required filename ind = Ok () ↔
  is_Some (ind !! "obs") ∧ is_Some (ind !! "fcst").
Proof.
  unfold check_required. simpl.
  destruct (ind !! "obs"), (ind !! "fcst"); simpl; naive_solver.
Qed.

End header.

(** ** Each assignment keeps the invariant *)

Section setters.
Implicit Types (s : state) (k : key5) (v q : pyfloat).

(** New coordinates, same tables. *)
Lemma state_inv_coords s s' :
  state_inv s → extends s s' → reg_inv (reg s') →
  NoDup (dates s') → NoDup (offsets s') →
  NoDup (quantiles s') → NoDup (thresholds s') →
  obs s' = obs s → fcst s' = fcst s → pit s' = pit s →
  x s' = x s → cdf s' = cdf s →
  state_inv s'.
Proof.
  intros [] Hext ????? Ho Hf Hp Hx Hc.
  split; rewrite ?Ho, ?Hf, ?Hp, ?Hx, ?Hc; try done.
  - intros k ?%inv_obs0. by eapply key_ok_extends.
  - intros k ?%inv_fcst0. by eapply key_ok_extends.
  - intros k ?%inv_pit0. by eapply key_ok_extends.
  - intros k q [??]%inv_x0. split; [by eapply key_ok_extends|].
    by apply (ext_quantiles _ _ Hext).
  - intros k q [??]%inv_cdf0. split; [by eapply key_ok_extends|].
    by apply (ext_thresholds _ _ Hext).
  - by eapply header_inv_extends.
Qed.

Lemma extends_set_dates s v : extends s (set_dates (set_add v (dates s)) s).
Proof. split; simpl; try done. intros ?. apply set_add_mono. Qed.

Lemma extends_set_offsets s v : extends s (set_offsets (set_add v (offsets s)) s).
Proof. split; simpl; try done. intros ?. apply set_add_mono. Qed.

Lemma extends_set_quantiles s v :
  extends s (set_quantiles (set_add v (quantiles s)) s).
Proof. split; simpl; try done. intros ?. apply set_add_mono. Qed.

Lemma extends_set_thresholds s v :
  extends s (set_thresholds (set_add v (thresholds s)) s).
Proof. split; simpl; try done. intros ?. apply set_add_mono. Qed.

Lemma extends_resolve s id a b c :
  extends s (set_reg (resolve_location id a b c (reg s)).1 s).
Proof.
  split; simpl; try done. intros l Hl.
  destruct (resolve_location_prefix id a b c (reg s)) as [k ->]. set_solver.
Qed.

Lemma state_inv_set_dates s v :
  state_inv s → state_inv (set_dates (set_add v (dates s)) s).
Proof.
  intros Hs. eapply state_inv_coords; [done|apply extends_set_dates|..]; simpl;
    try done; try apply Hs. apply NoDup_set_add, Hs.
Qed.

Lemma state_inv_set_offsets s v :
  state_inv s → state_inv (set_offsets (set_add v (offsets s)) s).
Proof.
  intros Hs. eapply state_inv_coords; [done|apply extends_set_offsets|..]; simpl;
    try done; try apply Hs. apply NoDup_set_add, Hs.
Qed.

Lemma state_inv_set_quantiles s v :
  state_inv s → state_inv (set_quantiles (set_add v (quantiles s)) s).
Proof.
  intros Hs. eapply state_inv_coords; [done|apply extends_set_quantiles|..]; simpl;
    try done; try apply Hs. apply NoDup_set_add, Hs.
Qed.

Lemma state_inv_set_thresholds s v :
  state_inv s → state_inv (set_thresholds (set_add v (thresholds s)) s).
Proof.
  intros Hs. eapply state_inv_coords; [done|apply extends_set_thresholds|..]; simpl;
    try done; try apply Hs. apply NoDup_set_add, Hs.
Qed.

Lemma state_inv_resolve s id a b c :
  state_inv s → state_inv (set_reg (resolve_location id a b c (reg s)).1 s).
Proof.
  intros Hs. eapply state_inv_coords; [done|apply extends_resolve|..]; simpl;
    try done; try apply Hs. apply resolve_location_inv, Hs.
Qed.

(** A value stored under a key of registered coordinates. *)
Lemma state_inv_set_obs s k v :
  state_inv s → key_ok s k → state_inv (set_obs (<[k := v]> (obs s)) s).
Proof.
  intros [] Hk. split; simpl; auto.
  intros k'. rewrite lookup_insert_is_Some. intros [<-|[_ ?]]; auto.
Qed.

Lemma state_inv_set_fcst s k v :
  state_inv s → key_ok s k → state_inv (set_fcst (<[k := v]> (fcst s)) s).
Proof.
  intros [] Hk. split; simpl; auto.
  intros k'. rewrite lookup_insert_is_Some. intros [<-|[_ ?]]; auto.
Qed.

Lemma state_inv_set_pit s k v :
  state_inv s → key_ok s k → state_inv (set_pit (<[k := v]> (pit s)) s).
Proof.
  intros [] Hk. split; simpl; auto.
  intros k'. rewrite lookup_insert_is_Some. intros [<-|[_ ?]]; auto.
Qed.

Lemma state_inv_set_x s k q v :
  state_inv s → key_ok s k → q ∈ quantiles s →
  state_inv (set_x (<[(k, q) := v]> (x s)) s).
Proof.
  intros [] Hk Hq. split; simpl; auto.
  intros k' q'. rewrite lookup_insert_is_Some. intros [[= <- <-]|[_ ?]]; auto.
Qed.

Lemma state_inv_set_cdf s k q v :
  state_inv s → key_ok s k → q ∈ thresholds s →
  state_inv (set_cdf (<[(k, q) := v]> (cdf s)) s).
Proof.
  intros [] Hk Hq. split; simpl; auto.
  intros k' q'. rewrite lookup_insert_is_Some. intros [[= <- <-]|[_ ?]]; auto.
Qed.

End setters.

(** ** The handlers keep the invariant *)

Section handlers.
Implicit Types (s : state) (k : key5) (row hdr : list string).

(** [extends] through an assignment that leaves the coordinates alone. *)
Ltac same_coords :=
  repeat match goal with H : extends _ _ |- _ => destruct H end;
  split; simpl; solve [done | reflexivity].

(** An invariant of a loop that can only add coordinates. *)
Definition grows (s0 : state) (k : key5) (s : state) : Prop :=
  state_inv s ∧ extends s0 s ∧ key_ok s k.

Lemma store_pit_grows row k s0 s s' :
  grows s0 k s → store_pit row k s = Ok s' → grows s0 k s'.
Proof.
  intros (Hs & Hext & Hk). unfold store_pit.
  destruct (indices s !! "pit"); intros; inv_res; [|done].
  split_and!; [by apply state_inv_set_pit|same_coords|done].
Qed.

Lemma store_quantile_grows row k s0 s s' fld :
  grows s0 k s → store_quantile row k s fld = Ok s' → grows s0 k s'.
Proof.
  intros (Hs & Hext & Hk) H. unfold store_quantile in H. cbv zeta in H. inv_res.
  split_and!; [|etrans; [done|]; etrans; [apply extends_set_quantiles|same_coords]
              |done].
  apply (state_inv_set_x (set_quantiles _ _));
    [by apply state_inv_set_quantiles|done|apply set_add_self].
Qed.

Lemma store_threshold_grows row k s0 s s' fld :
  grows s0 k s → store_threshold row k s fld = Ok s' → grows s0 k s'.
Proof.
  intros (Hs & Hext & Hk) H. unfold store_threshold in H. cbv zeta in H. inv_res.
  split_and!; [|etrans; [done|]; etrans; [apply extends_set_thresholds|same_coords]
              |done].
  apply (state_inv_set_cdf (set_thresholds _ _));
    [by apply state_inv_set_thresholds|done|apply set_add_self].
Qed.

(** The state in which a row's values are stored: its date, offset and
    location are registered. *)
Definition registered (date offset id a b c : pyfloat) (s : state) : state :=
  set_reg (resolve_location id a b c (reg s)).1
    (set_offsets (set_add offset (offsets s))
       (set_dates (set_add date (dates s)) s)).

Lemma registered_grows date offset id a b c s :
  state_inv s →
  grows s (row_key date offset (resolve_location id a b c (reg s)).2)
    (registered date offset id a b c s).
Proof.
  intros Hs. unfold registered. split_and!.
  - apply (state_inv_resolve (set_offsets _ (set_dates _ s))).
    apply (state_inv_set_offsets (set_dates _ s)). by apply state_inv_set_dates.
  - etrans; [apply (extends_set_dates s date)|].
    etrans; [apply (extends_set_offsets (set_dates _ s) offset)|].
    apply (extends_resolve (set_offsets _ (set_dates _ s))).
  - simpl. split_and!; [apply set_add_self..|]. eexists. split; [|done].
    apply resolve_location_elem, Hs.
Qed.

(** A data row keeps the invariant, the header and the coordinates read so
    far. *)
Lemma process_row_inv rowstr row hdr s s' :
  state_inv s → process_row rowstr row hdr s = Ok s' →
  state_inv s' ∧ extends s s'.
Proof.
  intros Hs H. unfold process_row in H. cbv zeta in H. inv_res. simpl in *.
  match goal with
  | H : foldlM (store_quantile _ ?k) ?s1 _ = Ok _ |- _ =>
      assert (grows s k s1) as Hg
  end.
  { eapply store_pit_grows; [|done].
    match goal with |- grows _ (row_key ?d ?o (resolve_location ?i ?a ?b ?c _).2) _ =>
      destruct (registered_grows d o i a b c s Hs) as (? & ? & ?) end.
    split_and!; [|same_coords|done].
    apply (state_inv_set_fcst (set_obs _ (registered _ _ _ _ _ _ s))); [|done].
    by apply (state_inv_set_obs (registered _ _ _ _ _ _ s)). }
  eapply (foldlM_invariant (grows s _)) in Hg;
    [|intros ???; apply store_quantile_grows|done].
  eapply (foldlM_invariant (grows s _)) in Hg;
    [|intros ???; apply store_threshold_grows|done].
  by destruct Hg as (? & ? & _).
Qed.

Lemma parse_comment_inv filename rowstr s s' :
  state_inv s → parse_comment filename rowstr s = Ok s' →
  state_inv s' ∧ extends s s'.
Proof.
  intros Hs H. unfold parse_comment in H. cbv zeta in H. inv_res.
  repeat case_decide; inv_res; try by (split; [by destruct Hs|same_coords]).
  assert (extends s (warn (IgnoringLine (strip rowstr) filename) s)) by same_coords.
  split; [|done]. eapply state_inv_coords; [done|done|..]; simpl;
    try done; try apply Hs. by apply reg_inv_log, Hs.
Qed.

Lemma parse_header_inv filename row s s' :
  state_inv s → header s = None → Forall token row →
  parse_header filename row s = Ok s' → state_inv s'.
Proof.
  intros Hs Hh Hrow H. unfold parse_header in H. cbv zeta in H. inv_res.
  match goal with H : check_required _ _ = Ok ?u |- _ =>
    destruct u; apply check_required_Ok in H as [??] end.
  pose proof (inv_header s Hs) as Hi. rewrite Hh in Hi. simpl in Hi.
  rewrite Hi in *. destruct Hs. by split; simpl; auto.
Qed.

(** Reading a line keeps the invariant. *)
Lemma process_line_inv filename s rowstr s' :
  state_inv s → process_line filename s rowstr = Ok s' → state_inv s'.
Proof.
  intros Hs H. unfold process_line in H. cbv zeta in H. inv_res.
  case_decide; [by eapply parse_comment_inv|].
  destruct (header s) eqn:Hh.
  - by eapply process_row_inv.
  - eapply parse_header_inv; [done..|apply split_tokens|done].
Qed.

Lemma initial_state_inv : state_inv initial_state.
Proof.
  split; simpl; try apply NoDup_nil_2; try done.
  - apply empty_registry_inv.
  - by intros k [? ?].
  - by intros k [? ?].
  - by intros k [? ?].
  - by intros k q [? ?].
  - by intros k q [? ?].
Qed.

End handlers.

(** ** What a data row does *)

Section row_spec.
Implicit Types (s : state) (k : key5) (row hdr : list string).

(** The part of the state that the loops over the probabilistic columns
    leave alone. *)
Definition same_core (s1 s2 : state) : Prop :=
  obs s2 = obs s1 ∧ fcst s2 = fcst s1 ∧ dates s2 = dates s1
  ∧ offsets s2 = offsets s1 ∧ reg s2 = reg s1
  ∧ indices s2 = indices s1 ∧ header s2 = header s1.

Lemma field_indices s s' row name :
  indices s' = indices s → field s' row name = field s row name.
Proof. unfold field. by intros ->. Qed.

Lemma field_or_indices s s' row name d :
  indices s' = indices s → field_or s' row name d = field_or s row name d.
Proof. unfold field_or, field. by intros ->. Qed.

Lemma store_pit_core row k s1 s s' :
  same_core s1 s → store_pit row k s = Ok s' → same_core s1 s'.
Proof.
  unfold store_pit. destruct (indices s !! "pit"); intros; by inv_res.
Qed.

Lemma store_quantile_core row k s1 s s' fld :
  same_core s1 s → store_quantile row k s fld = Ok s' → same_core s1 s'.
Proof. unfold store_quantile. cbv zeta. intros; by inv_res. Qed.

Lemma store_threshold_core row k s1 s s' fld :
  same_core s1 s → store_threshold row k s fld = Ok s' → same_core s1 s'.
Proof. unfold store_threshold. cbv zeta. intros; by inv_res. Qed.

(** The values a row carries, in the order the code reads them. *)
Record row_values := mkRowValues {
  r_date : pyfloat; r_offset : pyfloat; r_id : pyfloat;
  r_lat : pyfloat; r_lon : pyfloat; r_elev : pyfloat;
  r_obs : pyfloat; r_fcst : pyfloat;
}.

Definition read_row (s : state) (row : list string) : res row_values :=
  date ← field_or s row "date" (of_Z 0);
  offset ← field_or s row "offset" (of_Z 0);
  id ← field_or s row "id" NaN;
  currLat ← field_or s row "lat" NaN;
  currLon ← field_or s row "lon" NaN;
  currElev ← field_or s row "elev" NaN;
  o ← field s row "obs";
  f ← field s row "fcst";
  Ok (mkRowValues date offset id currLat currLon currElev o f).

(** The location a row resolves to. *)
Definition row_location (s : state) (v : row_values) : Location :=
  (resolve_location (r_id v) (r_lat v) (r_lon v) (r_elev v) (reg s)).2.

(** what a successful data row stores: the row's values are read at the
    header's positions (0 for a missing date or offset, nan for a missing
    identifier or coordinate), the date and the offset are added to their
    sets, the location is resolved in the registry, and [obs] and [fcst] get
    the row's values under the key made of the date, the offset and the
    coordinates of the resolved location. *)
Theorem process_row_stores rowstr row hdr s s' :
  process_row rowstr row hdr s = Ok s' →
  ∃ v, read_row s row = Ok v
    ∧ let key := row_key (r_date v) (r_offset v) (row_location s v) in
      obs s' = <[key := r_obs v]> (obs s)
      ∧ fcst s' = <[key := r_fcst v]> (fcst s)
      ∧ dates s' = set_add (r_date v) (dates s)
      ∧ offsets s' = set_add (r_offset v) (offsets s)
      ∧ reg s' = (resolve_location (r_id v) (r_lat v) (r_lon v) (r_elev v) (reg s)).1.
Proof.
  intros H. unfold process_row in H. cbv zeta in H. inv_res. simpl in *.
  repeat match goal with
  | H : field_or _ _ _ _ = Ok _ |- _ => rewrite (field_or_indices s) in H by done
  | H : field _ _ _ = Ok _ |- _ => rewrite (field_indices s) in H by done
  end.
  match goal with
  | H : store_pit _ _ ?s0 = Ok ?s1 |- _ =>
      assert (same_core s0 s1) as Hc by (by eapply store_pit_core)
  end.
  eapply (foldlM_invariant (same_core _)) in Hc;
    [|intros ???; apply store_quantile_core|done].
  eapply (foldlM_invariant (same_core _)) in Hc;
    [|intros ???; apply store_threshold_core|done].
  destruct Hc as (-> & -> & -> & -> & -> & _).
  eexists (mkRowValues _ _ _ _ _ _ _ _). unfold read_row.
  repeat match goal with H : _ = Ok _ |- _ => rewrite H; clear H end.
  done.
Qed.

End row_spec.

(** ** The state machine *)

Section machine.
Implicit Types (s : state) (filename rowstr : string).

(** C3: the state invariant holds in every state the parser can reach, by
    rule induction on [step]: the coordinate lists are duplicate-free, the
    registry is consistent, every key of a sparse table is made of a date, an
    offset and the coordinates of a location that are registered, every
    quantile and threshold of a key is registered, and the column positions
    are those lines 401-417 compute from the header (for a name that occurs
    twice, its last position). *)
Theorem reachable_inv filename s : reachable filename s → state_inv s.
Proof.
  unfold reachable. revert s. apply rtc_ind_r; [apply initial_state_inv|].
  intros s s' _ [? rowstr ? Hstep] Hs. by eapply process_line_inv.
Qed.

Lemma foldlM_steps filename s0 lines s :
  foldlM (process_line filename) s0 lines = Ok s → rtc (step filename) s0 s.
Proof.
  revert s0. induction lines as [|l lines IH]; simpl; intros s0 H; inv_res; [done|].
  eapply rtc_l; [by econstructor|by apply IH].
Qed.

(** The state a file is parsed into is reachable. *)
Lemma parse_lines_reachable filename lines s :
  parse_lines filename lines = Ok s → reachable filename s.
Proof. apply foldlM_steps. Qed.

(** once the header is read, no line changes it or the column
    positions: the Data-row phase is permanent, and a later line that looks
    like a header is read as a data row. *)
Theorem header_fixed filename s rowstr s' hdr :
  state_inv s → header s = Some hdr →
  process_line filename s rowstr = Ok s' →
  header s' = Some hdr ∧ indices s' = indices s.
Proof.
  intros Hs Hh H. unfold process_line in H. cbv zeta in H. inv_res.
  rewrite Hh in H. rewrite <-Hh.
  case_decide; [eapply parse_comment_inv in H as [_ []]|
                eapply process_row_inv in H as [_ []]]; done.
Qed.

(** The first line that is not a comment is the header. *)
Lemma header_read filename s rowstr s' c :
  header s = None → first_char rowstr = Ok c → c ≠ "#"%char →
  process_line filename s rowstr = Ok s' →
  header s' = Some (split rowstr).
Proof.
  intros Hh Hc Hne H. unfold process_line in H. rewrite Hc, Hh in H. simpl in H.
  rewrite decide_False in H by done. unfold parse_header in H. by inv_res.
Qed.

(** A comment never changes the phase. *)
Lemma comment_phase filename s rowstr s' :
  first_char rowstr = Ok "#"%char →
  process_line filename s rowstr = Ok s' → header s' = header s.
Proof.
  intros Hc H. unfold process_line in H. rewrite Hc in H. simpl in H.
  unfold parse_comment in H. cbv zeta in H. inv_res.
  repeat case_decide; by inv_res.
Qed.

End machine.

(** ** Errors *)

Section errors.
Implicit Types (s : state) (filename rowstr : string) (c : ascii).

Lemma index_columns_None hdr name :
  name ∉ hdr → index_columns hdr ∅ !! name = None.
Proof.
  intros Hn. apply eq_None_not_Some. intros [i Hi%index_columns_Some].
  apply Hn. by eapply list_elem_of_lookup_2.
Qed.

(** The header handler on a header without [obs]. *)
Lemma parse_header_missing_obs filename row s :
  indices s = ∅ → "obs" ∉ row →
  parse_header filename row s = Err (UtilError (MissingColumn filename "obs")).
Proof.
  intros Hi Hn. unfold parse_header. cbv zeta. rewrite Hi.
  unfold check_required, requiredColumns. cbn [foldlM].
  by rewrite (index_columns_None row "obs").
Qed.

(** The header handler on a header with [obs] and without [fcst]. *)
Lemma parse_header_missing_fcst filename row s :
  indices s = ∅ → "obs" ∈ row → "fcst" ∉ row →
  parse_header filename row s = Err (UtilError (MissingColumn filename "fcst")).
Proof.
  intros Hi Ho Hn. unfold parse_header. cbv zeta. rewrite Hi.
  unfold check_required, requiredColumns. cbn [foldlM].
  destruct (index_columns_dom row "obs" Ho) as [i ->]. cbn [mbind result_bind].
  by rewrite (index_columns_None row "fcst").
Qed.

(** A data row is refused when [len(row) is not len(header)]. *)
Lemma process_row_refused rowstr row hdr s :
  len_is_not (length row) (length hdr) = true →
  process_row rowstr row hdr s
  = Err (UtilError (IncorrectColumns (length hdr) (strip rowstr))).
Proof. intros H. unfold process_row. by rewrite H. Qed.

Lemma len_is_not_ne n m : n ≠ m → len_is_not n m = true.
Proof.
  intros. unfold len_is_not. rewrite bool_decide_eq_false_2; [done|]. lia.
Qed.

Lemma len_is_not_wide n m : (256 < n)%nat → len_is_not n m = true.
Proof.
  intros. unfold len_is_not. rewrite bool_decide_eq_false_2; [done|]. lia.
Qed.

Lemma len_is_not_false n m : len_is_not n m = false ↔ (n = m ∧ n ≤ 256)%nat.
Proof. unfold len_is_not. by rewrite negb_false_iff, bool_decide_eq_true. Qed.

End errors.

(** ** A sample file

    The example file that [Text.description] shows (lines 341-346), which
    is the file of the end-to-end scenario: two comment lines, the header
    and three rows, two of them at the same location. *)

Definition nl : string := String "010"%char "".

Definition scenario : list string :=
  [ "# variable: Temperature" +:+ nl;
    "# units: $^oC$" +:+ nl;
    "date     offset id      lat     lon      elev obs fcst      p10" +:+ nl;
    "20150101 0      214     49.2    -122.1   92 3.4 2.1     0.91" +:+ nl;
    "20150101 1      214     49.2    -122.1   92 4.7 4.2      0.85" +:+ nl;
    "20150101 0      180     50.3    -120.3   150 0.2 -1.2 0.99" +:+ nl ].

(** The state a file is parsed into, when it parses. *)
Definition parsed (filename : string) (lines : list string) : state :=
  match parse_lines filename lines with
  | Ok s => s
  | Err _ => initial_state
  end.

Lemma parsed_Ok filename lines :
  is_Ok (parse_lines filename lines) →
  parse_lines filename lines = Ok (parsed filename lines).
Proof. unfold parsed. by intros [s ->]. Qed.

Lemma parse_lines_snoc filename lines rowstr :
  parse_lines filename (lines ++ [rowstr]) =
  s ← parse_lines filename lines; process_line filename s rowstr.
Proof.
  unfold parse_lines. rewrite foldlM_app.
  destruct (foldlM _ _ lines); simpl; [|done].
  by destruct (process_line _ _ _).
Qed.

Lemma parsed_snoc filename lines rowstr :
  is_Ok (parse_lines filename (lines ++ [rowstr])) →
  process_line filename (parsed filename lines) rowstr
  = Ok (parsed filename (lines ++ [rowstr])).
Proof.
  intros [s' H]. unfold parsed. rewrite parse_lines_snoc in *.
  destruct (parse_lines filename lines); simpl in *; [by rewrite H|done].
Qed.

(** A line that is not a comment, once the header is read, is a data row. *)
Lemma process_line_row filename s rowstr hdr c :
  header s = Some hdr → first_char rowstr = Ok c → c ≠ "#"%char →
  process_line filename s rowstr = process_row rowstr (split rowstr) hdr s.
Proof.
  intros Hh Hc Hne. unfold process_line. rewrite Hc, Hh. simpl.
  by rewrite decide_False.
Qed.

(** The newline that ends a line does not show in its fields. *)
Lemma split_newline w : split (w +:+ nl) = split w.
Proof.
  unfold split. generalize "". induction w as [|c w IH]; intros acc; [|].
  - simpl. unfold flush. case_decide; by rewrite ?app_nil_r.
  - rewrite app_cons. simpl. destruct (is_space c); [f_equal|]; apply IH.
Qed.

Lemma scenario_parses (n : nat) :
  (n ≤ 6)%nat → parse_lines "f.txt" (take n scenario) = Ok (parsed "f.txt" (take n scenario)).
Proof.
  intros. apply parsed_Ok.
  do 7 (destruct n as [|n]; [compute_done|]). lia.
Qed.

(** ** Theorems *)

Lemma reachable_inv_witness : state_inv (parsed "f.txt" scenario).
Proof.
  apply (reachable_inv "f.txt"). eapply parse_lines_reachable.
  exact (scenario_parses 6 (le_n 6)).
Defined.

Lemma process_row_stores_witness :
  let s := parsed "f.txt" (take 3 scenario) in
  let rowstr := "20150101 1 214 49.2 -122.1 92 4.7 4.2 0.85" in
  let s' := parsed "f.txt" (take 3 scenario ++ [rowstr]) in
  ∃ v, read_row s (split rowstr) = Ok v
    ∧ let key := row_key (r_date v) (r_offset v) (row_location s v) in
      obs s' = <[key := r_obs v]> (obs s)
      ∧ fcst s' = <[key := r_fcst v]> (fcst s)
      ∧ dates s' = set_add (r_date v) (dates s)
      ∧ offsets s' = set_add (r_offset v) (offsets s)
      ∧ reg s' = (resolve_location (r_id v) (r_lat v) (r_lon v) (r_elev v) (reg s)).1.
Proof.
  intros s rowstr s'.
  apply (process_row_stores rowstr (split rowstr)
           (split "date offset id lat lon elev obs fcst p10")).
  rewrite <-(process_line_row "f.txt" s rowstr _ "2"%char) by compute_done.
  apply parsed_snoc. compute_done.
Defined.

(** C8: a data row is refused with the arity error when its number of
    fields differs from the header's, and also whenever it has more than 256
    fields, even if the header has as many: the comparison is [is not], on
    integer objects that CPython shares only up to 256. *)
Theorem process_row_arity (rowstr : string) (row hdr : list string) (s : state) :
  (length row ≠ length hdr ∨ 256 < length row)%nat →
  process_row rowstr row hdr s
  = Err (UtilError (IncorrectColumns (length hdr) (strip rowstr))).
Proof.
  intros H. apply process_row_refused.
  destruct H; [by apply len_is_not_ne|by apply len_is_not_wide].
Qed.

Lemma process_row_arity_witness :
  let row := replicate 257 "1" in
  process_row "1 1" row row initial_state
  = Err (UtilError (IncorrectColumns (length row) (strip "1 1"))).
Proof.
  intros row. apply (process_row_arity "1 1" row row initial_state).
  right. unfold row. rewrite length_replicate. lia.
Defined.

(** a comment line [# variable: w1 ... wn] sets the variable name to the
    words joined by single spaces, whatever their number, and changes nothing
    else. *)
Theorem parse_comment_variable (filename : string) (ws : list string) (s : state) :
  Forall token ws →
  process_line filename s ("# variable: " +:+ join " " ws +:+ nl)
  = Ok (set_variable (join " " ws) s).
Proof.
  intros Hws. unfold process_line, parse_comment. rewrite app_cons.
  cbn [first_char mbind result_bind]. rewrite decide_True by done. cbn [tail]. cbv zeta.
  assert (split (" variable: " +:+ join " " ws +:+ nl) = "variable:" :: ws) as ->.
  { change (split ("variable:" +:+ " " +:+ (join " " ws +:+ nl)) = "variable:" :: ws).
    rewrite (split_cons_space "variable:") by done. f_equal.
    rewrite <-(split_join ws Hws) at 2. apply split_newline. }
  cbn [list_index lookup list_lookup result_of_option mbind result_bind].
  by rewrite decide_True.
Qed.

Lemma parse_comment_variable_witness :
  process_line "f.txt" initial_state
    ("# variable: " +:+ join " " ["Air"; "temperature"] +:+ nl)
  = Ok (set_variable (join " " ["Air"; "temperature"]) initial_state).
Proof.
  apply (parse_comment_variable "f.txt" ["Air"; "temperature"] initial_state).
  repeat constructor; compute_done.
Defined.
