(* ===== verification/TextErrors.v ===== *)
(** * The text decoder: which errors a file can end in

    The error taxonomy of the parsing loop of [Text.__init__] (lines 385-489
    of [input.py]), by the outcome logic [ensures] of the prelude.

    The lemmas on the handlers of a data row are parametric in the tokens
    that [float()] reads ([good]) and in the errors it may raise ([Q]):
    instantiated with every token and the errors of [float()], they give the
    errors of a row and of a file ([process_row_errors],
    [parse_lines_errors]: a required column missing from the header, a row of
    the wrong arity, a field that is not a number, an [IndexError] on an
    empty line; never [KeyError] on a data row); [TextAccept] instantiates
    them with the numeric tokens and no error at all.

    Further theorems: a header without [obs] or [fcst] ends the load with the
    missing-column error ([process_line_missing_column]); [_clean] never
    returns the sentinel ([clean_sentinel]); the conflict warning is printed
    at most once ([parse_lines_conflict_once]). *)

From Stdlib Require Import Ascii.
From S2P Require Import Prelude PyFloat PyString Location TextParse.

Local Open Scope string_scope.

(** ** Which errors a file can end in *)

(** The errors of a data row. *)
Definition row_error (hdr : list string) (rowstr : string) (e : error) : Prop :=
  e = UtilError (IncorrectColumns (length hdr) (strip rowstr)) ∨ value_error e.

(** The errors of a file. *)
Definition file_error (filename : string) (e : error) : Prop :=
  (∃ col, col ∈ requiredColumns ∧ e = UtilError (MissingColumn filename col))
  ∨ (∃ n r, e = UtilError (IncorrectColumns n r))
  ∨ e = Raised IndexError ∨ value_error e.

(** Every column position is inside the row. *)
Definition cols_ok (ind : gmap string nat) (row : list string) : Prop :=
  ∀ name i, ind !! name = Some i → (i < length row)%nat.

Section taxonomy.
Context (good : string → Prop) (Q : error → Prop).
Hypothesis float_good : ∀ v, good v → ensures (λ _, True) Q (float_of_string v).
Implicit Types (s : state) (k : key5) (row hdr : list string) (e : error).

(** The header's columns that are read as quantiles and thresholds carry a
    good number after their first character. *)
Definition quantile_field (hdr : list string) (fld : string) : Prop :=
  fld ∈ hdr ∧ first_char fld = Ok "q"%char.
Definition threshold_field (hdr : list string) (fld : string) : Prop :=
  fld ∈ hdr ∧ first_char fld = Ok "p"%char ∧ fld ≠ "pit".
Definition good_header (hdr : list string) : Prop :=
  ∀ fld, quantile_field hdr fld ∨ threshold_field hdr fld → good (tail fld).

(** [_clean] never returns the sentinel. *)
Lemma clean_good v : good v → ensures (λ x, x ≠ of_Z (-999)) Q (clean v).
Proof.
  intros Hv. unfold clean. eapply ensures_bind; [by apply float_good|].
  intros x _. simpl. destruct (x ==? of_Z (-999))%F eqn:E; [done|].
  intros ->. by vm_compute in E.
Qed.

Lemma field_ensures s row name :
  Forall good row → cols_ok (indices s) row → is_Some (indices s !! name) →
  ensures (λ _, True) Q (field s row name).
Proof.
  intros Hg Hc [i Hi]. unfold field, list_index. rewrite Hi.
  cbn [result_of_option mbind result_bind].
  destruct (lookup_lt_is_Some_2 row i) as [v Hv]; [by eapply Hc|]. rewrite Hv.
  cbn [result_of_option mbind result_bind].
  eapply ensures_mono; [apply clean_good|done..].
  eapply Forall_lookup_1; [exact Hg|exact Hv].
Qed.

Lemma field_or_ensures s row name d :
  Forall good row → cols_ok (indices s) row →
  ensures (λ _, True) Q (field_or s row name d).
Proof.
  intros. unfold field_or. destruct (indices s !! name) eqn:E; [|done].
  apply field_ensures; [done..|by rewrite E].
Qed.

Lemma get_quantile_fields_ensures hdr :
  Forall token hdr →
  ensures (Forall (quantile_field hdr)) (λ _, False) (get_quantile_fields hdr).
Proof.
  intros Hh. apply ensures_foldlM; [|done]. intros l att Hatt Hl.
  destruct (first_char_token att) as [c Hc]; [by eapply Forall_forall|].
  rewrite Hc. simpl. case_decide as E; [|done]. subst c.
  apply Forall_app. split; [done|]. by apply Forall_singleton.
Qed.

Lemma get_threshold_fields_ensures hdr :
  Forall token hdr →
  ensures (Forall (threshold_field hdr)) (λ _, False) (get_threshold_fields hdr).
Proof.
  intros Hh. apply ensures_foldlM; [|done]. intros l att Hatt Hl.
  destruct (first_char_token att) as [c Hc]; [by eapply Forall_forall|].
  rewrite Hc. simpl. case_decide as E; [|done]. destruct E as [-> ?].
  apply Forall_app. split; [done|]. by apply Forall_singleton.
Qed.

Lemma store_pit_ensures row k s :
  Forall good row → cols_ok (indices s) row →
  ensures (λ s', indices s' = indices s) Q (store_pit row k s).
Proof.
  intros. unfold store_pit. destruct (indices s !! "pit") eqn:E; [|done].
  eapply ensures_bind; [apply field_ensures; [done..|by rewrite E]|]. done.
Qed.

Lemma store_quantile_ensures row k s fld :
  Forall good row → cols_ok (indices s) row → is_Some (indices s !! fld) →
  good (tail fld) →
  ensures (λ s', indices s' = indices s) Q (store_quantile row k s fld).
Proof.
  intros. unfold store_quantile.
  eapply ensures_bind; [by apply float_good|]. intros q _. cbv zeta.
  eapply ensures_bind; [by apply (field_ensures (set_quantiles _ s))|]. done.
Qed.

Lemma store_threshold_ensures row k s fld :
  Forall good row → cols_ok (indices s) row → is_Some (indices s !! fld) →
  good (tail fld) →
  ensures (λ s', indices s' = indices s) Q (store_threshold row k s fld).
Proof.
  intros. unfold store_threshold.
  eapply ensures_bind; [by apply float_good|]. intros q _. cbv zeta.
  eapply ensures_bind; [by apply (field_ensures (set_thresholds _ s))|]. done.
Qed.

(** A loop over columns of the header that keeps the column positions. *)
Lemma store_fields_ensures (f : state → string → res state) row hdr fields s :
  (∀ s' fld, cols_ok (indices s') row → is_Some (indices s' !! fld) →
     good (tail fld) → ensures (λ s'', indices s'' = indices s') Q (f s' fld)) →
  cols_ok (indices s) row → (∀ name, name ∈ hdr → is_Some (indices s !! name)) →
  Forall (λ fld, fld ∈ hdr ∧ good (tail fld)) fields →
  ensures (λ s', indices s' = indices s) Q (foldlM f s fields).
Proof.
  intros Hf Hc Hdom Hsub. apply ensures_foldlM; [|done].
  intros s' fld Hfld Hs'.
  destruct (proj1 (Forall_forall _ _) Hsub fld Hfld) as [Hin Hgood].
  eapply ensures_mono; [apply Hf| |done]; [by rewrite Hs'| |done|].
  - rewrite Hs'. by apply Hdom.
  - intros ? ->. done.
Qed.

Lemma header_cols_ok s row hdr :
  header_inv s → header s = Some hdr → length row = length hdr →
  cols_ok (indices s) row.
Proof.
  intros Hi Hh Hlen name i Hn. rewrite Hh in Hi.
  rewrite Hlen. eapply lookup_lt_Some, header_ok_position, Hn. done.
Qed.

(** A data row of the header's arity, under the invariant. *)
Lemma process_row_body rowstr row hdr s :
  header_inv s → header s = Some hdr → Forall good row → good_header hdr →
  len_is_not (length row) (length hdr) = false →
  ensures (λ _, True) Q (process_row rowstr row hdr s).
Proof.
  intros Hi Hh Hrow Hhdr E. unfold process_row. rewrite E.
  apply len_is_not_false in E as [Hlen _].
  pose proof (header_cols_ok s row hdr Hi Hh Hlen) as Hc.
  rewrite Hh in Hi. pose proof (λ name, header_ok_dom hdr _ name Hi) as Hdom.
  destruct Hi as (Htok & _ & Hobs & Hfcst).
  do 6 (eapply ensures_bind; [by apply field_or_ensures|]; intros ? _; cbv zeta).
  do 2 (eapply ensures_bind; [by apply field_ensures|]; intros ? _; cbv zeta).
  eapply ensures_bind;
    [eapply ensures_mono; [by apply get_quantile_fields_ensures|done..]|].
  intros qf Hqf.
  eapply ensures_bind;
    [eapply ensures_mono; [by apply get_threshold_fields_ensures|done..]|].
  intros tf Htf.
  eapply ensures_bind; [by apply store_pit_ensures|]. intros s1 Hs1.
  eapply ensures_bind.
  { eapply (store_fields_ensures _ row hdr); [intros; by apply store_quantile_ensures|..];
      rewrite ?Hs1; try done.
    eapply Forall_impl; [exact Hqf|]. intros fld Hf. split; [apply Hf|]. by apply Hhdr; left. }
  intros s2 Hs2. eapply ensures_mono; [|done..].
  eapply (store_fields_ensures _ row hdr); [intros; by apply store_threshold_ensures|..];
    rewrite ?Hs2, ?Hs1; try done.
  eapply Forall_impl; [exact Htf|]. intros fld Hf. split; [apply Hf|]. by apply Hhdr; right.
Qed.

End taxonomy.

Section file_errors.
Implicit Types (s : state) (k : key5) (row hdr : list string) (e : error).

Lemma clean_ensures v : ensures (λ x, x ≠ of_Z (-999)) value_error (clean v).
Proof.
  apply (clean_good (λ _, True)); [|done]. intros. apply float_of_string_ensures.
Qed.

(** A data row under the invariant: the only errors are the wrong arity and
    a field that is not a number. *)
Lemma process_row_ensures rowstr row hdr s :
  header_inv s → header s = Some hdr →
  ensures (λ _, True) (row_error hdr rowstr) (process_row rowstr row hdr s).
Proof.
  intros Hi Hh. destruct (len_is_not (length row) (length hdr)) eqn:E.
  { unfold process_row. rewrite E. by left. }
  eapply ensures_mono; [|done|intros ??; by right].
  apply (process_row_body (λ _, True)); try done.
  - intros. apply float_of_string_ensures.
  - by apply Forall_true.
Qed.

Lemma check_required_ensures filename ind :
  ensures (λ _, True)
    (λ e, ∃ col, col ∈ requiredColumns ∧ e = UtilError (MissingColumn filename col))
    (check_required filename ind).
Proof.
  apply ensures_foldlM; [|done]. intros [] col Hcol _.
  destruct (ind !! col); simpl; eauto.
Qed.

Lemma parse_comment_ensures filename rowstr s :
  ensures (λ _, True) (λ e, e = Raised IndexError) (parse_comment filename rowstr s).
Proof.
  unfold parse_comment, list_index. cbv zeta.
  eapply (ensures_bind (λ _, True)); [by apply ensures_of_option|]. intros c0 _.
  repeat case_decide; try done.
  eapply (ensures_bind (λ _, True)); [by apply ensures_of_option|]. done.
Qed.

(** Reading a line under the invariant. *)
Lemma process_line_ensures filename s rowstr :
  state_inv s →
  ensures state_inv (file_error filename) (process_line filename s rowstr).
Proof.
  intros Hs. apply ensures_intro; [intros; by eapply process_line_inv|].
  unfold process_line. intros e [He|(c & _ & He)]%bind_Err.
  { destruct rowstr; simplify_eq/=. right; right; by left. }
  case_decide.
  - apply (ensures_Err _ _ _ _ (parse_comment_ensures _ _ _)) in He as ->.
    right; right; by left.
  - destruct (header s) as [hdr|] eqn:Hh.
    + eapply ensures_Err in He; [|apply process_row_ensures; [apply Hs|done]].
      destruct He as [->|?]; [right; left; eauto|right; right; by right].
    + apply bind_Err in He as [He|(? & _ & [=])].
      apply (ensures_Err _ _ _ _ (check_required_ensures _ _)) in He. by left.
Qed.

(** The whole file. *)
Lemma parse_lines_ensures filename lines :
  ensures state_inv (file_error filename) (parse_lines filename lines).
Proof.
  apply ensures_foldlM; [|apply initial_state_inv].
  intros. by apply process_line_ensures.
Qed.

End file_errors.

(** ** Theorems *)

(** C7: a file that does not load ends in one of the errors of the format: a
    required column missing from the header, a row of the wrong arity, a
    field that is not a number, or an [IndexError] on an empty line or an
    empty comment.  No line raises [KeyError], [TypeError] or
    [AttributeError]. *)
Theorem parse_lines_errors (filename : string) (lines : list string) (e : error) :
  parse_lines filename lines = Err e → file_error filename e.
Proof. apply (ensures_Err _ _ _ _ (parse_lines_ensures filename lines)). Qed.

Lemma parse_lines_errors_witness :
  file_error "f.txt" (UtilError (MissingColumn "f.txt" "fcst")).
Proof.
  apply (parse_lines_errors "f.txt" ["date obs" +:+ nl]).
  apply error_of_Some. compute_done.
Defined.

(** C18: a data row read under the invariant fails only with the arity error
    or on a field that is not a number: every column the row handler looks up
    is in [indices] and inside the row, so neither [KeyError] nor
    [IndexError] can occur. *)
Theorem process_row_errors (rowstr : string) (row hdr : list string) (s : state)
    (e : error) :
  state_inv s → header s = Some hdr →
  process_row rowstr row hdr s = Err e → row_error hdr rowstr e.
Proof.
  intros Hs Hh. eapply ensures_Err, process_row_ensures; [apply Hs|done].
Qed.

Lemma process_row_errors_witness :
  let s := parsed "f.txt" (take 3 scenario) in
  let rowstr := "20150101 0 214 north -122.1 92 3.4 2.1 0.91" in
  row_error (split "date offset id lat lon elev obs fcst p10") rowstr
    (Raised ValueError).
Proof.
  intros s rowstr. apply (process_row_errors rowstr (split rowstr) _ s).
  - eapply ensures_Ok; [apply (parse_lines_ensures "f.txt")|].
    apply (scenario_parses 3). lia.
  - compute_done.
  - apply error_of_Some. compute_done.
Defined.

Lemma header_fixed_witness :
  let s := parsed "f.txt" (take 3 scenario) in
  let rowstr := "20150101 1 214 49.2 -122.1 92 4.7 4.2 0.85" in
  let s' := parsed "f.txt" (take 3 scenario ++ [rowstr]) in
  header s' = Some (split "date offset id lat lon elev obs fcst p10")
  ∧ indices s' = indices s.
Proof.
  intros s rowstr s'. apply (header_fixed "f.txt" s rowstr).
  - eapply ensures_Ok; [apply (parse_lines_ensures "f.txt")|].
    apply (scenario_parses 3). lia.
  - compute_done.
  - apply parsed_snoc. compute_done.
Defined.

(** however many rows contradict the coordinates stored for their
    identifier, the file is loaded and the conflict warning is printed at
    most once. *)
Theorem parse_lines_conflict_once (filename : string) (lines : list string)
    (s : state) :
  parse_lines filename lines = Ok s → (conflict_count (reg s) ≤ 1)%nat.
Proof.
  intros H. apply conflict_once.
  apply (ensures_Ok _ _ _ _ (parse_lines_ensures filename lines) H).
Qed.

Lemma parse_lines_conflict_once_witness :
  (conflict_count (reg (parsed "f.txt"
     [ "id lat obs fcst" +:+ nl; "1 2 3 4" +:+ nl; "1 3 3 4" +:+ nl;
       "1 4 3 4" +:+ nl ])) ≤ 1)%nat.
Proof.
  apply (parse_lines_conflict_once "f.txt"
    [ "id lat obs fcst" +:+ nl; "1 2 3 4" +:+ nl; "1 3 3 4" +:+ nl;
      "1 4 3 4" +:+ nl ]).
  apply parsed_Ok. compute_done.
Defined.

(** the first line that is not a comment is the header; if it lacks
    [obs] the load ends with the missing-column error naming [obs], and if it
    has [obs] and lacks [fcst], with the one naming [fcst]. *)
Theorem process_line_missing_column (filename : string) (s : state)
    (rowstr : string) (c : ascii) :
  state_inv s → header s = None → first_char rowstr = Ok c → c ≠ "#"%char →
  ("obs" ∉ split rowstr →
     process_line filename s rowstr = Err (UtilError (MissingColumn filename "obs")))
  ∧ ("obs" ∈ split rowstr → "fcst" ∉ split rowstr →
     process_line filename s rowstr = Err (UtilError (MissingColumn filename "fcst"))).
Proof.
  intros Hs Hh Hc Hne. pose proof (inv_header s Hs) as Hi. rewrite Hh in Hi.
  unfold process_line. rewrite Hc, Hh. simpl. rewrite decide_False by done.
  split; intros; [by apply parse_header_missing_obs|by apply parse_header_missing_fcst].
Qed.

Lemma process_line_missing_column_witness :
  let s := parsed "f.txt" (take 2 scenario) in
  ("obs" ∉ split "date fcst" →
     process_line "f.txt" s "date fcst" = Err (UtilError (MissingColumn "f.txt" "obs")))
  ∧ ("obs" ∈ split "date fcst" → "fcst" ∉ split "date fcst" →
     process_line "f.txt" s "date fcst" = Err (UtilError (MissingColumn "f.txt" "fcst"))).
Proof.
  intros s. apply (process_line_missing_column "f.txt" s "date fcst" "d"%char).
  - eapply ensures_Ok; [apply (parse_lines_ensures "f.txt")|].
    apply (scenario_parses 2). lia.
  - compute_done.
  - done.
  - done.
Defined.

(** [_clean] returns the number its argument spells, except that the
    sentinel -999 becomes nan: no value it returns is -999. *)
Theorem clean_sentinel (value : string) (x : pyfloat) :
  clean value = Ok x →
  x ≠ of_Z (-999) ∧
  ∃ y, float_of_string value = Ok y ∧ x = (if decide (y = of_Z (-999)) then NaN else y).
Proof.
  intros H. split; [apply (ensures_Ok _ _ _ _ (clean_ensures value) H)|].
  unfold clean in H. inv_res. eexists. split; [done|].
  destruct x0 as [|q]; [done|]. case_decide as Hq.
  - rewrite Hq. by vm_compute.
  - destruct (Fin q ==? of_Z (-999))%F eqn:E; [|done].
    apply feq_true in E as (a & [= ->] & Ha). by rewrite Ha in Hq.
Qed.

Lemma clean_sentinel_witness :
  NaN ≠ of_Z (-999) ∧
  ∃ y, float_of_string "-999.0" = Ok y
       ∧ NaN = (if decide (y = of_Z (-999)) then NaN else y).
Proof. apply (clean_sentinel "-999.0" NaN). compute_done. Defined.
