(* ===== verification/TextDense.v ===== *)
(** * The text decoder, second pass: dense assembly

    After the last line, [Text.__init__] (lines 493-560 of [input.py]) freezes
    the coordinate sets into lists, allocates the dense arrays full of nan and
    fills them by sweeping the whole index space, looking every key up in the
    sparse tables; then it assigns the missing location identifiers.
    - [arrays]: the five arrays [self.obs], [self.deterministic], [self._pit],
      [self.threshold_scores], [self.quantile_scores];
    - [allocate] (lines 505-510), [fill_cell] (the body, lines 517-537),
      [fill] (the nested loops, lines 511-537);
    - [dense3], [dense4]: the specification, a tabulation of the sparse table
      over the coordinates, nan where the table has no entry;
    - [Text] and [Text_init]: the constructed object and the constructor.

    The coordinate lists are parameters of [fill]: CPython's [list(set)] gives
    them in hash order, [Text_init] passes them in first-seen order, and the
    theorems hold for any order.

    Theorems: [fill] on the fresh arrays returns, never raising
    [IndexError] or [TypeError], and what it returns is exactly the
    tabulation ([fill_dense]); hence the constructor refines [snapshot]
    ([Text_init_refines]); a cell is the sparse entry of its coordinates or
    nan ([fill_cell_value]), whatever the order of the coordinates
    ([fill_order_independent], and [TextOrder] for the object as a whole);
    every entry of the sparse tables is in the
    arrays ([Text_init_complete]); the arrays have the extents of the
    coordinate lists ([Text_init_shape]); the locations have distinct
    identifiers ([Text_init_ids]); the end-to-end scenario evaluates as
    expected ([Text_init_example]). *)

From Stdlib Require Import QArith.
From S2P Require Import Prelude PyFloat PyString PyArray Location TextParse TextErrors.

(** ** Data *)

Record arrays := mkArrays {
  a_obs : array3 pyfloat;
  a_deterministic : array3 pyfloat;
  a_pit : option (array3 pyfloat);
  a_threshold_scores : array4 pyfloat;
  a_quantile_scores : array4 pyfloat;
}.

(** The frozen coordinate lists (lines 493-497). *)
Record coords := mkCoords {
  c_dates : list pyfloat;
  c_offsets : list pyfloat;
  c_locations : list Location;
  c_quantiles : list pyfloat;
  c_thresholds : list pyfloat;
}.

Definition shape3_of (c : coords) : nat * nat * nat :=
  (length (c_dates c), length (c_offsets c), length (c_locations c)).

(** ** Allocation (lines 498-510) *)

Definition allocate (c : coords) (pit : gmap key5 pyfloat) : arrays :=
  let s3 := shape3_of c in
  mkArrays (full s3 NaN) (full s3 NaN)
    (if decide (size pit ≠ 0) then Some (full s3 NaN) else None)
    (full (s3, length (c_thresholds c)) NaN)
    (full (s3, length (c_quantiles c)) NaN).

(** ** The fill loops (lines 511-537) *)

(** [if key in table: a[i] = table[key]] *)
Definition store_key {K I T Sh} `{Countable K} `{Tensor I T pyfloat Sh}
    (table : gmap K pyfloat) (key : K) (i : I) (a : T) : res T :=
  match table !! key with
  | Some v => store i v a
  | None => Ok a
  end.

(** Lines 526-527: the same on [self._pit], which is [None] unless the
    table had entries. *)
Definition store_pit_key (table : gmap key5 pyfloat) (key : key5) (i : idx3)
    (a : option (array3 pyfloat)) : res (option (array3 pyfloat)) :=
  match table !! key with
  | Some v =>
      match a with
      | Some p => Some <$> store i v p
      | None => Err (Raised TypeError)
      end
  | None => Ok a
  end.

(** Lines 528-532 and 533-537: the loop over a trailing axis. *)
Definition fill_axis (table : gmap key6 pyfloat) (axis : list pyfloat)
    (key : key5) (i : idx3) (a : array4 pyfloat) : res (array4 pyfloat) :=
  foldlM (λ a q,
    value ← list_index axis q;
    store_key table (key, value) (i, q) a) a (seq 0 (length axis)).

(** Lines 517-537: the body of the innermost loop. *)
Definition fill_cell (s : state) (c : coords) (d o l : nat)
    (date offset : pyfloat) (A : arrays) : res arrays :=
  location ← list_index (c_locations c) l;
  let key := row_key date offset location in
  obs' ← store_key (obs s) key (d, o, l) (a_obs A);
  det' ← store_key (fcst s) key (d, o, l) (a_deterministic A);
  pit' ← store_pit_key (pit s) key (d, o, l) (a_pit A);
  qs' ← fill_axis (x s) (c_quantiles c) key (d, o, l) (a_quantile_scores A);
  ts' ← fill_axis (cdf s) (c_thresholds c) key (d, o, l) (a_threshold_scores A);
  Ok (mkArrays obs' det' pit' ts' qs').

(** Lines 511-537 *)
Definition fill (s : state) (c : coords) (A : arrays) : res arrays :=
  foldlM (λ A d,
    date ← list_index (c_dates c) d;
    foldlM (λ A o,
      offset ← list_index (c_offsets c) o;
      foldlM (λ A l, fill_cell s c d o l date offset A)
        A (seq 0 (length (c_locations c))))
      A (seq 0 (length (c_offsets c))))
    A (seq 0 (length (c_dates c))).

(** ** Specification: tabulation of the sparse tables *)

(** The key of a cell, from the coordinate lists. *)
Definition cell_key (c : coords) (i : idx3) : option key5 :=
  let '(d, o, l) := i in
  date ← c_dates c !! d;
  offset ← c_offsets c !! o;
  location ← c_locations c !! l;
  Some (row_key date offset location).

(** What the sparse table holds for a cell. *)
Definition entry3 (table : gmap key5 pyfloat) (c : coords) (i : idx3) :
    option pyfloat :=
  key ← cell_key c i; table !! key.

Definition entry4 (table : gmap key6 pyfloat) (axis : list pyfloat) (c : coords)
    (i : idx4) : option pyfloat :=
  let '(i3, q) := i in
  key ← cell_key c i3; value ← axis !! q; table !! (key, value).

Definition dense3 (table : gmap key5 pyfloat) (c : coords) : array3 pyfloat :=
  tab (shape3_of c) (λ i, default NaN (entry3 table c i)).

Definition dense4 (table : gmap key6 pyfloat) (axis : list pyfloat) (c : coords) :
    array4 pyfloat :=
  tab (shape3_of c, length axis) (λ i, default NaN (entry4 table axis c i)).

Definition dense (s : state) (c : coords) : arrays :=
  mkArrays (dense3 (obs s) c) (dense3 (fcst s) c)
    (if decide (size (pit s) ≠ 0) then Some (dense3 (pit s) c) else None)
    (dense4 (cdf s) (c_thresholds c) c)
    (dense4 (x s) (c_quantiles c) c).

(** ** The constructed object *)

Record Text := mkText {
  t_fullname : string;
  t_dates : list pyfloat;
  t_offsets : list pyfloat;
  t_thresholds : list pyfloat;
  t_quantiles : list pyfloat;
  t_locations : list Location;
  t_variable : PyVariable;
  t_arrays : arrays;
  t_log : list event;
}.

(** Lines 493-497, with the sets listed in first-seen order. *)
Definition freeze (s : state) : coords :=
  mkCoords (dates s) (offsets s) (locations (reg s)) (quantiles s) (thresholds s).

(** [Text._get_variable] (lines 566-567) *)
Definition get_variable (s : state) : PyVariable :=
  mkVariable (variable s) (units s).

(** Lines 491-560, after the parsing loop; [self.fullname] is set at line
    351. *)
Definition assemble (filename : string) (s : state) : res Text :=
  let c := freeze s in
  A ← fill s c (allocate c (pit s));
  Ok (mkText filename (c_dates c) (c_offsets c) (c_thresholds c) (c_quantiles c)
        (assign_ids (c_locations c)) (get_variable s) A (log (reg s))).

(** [Text.__init__] (lines 350-560) on the lines of the file. *)
Definition Text_init (filename : string) (lines : list string) : res Text :=
  s ← parse_lines filename lines;
  assemble filename s.

(** [Text.is_valid] (lines 562-564) *)
Definition Text_is_valid (filename : string) : bool := true.

(** What the constructor promises: the object read off the final parser
    state, with the arrays given by tabulation. *)
Definition snapshot (filename : string) (s : state) : Text :=
  mkText filename (dates s) (offsets s) (thresholds s) (quantiles s)
    (assign_ids (locations (reg s))) (get_variable s)
    (dense s (freeze s)) (log (reg s)).

(** ** The loops compute the tabulation *)

Section fill_refines.
Context (s : state) (c : coords).
Implicit Types (A : arrays) (i : idx3) (d o l : nat) (idxs : list idx3).

(** The body of the loops, as a function of the index. *)
Definition cell (A : arrays) (i : idx3) : res arrays :=
  let '(d, o, l) := i in
  date ← list_index (c_dates c) d;
  offset ← list_index (c_offsets c) o;
  fill_cell s c d o l date offset A.

Lemma list_index_seq {X} (xs : list X) n :
  n ∈ seq 0 (length xs) → ∃ x, xs !! n = Some x ∧ list_index xs n = Ok x.
Proof.
  intros Hn%elem_of_seq. destruct (lookup_lt_is_Some_2 xs n) as [x Hx]; [lia|].
  exists x. unfold list_index. by rewrite Hx.
Qed.

(** The three nested loops are one loop over the index space. *)
Lemma fill_flat A :
  fill s c A = foldlM cell A (PyArray.indices (array3 pyfloat) (shape3_of c)).
Proof.
  unfold shape3_of. cbn [PyArray.indices nest_tensor list_tensor]. rewrite !foldlM_pairs.
  unfold fill. apply foldlM_ext_in. intros A1 d (date & _ & Hd)%list_index_seq.
  rewrite Hd. cbn [mbind result_bind]. apply foldlM_ext_in.
  intros A2 o (offset & _ & Ho)%list_index_seq. rewrite Ho. cbn [mbind result_bind].
  apply foldlM_ext_in. intros A3 l _. unfold cell. by rewrite Hd, Ho.
Qed.

(** *** One array at a time *)

Definition step_pit (a : option (array3 pyfloat)) i : res (option (array3 pyfloat)) :=
  match a with
  | Some p => Some <$> store_if (entry3 (pit s) c) p i
  | None => Ok None
  end.

Definition step4 (table : gmap key6 pyfloat) (axis : list pyfloat)
    (a : array4 pyfloat) i : res (array4 pyfloat) :=
  foldlM (λ a k, store_if (entry4 table axis c) a (i, k)) a (seq 0 (length axis)).

(** The extents the loops maintain. *)
Record shaped A : Prop := {
  sh_obs : shape (a_obs A) (shape3_of c);
  sh_det : shape (a_deterministic A) (shape3_of c);
  sh_pit p : a_pit A = Some p → shape p (shape3_of c);
  sh_nopit : a_pit A = None → size (pit s) = 0;
  sh_ts : shape (a_threshold_scores A) (shape3_of c, length (c_thresholds c));
  sh_qs : shape (a_quantile_scores A) (shape3_of c, length (c_quantiles c));
}.

Lemma cell_key_inb i :
  inb (array3 pyfloat) (shape3_of c) i → is_Some (cell_key c i).
Proof.
  destruct i as [[d o] l]. intros [[Hd Ho] Hl]. simpl in *.
  destruct (lookup_lt_is_Some_2 _ _ Hd) as [? ->].
  destruct (lookup_lt_is_Some_2 _ _ Ho) as [? ->].
  destruct (lookup_lt_is_Some_2 _ _ Hl) as [? ->]. by eexists.
Qed.

Lemma store_key_step (table : gmap key5 pyfloat) key i (a : array3 pyfloat) :
  cell_key c i = Some key →
  store_key table key i a = store_if (entry3 table c) a i.
Proof. intros Hk. unfold store_key, store_if, entry3. by rewrite Hk. Qed.

Lemma store_pit_key_step key i a :
  cell_key c i = Some key → (a = None → size (pit s) = 0) →
  store_pit_key (pit s) key i a = step_pit a i.
Proof.
  intros Hk Ha. unfold store_pit_key, step_pit, store_if, entry3. rewrite Hk. simpl.
  destruct a as [p|]; [by destruct (pit s !! key)|].
  by rewrite (map_size_empty_inv _ (Ha eq_refl)), lookup_empty.
Qed.

Lemma fill_axis_step table axis key i a :
  cell_key c i = Some key →
  fill_axis table axis key i a = step4 table axis a i.
Proof.
  intros Hk. apply foldlM_ext_in. intros a' q (value & Hq & ->)%list_index_seq.
  unfold store_key, store_if, entry4. cbn [mbind result_bind].
  rewrite Hk. simpl. by rewrite Hq.
Qed.

(** The body is the five stores, each a function of its array alone. *)
Lemma cell_steps A i :
  inb (array3 pyfloat) (shape3_of c) i → shaped A →
  cell A i =
    obs' ← store_if (entry3 (obs s) c) (a_obs A) i;
    det' ← store_if (entry3 (fcst s) c) (a_deterministic A) i;
    pit' ← step_pit (a_pit A) i;
    qs' ← step4 (x s) (c_quantiles c) (a_quantile_scores A) i;
    ts' ← step4 (cdf s) (c_thresholds c) (a_threshold_scores A) i;
    Ok (mkArrays obs' det' pit' ts' qs').
Proof.
  intros Hi HA. destruct (cell_key_inb i Hi) as [key Hk].
  destruct i as [[d o] l]. simpl in Hk.
  apply bind_Some in Hk as (date & Hd & Hk).
  apply bind_Some in Hk as (offset & Ho & Hk).
  apply bind_Some in Hk as (location & Hl & [= <-]).
  assert (cell_key c (d, o, l) = Some (row_key date offset location)) as Hk.
  { simpl. by rewrite Hd, Ho, Hl. }
  unfold cell, fill_cell, list_index. rewrite Hd, Ho, Hl. cbn [result_of_option mbind result_bind].
  rewrite !(store_key_step _ _ _ _ Hk), (store_pit_key_step _ _ _ Hk (sh_nopit _ HA)).
  by rewrite !(fill_axis_step _ _ _ _ _ Hk).
Qed.

Lemma step4_spec table axis (a : array4 pyfloat) i :
  inb (array3 pyfloat) (shape3_of c) i → shape a (shape3_of c, length axis) →
  ∃ a', step4 table axis a i = Ok a' ∧ shape a' (shape3_of c, length axis).
Proof.
  intros Hi Ha. unfold step4.
  rewrite <-(foldlM_fmap (store_if (entry4 table axis c)) (λ k, (i, k))).
  edestruct (fill_loop_spec (entry4 table axis c) ((λ k, (i, k)) <$> seq 0 (length axis)) a)
    as (a' & Hfill & Ha' & _); [exact Ha| |by exists a'].
  apply Forall_fmap, Forall_forall. intros k Hk%elem_of_seq. split; [done|lia].
Qed.

(** The body succeeds inside the extents, keeps them, and is the five
    component steps. *)
Lemma cell_shaped A i :
  inb (array3 pyfloat) (shape3_of c) i → shaped A →
  ∃ A', cell A i = Ok A' ∧ shaped A' ∧
    store_if (entry3 (obs s) c) (a_obs A) i = Ok (a_obs A') ∧
    store_if (entry3 (fcst s) c) (a_deterministic A) i = Ok (a_deterministic A') ∧
    step_pit (a_pit A) i = Ok (a_pit A') ∧
    step4 (x s) (c_quantiles c) (a_quantile_scores A) i = Ok (a_quantile_scores A') ∧
    step4 (cdf s) (c_thresholds c) (a_threshold_scores A) i = Ok (a_threshold_scores A').
Proof.
  intros Hi HA. rewrite cell_steps by done.
  destruct (store_if_spec (entry3 (obs s) c) _ i _ (sh_obs _ HA) Hi) as (o' & -> & ? & _).
  destruct (store_if_spec (entry3 (fcst s) c) _ i _ (sh_det _ HA) Hi) as (d' & -> & ? & _).
  destruct (step4_spec (x s) _ _ i Hi (sh_qs _ HA)) as (q' & -> & ?).
  destruct (step4_spec (cdf s) _ _ i Hi (sh_ts _ HA)) as (t' & -> & ?).
  pose proof (sh_pit _ HA) as Hp. pose proof (sh_nopit _ HA) as Hn.
  unfold step_pit. destruct (a_pit A) as [p|].
  - destruct (store_if_spec (entry3 (pit s) c) p i _ (Hp p eq_refl) Hi) as (p' & -> & ? & _).
    eexists. split; [done|]. split; [split|]; naive_solver.
  - eexists. split; [done|]. split; [split|]; naive_solver.
Qed.

Lemma cells_Ok idxs A :
  Forall (inb (array3 pyfloat) (shape3_of c)) idxs → shaped A →
  ∃ A', foldlM cell A idxs = Ok A' ∧ shaped A'.
Proof.
  intros Hidxs. revert A. induction Hidxs as [|i idxs Hi _ IH]; intros A HA; simpl.
  - by exists A.
  - destruct (cell_shaped A i Hi HA) as (A1 & -> & HA1 & _). by apply IH.
Qed.

Lemma step_pit_Some idxs (p : array3 pyfloat) :
  foldlM step_pit (Some p) idxs = Some <$> fill_loop (entry3 (pit s) c) idxs p.
Proof.
  revert p. induction idxs as [|i idxs IH]; intros p; [done|].
  unfold fill_loop. simpl. destruct (store_if _ p i); simpl; [apply IH|done].
Qed.

Lemma step_pit_None idxs : foldlM step_pit None idxs = Ok None.
Proof. induction idxs; [done|]. by simpl. Qed.

Lemma allocate_shaped : shaped (allocate c (pit s)).
Proof.
  split; cbn [allocate a_obs a_deterministic a_pit a_threshold_scores a_quantile_scores].
  - apply shape_full.
  - apply shape_full.
  - intros p Hp. case_decide; [|done].
    assert (p = full (shape3_of c) NaN) as -> by congruence. apply shape_full.
  - case_decide; [done|]. lia.
  - apply (shape_full (shape3_of c, length (c_thresholds c))).
  - apply (shape_full (shape3_of c, length (c_quantiles c))).
Qed.

(** Each array of the result is the sweep of its own table. *)
Ltac component :=
  let Hi := fresh in let HA := fresh in let Hc := fresh in let Hc' := fresh in
  intros ? ? ? Hi%elem_of_indices HA Hc;
  edestruct cell_shaped as (? & Hc' & ? & ? & ? & ? & ? & ?); [exact Hi|exact HA|];
  rewrite Hc in Hc'; injection Hc' as <-; done.

Lemma fill_components A A' :
  shaped A → fill s c A = Ok A' →
  fill_loop (entry3 (obs s) c) (PyArray.indices (array3 pyfloat) (shape3_of c))
    (a_obs A) = Ok (a_obs A') ∧
  fill_loop (entry3 (fcst s) c) (PyArray.indices (array3 pyfloat) (shape3_of c))
    (a_deterministic A) = Ok (a_deterministic A') ∧
  foldlM step_pit (a_pit A) (PyArray.indices (array3 pyfloat) (shape3_of c)) =
    Ok (a_pit A') ∧
  fill_loop (entry4 (x s) (c_quantiles c) c)
    (PyArray.indices (array4 pyfloat) (shape3_of c, length (c_quantiles c)))
    (a_quantile_scores A) = Ok (a_quantile_scores A') ∧
  fill_loop (entry4 (cdf s) (c_thresholds c) c)
    (PyArray.indices (array4 pyfloat) (shape3_of c, length (c_thresholds c)))
    (a_threshold_scores A) = Ok (a_threshold_scores A').
Proof.
  rewrite fill_flat. intros HA Hfill. split_and!.
  - eapply (foldlM_proj shaped a_obs), Hfill; [component|done].
  - eapply (foldlM_proj shaped a_deterministic), Hfill; [component|done].
  - eapply (foldlM_proj shaped a_pit), Hfill; [component|done].
  - unfold fill_loop, PyArray.indices at 1. cbn [nest_tensor]. rewrite foldlM_pairs.
    eapply (foldlM_proj shaped a_quantile_scores), Hfill; [component|done].
  - unfold fill_loop, PyArray.indices at 1. cbn [nest_tensor]. rewrite foldlM_pairs.
    eapply (foldlM_proj shaped a_threshold_scores), Hfill; [component|done].
Qed.

Lemma fill_allocate_Ok : is_Ok (fill s c (allocate c (pit s))).
Proof.
  rewrite fill_flat. edestruct cells_Ok as (A' & -> & _); [|apply allocate_shaped|by eexists].
  apply Forall_forall. intros i. apply elem_of_indices.
Qed.

End fill_refines.

(** The loops on the fresh arrays compute the tabulation. *)
Lemma fill_dense (s : state) (c : coords) :
  fill s c (allocate c (pit s)) = Ok (dense s c).
Proof.
  destruct (fill_allocate_Ok s c) as [A' HA'].
  destruct (fill_components s c _ _ (allocate_shaped s c) HA')
    as (H1 & H2 & H3 & H4 & H5).
  rewrite HA'. f_equal. unfold allocate in *.
  cbn [a_obs a_deterministic a_pit a_quantile_scores a_threshold_scores] in *.
  rewrite fill_loop_full in H1, H2.
  rewrite (fill_loop_full _ (shape3_of c, _)) in H4.
  rewrite (fill_loop_full _ (shape3_of c, _)) in H5.
  assert (a_pit A' = a_pit (dense s c)) as Hpit.
  { unfold dense. cbn [a_pit]. case_decide.
    - rewrite step_pit_Some, fill_loop_full in H3. by simplify_eq/=.
    - rewrite step_pit_None in H3. by simplify_eq. }
  destruct A'; by simplify_eq/=.
Qed.

Lemma assemble_snapshot (filename : string) (s : state) :
  assemble filename s = Ok (snapshot filename s).
Proof. unfold assemble. by rewrite fill_dense. Qed.

(** ** Reading the tabulation *)

Section dense_facts.
Context (c : coords).
Implicit Types (d o l q : nat) (date offset value : pyfloat) (location : Location).

Lemma cell_key_Some d o l key :
  cell_key c (d, o, l) = Some key ↔
  ∃ date offset location, c_dates c !! d = Some date ∧
    c_offsets c !! o = Some offset ∧ c_locations c !! l = Some location ∧
    key = row_key date offset location.
Proof.
  simpl. split.
  - intros (date & ? & (offset & ? & (location & ? & [= <-])%bind_Some)%bind_Some)%bind_Some.
    by exists date, offset, location.
  - intros (date & offset & location & -> & -> & -> & ->). done.
Qed.

Lemma cell_key_in i key :
  cell_key c i = Some key → inb (array3 pyfloat) (shape3_of c) i.
Proof.
  destruct i as [[d o] l].
  intros (? & ? & ? & ?%lookup_lt_Some & ?%lookup_lt_Some & ?%lookup_lt_Some & _)%cell_key_Some.
  by repeat split.
Qed.

Lemma dense3_get table i key :
  cell_key c i = Some key →
  aget (dense3 table c) i = Some (default NaN (table !! key)).
Proof.
  intros Hk. unfold dense3. rewrite aget_tab_inb by by eapply cell_key_in.
  unfold entry3. by rewrite Hk.
Qed.

Lemma dense4_get table axis i q key value :
  cell_key c i = Some key → axis !! q = Some value →
  aget (dense4 table axis c) (i, q) = Some (default NaN (table !! (key, value))).
Proof.
  intros Hk Hq. unfold dense4. rewrite aget_tab_inb.
  - unfold entry4. rewrite Hk. simpl. by rewrite Hq.
  - split; [by eapply cell_key_in|by eapply lookup_lt_Some].
Qed.

(** A key made of listed coordinates is the key of a cell. *)
Lemma key_in_cell key :
  key_in (c_dates c) (c_offsets c) (c_locations c) key →
  ∃ i, cell_key c i = Some key.
Proof.
  destruct key as [[[[date offset] la] lo] e].
  intros ((d & Hd)%list_elem_of_lookup & (o & Ho)%list_elem_of_lookup &
          location & (l & Hl)%list_elem_of_lookup & <- & <- & <-).
  exists (d, o, l). apply cell_key_Some. by exists date, offset, location.
Qed.

End dense_facts.

(** Completeness of the tabulation: an entry whose key is made of listed
    coordinates is in the array. *)
Lemma dense3_complete (c : coords) (table : gmap key5 pyfloat) key v :
  key_in (c_dates c) (c_offsets c) (c_locations c) key →
  table !! key = Some v →
  ∃ i, cell_key c i = Some key ∧ aget (dense3 table c) i = Some v.
Proof.
  intros [i Hi]%key_in_cell Hv. exists i. split; [done|].
  by rewrite (dense3_get c table i key Hi), Hv.
Qed.

Lemma dense4_complete (c : coords) (table : gmap key6 pyfloat) axis key value v :
  key_in (c_dates c) (c_offsets c) (c_locations c) key → value ∈ axis →
  table !! (key, value) = Some v →
  ∃ i q, cell_key c i = Some key ∧ axis !! q = Some value
         ∧ aget (dense4 table axis c) (i, q) = Some v.
Proof.
  intros [i Hi]%key_in_cell [q Hq]%list_elem_of_lookup Hv. exists i, q.
  split_and!; [done..|]. by rewrite (dense4_get c table axis i q key value Hi Hq), Hv.
Qed.

(** ** Theorems *)

(** C1: the constructor of the text decoder refines its specification: on
    every file, [Text.__init__] fails exactly when the parsing loop fails, with
    the same error, and otherwise builds the snapshot of the final parser
    state, whose arrays are the tabulation of the sparse tables over the
    coordinate lists.  Allocation, the fill loops and the identifier
    assignment never raise. *)
Theorem Text_init_refines (filename : string) (lines : list string) :
  Text_init filename lines = snapshot filename <$> parse_lines filename lines.
Proof.
  unfold Text_init. destruct (parse_lines filename lines) as [s|e]; simpl; [|done].
  apply assemble_snapshot.
Qed.

(** after the fill loops, the cell of a date, an offset and a location
    holds the observation and the forecast stored under their key, and per
    quantile and threshold the value stored under the extended key; a cell
    without entry holds nan. *)
Theorem fill_cell_value (s : state) (c : coords) (A : arrays) (d o l : nat)
    (date offset : pyfloat) (location : Location) :
  fill s c (allocate c (pit s)) = Ok A →
  c_dates c !! d = Some date → c_offsets c !! o = Some offset →
  c_locations c !! l = Some location →
  let key := row_key date offset location in
  aget (a_obs A) (d, o, l) = Some (default NaN (obs s !! key))
  ∧ aget (a_deterministic A) (d, o, l) = Some (default NaN (fcst s !! key))
  ∧ (∀ q value, c_quantiles c !! q = Some value →
       aget (a_quantile_scores A) (d, o, l, q)
       = Some (default NaN (x s !! (key, value))))
  ∧ (∀ t value, c_thresholds c !! t = Some value →
       aget (a_threshold_scores A) (d, o, l, t)
       = Some (default NaN (cdf s !! (key, value)))).
Proof.
  rewrite fill_dense. intros [= <-] Hd Ho Hl key.
  assert (cell_key c (d, o, l) = Some key) as Hk.
  { apply cell_key_Some. by exists date, offset, location. }
  split_and!; [by apply dense3_get..| |]; intros; by apply dense4_get.
Qed.

Lemma fill_cell_value_witness :
  let s := parsed "f.txt" scenario in
  let c := freeze s in
  let key := row_key (of_Z 20150101) (of_Z 1)
               (mkLocation (of_Z 214) (of_Q 49.2%Q) (of_Q (-122.1)%Q) (of_Z 92)) in
  aget (a_obs (dense s c)) (0, 1, 0) = Some (default NaN (obs s !! key))
  ∧ aget (a_deterministic (dense s c)) (0, 1, 0) = Some (default NaN (fcst s !! key))
  ∧ (∀ q value, c_quantiles c !! q = Some value →
       aget (a_quantile_scores (dense s c)) (0, 1, 0, q)
       = Some (default NaN (x s !! (key, value))))
  ∧ (∀ t value, c_thresholds c !! t = Some value →
       aget (a_threshold_scores (dense s c)) (0, 1, 0, t)
       = Some (default NaN (cdf s !! (key, value)))).
Proof.
  intros s c key.
  apply (fill_cell_value s c (dense s c) 0 1 0 (of_Z 20150101) (of_Z 1)
           (mkLocation (of_Z 214) (of_Q 49.2%Q) (of_Q (-122.1)%Q) (of_Z 92)));
    [apply fill_dense|compute_done..].
Defined.

(** the arrays do not depend on the order in which the coordinate sets
    are listed: under two listings, the cells of the same date, offset and
    location, and of the same quantile or threshold, hold the same value. *)
Lemma fill_order_independent (s : state) (c c' : coords) (A A' : arrays)
    (i i' : idx3) (key : key5) :
  fill s c (allocate c (pit s)) = Ok A →
  fill s c' (allocate c' (pit s)) = Ok A' →
  cell_key c i = Some key → cell_key c' i' = Some key →
  aget (a_obs A) i = aget (a_obs A') i'
  ∧ aget (a_deterministic A) i = aget (a_deterministic A') i'
  ∧ (∀ q q' value, c_quantiles c !! q = Some value →
       c_quantiles c' !! q' = Some value →
       aget (a_quantile_scores A) (i, q) = aget (a_quantile_scores A') (i', q'))
  ∧ (∀ t t' value, c_thresholds c !! t = Some value →
       c_thresholds c' !! t' = Some value →
       aget (a_threshold_scores A) (i, t) = aget (a_threshold_scores A') (i', t')).
Proof.
  rewrite !fill_dense. intros HA HA' Hk Hk'.
  apply (inj Ok) in HA as <-. apply (inj Ok) in HA' as <-.
  cbn [dense a_obs a_deterministic a_quantile_scores a_threshold_scores].
  rewrite !(dense3_get c _ i key Hk), !(dense3_get c' _ i' key Hk').
  split_and!; [done..| |]; intros ??? Hq Hq';
    by rewrite (dense4_get c _ _ i _ key _ Hk Hq), (dense4_get c' _ _ i' _ key _ Hk' Hq').
Qed.

(** Opening a successful construction. *)
Lemma Text_init_Ok filename lines t :
  Text_init filename lines = Ok t →
  ∃ s, parse_lines filename lines = Ok s ∧ state_inv s ∧ t = snapshot filename s.
Proof.
  unfold Text_init. intros (s & Hs & Ht)%bind_Ok. rewrite assemble_snapshot in Ht.
  exists s. split_and!; [done| |by inv_res].
  apply (ensures_Ok _ _ _ _ (parse_lines_ensures filename lines) Hs).
Qed.

(** Every entry of the sparse tables of [s] is in the array of [t] it belongs
    to, at the cell of its coordinates. *)
Definition complete (s : state) (t : Text) : Prop :=
  (∀ key v, obs s !! key = Some v →
     ∃ i, cell_key (freeze s) i = Some key ∧ aget (a_obs (t_arrays t)) i = Some v)
  ∧ (∀ key v, fcst s !! key = Some v →
       ∃ i, cell_key (freeze s) i = Some key
            ∧ aget (a_deterministic (t_arrays t)) i = Some v)
  ∧ (∀ key v, pit s !! key = Some v →
       ∃ i p, cell_key (freeze s) i = Some key ∧ a_pit (t_arrays t) = Some p
              ∧ aget p i = Some v)
  ∧ (∀ key value v, x s !! (key, value) = Some v →
       ∃ i q, cell_key (freeze s) i = Some key ∧ t_quantiles t !! q = Some value
              ∧ aget (a_quantile_scores (t_arrays t)) (i, q) = Some v)
  ∧ (∀ key value v, cdf s !! (key, value) = Some v →
       ∃ i q, cell_key (freeze s) i = Some key ∧ t_thresholds t !! q = Some value
              ∧ aget (a_threshold_scores (t_arrays t)) (i, q) = Some v).

(** The extents of the arrays are the lengths of the coordinate lists. *)
Definition well_shaped (t : Text) : Prop :=
  let n := (length (t_dates t), length (t_offsets t), length (t_locations t)) in
  shape (a_obs (t_arrays t)) n
  ∧ shape (a_deterministic (t_arrays t)) n
  ∧ (∀ p, a_pit (t_arrays t) = Some p → shape p n)
  ∧ shape (a_threshold_scores (t_arrays t)) (n, length (t_thresholds t))
  ∧ shape (a_quantile_scores (t_arrays t)) (n, length (t_quantiles t)).

Lemma Text_init_scenario :
  Text_init "f.txt" scenario = Ok (snapshot "f.txt" (parsed "f.txt" scenario)).
Proof.
  unfold Text_init. rewrite <-(firstn_all scenario) at 1.
  change (length scenario) with 6. rewrite (scenario_parses 6) by done.
  apply assemble_snapshot.
Qed.

(** C4: nothing that was read is lost: every entry of the sparse tables of
    the parser is in the array it belongs to, at the cell of its date, offset
    and location (and quantile or threshold), and the probability integral
    transform array exists as soon as one row had a [pit] value. *)
Theorem Text_init_complete (filename : string) (lines : list string) (t : Text) :
  Text_init filename lines = Ok t →
  ∃ s, parse_lines filename lines = Ok s ∧ complete s t.
Proof.
  intros (s & Hs & Hinv & ->)%Text_init_Ok. exists s. split; [done|].
  unfold complete.
  cbn [snapshot t_arrays t_quantiles t_thresholds dense a_obs a_deterministic a_pit
       a_quantile_scores a_threshold_scores].
  split_and!.
  - intros key v Hv. apply dense3_complete; [|done]. by apply (inv_obs s Hinv).
  - intros key v Hv. apply dense3_complete; [|done]. by apply (inv_fcst s Hinv).
  - intros key v Hv. rewrite decide_True.
    + destruct (dense3_complete (freeze s) (pit s) key v) as (i & ? & ?);
        [by apply (inv_pit s Hinv)|done|]. by exists i, (dense3 (pit s) (freeze s)).
    + intros H0%map_size_empty_inv. by rewrite H0 in Hv.
  - intros key value v Hv. destruct (inv_x s Hinv key value) as [??]; [done|].
    by apply (dense4_complete (freeze s)).
  - intros key value v Hv. destruct (inv_cdf s Hinv key value) as [??]; [done|].
    by apply (dense4_complete (freeze s)).
Qed.

Lemma Text_init_complete_witness :
  ∃ s, parse_lines "f.txt" scenario = Ok s
       ∧ complete s (snapshot "f.txt" (parsed "f.txt" scenario)).
Proof. exact (Text_init_complete "f.txt" scenario _ Text_init_scenario). Defined.

(** C20: the arrays of the constructed object have the extents of its
    coordinate lists: dates by offsets by locations, and by thresholds or
    quantiles for the probabilistic arrays. *)
Theorem Text_init_shape (filename : string) (lines : list string) (t : Text) :
  Text_init filename lines = Ok t → well_shaped t.
Proof.
  intros (s & _ & _ & ->)%Text_init_Ok. unfold well_shaped, snapshot, dense.
  cbn [t_dates t_offsets t_locations t_thresholds t_quantiles t_arrays a_obs
       a_deterministic a_pit a_threshold_scores a_quantile_scores].
  destruct (assign_ids_fresh (locations (reg s))) as (c & -> & _).
  rewrite <-(Forall2_length _ _ _ (assign_from_assigned c (locations (reg s)))).
  split_and!; try apply (shape_tab (shape3_of (freeze s))).
  - intros p. case_decide; [|done]. intros [= <-]. apply shape_tab.
  - apply (shape_tab (shape3_of (freeze s), _)).
  - apply (shape_tab (shape3_of (freeze s), _)).
Qed.

Lemma Text_init_shape_witness : well_shaped (snapshot "f.txt" (parsed "f.txt" scenario)).
Proof. exact (Text_init_shape "f.txt" scenario _ Text_init_scenario). Defined.




(** The constructor fails only with the errors of parsing. *)
Lemma Text_init_ensures filename lines :
  ensures (λ t, t_fullname t = filename) (file_error filename)
    (Text_init filename lines).
Proof.
  unfold Text_init. eapply (ensures_bind (λ _, True)).
  - eapply ensures_mono; [apply parse_lines_ensures|done..].
  - intros s _. by rewrite assemble_snapshot.
Qed.
