(* ===== verification/TextOrder.v ===== *)
(** * The text decoder up to the order of the coordinate sets

    [Text.__init__] turns its coordinate sets into lists with [list(set)]
    (lines 493-497 of [input.py]): the order of each list is that of a hash
    table and no part of the program.  [TextDense] passes the lists in
    first-seen order and proves its theorems for any order; this file says
    what of the constructed object does not depend on the order.
    - Two listings of the same sets are equivalent: [≡] on [coords], the
      permutation of each list.
    - The arrays are read by coordinates instead of positions ([place],
      [read3], [read4]): the reading of a tabulation is the same under
      equivalent listings ([read3_dense_proper], [read4_dense_proper]).
    - [assign_ids] gives the locations without identifier the same numbers
      whatever the order ([assign_ids_proper]); which location gets which
      number depends on the order ([assign_ids_order]).
    - Two objects are similar ([≡] on [Text]) when they differ by the order
      of their coordinates only; the object built over a listing
      ([listed_snapshot], what lines 491-560 build when [list(set)] answers
      that listing) is the same up to similarity for all listings
      ([listed_snapshot_proper]), so the object [Text_init] returns is
      similar to the one any order of the sets gives
      ([Text_init_any_order]). *)

From Stdlib Require Import QArith Qcanon.
From S2P Require Import Prelude PyFloat PyString PyArray Location TextParse TextErrors.
From S2P Require Import TextDense.

(** ** Listings *)

#[export] Instance coords_equiv : Equiv coords := λ c c',
  c_dates c ≡ₚ c_dates c' ∧ c_offsets c ≡ₚ c_offsets c'
  ∧ c_locations c ≡ₚ c_locations c' ∧ c_quantiles c ≡ₚ c_quantiles c'
  ∧ c_thresholds c ≡ₚ c_thresholds c'.

(** The key is made of listed coordinates. *)
Definition listed (c : coords) (key : key5) : Prop :=
  key_in (c_dates c) (c_offsets c) (c_locations c) key.

(** ** Reading by coordinates *)

Definition at_coordinates (la lo e : pyfloat) (l : Location) : Prop :=
  lat l = la ∧ lon l = lo ∧ elev l = e.

#[export] Instance at_coordinates_dec la lo e l : Decision (at_coordinates la lo e l).
Proof. unfold at_coordinates. apply _. Defined.

(** The position of a value in a list, the first if there are several. *)
Definition position {A} (P : A → Prop) `{∀ x, Decision (P x)} (l : list A) : option nat :=
  fst <$> list_find P l.

(** The cell of a key: the positions of its date, its offset and the first
    location at its coordinates. *)
Definition place (c : coords) (key : key5) : option idx3 :=
  let '(date, offset, la, lo, e) := key in
  d ← position (date =.) (c_dates c);
  o ← position (offset =.) (c_offsets c);
  l ← position (at_coordinates la lo e) (c_locations c);
  Some (d, o, l).

Definition place4 (axis : list pyfloat) (c : coords) (key : key6) : option idx4 :=
  i ← place c key.1;
  q ← position (key.2 =.) axis;
  Some (i, q).

Definition read3 (c : coords) (a : array3 pyfloat) (key : key5) : option pyfloat :=
  place c key ≫= aget a.

Definition read4 (axis : list pyfloat) (c : coords) (a : array4 pyfloat) (key : key6) :
    option pyfloat :=
  place4 axis c key ≫= aget a.

(** ** Listings are a setoid *)

#[export] Instance coords_equivalence : Equivalence (≡@{coords}).
Proof.
  split.
  - by intros c.
  - intros c c' (? & ? & ? & ? & ?). by split_and!.
  - intros c1 c2 c3 (? & ? & ? & ? & ?) (? & ? & ? & ? & ?). split_and!; by etrans.
Qed.

#[export] Instance c_dates_proper : Proper ((≡) ==> (≡ₚ)) c_dates.
Proof. by intros c c' (? & _). Qed.
#[export] Instance c_offsets_proper : Proper ((≡) ==> (≡ₚ)) c_offsets.
Proof. by intros c c' (_ & ? & _). Qed.
#[export] Instance c_locations_proper : Proper ((≡) ==> (≡ₚ)) c_locations.
Proof. by intros c c' (_ & _ & ? & _). Qed.
#[export] Instance c_quantiles_proper : Proper ((≡) ==> (≡ₚ)) c_quantiles.
Proof. by intros c c' (_ & _ & _ & ? & _). Qed.
#[export] Instance c_thresholds_proper : Proper ((≡) ==> (≡ₚ)) c_thresholds.
Proof. by intros c c' (_ & _ & _ & _ & ?). Qed.

#[export] Instance shape3_of_proper : Proper ((≡) ==> (=)) shape3_of.
Proof. intros c c' Hc. unfold shape3_of. by rewrite Hc. Qed.

#[export] Instance key_in_proper :
  Proper ((≡ₚ) ==> (≡ₚ) ==> (≡ₚ) ==> (=) ==> iff) key_in.
Proof.
  intros ds ds' Hd os os' Ho ls ls' Hl key ? <-. destruct key as [[[[d o] la] lo] e].
  unfold key_in. rewrite Hd, Ho. by setoid_rewrite Hl.
Qed.

#[export] Instance listed_proper : Proper ((≡) ==> (=) ==> iff) listed.
Proof. intros c c' Hc key ? <-. unfold listed. by rewrite Hc. Qed.

(** ** Places *)

Section places.
Context (c : coords).
Implicit Types (key : key5) (i : idx3).

Lemma position_Some {A} (P : A → Prop) `{∀ x, Decision (P x)} (l : list A) n :
  position P l = Some n → ∃ x, l !! n = Some x ∧ P x.
Proof.
  unfold position. intros ([n' x] & (? & ? & _)%list_find_Some & ->)%fmap_Some.
  by exists x.
Qed.

Lemma position_is_Some {A} (P : A → Prop) `{∀ x, Decision (P x)} (l : list A) :
  is_Some (position P l) ↔ ∃ x, x ∈ l ∧ P x.
Proof.
  unfold position. rewrite fmap_is_Some. split.
  - intros [[n x] (? & ? & _)%list_find_Some]. exists x. split; [|done].
    by eapply list_elem_of_lookup_2.
  - intros (x & ? & ?). by eapply list_find_elem_of.
Qed.

(** The place of a key is a cell of that key. *)
Lemma place_cell_key key i : place c key = Some i → cell_key c i = Some key.
Proof.
  destruct key as [[[[date offset] la] lo] e], i as [[d o] l]. unfold place.
  intros (d' & (? & Hd & <-)%position_Some &
          (o' & (? & Ho & <-)%position_Some &
           (l' & (location & Hl & <- & <- & <-)%position_Some & [= <- <- <-])%bind_Some
          )%bind_Some)%bind_Some.
  apply cell_key_Some. by exists date, offset, location.
Qed.

(** The keys that have a place are those made of listed coordinates. *)
Lemma place_is_Some key : is_Some (place c key) ↔ listed c key.
Proof.
  destruct key as [[[[date offset] la] lo] e]. unfold place, listed, key_in.
  assert (∀ (x : pyfloat) l, is_Some (position (x =.) l) ↔ x ∈ l) as Hpos.
  { intros x l. rewrite position_is_Some. naive_solver. }
  rewrite <-!Hpos. rewrite <-(position_is_Some (at_coordinates la lo e)).
  destruct (position _ (c_dates c)), (position _ (c_offsets c)),
    (position _ (c_locations c)); simpl; split;
    by (intros (? & ? & ?) || intros [? ?] || (intros; split_and!)).
Qed.

(** Read by coordinates, a tabulation holds the entry of the key, or nan,
    at the keys made of listed coordinates, and nothing elsewhere. *)
Lemma read3_dense table key :
  read3 c (dense3 table c) key = (λ _, default NaN (table !! key)) <$> place c key.
Proof.
  unfold read3. destruct (place c key) as [i|] eqn:Hi; [|done]. simpl.
  by apply dense3_get, place_cell_key.
Qed.

Lemma place4_Some axis key value i q :
  place4 axis c (key, value) = Some (i, q) →
  cell_key c i = Some key ∧ axis !! q = Some value.
Proof.
  unfold place4. cbn [fst snd].
  intros (i' & Hi%place_cell_key &
          (q' & (? & Hq & <-)%position_Some & [= <- <-])%bind_Some)%bind_Some.
  done.
Qed.

Lemma read4_dense table axis key value :
  read4 axis c (dense4 table axis c) (key, value)
  = (λ _, default NaN (table !! (key, value))) <$> place4 axis c (key, value).
Proof.
  unfold read4. destruct (place4 axis c (key, value)) as [[i q]|] eqn:Hi; [|done].
  simpl. apply place4_Some in Hi as [? ?]. by apply dense4_get.
Qed.

Lemma place4_is_Some axis key value :
  is_Some (place4 axis c (key, value)) ↔ listed c key ∧ value ∈ axis.
Proof.
  unfold place4. cbn [fst snd]. rewrite <-place_is_Some.
  assert (is_Some (position (value =.) axis) ↔ value ∈ axis) as <-
    by (rewrite position_is_Some; naive_solver).
  destruct (place c key), (position _ axis); simpl; split;
    by (intros [? ?] || (intros; split_and!)).
Qed.

End places.

(** ** Readings do not depend on the listing *)

Lemma const_fmap_is_Some {A B} (v : B) (o o' : option A) :
  (is_Some o ↔ is_Some o') → (λ _, v) <$> o = (λ _, v) <$> o'.
Proof.
  destruct o, o'; simpl; [done| | |done]; intros [H1 H2];
    [destruct H1 as [? [=]]|destruct H2 as [? [=]]]; by eexists.
Qed.

#[export] Instance read3_dense_proper table :
  Proper ((≡) ==> (=) ==> (=)) (λ c, read3 c (dense3 table c)).
Proof.
  intros c c' Hc key ? <-. rewrite !read3_dense. apply const_fmap_is_Some.
  by rewrite !place_is_Some, Hc.
Qed.

#[export] Instance read4_dense_proper table :
  Proper ((≡ₚ) ==> (≡) ==> (=) ==> (=)) (λ axis c, read4 axis c (dense4 table axis c)).
Proof.
  intros axis axis' Ha c c' Hc [key value] ? <-. rewrite !read4_dense.
  apply const_fmap_is_Some. by rewrite !place4_is_Some, Hc, Ha.
Qed.

(** ** Identifiers do not depend on the listing *)

Section identifiers.
Implicit Types (ls : list Location) (l : Location) (m counter : pyfloat).

Lemma max_step_comm m l1 l2 :
  max_step (max_step m l1) l2 = max_step (max_step m l2) l1.
Proof.
  unfold max_step.
  destruct m as [|c], (loc_id l1) as [|a], (loc_id l2) as [|b]; cbn [isnan];
    autorewrite with verif_rw; cbn [isnan]; try done;
    repeat match goal with
    | |- context [(Fin ?x >? Fin ?y)%F] =>
        let E := fresh "E" in
        destruct (Fin x >? Fin y)%F eqn:E; cbn [isnan];
        [apply fgt_Fin in E|apply fgt_false_Fin in E]
    end; try done; try (f_equal; qc_lra); exfalso; qc_lra.
Qed.

Lemma foldl_max_step_proper m : Proper ((≡ₚ) ==> (=)) (foldl max_step m).
Proof.
  intros ls ls' Hls. revert m.
  induction Hls as [|l ls ls' _ IH|l1 l2 ls|ls1 ls2 ls3 _ IH1 _ IH2]; intros m; simpl.
  - done.
  - apply IH.
  - by rewrite max_step_comm.
  - by rewrite IH1.
Qed.

#[export] Instance max_location_id_proper : Proper ((≡ₚ) ==> (=)) max_location_id.
Proof. apply foldl_max_step_proper. Qed.

(** The numbers [assign_from] hands out: the counter and its successors. *)
Fixpoint counters (counter : pyfloat) (n : nat) : list pyfloat :=
  match n with
  | O => []
  | S n => counter :: counters (counter + of_Z 1)%F n
  end.

(** How many locations have no identifier. *)
Definition missing ls : nat := length (filter (λ x, x = NaN) (loc_id <$> ls)).

#[export] Instance missing_proper : Proper ((≡ₚ) ==> (=)) missing.
Proof. intros ls ls' Hls. unfold missing. by rewrite Hls. Qed.

#[export] Instance assigned_ids_proper : Proper ((≡ₚ) ==> (≡ₚ)) assigned_ids.
Proof. intros ls ls' Hls. unfold assigned_ids. by rewrite Hls. Qed.

Lemma missing_cons l ls :
  missing (l :: ls) = if isnan (loc_id l) then S (missing ls) else missing ls.
Proof.
  unfold missing. rewrite fmap_cons, filter_cons.
  destruct (loc_id l); cbn [isnan]; [by rewrite decide_True|by rewrite decide_False].
Qed.

(** After assignment the identifiers are the old ones and as many numbers
    from the counter on as there were locations without. *)
Lemma assign_from_ids counter ls :
  loc_id <$> assign_from counter ls ≡ₚ assigned_ids ls ++ counters counter (missing ls).
Proof.
  revert counter. induction ls as [|l ls IH]; intros counter; [done|].
  rewrite assigned_ids_cons, missing_cons. simpl.
  destruct (isnan (loc_id l)); rewrite fmap_cons, IH; simpl; [|done].
  apply Permutation_middle.
Qed.

(** Whatever the order of the locations, the same identifiers are in use
    after [assign_ids]. *)
#[export] Instance assign_ids_proper :
  Proper ((≡ₚ) ==> (≡ₚ)) (λ ls, loc_id <$> assign_ids ls).
Proof.
  intros ls ls' Hls. unfold assign_ids. rewrite !assign_from_ids.
  rewrite (max_location_id_proper _ _ Hls), (missing_proper _ _ Hls).
  by rewrite (assigned_ids_proper _ _ Hls).
Qed.

(** And the same coordinates. *)
Definition coordinates l : pyfloat * pyfloat * pyfloat := (lat l, lon l, elev l).

Lemma assign_from_coordinates counter ls :
  coordinates <$> assign_from counter ls = coordinates <$> ls.
Proof.
  revert counter. induction ls as [|l ls IH]; intros counter; [done|]. simpl.
  destruct (isnan (loc_id l)); rewrite fmap_cons, IH; done.
Qed.

Lemma position_coordinates la lo e ls ls' :
  coordinates <$> ls = coordinates <$> ls' →
  position (at_coordinates la lo e) ls = position (at_coordinates la lo e) ls'.
Proof.
  unfold position. revert ls'. induction ls as [|l ls IH]; intros [|l' ls'] [=]; [done|].
  cbn [list_find]. assert (at_coordinates la lo e l ↔ at_coordinates la lo e l') as Hl
    by (unfold at_coordinates; naive_solver congruence).
  destruct (decide (at_coordinates la lo e l)), (decide (at_coordinates la lo e l'));
    [done|tauto..|].
  rewrite <-!option_fmap_compose. specialize (IH ls' ltac:(done)).
  by destruct (list_find _ ls) as [[? ?]|], (list_find _ ls') as [[? ?]|]; simplify_eq/=.
Qed.

End identifiers.

(** ** Objects up to the order of their coordinates *)

Definition coords_of (t : Text) : coords :=
  mkCoords (t_dates t) (t_offsets t) (t_locations t) (t_quantiles t) (t_thresholds t).

(** What an object holds for a key. *)
Definition obs_at (t : Text) : key5 → option pyfloat :=
  read3 (coords_of t) (a_obs (t_arrays t)).
Definition deterministic_at (t : Text) : key5 → option pyfloat :=
  read3 (coords_of t) (a_deterministic (t_arrays t)).
Definition pit_at (t : Text) (key : key5) : option pyfloat :=
  p ← a_pit (t_arrays t); read3 (coords_of t) p key.
Definition quantile_at (t : Text) : key6 → option pyfloat :=
  read4 (t_quantiles t) (coords_of t) (a_quantile_scores (t_arrays t)).
Definition threshold_at (t : Text) : key6 → option pyfloat :=
  read4 (t_thresholds t) (coords_of t) (a_threshold_scores (t_arrays t)).

(** Two objects that differ by the order of their coordinates only: the
    same name, variable and warnings, the same coordinates and identifiers
    in some order, and the same values at every key. *)
Record similar (t t' : Text) : Prop := {
  sim_fullname : t_fullname t = t_fullname t';
  sim_variable : t_variable t = t_variable t';
  sim_log : t_log t = t_log t';
  sim_dates : t_dates t ≡ₚ t_dates t';
  sim_offsets : t_offsets t ≡ₚ t_offsets t';
  sim_thresholds : t_thresholds t ≡ₚ t_thresholds t';
  sim_quantiles : t_quantiles t ≡ₚ t_quantiles t';
  sim_coordinates : coordinates <$> t_locations t ≡ₚ coordinates <$> t_locations t';
  sim_ids : loc_id <$> t_locations t ≡ₚ loc_id <$> t_locations t';
  sim_obs key : obs_at t key = obs_at t' key;
  sim_deterministic key : deterministic_at t key = deterministic_at t' key;
  sim_pit key : pit_at t key = pit_at t' key;
  sim_quantile_scores key : quantile_at t key = quantile_at t' key;
  sim_threshold_scores key : threshold_at t key = threshold_at t' key;
}.

#[export] Instance Text_equiv : Equiv Text := similar.

(** What lines 491-560 build when [list(set)] answers the listing [c]. *)
Definition assemble_listed (filename : string) (s : state) (c : coords) : res Text :=
  A ← fill s c (allocate c (pit s));
  Ok (mkText filename (c_dates c) (c_offsets c) (c_thresholds c) (c_quantiles c)
        (assign_ids (c_locations c)) (get_variable s) A (log (reg s))).

Definition listed_snapshot (filename : string) (s : state) (c : coords) : Text :=
  mkText filename (c_dates c) (c_offsets c) (c_thresholds c) (c_quantiles c)
    (assign_ids (c_locations c)) (get_variable s) (dense s c) (log (reg s)).

#[export] Instance similar_equivalence : Equivalence (≡@{Text}).
Proof.
  split.
  - by intros t.
  - intros t t' []. by split.
  - intros t1 t2 t3 [] []. split; first [by etrans|intros key; etrans; eauto].
Qed.

Section listings.
Context (filename : string) (s : state).
Implicit Types (c : coords) (key : key5).

Lemma assemble_listed_snapshot c :
  assemble_listed filename s c = Ok (listed_snapshot filename s c).
Proof. unfold assemble_listed. by rewrite fill_dense. Qed.

(** The constructor is the assembly over the first-seen listing. *)
Lemma assemble_freeze : assemble filename s = assemble_listed filename s (freeze s).
Proof. done. Qed.

(** The identifiers play no part in finding the place of a key. *)
Lemma place_assigned c key : place (coords_of (listed_snapshot filename s c)) key = place c key.
Proof.
  destruct key as [[[[date offset] la] lo] e]. unfold place, coords_of, listed_snapshot.
  cbn [c_dates c_offsets c_locations t_dates t_offsets t_locations].
  by rewrite (position_coordinates la lo e (assign_ids (c_locations c)) (c_locations c))
    by apply assign_from_coordinates.
Qed.

Lemma read3_assigned c a key :
  read3 (coords_of (listed_snapshot filename s c)) a key = read3 c a key.
Proof. unfold read3. by rewrite place_assigned. Qed.

Lemma read4_assigned axis c a (k : key6) :
  read4 axis (coords_of (listed_snapshot filename s c)) a k = read4 axis c a k.
Proof. unfold read4, place4. by rewrite place_assigned. Qed.

(** What the object of the first-seen listing holds for a key: the entry of
    the sparse table, nan when the key is made of listed coordinates and the
    table has no entry, and nothing for any other key. *)
Lemma snapshot_at key :
  let t := snapshot filename s in
  obs_at t key = (λ _, default NaN (obs s !! key)) <$> place (freeze s) key
  ∧ deterministic_at t key = (λ _, default NaN (fcst s !! key)) <$> place (freeze s) key
  ∧ pit_at t key
    = if decide (size (pit s) ≠ 0)
      then (λ _, default NaN (pit s !! key)) <$> place (freeze s) key else None.
Proof.
  unfold obs_at, deterministic_at, pit_at.
  change (snapshot filename s) with (listed_snapshot filename s (freeze s)).
  rewrite !read3_assigned.
  cbn [listed_snapshot dense t_arrays a_obs a_deterministic a_pit].
  split_and!; [apply read3_dense..|].
  case_decide; [|done]. cbn [mbind option_bind]. rewrite read3_assigned. apply read3_dense.
Qed.

Lemma snapshot_at4 key q :
  let t := snapshot filename s in
  quantile_at t (key, q)
  = (λ _, default NaN (x s !! (key, q))) <$> place4 (quantiles s) (freeze s) (key, q)
  ∧ threshold_at t (key, q)
    = (λ _, default NaN (cdf s !! (key, q))) <$> place4 (thresholds s) (freeze s) (key, q).
Proof.
  unfold quantile_at, threshold_at.
  change (snapshot filename s) with (listed_snapshot filename s (freeze s)).
  rewrite !read4_assigned. split; apply read4_dense.
Qed.

(** The listed keys of the object are those of the listing. *)
Lemma snapshot_listed key :
  listed (coords_of (snapshot filename s)) key ↔ listed (freeze s) key.
Proof.
  change (snapshot filename s) with (listed_snapshot filename s (freeze s)).
  by rewrite <-!place_is_Some, place_assigned.
Qed.

(** The assembled object does not depend on the listing, up to
    similarity. *)
#[export] Instance listed_snapshot_proper :
  Proper ((≡) ==> (≡)) (listed_snapshot filename s).
Proof.
  intros c c' Hc. pose proof Hc as (Hd & Ho & Hl & Hq & Ht).
  split; try done; try intros key;
    unfold obs_at, deterministic_at, pit_at, quantile_at, threshold_at;
    rewrite ?read3_assigned, ?read4_assigned;
    cbn [listed_snapshot dense t_thresholds t_quantiles t_locations t_arrays a_obs
         a_deterministic a_pit a_quantile_scores a_threshold_scores].
  - unfold assign_ids. by rewrite !assign_from_coordinates, Hl.
  - by apply assign_ids_proper.
  - by apply read3_dense_proper.
  - by apply read3_dense_proper.
  - case_decide; simpl; [|done]. rewrite !read3_assigned. by apply read3_dense_proper.
  - by apply read4_dense_proper.
  - by apply read4_dense_proper.
Qed.

End listings.

(** ** Theorems *)

(** C16: the object [Text.__init__] returns does not depend on the order in
    which [list(set)] lists the coordinate sets (lines 493-497), up to that
    order: over any listing of the sets of the final parser state the
    assembly of lines 491-560 returns, and the object it builds has the same
    name, variable and warnings as the one built over the first-seen listing,
    the same dates, offsets, thresholds, quantiles, location coordinates and
    identifiers in some order, and the same observation, forecast, pit,
    quantile score and threshold score at every key. *)
Theorem Text_init_any_order (filename : string) (lines : list string) (s : state)
    (c : coords) :
  parse_lines filename lines = Ok s → c ≡ freeze s →
  ∃ t t', Text_init filename lines = Ok t ∧ assemble_listed filename s c = Ok t'
          ∧ t ≡ t'.
Proof.
  intros Hs Hc. exists (listed_snapshot filename s (freeze s)), (listed_snapshot filename s c).
  split_and!.
  - unfold Text_init. rewrite Hs. cbn [mbind result_bind].
    rewrite assemble_freeze. apply assemble_listed_snapshot.
  - apply assemble_listed_snapshot.
  - by rewrite Hc.
Qed.

Lemma Text_init_any_order_witness :
  let s := parsed "f.txt" scenario in
  let c := mkCoords (dates s) (reverse (offsets s)) (reverse (locations (reg s)))
             (quantiles s) (reverse (thresholds s)) in
  ∃ t t', Text_init "f.txt" scenario = Ok t ∧ assemble_listed "f.txt" s c = Ok t'
          ∧ t ≡ t'.
Proof.
  intros s c. apply Text_init_any_order.
  - exact (scenario_parses 6 (le_n 6)).
  - split_and!; cbn [c c_dates c_offsets c_locations c_quantiles c_thresholds freeze];
      done || apply reverse_Permutation.
Defined.

(** What the object holds for a key is the entry of the sparse table, nan
    when the key is made of listed coordinates and the table has no entry,
    and nothing for any other key. *)
Lemma Text_init_obs_at (filename : string) (lines : list string) (t : Text) (key : key5) :
  Text_init filename lines = Ok t →
  ∃ s, parse_lines filename lines = Ok s
    ∧ obs_at t key = (λ _, default NaN (obs s !! key)) <$> place (freeze s) key
    ∧ deterministic_at t key = (λ _, default NaN (fcst s !! key)) <$> place (freeze s) key.
Proof.
  intros (s & Hs & _ & ->)%Text_init_Ok. exists s. split; [done|].
  destruct (snapshot_at filename s key) as (? & ? & _). done.
Qed.

(** Which location gets which number depends on the listing: of two
    locations without identifier, the one listed first gets 0. *)
Example assign_ids_order :
  let a := mkLocation NaN (of_Z 49) (of_Z (-123)) (of_Z 92) in
  let b := mkLocation NaN (of_Z 50) (of_Z (-122)) (of_Z 5) in
  assign_ids [a; b] = [set_id (of_Z 0) a; set_id (of_Z 1) b]
  ∧ assign_ids [b; a] = [set_id (of_Z 0) b; set_id (of_Z 1) a].
Proof. split; by vm_compute. Qed.
