(* ===== verification/TextRows.v ===== *)
(** * The text decoder as the tabulation of its rows

    A specification of [Text.__init__] (lines 350-560 of [input.py]) that
    has no parser state, and the proof that the decoder implements it.

    The specification reads a file in three steps.
    - The lines that are no comments are the header and the data rows
      ([data]); a row is read with the column positions of the header
      ([read_raw] in the state [reader]) into a [raw]: the values of the
      fixed columns, the pit value, and the number and the value of every
      quantile and threshold column ([rows]).  The comments declare the
      variable and the units, the last declaration counting ([variable_of],
      [units_of]).
    - Every row gets its identity: the location made by the first row with
      its identifier, or by itself when it has none ([identity],
      [located]).
    - The rows enter the tables in the order of the file ([enter],
      [tabulate]): the coordinates join the sets, the values go under the
      key of the row, a later value over an earlier one.  The object of the
      file ([object]) has the listed sets as coordinates and the tables read
      at every cell as arrays ([arrays_of]).
    - What the load prints ([printed]): in the order of the lines, a
      warning for every comment that declares neither the variable nor the
      units ([ignored]), and the differences and the warning of the first
      row that contradicts its identity ([contradicts], [warning]).

    The proof is a simulation.  The row handler reads the row and then
    records it ([process_row_record], an equation that covers the errors:
    [record] is the state after the row, [record_fields]); a row that is
    recorded enters the tables at its identity, because the registry knows
    the first row of every identifier ([knows], [resolve_identity],
    [content_record]) and reports the first contradiction
    ([resolve_log]); comments and the header enter nothing
    ([parse_comment_after], [parse_header_after]); so the parser is, after
    every line, in the state [after] the rows read so far, and its log has
    grown by what the lines print ([rows_after], [lines_after]).

    Theorems: the object [Text.__init__] returns is the object of the file
    ([Text_init_object], with a file whose rows repeat a key and contradict
    an identity evaluated in [object_repeated]); its coordinates are the distinct values of the rows
    in the order of the file ([Text_init_coordinates]); the tables are what
    the rows wrote ([tabulate_obs] and the like), so every cell holds what
    the last row of its key wrote and nan when no row wrote
    ([Text_init_last_row]); rows with the same identifier have the same
    identity, the first one's ([located_stable]). *)

From Stdlib Require Import Ascii.
From S2P Require Import Prelude PyFloat PyString PyArray Location TextParse TextErrors.
From S2P Require Import TextDense TextOrder.

Local Open Scope string_scope.

(** ** What a row says *)

(** The values of the fixed columns, the pit value when the header has the
    column, and for every quantile and threshold column the number in its
    name and the value. *)
Record raw := mkRaw {
  w_values :> row_values;
  w_pit : option pyfloat;
  w_x : list (pyfloat * pyfloat);
  w_cdf : list (pyfloat * pyfloat);
}.

(** Lines 481 and 483 (486 and 488) for one column. *)
Definition column (s : state) (row : list string) (fld : string) :
    res (pyfloat * pyfloat) :=
  value ← float_of_string (tail fld);
  v ← field s row fld;
  Ok (value, v).

(** Everything lines 428-489 read of a row, in the order they read it. *)
Definition read_raw (s : state) (hdr row : list string) : res raw :=
  v ← read_row s row;
  quantileFields ← get_quantile_fields hdr;
  thresholdFields ← get_threshold_fields hdr;
  p ← match indices s !! "pit" with
      | Some _ => Some <$> field s row "pit"
      | None => Ok None
      end;
  xs ← mapM (column s row) quantileFields;
  cs ← mapM (column s row) thresholdFields;
  Ok (mkRaw v p xs cs).

(** What lines 480-484 (485-489) store for one column. *)
Definition put_x (key : key5) (s : state) (c : pyfloat * pyfloat) : state :=
  set_x (<[(key, c.1) := c.2]> (x s)) (set_quantiles (set_add c.1 (quantiles s)) s).

Definition put_cdf (key : key5) (s : state) (c : pyfloat * pyfloat) : state :=
  set_cdf (<[(key, c.1) := c.2]> (cdf s)) (set_thresholds (set_add c.1 (thresholds s)) s).

(** Lines 450-472 on the values of a row. *)
Definition resolve (w : raw) (r : registry) : registry * Location :=
  resolve_location (r_id w) (r_lat w) (r_lon w) (r_elev w) r.

(** Everything lines 428-489 write for a row. *)
Definition record (w : raw) (s : state) : state :=
  let rl := resolve w (reg s) in
  let key := row_key (r_date w) (r_offset w) rl.2 in
  let s := set_dates (set_add (r_date w) (dates s)) s in
  let s := set_offsets (set_add (r_offset w) (offsets s)) s in
  let s := set_reg rl.1 s in
  let s := set_obs (<[key := r_obs w]> (obs s)) s in
  let s := set_fcst (<[key := r_fcst w]> (fcst s)) s in
  let s := from_option (λ p, set_pit (<[key := p]> (pit s)) s) s (w_pit w) in
  let s := foldl (put_x key) s (w_x w) in
  foldl (put_cdf key) s (w_cdf w).

(** ** The rows of a file, read without the parser's state *)

(** The lines that are no comments: the header, then the data rows. *)
Definition data (lines : list string) : list string :=
  filter (λ rowstr, first_char rowstr ≠ Ok "#"%char) lines.

(** The column positions of a header, as a state to read rows in. *)
Definition reader (hdr : list string) : state :=
  set_header hdr (index_columns hdr ∅) initial_state.

Definition read_rows (hdr : list string) (rows : list string) : res (list raw) :=
  mapM (λ rowstr, read_raw (reader hdr) hdr (split rowstr)) rows.

Definition rows (lines : list string) : res (list raw) :=
  match data lines with
  | [] => Ok []
  | h :: rs => read_rows (split h) rs
  end.

(** ** The identity of a row *)

(** The location a row makes when its identifier is new (lines 463-469). *)
Definition made (w : raw) : Location :=
  mkLocation (r_id w) (nan_to_zero (r_lat w)) (nan_to_zero (r_lon w))
    (nan_to_zero (r_elev w)).

(** The first of the rows that carry an identifier. *)
Definition first_with (id : pyfloat) (ws : list raw) : option raw :=
  snd <$> list_find (λ w : raw, r_id w = id) ws.

(** The identity of a row that follows the rows [ws]: the location made by
    the first row with its identifier, by itself when it has none. *)
Definition identity (ws : list raw) (w : raw) : Location :=
  if isnan (r_id w) then made w else made (default w (first_with (r_id w) ws)).

(** ** The tabulation *)

(** The sets and the tables of lines 358-368. *)
Record tables := mkTables {
  T_dates : list pyfloat;
  T_offsets : list pyfloat;
  T_locations : list Location;
  T_quantiles : list pyfloat;
  T_thresholds : list pyfloat;
  T_obs : gmap key5 pyfloat;
  T_fcst : gmap key5 pyfloat;
  T_pit : gmap key5 pyfloat;
  T_x : gmap key6 pyfloat;
  T_cdf : gmap key6 pyfloat;
}.

Definition no_tables : tables := mkTables [] [] [] [] [] ∅ ∅ ∅ ∅ ∅.

(** The numbers of the columns join their set, in the order of the header. *)
Definition add_all (cs : list (pyfloat * pyfloat)) (l : list pyfloat) : list pyfloat :=
  foldl (λ l c, set_add c.1 l) l cs.

(** The values of the columns go under the key of the row and the number of
    the column, a later column of the same number over an earlier one. *)
Definition put_all (key : key5) (cs : list (pyfloat * pyfloat)) (m : gmap key6 pyfloat) :
    gmap key6 pyfloat :=
  foldl (λ m c, <[(key, c.1) := c.2]> m) m cs.

(** A row enters the tables at the location [l]. *)
Definition enter (l : Location) (w : raw) (T : tables) : tables :=
  let key := row_key (r_date w) (r_offset w) l in
  {| T_dates := set_add (r_date w) (T_dates T);
     T_offsets := set_add (r_offset w) (T_offsets T);
     T_locations := set_add l (T_locations T);
     T_quantiles := add_all (w_x w) (T_quantiles T);
     T_thresholds := add_all (w_cdf w) (T_thresholds T);
     T_obs := <[key := r_obs w]> (T_obs T);
     T_fcst := <[key := r_fcst w]> (T_fcst T);
     T_pit := from_option (λ p, <[key := p]> (T_pit T)) (T_pit T) (w_pit w);
     T_x := put_all key (w_x w) (T_x T);
     T_cdf := put_all key (w_cdf w) (T_cdf T) |}.

(** The rows enter in the order of the file, each at its identity among
    the rows before it. *)
Fixpoint tabulate_from (earlier : list raw) (T : tables) (ws : list raw) : tables :=
  match ws with
  | [] => T
  | w :: ws => tabulate_from (earlier ++ [w]) (enter (identity earlier w) w T) ws
  end.

Definition tabulate (ws : list raw) : tables := tabulate_from [] no_tables ws.

(** The sets and the tables of a state of the parser. *)
Definition content (s : state) : tables :=
  mkTables (dates s) (offsets s) (locations (reg s)) (quantiles s) (thresholds s)
    (obs s) (fcst s) (pit s) (x s) (cdf s).

(** [locationInfo] after the rows [ws]. *)
Definition knows (r : registry) (ws : list raw) : Prop :=
  ∀ id, id ≠ NaN → locationInfo r !! id = made <$> first_with id ws.

(** The state the parser is in after the rows [ws]. *)
Definition after (ws : list raw) (s : state) : Prop :=
  content s = tabulate ws ∧ knows (reg s) ws.

(** ** The tabulation, spelt out *)

(** The rows with their identities. *)
Fixpoint located_from (earlier ws : list raw) : list (Location * raw) :=
  match ws with
  | [] => []
  | w :: ws => (identity earlier w, w) :: located_from (earlier ++ [w]) ws
  end.

Definition located (ws : list raw) : list (Location * raw) := located_from [] ws.

(** The key a row writes under (line 473). *)
Definition key_of (lw : Location * raw) : key5 :=
  row_key (r_date lw.2) (r_offset lw.2) lw.1.

(** What the rows write into each table, in the order of the file. *)
Definition obs_writes (ws : list raw) : list (key5 * pyfloat) :=
  (λ lw, (key_of lw, r_obs lw.2)) <$> located ws.

Definition fcst_writes (ws : list raw) : list (key5 * pyfloat) :=
  (λ lw, (key_of lw, r_fcst lw.2)) <$> located ws.

Definition pit_writes (ws : list raw) : list (key5 * pyfloat) :=
  omap (λ lw, (key_of lw,.) <$> w_pit lw.2) (located ws).

Definition x_writes (ws : list raw) : list (key6 * pyfloat) :=
  lw ← located ws; (λ c, ((key_of lw, c.1), c.2)) <$> w_x lw.2.

Definition cdf_writes (ws : list raw) : list (key6 * pyfloat) :=
  lw ← located ws; (λ c, ((key_of lw, c.1), c.2)) <$> w_cdf lw.2.

(** ** The comments of a file *)

(** The words a comment line declares under a key ([variable:], [units:]). *)
Definition declared (key rowstr : string) : option (list string) :=
  if decide (first_char rowstr = Ok "#"%char) then
    match split (tail rowstr) with
    | c0 :: rest => if decide (c0 = key) then Some rest else None
    | [] => None
    end
  else None.

(** Lines 389-392: the last declaration counts. *)
Definition variable_of (lines : list string) : string :=
  foldl (λ v rowstr, default v (join " " <$> declared "variable:" rowstr)) "Unknown" lines.

Definition units_of (lines : list string) : string :=
  foldl (λ u rowstr, default u (declared "units:" rowstr ≫= head)) "Unknown units" lines.

(** ** What a load prints *)

(** Line 394: a comment that declares neither the variable nor the units
    is reported. *)
Definition ignored (filename rowstr : string) : list event :=
  match split (tail rowstr) with
  | c0 :: _ =>
      if decide (c0 = "variable:" ∨ c0 = "units:") then []
      else [IgnoringLine (strip rowstr) filename]
  | [] => []
  end.

(** Line 455: a row contradicts the coordinates of the first row with its
    identifier. *)
Definition contradicts (earlier : list raw) (w : raw) : bool :=
  negb (isnan (r_id w))
  && from_option (λ w0, conflicts (r_lat w) (r_lon w) (r_elev w) (made w0)) false
       (first_with (r_id w) earlier).

(** Lines 456-457 *)
Definition warning (l : Location) (w : raw) : list event :=
  [Printed [r_lat w - lat l; r_lon w - lon l; r_elev w - elev l]%F;
   Conflicting (r_lat w) (r_lon w) (r_elev w) (lat l) (lon l) (elev l)].

(** What the lines print, in their order: every comment that is ignored,
    and the first row that contradicts its identity.  [shown] says that a
    row has contradicted before, [seen] that the header has been read; the
    rows [ws] are those of the lines, [earlier] the rows before them. *)
Fixpoint printed_from (filename : string) (shown seen : bool) (earlier ws : list raw)
    (lines : list string) : list event :=
  match lines with
  | [] => []
  | rowstr :: lines =>
      if decide (first_char rowstr = Ok "#"%char) then
        ignored filename rowstr ++ printed_from filename shown seen earlier ws lines
      else if seen then
        match ws with
        | w :: ws =>
            (if negb shown && contradicts earlier w
             then warning (identity earlier w) w else [])
            ++ printed_from filename (shown || contradicts earlier w) true
                 (earlier ++ [w]) ws lines
        | [] => []
        end
      else printed_from filename shown true earlier ws lines
  end.

Definition printed (filename : string) (lines : list string) (ws : list raw) :
    list event :=
  printed_from filename false false [] ws lines.

(** ** The object of a file *)

Definition frozen (T : tables) : coords :=
  mkCoords (T_dates T) (T_offsets T) (T_locations T) (T_quantiles T) (T_thresholds T).

(** The arrays are the tables read at every cell, nan where a table has
    nothing. *)
Definition arrays_of (T : tables) : arrays :=
  let c := frozen T in
  mkArrays (dense3 (T_obs T) c) (dense3 (T_fcst T) c)
    (if decide (size (T_pit T) ≠ 0) then Some (dense3 (T_pit T) c) else None)
    (dense4 (T_cdf T) (T_thresholds T) c)
    (dense4 (T_x T) (T_quantiles T) c).

(** The object of a file whose rows are [ws]. *)
Definition object (filename : string) (lines : list string) (ws : list raw) : Text :=
  let T := tabulate ws in
  mkText filename (T_dates T) (T_offsets T) (T_thresholds T) (T_quantiles T)
    (assign_ids (T_locations T)) (mkVariable (variable_of lines) (units_of lines))
    (arrays_of T) (printed filename lines ws).

(** ** Reading, then recording *)

Section reading.
Implicit Types (s : state) (row hdr flds : list string) (key : key5) (w : raw).

Lemma column_indices s s' row fld :
  indices s' = indices s → column s' row fld = column s row fld.
Proof. intros H. unfold column. by rewrite (field_indices s s'). Qed.

Lemma foldl_indices (put : state → pyfloat * pyfloat → state) cs s :
  (∀ s c, indices (put s c) = indices s) → indices (foldl put s cs) = indices s.
Proof.
  intros Hput. revert s. induction cs as [|c cs IH]; intros s; simpl; [done|].
  by rewrite IH.
Qed.

(** A loop whose passes read a column and store it reads the columns, then
    stores them. *)
Lemma columns_record (f : state → string → res state)
    (put : state → pyfloat * pyfloat → state) row flds s s0 :
  (∀ s c, indices (put s c) = indices s) →
  (∀ s fld, indices s = indices s0 → f s fld = c ← column s0 row fld; Ok (put s c)) →
  indices s = indices s0 →
  foldlM f s flds = cs ← mapM (column s0 row) flds; Ok (foldl put s cs).
Proof.
  intros Hind Hf. revert s.
  induction flds as [|fld flds IH]; simpl; intros s Hs; [done|].
  rewrite Hf by done. destruct (column s0 row fld) as [c|]; simpl; [|done].
  rewrite IH by by rewrite Hind. by destruct (mapM _ flds).
Qed.

Lemma store_quantile_record row key s s0 fld :
  indices s = indices s0 →
  store_quantile row key s fld = c ← column s0 row fld; Ok (put_x key s c).
Proof.
  intros Hs. unfold store_quantile, column, put_x. cbv zeta.
  destruct (float_of_string _); simpl; [|done].
  rewrite (field_indices s0) by done. by destruct (field s0 row fld).
Qed.

Lemma store_threshold_record row key s s0 fld :
  indices s = indices s0 →
  store_threshold row key s fld = c ← column s0 row fld; Ok (put_cdf key s c).
Proof.
  intros Hs. unfold store_threshold, column, put_cdf. cbv zeta.
  destruct (float_of_string _); simpl; [|done].
  rewrite (field_indices s0) by done. by destruct (field s0 row fld).
Qed.

(** The next read of a row, on both sides of an equation. *)
Ltac read_head s row :=
  match goal with
  | |- mbind _ (field_or ?s' row ?n ?d) = _ =>
      change (field_or s' row n d) with (field_or s row n d);
      destruct (field_or s row n d); cbn [mbind result_bind]; [|done]
  | |- mbind _ (field ?s' row ?n) = _ =>
      change (field s' row n) with (field s row n);
      destruct (field s row n); cbn [mbind result_bind]; [|done]
  | |- mbind _ ?m = _ => destruct m; cbn [mbind result_bind]; [|done]
  end.

(** The row handler reads the row, then records it: no error comes
    between two writes. *)
Lemma process_row_record rowstr row hdr s :
  process_row rowstr row hdr s
  = if len_is_not (length row) (length hdr)
    then Err (UtilError (IncorrectColumns (length hdr) (strip rowstr)))
    else w ← read_raw s hdr row; Ok (record w s).
Proof.
  unfold process_row, read_raw, read_row, record, resolve, store_pit. cbv zeta.
  destruct (len_is_not _ _); [done|]. do 10 read_head s row.
  assert (∀ key s1, indices s1 = indices s →
    (s2 ← foldlM (store_quantile row key) s1 a7; foldlM (store_threshold row key) s2 a8)
    = xs ← mapM (column s row) a7; cs ← mapM (column s row) a8;
      Ok (foldl (put_cdf key) (foldl (put_x key) s1 xs) cs)) as Hloops.
  { intros key s1 Hs1.
    rewrite (columns_record _ (put_x key) row a7 s1 s);
      [|by intros []|intros; by apply store_quantile_record|done].
    destruct (mapM _ a7) as [xs|]; cbn [mbind result_bind]; [|done].
    rewrite (columns_record _ (put_cdf key) row a8 _ s);
      [done|by intros []|intros; by apply store_threshold_record|].
    rewrite foldl_indices; [done|by intros []]. }
  match goal with |- context [indices ?S !! "pit"] =>
    change (indices S) with (indices s) end.
  destruct (indices s !! "pit"); cbn [mbind result_bind];
    [|rewrite Hloops by done; by do 2 read_head s row].
  match goal with |- context [field ?S row "pit"] =>
    change (field S row "pit") with (field s row "pit") end.
  destruct (field s row "pit"); cbn [mbind result_bind fmap result_fmap]; [|done].
  rewrite Hloops by done. by do 2 read_head s row.
Qed.

End reading.

(** ** The registry and the identities *)

Section identity.
Implicit Types (r : registry) (w : raw) (ws : list raw) (l : Location) (id : pyfloat).

Lemma first_with_snoc id ws w :
  first_with id (ws ++ [w])
  = match first_with id ws with
    | Some w' => Some w'
    | None => if decide (r_id w = id) then Some w else None
    end.
Proof.
  unfold first_with. destruct (list_find _ ws) as [[i w']|] eqn:Hf.
  - by rewrite (list_find_app_l _ _ _ _ _ Hf).
  - rewrite list_find_app_r by done. simpl. by case_decide.
Qed.

Lemma knows_nil : knows empty_registry [].
Proof. by intros id _. Qed.

Lemma isnan_ne id : isnan id = false ↔ id ≠ NaN.
Proof. by destruct id. Qed.

Lemma resolve_identity r ws w : knows r ws → (resolve w r).2 = identity ws w.
Proof.
  intros Hk. unfold resolve, resolve_location, identity.
  destruct (isnan (r_id w)) eqn:Hid; [done|].
  rewrite Hk by by apply isnan_ne.
  destruct (first_with _ ws) as [w'|]; simpl; [|done]. by destruct (negb _ && _).
Qed.

Lemma resolve_info r w :
  locationInfo (resolve w r).1
  = match (if isnan (r_id w) then None else locationInfo r !! r_id w) with
    | Some _ => locationInfo r
    | None => <[r_id w := made w]> (locationInfo r)
    end.
Proof.
  unfold resolve, resolve_location.
  destruct (if isnan (r_id w) then _ else _); [|done]. by destruct (negb _ && _).
Qed.

Lemma resolve_knows r ws w : knows r ws → knows (resolve w r).1 (ws ++ [w]).
Proof.
  intros Hk id Hid. pose proof (Hk id Hid) as Hi.
  rewrite first_with_snoc, resolve_info.
  destruct (isnan (r_id w)) eqn:Hn.
  - apply isnan_true in Hn. rewrite lookup_insert_ne, Hi by congruence.
    destruct (first_with id ws); [done|]. by rewrite decide_False by congruence.
  - destruct (decide (r_id w = id)) as [->|Hne].
    + destruct (first_with id ws); simpl in Hi; rewrite Hi; [done|].
      by rewrite lookup_insert_eq.
    + assert (locationInfo r !! id = made <$> match first_with id ws with
                                              | Some w' => Some w'
                                              | None => None
                                              end) as Hi'
        by (rewrite Hi; by destruct (first_with id ws)).
      destruct (locationInfo r !! r_id w); [done|]. by rewrite lookup_insert_ne.
Qed.

Lemma resolve_locations r ws w :
  reg_inv r → knows r ws →
  locations (resolve w r).1 = set_add (identity ws w) (locations r).
Proof.
  intros Hr Hk. rewrite <-(resolve_identity r ws w Hk).
  unfold resolve, resolve_location.
  destruct (if isnan (r_id w) then None else locationInfo r !! r_id w) as [l|] eqn:Hl;
    [|done].
  destruct (isnan (r_id w)) eqn:Hn; [done|]. apply isnan_ne in Hn.
  destruct (inv_info_loc r Hr _ l Hn Hl) as [Hin _].
  rewrite set_add_elem by by destruct (negb _ && _).
  by destruct (negb _ && _).
Qed.

(** The first row that contradicts its identity is reported, and no row
    after it. *)
Lemma resolve_log r ws w :
  knows r ws →
  log (resolve w r).1
  = (log r ++ if negb (shownConflictingWarning r) && contradicts ws w
              then warning (identity ws w) w else [])%list
  ∧ shownConflictingWarning (resolve w r).1
    = shownConflictingWarning r || contradicts ws w.
Proof.
  intros Hk. unfold resolve, resolve_location, contradicts, identity.
  destruct (isnan (r_id w)) eqn:Hid; simpl.
  { by rewrite andb_false_r, List.app_nil_r, orb_false_r. }
  rewrite Hk by by apply isnan_ne.
  destruct (first_with _ ws) as [w0|]; simpl;
    [|by rewrite andb_false_r, List.app_nil_r, orb_false_r].
  destruct (shownConflictingWarning r) eqn:Hs, (conflicts _ _ _ _); simpl;
    rewrite ?List.app_nil_r, ?Hs; done.
Qed.

End identity.

(** ** The parser follows the tabulation *)

Section simulation.
Implicit Types (s : state) (w : raw) (ws : list raw) (filename rowstr : string)
  (hdr lines : list string).

Lemma foldl_put_x key cs s :
  foldl (put_x key) s cs
  = set_x (put_all key cs (x s)) (set_quantiles (add_all cs (quantiles s)) s).
Proof.
  revert s. induction cs as [|c cs IH]; intros s; simpl; [by destruct s|].
  rewrite IH. by destruct s.
Qed.

Lemma foldl_put_cdf key cs s :
  foldl (put_cdf key) s cs
  = set_cdf (put_all key cs (cdf s)) (set_thresholds (add_all cs (thresholds s)) s).
Proof.
  revert s. induction cs as [|c cs IH]; intros s; simpl; [by destruct s|].
  rewrite IH. by destruct s.
Qed.

(** The state after a row, field by field. *)
Lemma record_fields w s :
  let rl := resolve w (reg s) in
  let key := row_key (r_date w) (r_offset w) rl.2 in
  record w s
  = mkState (units s) (variable s) (set_add (r_date w) (dates s))
      (set_add (r_offset w) (offsets s)) (add_all (w_x w) (quantiles s))
      (add_all (w_cdf w) (thresholds s)) (<[key := r_obs w]> (obs s))
      (<[key := r_fcst w]> (fcst s))
      (from_option (λ p, <[key := p]> (pit s)) (pit s) (w_pit w))
      (put_all key (w_x w) (x s)) (put_all key (w_cdf w) (cdf s))
      (indices s) (header s) rl.1.
Proof. unfold record. rewrite foldl_put_cdf, foldl_put_x. by destruct s, (w_pit w). Qed.

Lemma reg_record w s : reg (record w s) = (resolve w (reg s)).1.
Proof. by rewrite record_fields. Qed.

(** Recording a row is entering it at its identity. *)
Lemma content_record ws w s :
  reg_inv (reg s) → knows (reg s) ws →
  content (record w s) = enter (identity ws w) w (content s).
Proof.
  intros Hr Hk. rewrite record_fields. unfold enter, content.
  cbn [dates offsets quantiles thresholds obs fcst pit x cdf reg T_dates T_offsets
       T_locations T_quantiles T_thresholds T_obs T_fcst T_pit T_x T_cdf].
  by rewrite (resolve_locations _ _ w Hr Hk), (resolve_identity _ _ w Hk).
Qed.

Lemma tabulate_from_snoc earlier T ws w :
  tabulate_from earlier T (ws ++ [w])
  = enter (identity (earlier ++ ws) w) w (tabulate_from earlier T ws).
Proof.
  revert earlier T. induction ws as [|w' ws IH]; intros earlier T; simpl.
  - by rewrite app_nil_r.
  - by rewrite IH, <-app_assoc.
Qed.

Lemma after_nil : after [] initial_state.
Proof. split; [done|apply knows_nil]. Qed.

Lemma after_record ws w s : state_inv s → after ws s → after (ws ++ [w]) (record w s).
Proof.
  intros Hs [Hc Hk]. split.
  - unfold tabulate. rewrite tabulate_from_snoc, (content_record ws) by (done || apply Hs).
    by rewrite Hc.
  - rewrite reg_record. by apply resolve_knows.
Qed.

(** A comment enters nothing. *)
Lemma parse_comment_after filename rowstr ws s s' :
  parse_comment filename rowstr s = Ok s' → after ws s → after ws s'.
Proof.
  unfold parse_comment. cbv zeta. intros H Ha. inv_res.
  repeat case_decide; inv_res; by destruct s.
Qed.

(** Neither does the header. *)
Lemma parse_header_after filename hdr ws s s' :
  parse_header filename hdr s = Ok s' → after ws s → after ws s'.
Proof. unfold parse_header. cbv zeta. intros H Ha. inv_res. by destruct s. Qed.

Lemma parse_comment_log filename rowstr s s' :
  parse_comment filename rowstr s = Ok s' →
  log (reg s') = (log (reg s) ++ ignored filename rowstr)%list
  ∧ shownConflictingWarning (reg s') = shownConflictingWarning (reg s).
Proof.
  unfold parse_comment, ignored. cbv zeta. intros H. apply bind_Ok in H as (c0 & Hc0 & H).
  unfold list_index in Hc0. inv_res.
  destruct (split (tail rowstr)) as [|c0' rest]; [done|]. injection Hc0 as ->.
  repeat case_decide; inv_res; simpl; rewrite ?List.app_nil_r; naive_solver.
Qed.

Lemma parse_header_log filename hdr s s' :
  parse_header filename hdr s = Ok s' → reg s' = reg s.
Proof. unfold parse_header. cbv zeta. intros H. by inv_res. Qed.

Lemma read_raw_indices s s' hdr row :
  indices s' = indices s → read_raw s' hdr row = read_raw s hdr row.
Proof.
  intros H. unfold read_raw, read_row, column, field_or, field. by rewrite H.
Qed.

Lemma data_cons rowstr lines c :
  first_char rowstr = Ok c →
  data (rowstr :: lines) = if decide (c = "#"%char) then data lines else rowstr :: data lines.
Proof.
  intros Hc. unfold data. rewrite filter_cons, Hc.
  repeat case_decide; naive_solver.
Qed.

(** Once the header is read, the rows the parser accepts are those the
    header reads, and the parser is in the state after them. *)
Lemma rows_after filename hdr lines s s' ws0 :
  foldlM (process_line filename) s lines = Ok s' →
  state_inv s → header s = Some hdr → after ws0 s →
  ∃ ws, read_rows hdr (data lines) = Ok ws ∧ after (ws0 ++ ws) s'
    ∧ log (reg s')
      = (log (reg s)
         ++ printed_from filename (shownConflictingWarning (reg s)) true ws0 ws lines)%list.
Proof.
  revert s ws0.
  induction lines as [|rowstr lines IH]; cbn [foldlM printed_from]; intros s ws0 H Hs Hh Ha.
  { exists []. injection H as <-. by rewrite !app_nil_r. }
  apply bind_Ok in H as (s1 & H1 & H).
  pose proof (process_line_inv _ _ _ _ Hs H1) as Hs1.
  destruct (header_fixed _ _ _ _ _ Hs Hh H1) as [Hh1 _].
  unfold process_line in H1. apply bind_Ok in H1 as (c & Hc & H1).
  rewrite (data_cons _ _ _ Hc), Hc. destruct (decide (c = "#"%char)) as [->|Hne].
  { destruct (parse_comment_log _ _ _ _ H1) as [Hlog Hshown].
    destruct (IH s1 ws0) as (ws & ? & ? & ->); [done..|by eapply parse_comment_after|].
    exists ws. rewrite decide_True by done. by rewrite Hlog, Hshown, <-app_assoc. }
  rewrite Hh, process_row_record in H1.
  destruct (len_is_not _ _); [done|]. apply bind_Ok in H1 as (w & Hw & [= <-]).
  destruct (IH _ (ws0 ++ [w])%list H Hs1 Hh1) as (ws & Hws & Hafter & ->);
    [by apply after_record|].
  rewrite reg_record. destruct (resolve_log _ _ w (proj2 Ha)) as [-> ->].
  exists (w :: ws). rewrite decide_False by congruence.
  rewrite <-!app_assoc in *. split_and!; [|done..].
  unfold read_rows in *. simpl. rewrite (read_raw_indices s), Hw, Hws; [done|].
  pose proof (inv_header s Hs) as Hi. rewrite Hh in Hi. by destruct Hi as (_ & -> & _).
Qed.

(** Before the header, comments; then the header, then the rows. *)
Lemma lines_after filename lines s s' :
  foldlM (process_line filename) s lines = Ok s' →
  state_inv s → header s = None → after [] s →
  ∃ ws, rows lines = Ok ws ∧ after ws s'
    ∧ log (reg s')
      = (log (reg s)
         ++ printed_from filename (shownConflictingWarning (reg s)) false [] ws lines)%list.
Proof.
  revert s. induction lines as [|rowstr lines IH]; cbn [foldlM printed_from]; intros s H Hs Hh Ha.
  { exists []. injection H as <-. by rewrite app_nil_r. }
  apply bind_Ok in H as (s1 & H1 & H).
  pose proof (process_line_inv _ _ _ _ Hs H1) as Hs1.
  pose proof H1 as H1'.
  unfold process_line in H1. apply bind_Ok in H1 as (c & Hc & H1).
  unfold rows. rewrite (data_cons _ _ _ Hc), Hc. destruct (decide (c = "#"%char)) as [->|Hne].
  { destruct (parse_comment_log _ _ _ _ H1) as [Hlog Hshown].
    destruct (IH s1) as (ws & ? & ? & ->);
      [done..|by rewrite (comment_phase _ _ _ _ Hc H1')|by eapply parse_comment_after|].
    exists ws. rewrite decide_True by done. by rewrite Hlog, Hshown, <-app_assoc. }
  rewrite Hh in H1. rewrite <-(parse_header_log _ _ _ _ H1).
  destruct (rows_after _ (split rowstr) _ _ _ [] H) as (ws & ? & ? & ->);
    [done|by eapply header_read|by eapply parse_header_after|].
  exists ws. by rewrite decide_False by congruence.
Qed.

(** The comments set the variable and the units, and nothing else does. *)
Lemma process_line_declares filename s rowstr s' :
  process_line filename s rowstr = Ok s' →
  variable s' = default (variable s) (join " " <$> declared "variable:" rowstr)
  ∧ units s' = default (units s) (declared "units:" rowstr ≫= head).
Proof.
  unfold process_line, declared. intros H. apply bind_Ok in H as (c & -> & H).
  case_decide as Hc.
  - subst c. rewrite !decide_True by done. unfold parse_comment in H. cbv zeta in H.
    apply bind_Ok in H as (c0 & Hc0 & H). unfold list_index in Hc0. inv_res.
    destruct (split (tail rowstr)) as [|c0' rest]; [done|]. injection Hc0 as ->.
    repeat case_decide; inv_res; simplify_eq; try by destruct s.
    match goal with H : list_index _ 1 = Ok _ |- _ =>
      unfold list_index in H; inv_res; destruct rest; simplify_eq/= end.
    by destruct s.
  - rewrite !decide_False by congruence.
    destruct (header s); [|unfold parse_header in H; cbv zeta in H; inv_res; by destruct s].
    rewrite process_row_record in H. inv_res. by rewrite record_fields.
Qed.

Lemma foldlM_declares filename lines s s' :
  foldlM (process_line filename) s lines = Ok s' →
  variable s'
  = foldl (λ v rowstr, default v (join " " <$> declared "variable:" rowstr)) (variable s) lines
  ∧ units s'
    = foldl (λ u rowstr, default u (declared "units:" rowstr ≫= head)) (units s) lines.
Proof.
  revert s. induction lines as [|rowstr lines IH]; simpl; intros s H; [by injection H as <-|].
  apply bind_Ok in H as (s1 & [<- <-]%process_line_declares & H). by apply IH.
Qed.

End simulation.

(** ** What the tabulation holds *)

Section tabulation.
Implicit Types (w : raw) (ws earlier : list raw) (T : tables) (lw : Location * raw)
  (id : pyfloat).

Lemma tabulate_from_located earlier T ws :
  tabulate_from earlier T ws
  = foldl (λ T lw, enter lw.1 lw.2 T) T (located_from earlier ws).
Proof. revert earlier T. induction ws as [|w ws IH]; intros earlier T; simpl; [done|apply IH]. Qed.

Lemma located_rows {X} (f : raw → X) earlier ws :
  (λ lw, f lw.2) <$> located_from earlier ws = f <$> ws.
Proof.
  revert earlier. induction ws as [|w ws IH]; intros earlier; simpl; [done|by rewrite IH].
Qed.

Lemma located_bind {X} (f : raw → list X) earlier ws :
  (lw ← located_from earlier ws; f lw.2) = (w ← ws; f w).
Proof.
  revert earlier. induction ws as [|w ws IH]; intros earlier; simpl; [done|by rewrite IH].
Qed.

Lemma first_with_app id ws ws' :
  first_with id (ws ++ ws')
  = match first_with id ws with Some w => Some w | None => first_with id ws' end.
Proof.
  unfold first_with. destruct (list_find _ ws) as [[i w]|] eqn:Hf.
  - by rewrite (list_find_app_l _ _ _ _ _ Hf).
  - rewrite list_find_app_r by done. by destruct (list_find _ ws') as [[??]|].
Qed.

(** The identity of a row with an identifier is the location the first row
    with that identifier makes. *)
Lemma located_from_first earlier ws lw :
  lw ∈ located_from earlier ws → r_id lw.2 ≠ NaN →
  Some lw.1 = made <$> first_with (r_id lw.2) (earlier ++ ws).
Proof.
  revert earlier. induction ws as [|w ws IH]; intros earlier; simpl;
    [by intros ?%elem_of_nil|].
  intros [->|Hlw]%elem_of_cons Hid.
  - simpl. unfold identity. rewrite (proj2 (isnan_ne _)), first_with_app by done.
    destruct (first_with _ earlier); [done|]. unfold first_with. simpl.
    by rewrite decide_True.
  - rewrite (IH _ Hlw Hid), <-app_assoc. done.
Qed.

(** Rows with the same identifier have the same identity, whatever
    coordinates they carry. *)
Lemma located_stable ws lw lw' :
  lw ∈ located ws → lw' ∈ located ws →
  r_id lw.2 = r_id lw'.2 → r_id lw.2 ≠ NaN → lw.1 = lw'.1.
Proof.
  intros H H' Hid Hn. apply (located_from_first []) in H, H'; [|congruence|done].
  rewrite <-Hid in H'. congruence.
Qed.

(** A row without identifier is its own location. *)
Lemma located_missing ws lw : lw ∈ located ws → r_id lw.2 = NaN → lw.1 = made lw.2.
Proof.
  unfold located. generalize (@nil raw).
  induction ws as [|w ws IH]; intros earlier; simpl; [by intros ?%elem_of_nil|].
  intros [->|Hlw]%elem_of_cons Hid; [|by eapply IH]. simpl in *.
  unfold identity. by rewrite Hid.
Qed.

(** A projection of the tabulation is a fold over the located rows. *)
Lemma tabulate_project {C} (π : tables → C) (g : C → Location * raw → C) ws :
  (∀ T lw, π (enter lw.1 lw.2 T) = g (π T) lw) →
  π (tabulate ws) = foldl g (π no_tables) (located ws).
Proof. intros Hg. unfold tabulate. rewrite tabulate_from_located. by apply foldl_project. Qed.

(** The coordinates are the distinct values of the rows, in the order of
    the file. *)
Lemma tabulate_dates ws : T_dates (tabulate ws) = distinct ((λ w, r_date w) <$> ws).
Proof.
  rewrite (tabulate_project T_dates (λ l (lw : Location * raw), set_add (r_date lw.2) l)) by done.
  rewrite (foldl_set_add_fmap (λ lw : Location * raw, r_date lw.2)). unfold distinct, located.
  by rewrite (located_rows (λ w, r_date w)).
Qed.

Lemma tabulate_offsets ws : T_offsets (tabulate ws) = distinct ((λ w, r_offset w) <$> ws).
Proof.
  rewrite (tabulate_project T_offsets (λ l (lw : Location * raw), set_add (r_offset lw.2) l)) by done.
  rewrite (foldl_set_add_fmap (λ lw : Location * raw, r_offset lw.2)). unfold distinct, located.
  by rewrite (located_rows (λ w, r_offset w)).
Qed.

Lemma tabulate_locations ws : T_locations (tabulate ws) = distinct (located ws).*1.
Proof.
  rewrite (tabulate_project T_locations (λ l (lw : Location * raw), set_add lw.1 l)) by done.
  by rewrite (foldl_set_add_fmap fst).
Qed.

Lemma add_all_bind {X} (f : X → list (pyfloat * pyfloat)) (xs : list X) l :
  foldl (λ l x, add_all (f x) l) l xs
  = foldl (λ l q, set_add q l) l (x ← xs; (f x).*1).
Proof.
  revert l. induction xs as [|x xs IH]; intros l; simpl; [done|].
  rewrite foldl_app, IH. f_equal. unfold add_all. apply (foldl_set_add_fmap fst).
Qed.

Lemma tabulate_quantiles ws :
  T_quantiles (tabulate ws) = distinct (w ← ws; (w_x w).*1).
Proof.
  rewrite (tabulate_project T_quantiles (λ l (lw : Location * raw), add_all (w_x lw.2) l)) by done.
  rewrite (add_all_bind (λ lw : Location * raw, w_x lw.2)). unfold distinct, located.
  by rewrite (located_bind (λ w, (w_x w).*1)).
Qed.

Lemma tabulate_thresholds ws :
  T_thresholds (tabulate ws) = distinct (w ← ws; (w_cdf w).*1).
Proof.
  rewrite (tabulate_project T_thresholds (λ l (lw : Location * raw), add_all (w_cdf lw.2) l)) by done.
  rewrite (add_all_bind (λ lw : Location * raw, w_cdf lw.2)). unfold distinct, located.
  by rewrite (located_bind (λ w, (w_cdf w).*1)).
Qed.

(** The tables are what the rows wrote. *)
Lemma tabulate_obs ws : T_obs (tabulate ws) = written (obs_writes ws).
Proof.
  rewrite (tabulate_project T_obs (λ m (lw : Location * raw), <[key_of lw := r_obs lw.2]> m)) by done.
  apply (foldl_written (λ lw : Location * raw, (key_of lw, r_obs lw.2))).
Qed.

Lemma tabulate_fcst ws : T_fcst (tabulate ws) = written (fcst_writes ws).
Proof.
  rewrite (tabulate_project T_fcst (λ m (lw : Location * raw), <[key_of lw := r_fcst lw.2]> m)) by done.
  apply (foldl_written (λ lw : Location * raw, (key_of lw, r_fcst lw.2))).
Qed.

Lemma tabulate_pit ws : T_pit (tabulate ws) = written (pit_writes ws).
Proof.
  rewrite (tabulate_project T_pit (λ m (lw : Location * raw),
    from_option (λ kv, <[kv.1 := kv.2]> m) m ((key_of lw,.) <$> w_pit lw.2))).
  - apply foldl_written_omap.
  - intros T [l w]. simpl. by destruct (w_pit w).
Qed.

Lemma put_all_writes (key : key5) (cs : list (pyfloat * pyfloat)) (m : gmap key6 pyfloat) :
  put_all key cs m
  = foldl (λ m kv, <[kv.1 := kv.2]> m) m ((λ c, ((key, c.1), c.2)) <$> cs).
Proof. unfold put_all. by rewrite foldl_fmap. Qed.

Lemma tabulate_x ws : T_x (tabulate ws) = written (x_writes ws).
Proof.
  rewrite (tabulate_project T_x (λ m (lw : Location * raw),
    foldl (λ m kv, <[kv.1 := kv.2]> m) m ((λ c, ((key_of lw, c.1), c.2)) <$> w_x lw.2))).
  - apply foldl_written_bind.
  - intros T lw. apply put_all_writes.
Qed.

Lemma tabulate_cdf ws : T_cdf (tabulate ws) = written (cdf_writes ws).
Proof.
  rewrite (tabulate_project T_cdf (λ m (lw : Location * raw),
    foldl (λ m kv, <[kv.1 := kv.2]> m) m ((λ c, ((key_of lw, c.1), c.2)) <$> w_cdf lw.2))).
  - apply foldl_written_bind.
  - intros T lw. apply put_all_writes.
Qed.

End tabulation.

(** ** Theorems *)

(** The parser ends in the state after the rows of the file, with the
    variable and the units its comments declare. *)
Lemma parse_lines_tabulates (filename : string) (lines : list string) (s : state) :
  parse_lines filename lines = Ok s →
  ∃ ws, rows lines = Ok ws ∧ content s = tabulate ws
    ∧ get_variable s = mkVariable (variable_of lines) (units_of lines)
    ∧ log (reg s) = printed filename lines ws.
Proof.
  intros H. destruct (foldlM_declares _ _ _ _ H) as [Hv Hu].
  destruct (lines_after _ _ _ _ H initial_state_inv eq_refl after_nil)
    as (ws & Hws & [Hc _] & Hlog).
  exists ws. split_and!; [done..| |done]. unfold get_variable. by rewrite Hv, Hu.
Qed.

Lemma Text_init_object (filename : string) (lines : list string) (t : Text) :
  Text_init filename lines = Ok t →
  ∃ ws, rows lines = Ok ws ∧ t = object filename lines ws.
Proof.
  intros (s & Hs & _ & ->)%Text_init_Ok.
  destruct (parse_lines_tabulates _ _ _ Hs) as (ws & Hws & Hc & Hv & Hlog).
  exists ws. split; [done|]. unfold object, snapshot. rewrite <-Hc, <-Hv, <-Hlog. done.
Qed.

(** C17: the row handler checks the number of fields, reads the row and then
    records it: it fails with the arity error or with the first error of the
    reads, in the order of lines 428-489 (the fixed columns, the pit value,
    the quantile columns, the threshold columns; for a probabilistic column
    the number in its name, then its value), and no error comes after the
    first write; otherwise the state is the one [record] gives, with the
    row's date and offset and the numbers of its columns in their sets, its
    location resolved, and its values in the tables under its key. *)
Theorem process_row_reads (rowstr : string) (row hdr : list string) (s : state) :
  process_row rowstr row hdr s
  = if len_is_not (length row) (length hdr)
    then Err (UtilError (IncorrectColumns (length hdr) (strip rowstr)))
    else w ← read_raw s hdr row; Ok (record w s).
Proof. apply process_row_record. Qed.

(** The coordinates of the object are the distinct values of the rows, in
    the order of the file. *)
Lemma Text_init_coordinates (filename : string) (lines : list string) (t : Text) :
  Text_init filename lines = Ok t →
  ∃ ws, rows lines = Ok ws
    ∧ t_dates t = distinct ((λ w : raw, r_date w) <$> ws)
    ∧ t_offsets t = distinct ((λ w : raw, r_offset w) <$> ws)
    ∧ t_locations t = assign_ids (distinct (located ws).*1)
    ∧ t_quantiles t = distinct (w ← ws; (w_x w).*1)
    ∧ t_thresholds t = distinct (w ← ws; (w_cdf w).*1)
    ∧ t_variable t = mkVariable (variable_of lines) (units_of lines).
Proof.
  intros (ws & Hws & ->)%Text_init_object. exists ws. split; [done|].
  unfold object. cbn [t_dates t_offsets t_locations t_quantiles t_thresholds t_variable].
  by rewrite tabulate_dates, tabulate_offsets, tabulate_locations, tabulate_quantiles,
    tabulate_thresholds.
Qed.

(** The object of the scenario is the object of its rows. *)
Lemma Text_init_object_scenario :
  ∃ ws, rows scenario = Ok ws
    ∧ snapshot "f.txt" (parsed "f.txt" scenario) = object "f.txt" scenario ws.
Proof. exact (Text_init_object "f.txt" scenario _ Text_init_scenario). Qed.

(** The tables of the final state are what the rows wrote. *)
Lemma parse_lines_written (s : state) (ws : list raw) :
  content s = tabulate ws →
  obs s = written (obs_writes ws) ∧ fcst s = written (fcst_writes ws)
  ∧ pit s = written (pit_writes ws)
  ∧ x s = written (x_writes ws) ∧ cdf s = written (cdf_writes ws).
Proof.
  intros Hc.
  rewrite <-tabulate_obs, <-tabulate_fcst, <-tabulate_pit, <-tabulate_x, <-tabulate_cdf, <-Hc.
  done.
Qed.

(** C12: the last row counts.  In the object [Text.__init__] returns, the key
    of every row of the file (its date, its offset and the coordinates of
    its identity: those of the first row with its identifier) is made of
    listed coordinates, and at every such key the observation and the
    forecast are those of the last row with that key, the pit value, the
    quantile scores and the threshold scores the last that were written
    under it, and nan where no row wrote; there is no pit array when no row
    has a pit value. *)
Theorem Text_init_last_row (filename : string) (lines : list string) (t : Text) :
  Text_init filename lines = Ok t →
  ∃ ws, rows lines = Ok ws
    ∧ (∀ lw, lw ∈ located ws → listed (coords_of t) (key_of lw))
    ∧ ∀ key, listed (coords_of t) key →
        obs_at t key = Some (default NaN (last_write key (obs_writes ws)))
        ∧ deterministic_at t key = Some (default NaN (last_write key (fcst_writes ws)))
        ∧ pit_at t key
          = (if decide (pit_writes ws = []) then None
             else Some (default NaN (last_write key (pit_writes ws))))
        ∧ (∀ q, q ∈ t_quantiles t →
             quantile_at t (key, q)
             = Some (default NaN (last_write (key, q) (x_writes ws))))
        ∧ (∀ q, q ∈ t_thresholds t →
             threshold_at t (key, q)
             = Some (default NaN (last_write (key, q) (cdf_writes ws)))).
Proof.
  intros (s & Hs & Hinv & ->)%Text_init_Ok.
  destruct (parse_lines_tabulates _ _ _ Hs) as (ws & Hws & Hc & _ & _).
  destruct (parse_lines_written _ _ Hc) as (Hobs & Hfcst & Hpit & Hx & Hcdf).
  exists ws. split_and!; [done| |].
  - intros lw Hlw. apply snapshot_listed, (inv_obs s Hinv).
    rewrite Hobs, written_lookup, last_write_is_Some. unfold obs_writes.
    rewrite <-list_fmap_compose. by apply (list_elem_of_fmap_2' _ _ lw).
  - intros key Hkey%snapshot_listed.
    destruct (snapshot_at filename s key) as (-> & -> & ->).
    pose proof Hkey as [i Hi]%place_is_Some. rewrite Hi, Hobs, Hfcst, Hpit, !written_lookup.
    split_and!; [done..| | |].
    + pose proof (written_size (pit_writes ws)). repeat case_decide; naive_solver.
    + intros q Hq. destruct (snapshot_at4 filename s key q) as [-> _].
      destruct (proj2 (place4_is_Some (freeze s) (quantiles s) key q)) as [j ->]; [done|].
      by rewrite Hx, written_lookup.
    + intros q Hq. destruct (snapshot_at4 filename s key q) as [_ ->].
      destruct (proj2 (place4_is_Some (freeze s) (thresholds s) key q)) as [j ->]; [done|].
      by rewrite Hcdf, written_lookup.
Qed.

Lemma Text_init_last_row_witness :
  let t := snapshot "f.txt" (parsed "f.txt" scenario) in
  ∃ ws, rows scenario = Ok ws
    ∧ (∀ lw, lw ∈ located ws → listed (coords_of t) (key_of lw))
    ∧ ∀ key, listed (coords_of t) key →
        obs_at t key = Some (default NaN (last_write key (obs_writes ws)))
        ∧ deterministic_at t key = Some (default NaN (last_write key (fcst_writes ws)))
        ∧ pit_at t key
          = (if decide (pit_writes ws = []) then None
             else Some (default NaN (last_write key (pit_writes ws))))
        ∧ (∀ q, q ∈ t_quantiles t →
             quantile_at t (key, q)
             = Some (default NaN (last_write (key, q) (x_writes ws))))
        ∧ (∀ q, q ∈ t_thresholds t →
             threshold_at t (key, q)
             = Some (default NaN (last_write (key, q) (cdf_writes ws)))).
Proof. exact (Text_init_last_row "f.txt" scenario _ Text_init_scenario). Defined.

(** ** A file with a repeated identifier

    A comment that declares nothing, and four rows: three with the
    identifier 7 and latitudes 49, 50 and 51, and one without identifier.
    The rows of 7 have one identity, that of the first, so each overwrites
    the values of the one before; the second is reported, the third is not;
    the row without identifier is a location of its own and gets the
    identifier 8. *)

Definition repeated : list string :=
  [ "# station data" +:+ nl;
    "id lat obs fcst" +:+ nl;
    "7 49 1 2" +:+ nl;
    "7 50 3 4" +:+ nl;
    "7 51 5 6" +:+ nl;
    "-999 50 8 9" +:+ nl ].

(** The rows of a file, when they can be read. *)
Definition rows_of (lines : list string) : list raw :=
  match rows lines with Ok ws => ws | Err _ => [] end.

Lemma rows_Ok (lines : list string) : is_Ok (rows lines) → rows lines = Ok (rows_of lines).
Proof. unfold rows_of. by intros [ws ->]. Qed.

Example object_repeated :
  let t := object "f.txt" repeated (rows_of repeated) in
  rows repeated = Ok (rows_of repeated)
  ∧ t_dates t = [of_Z 0] ∧ t_offsets t = [of_Z 0]
  ∧ t_locations t = [mkLocation (of_Z 7) (of_Z 49) (of_Z 0) (of_Z 0);
                     mkLocation (of_Z 8) (of_Z 50) (of_Z 0) (of_Z 0)]
  ∧ a_obs (t_arrays t) = [[[of_Z 5; of_Z 8]]]
  ∧ a_deterministic (t_arrays t) = [[[of_Z 6; of_Z 9]]]
  ∧ t_variable t = mkVariable "Unknown" "Unknown units"
  ∧ t_log t = [IgnoringLine "# station data" "f.txt";
               Printed [of_Z 1; NaN; NaN];
               Conflicting (of_Z 50) NaN NaN (of_Z 49) (of_Z 0) (of_Z 0)].
Proof. split_and!; [apply rows_Ok|..]; compute_done. Qed.
