(* ===== verification/TextAccept.v ===== *)
(** * Which text files load, and how the loop halts

    Two facts about the parsing loop of [Text.__init__] (lines 385-489 of
    [input.py]) that the error taxonomy of [TextErrors] leaves open.

    - _Acceptance._  [well_formed] describes files line by line: a comment
      has a word after the [#] (and a value after [units:]); the first other
      line names the columns, [obs] and [fcst] among them, and every column
      read as a quantile or a threshold carries a number after its first
      character; every later line has as many fields as the header, at most
      256, all of them numbers.  Such a file loads
      ([Text_init_accepts]): the conditions are sufficient for every lookup,
      conversion and check of the loop to succeed.  The proof instantiates
      the parametric taxonomy of [TextErrors] with the error predicate
      [False].
    - _Halting._  The loop as a machine on configurations ([config],
      [next]): a line is consumed at each step, so the number of unread
      lines decreases ([next_decreases]) and the machine halts after at most
      one step per line plus one, in the outcome of [parse_lines]
      ([run_halts]); it stops at the first line that fails
      ([parse_lines_first_error]). *)

From Stdlib Require Import Ascii.
From S2P Require Import Prelude PyFloat PyString PyArray Location.
From S2P Require Import TextParse TextErrors TextDense.

Local Open Scope string_scope.

(** ** Well-formed files *)

(** [float(v)] succeeds. *)
Definition numeric (v : string) : Prop := is_Ok (float_of_string v).

#[export] Instance numeric_dec v : Decision (numeric v).
Proof. unfold numeric. apply _. Defined.

(** A comment line: a first word, and a second one after [units:]. *)
Definition comment_ok (rowstr : string) : Prop :=
  match split (tail rowstr) with
  | [] => False
  | c0 :: rest => c0 = "units:" → rest ≠ []
  end.

(** A column read as a quantile or as a threshold. *)
Definition numbered (fld : string) : Prop :=
  first_char fld = Ok "q"%char ∨ first_char fld = Ok "p"%char ∧ fld ≠ "pit".

Definition header_line_ok (row : list string) : Prop :=
  "obs" ∈ row ∧ "fcst" ∈ row ∧ Forall (λ fld, numbered fld → numeric (tail fld)) row.

Definition row_ok (hdr row : list string) : Prop :=
  length row = length hdr ∧ (length row ≤ 256)%nat ∧ Forall numeric row.

(** A line, given the header read so far. *)
Definition line_ok (hdr : option (list string)) (rowstr : string) : Prop :=
  match first_char rowstr with
  | Err _ => False
  | Ok c =>
      if decide (c = "#"%char) then comment_ok rowstr
      else match hdr with
           | None => header_line_ok (split rowstr)
           | Some hdr => row_ok hdr (split rowstr)
           end
  end.

(** The header after a line. *)
Definition header_after (hdr : option (list string)) (rowstr : string) :
    option (list string) :=
  match first_char rowstr, hdr with
  | Ok c, None => if decide (c = "#"%char) then None else Some (split rowstr)
  | _, _ => hdr
  end.

Fixpoint well_formed (hdr : option (list string)) (lines : list string) : Prop :=
  match lines with
  | [] => True
  | rowstr :: lines => line_ok hdr rowstr ∧ well_formed (header_after hdr rowstr) lines
  end.

#[export] Instance comment_ok_dec rowstr : Decision (comment_ok rowstr).
Proof. unfold comment_ok. destruct (split _); apply _. Defined.

#[export] Instance numbered_dec fld : Decision (numbered fld).
Proof. unfold numbered. apply _. Defined.

#[export] Instance line_ok_dec hdr rowstr : Decision (line_ok hdr rowstr).
Proof.
  unfold line_ok, header_line_ok, row_ok.
  destruct (first_char rowstr); [case_decide; [|destruct hdr]|]; apply _.
Defined.

#[export] Instance well_formed_dec hdr lines : Decision (well_formed hdr lines).
Proof. revert hdr. induction lines; simpl; intros; apply _. Defined.

(** ** The loop as a machine *)

Inductive config :=
| Running (s : state) (rest : list string)
| Done (s : state)
| Failed (e : error).

(** One iteration of [for rowstr in file]: the end of the file ends the
    loop, an error ends the load. *)
Definition next (filename : string) (c : config) : config :=
  match c with
  | Running s [] => Done s
  | Running s (rowstr :: rest) =>
      match process_line filename s rowstr with
      | Ok s' => Running s' rest
      | Err e => Failed e
      end
  | c => c
  end.

Definition halted (c : config) : Prop :=
  match c with Running _ _ => False | _ => True end.

(** The lines still to read, plus one for the exit of the loop. *)
Definition remaining (c : config) : nat :=
  match c with Running _ rest => S (length rest) | _ => 0 end.

Definition outcome (r : res state) : config :=
  match r with Ok s => Done s | Err e => Failed e end.

(** ** Acceptance *)

Section accepts.
Implicit Types (s : state) (filename rowstr : string) (hdr row : list string).

Lemma numeric_good v : numeric v → ensures (λ _, True) (λ _, False) (float_of_string v).
Proof. by intros [x ->]. Qed.

Lemma header_line_good row :
  Forall (λ fld, numbered fld → numeric (tail fld)) row → good_header numeric row.
Proof.
  intros H fld Hfld. assert (fld ∈ row) as Hin by (by destruct Hfld as [[]|[]]).
  apply (proj1 (Forall_forall _ _) H fld Hin). unfold numbered.
  destruct Hfld as [[_ ?]|[_ ?]]; [by left|by right].
Qed.

(** What a state knows of its header for the rows to come. *)
Definition ready s : Prop :=
  state_inv s ∧ ∀ hdr, header s = Some hdr → good_header numeric hdr.

Lemma parse_comment_accepts filename rowstr s :
  comment_ok rowstr →
  ensures (λ s', header s' = header s) (λ _, False) (parse_comment filename rowstr s).
Proof.
  unfold comment_ok, parse_comment. cbv zeta.
  destruct (split (tail rowstr)) as [|c0 rest]; [done|]. simpl. intros Hu.
  repeat case_decide; try done. destruct rest; [by destruct Hu|done].
Qed.

Lemma parse_header_accepts filename row s :
  indices s = ∅ → "obs" ∈ row → "fcst" ∈ row →
  ensures (λ s', header s' = Some row) (λ _, False) (parse_header filename row s).
Proof.
  intros Hi Hobs Hfcst. unfold parse_header. cbv zeta. rewrite Hi.
  rewrite (proj2 (check_required_Ok filename (index_columns row ∅))); [done|].
  split; by apply index_columns_dom.
Qed.

Lemma process_row_accepts rowstr hdr s :
  ready s → header s = Some hdr → row_ok hdr (split rowstr) →
  ensures (λ _, True) (λ _, False) (process_row rowstr (split rowstr) hdr s).
Proof.
  intros [Hs Hg] Hh (Hlen & H256 & Hnum).
  apply (process_row_body numeric); [apply numeric_good|apply Hs|done..|by apply Hg|].
  by apply len_is_not_false.
Qed.

(** A well-formed line is read, and leaves the state ready for the next. *)
Lemma process_line_accepts filename s rowstr :
  ready s → line_ok (header s) rowstr →
  ensures (λ s', ready s' ∧ header s' = header_after (header s) rowstr) (λ _, False)
    (process_line filename s rowstr).
Proof.
  intros Hr Hl. pose proof Hr as [Hs Hg].
  assert (ensures (λ s', header s' = header_after (header s) rowstr) (λ _, False)
            (process_line filename s rowstr)) as H.
  { unfold line_ok, header_after, process_line in *.
    destruct (first_char rowstr) as [c|]; [|done]. simpl.
    case_decide.
    - eapply ensures_mono; [by apply parse_comment_accepts| |done].
      intros s' ->. by destruct (header s).
    - destruct (header s) as [hdr|] eqn:Hh.
      + apply ensures_intro.
        * intros s' H'. eapply process_row_inv in H' as [_ Hext]; [|done].
          by rewrite (ext_header _ _ Hext).
        * intros e H'. by eapply ensures_Err in H'; [|by apply process_row_accepts].
      + destruct Hl as (? & ? & _). apply parse_header_accepts; [|done..].
        destruct Hs as [_ _ _ _ _ _ _ _ _ _ Hhdr]. by rewrite Hh in Hhdr. }
  destruct (process_line filename s rowstr) as [s'|e] eqn:E; [|done]. simpl in *.
  split; [|done]. split; [by eapply process_line_inv|].
  intros hdr Hh. rewrite H in Hh. unfold header_after, line_ok in *.
  destruct (first_char rowstr) as [c|]; [|done].
  destruct (header s) as [hdr'|] eqn:Hh'; [apply Hg; congruence|].
  case_decide; [done|]. injection Hh as <-. apply header_line_good, Hl.
Qed.

Lemma foldlM_accepts filename lines s :
  ready s → well_formed (header s) lines →
  is_Ok (foldlM (process_line filename) s lines).
Proof.
  revert s. induction lines as [|rowstr lines IH]; intros s Hr Hw; [by eexists|].
  destruct Hw as [Hl Hw]. simpl.
  pose proof (process_line_accepts filename s rowstr Hr Hl) as H.
  destruct (process_line filename s rowstr) as [s'|e]; [|done].
  destruct H as [Hr' Hh']. simpl. apply IH; [done|by rewrite Hh'].
Qed.

Lemma parse_lines_accepts filename lines :
  well_formed None lines → is_Ok (parse_lines filename lines).
Proof.
  intros. apply foldlM_accepts; [|done]. split; [apply initial_state_inv|done].
Qed.

End accepts.

(** ** Halting *)

Section halts.
Context (filename : string).
Implicit Types (s : state) (c : config).

Lemma next_decreases c : ¬ halted c → (remaining (next filename c) < remaining c)%nat.
Proof.
  destruct c as [s [|rowstr rest]| |]; simpl; try done; [lia|].
  destruct (process_line _ _ _); simpl; lia.
Qed.

Lemma next_halted c : halted c → next filename c = c.
Proof. by destruct c. Qed.

Lemma iter_next_halted n c : halted c → Nat.iter n (next filename) c = c.
Proof. intros. induction n as [|n IH]; [done|]. simpl. by rewrite IH, next_halted. Qed.

(** Steps are counted from the first: [n + 1] steps are one step, then [n]. *)
Lemma iter_next_S n c :
  Nat.iter (S n) (next filename) c = Nat.iter n (next filename) (next filename c).
Proof. induction n as [|n IH]; [done|]. simpl in *. by rewrite IH. Qed.

Lemma run_from s lines :
  Nat.iter (remaining (Running s lines)) (next filename) (Running s lines)
  = outcome (foldlM (process_line filename) s lines).
Proof.
  revert s. induction lines as [|rowstr lines IH]; intros s; [done|].
  cbn [remaining length]. rewrite iter_next_S. cbn [next foldlM].
  destruct (process_line filename s rowstr) as [s'|e]; cbn [mbind result_bind].
  - apply IH.
  - by apply iter_next_halted.
Qed.

End halts.


(** [Text.__init__], lines 383-388: the loop stops at the first line that fails: when the lines before
    it are read into [s] and the line fails in [s], the load ends in that
    error whatever follows the line. *)
Theorem parse_lines_first_error (filename : string) (before after : list string)
    (rowstr : string) (s : state) (e : error) :
  parse_lines filename before = Ok s →
  process_line filename s rowstr = Err e →
  parse_lines filename (before ++ rowstr :: after) = Err e.
Proof.
  intros Hb He. unfold parse_lines in *. rewrite foldlM_app, Hb. simpl.
  by rewrite He.
Qed.

(** [Text.__init__], lines 350-560: a well-formed file loads.  When
    every comment has a word after the [#] (and a value after [units:]), the
    first other line names [obs] and [fcst] and gives a number to every
    quantile and threshold column, and every later line has the header's
    number of fields, at most 256, all numbers, the constructor returns an
    object. *)
Theorem Text_init_accepts (filename : string) (lines : list string) :
  well_formed None lines → is_Ok (Text_init filename lines).
Proof.
  intros [s Hs]%(parse_lines_accepts filename). unfold Text_init. rewrite Hs.
  simpl. rewrite assemble_snapshot. by eexists.
Qed.

Lemma Text_init_accepts_witness : is_Ok (Text_init "f.txt" scenario).
Proof. apply Text_init_accepts. compute_done. Defined.

Lemma parse_lines_first_error_witness :
  parse_lines "f.txt" (scenario ++ ["1 2" +:+ nl; "later" +:+ nl])
  = Err (UtilError (IncorrectColumns 9 "1 2")).
Proof.
  apply (parse_lines_first_error "f.txt" scenario ["later" +:+ nl] ("1 2" +:+ nl)
           (parsed "f.txt" scenario)); [exact (scenario_parses 6 (le_n 6))|].
  compute_done.
Defined.
