(* ===== verification/TextLoads.v ===== *)
(** * Exactly which text files load

    [TextAccept] gives conditions under which [Text.__init__] returns; this
    file says when it does, line by line ([loads]), and proves that the
    constructor returns on these files and on no other
    ([Text_init_loads_iff]).  With the specification of [TextRows] this is
    the whole of [Text.__init__]: on a file that loads it returns the object
    of the rows of the file, and on every other file it ends in an error
    ([Text_init_specified]).

    - A comment needs a word after the [#], and a second one after
      [units:] (lines 386-392).
    - The first other line is the header; it must name [obs] and [fcst]
      (lines 420-424).
    - Every later line is a data row ([row_loads]): as many fields as the
      header, at most 256 (line 426); a number under each of the columns
      [date], [offset], [id], [lat], [lon], [elev], [obs], [fcst] and [pit]
      that the header has (lines 429-445, 474-479); and for every column
      whose name starts with [q], or with [p] and is not [pit], a number
      after the first character of the name and a number under the column
      (lines 480-489).  The other columns are not read, and the names of the
      quantile and threshold columns are converted only when a row is.

    The column read under a name is [row[indices[name]]], the last column
    of that name ([reads]).  The proofs compute the success of a chain of
    calls with the rules of [is_Ok] in the prelude: the success of every
    call after the arity check depends on the row and on [indices] only,
    which the assignments of the row keep. *)

From Stdlib Require Import Ascii.
From S2P Require Import Prelude PyFloat PyString PyArray Location.
From S2P Require Import TextParse TextDense TextRows TextAccept.

Local Open Scope string_scope.

(** ** The files that load *)

(** The columns read under a fixed name. *)
Definition named : list string :=
  ["date"; "offset"; "id"; "lat"; "lon"; "elev"; "obs"; "fcst"; "pit"].

(** [row[indices[name]]] is there and holds a number. *)
Definition reads (ind : gmap string nat) (row : list string) (name : string) : Prop :=
  match ind !! name ≫= (row !!.) with Some v => numeric v | None => False end.

(** Read as a quantile, or as a threshold. *)
Definition is_quantile (fld : string) : Prop := first_char fld = Ok "q"%char.
Definition is_threshold (fld : string) : Prop :=
  first_char fld = Ok "p"%char ∧ fld ≠ "pit".

Definition row_loads (hdr row : list string) : Prop :=
  let ind := index_columns hdr ∅ in
  (length row = length hdr ∧ length row ≤ 256)%nat
  ∧ Forall (λ name, name ∈ hdr → reads ind row name) named
  ∧ Forall (λ fld, numbered fld → numeric (tail fld) ∧ reads ind row fld) hdr.

Definition line_loads (hdr : option (list string)) (rowstr : string) : Prop :=
  match first_char rowstr with
  | Err _ => False
  | Ok c =>
      if decide (c = "#"%char) then comment_ok rowstr
      else match hdr with
           | None => "obs" ∈ split rowstr ∧ "fcst" ∈ split rowstr
           | Some hdr => row_loads hdr (split rowstr)
           end
  end.

Fixpoint loads (hdr : option (list string)) (lines : list string) : Prop :=
  match lines with
  | [] => True
  | rowstr :: lines => line_loads hdr rowstr ∧ loads (header_after hdr rowstr) lines
  end.

#[export] Instance reads_dec ind row name : Decision (reads ind row name).
Proof. unfold reads. destruct (_ ≫= _); apply _. Defined.

#[export] Instance line_loads_dec hdr rowstr : Decision (line_loads hdr rowstr).
Proof.
  unfold line_loads, row_loads.
  destruct (first_char rowstr); [case_decide; [|destruct hdr]|]; apply _.
Defined.

#[export] Instance loads_dec hdr lines : Decision (loads hdr lines).
Proof. revert hdr. induction lines; simpl; intros; apply _. Defined.

(** A file with a column that no row reads, holding text. *)
Definition with_station : list string :=
  [ "date station obs fcst q0.5" +:+ nl;
    "20150101 Vancouver 3.4 2.1 2.0" +:+ nl ].

(** ** The calls of a data row *)

Section cells.
Context (row : list string) (ind : gmap string nat).
Implicit Types (s : state) (name fld : string) (key : key5).

Lemma clean_is_Ok v : is_Ok (clean v) ↔ numeric v.
Proof.
  unfold clean, numeric. apply is_Ok_bind_total. intros. apply is_Ok_Ok.
Qed.

Lemma field_is_Ok s name : indices s = ind → is_Ok (field s row name) ↔ reads ind row name.
Proof.
  intros <-. unfold field, reads, list_index.
  destruct (indices s !! name) as [i|]; simpl; [|split; [by intros [? ?]|done]].
  destruct (row !! i) as [v|]; simpl; [apply clean_is_Ok|split; [by intros [? ?]|done]].
Qed.

Lemma field_or_is_Ok s name d :
  indices s = ind →
  is_Ok (field_or s row name d) ↔ (is_Some (ind !! name) → reads ind row name).
Proof.
  intros Hs. unfold field_or. rewrite Hs. destruct (ind !! name) as [i|] eqn:E.
  - rewrite field_is_Ok by done. split; [done|]. intros H. by apply H.
  - split; [by intros _ [? ?]|intros; apply is_Ok_Ok].
Qed.

Lemma store_pit_is_Ok key s :
  indices s = ind →
  is_Ok (store_pit row key s) ↔ (is_Some (ind !! "pit") → reads ind row "pit").
Proof.
  intros Hs. unfold store_pit. rewrite Hs. destruct (ind !! "pit") as [i|] eqn:E.
  2:{ split; [by intros _ [? ?]|intros; apply is_Ok_Ok]. }
  rewrite is_Ok_bind_total by (intros; apply is_Ok_Ok). rewrite field_is_Ok by done.
  split; [done|]. intros H. by apply H.
Qed.

Lemma store_quantile_is_Ok key s fld :
  indices s = ind →
  is_Ok (store_quantile row key s fld) ↔ numeric (tail fld) ∧ reads ind row fld.
Proof.
  intros Hs. unfold store_quantile. apply is_Ok_bind_iff; [done|].
  intros q _. cbv zeta. rewrite is_Ok_bind_total by (intros; apply is_Ok_Ok).
  by apply field_is_Ok.
Qed.

Lemma store_threshold_is_Ok key s fld :
  indices s = ind →
  is_Ok (store_threshold row key s fld) ↔ numeric (tail fld) ∧ reads ind row fld.
Proof.
  intros Hs. unfold store_threshold. apply is_Ok_bind_iff; [done|].
  intros q _. cbv zeta. rewrite is_Ok_bind_total by (intros; apply is_Ok_Ok).
  by apply field_is_Ok.
Qed.

Lemma store_quantile_indices key s fld s' :
  store_quantile row key s fld = Ok s' → indices s' = indices s.
Proof. unfold store_quantile. intros H. by inv_res. Qed.

Lemma store_threshold_indices key s fld s' :
  store_threshold row key s fld = Ok s' → indices s' = indices s.
Proof. unfold store_threshold. intros H. by inv_res. Qed.

Lemma store_pit_indices key s s' : store_pit row key s = Ok s' → indices s' = indices s.
Proof. unfold store_pit. intros H. destruct (indices s !! "pit"); by inv_res. Qed.

(** The loops over the quantile and the threshold columns. *)
Lemma store_quantiles_is_Ok key s fields :
  indices s = ind →
  is_Ok (foldlM (store_quantile row key) s fields)
  ↔ Forall (λ fld, numeric (tail fld) ∧ reads ind row fld) fields.
Proof.
  intros Hs. apply (foldlM_is_Ok (λ s, indices s = ind)); [| |done].
  - intros. by apply store_quantile_is_Ok.
  - intros s1 fld s2 <- _ H. by eapply store_quantile_indices.
Qed.

Lemma store_thresholds_is_Ok key s fields :
  indices s = ind →
  is_Ok (foldlM (store_threshold row key) s fields)
  ↔ Forall (λ fld, numeric (tail fld) ∧ reads ind row fld) fields.
Proof.
  intros Hs. apply (foldlM_is_Ok (λ s, indices s = ind)); [| |done].
  - intros. by apply store_threshold_is_Ok.
  - intros s1 fld s2 <- _ H. by eapply store_threshold_indices.
Qed.

Lemma store_quantiles_indices key fields s s' :
  foldlM (store_quantile row key) s fields = Ok s' → indices s' = indices s.
Proof.
  intros H. symmetry. revert H.
  apply (foldlM_invariant (λ s', indices s = indices s')); [|done].
  intros s1 fld s2 -> H. symmetry. by eapply store_quantile_indices.
Qed.

End cells.

(** ** A data row *)

Section rows.
Context (hdr : list string).
Implicit Types (s : state) (name fld rowstr : string) (row : list string).

Lemma index_columns_is_Some name : is_Some (index_columns hdr ∅ !! name) ↔ name ∈ hdr.
Proof.
  split; [|apply index_columns_dom].
  intros [i Hi%index_columns_Some]. by eapply list_elem_of_lookup_2.
Qed.

Lemma get_quantile_fields_filter :
  Forall token hdr → get_quantile_fields hdr = Ok (filter is_quantile hdr).
Proof.
  intros Ht. apply (foldlM_filter is_quantile _ hdr []). intros acc att Hatt.
  destruct (first_char_token att) as [c Hc]; [by eapply Forall_forall|].
  unfold is_quantile. rewrite Hc. simpl. repeat case_decide; congruence.
Qed.

Lemma get_threshold_fields_filter :
  Forall token hdr → get_threshold_fields hdr = Ok (filter is_threshold hdr).
Proof.
  intros Ht. apply (foldlM_filter is_threshold _ hdr []). intros acc att Hatt.
  destruct (first_char_token att) as [c Hc]; [by eapply Forall_forall|].
  unfold is_threshold. rewrite Hc. simpl. repeat case_decide; naive_solver.
Qed.

(** The columns of the two loops are the numbered columns. *)
Lemma Forall_numbered (P : string → Prop) :
  Forall P (filter is_quantile hdr) ∧ Forall P (filter is_threshold hdr)
  ↔ Forall (λ fld, numbered fld → P fld) hdr.
Proof.
  rewrite !Forall_filter_impl, <-Forall_and. apply Forall_iff. intros fld.
  unfold numbered, is_quantile, is_threshold. naive_solver.
Qed.

(** The calls of a row after the arity check (lines 429-489). *)
Lemma process_row_is_Ok rowstr row s :
  indices s = index_columns hdr ∅ → Forall token hdr → "obs" ∈ hdr → "fcst" ∈ hdr →
  is_Ok (process_row rowstr row hdr s) ↔ row_loads hdr row.
Proof.
  intros Hs Ht Hobs Hfcst. unfold process_row, row_loads. cbv zeta.
  rewrite get_quantile_fields_filter, get_threshold_fields_filter by done.
  destruct (len_is_not _ _) eqn:E.
  { split; [by intros [? ?]|]. intros [Hlen%len_is_not_false _]. congruence. }
  apply len_is_not_false in E. rewrite <-Forall_numbered. unfold named.
  rewrite !Forall_cons, Forall_nil, <-!index_columns_is_Some.
  etrans.
  { do 6 (eapply is_Ok_bind_iff;
            [apply (field_or_is_Ok row (index_columns hdr ∅)); exact Hs|];
          intros ? _).
    do 2 (eapply is_Ok_bind_iff;
            [apply (field_is_Ok row (index_columns hdr ∅)); exact Hs|];
          intros ? _).
    cbn [mbind result_bind].
    eapply is_Ok_bind_iff;
      [apply (store_pit_is_Ok row (index_columns hdr ∅)); exact Hs|].
    intros s1 Hs1%store_pit_indices.
    eapply is_Ok_bind_iff;
      [apply (store_quantiles_is_Ok row (index_columns hdr ∅)); by rewrite Hs1|].
    intros s2 Hs2%store_quantiles_indices.
    apply (store_thresholds_is_Ok row (index_columns hdr ∅)). by rewrite Hs2, Hs1. }
  apply index_columns_is_Some in Hobs, Hfcst. tauto.
Qed.

End rows.

(** ** Lines *)

Section lines.
Context (filename : string).
Implicit Types (s : state) (rowstr : string) (row hdr : list string).

Lemma parse_comment_is_Ok rowstr s :
  is_Ok (parse_comment filename rowstr s) ↔ comment_ok rowstr.
Proof.
  unfold parse_comment, comment_ok. cbv zeta.
  destruct (split (tail rowstr)) as [|c0 rest]; simpl; [split; [by intros [? ?]|done]|].
  repeat case_decide; simplify_eq.
  - split; [done|intros; apply is_Ok_Ok].
  - destruct rest; simpl; [split; [by intros [? ?]|naive_solver]|].
    split; [done|intros; apply is_Ok_Ok].
  - split; [done|intros; apply is_Ok_Ok].
Qed.

Lemma parse_header_is_Ok row s :
  indices s = ∅ → is_Ok (parse_header filename row s) ↔ "obs" ∈ row ∧ "fcst" ∈ row.
Proof.
  intros Hs. unfold parse_header. cbv zeta. rewrite Hs.
  rewrite is_Ok_bind_total by (intros; apply is_Ok_Ok).
  rewrite <-!index_columns_is_Some, <-check_required_Ok.
  split; [by intros [[] ?]|intros ->; apply is_Ok_Ok].
Qed.

(** What the invariant of the state says of a header that is read. *)
Lemma state_inv_header s hdr :
  state_inv s → header s = Some hdr →
  indices s = index_columns hdr ∅ ∧ Forall token hdr ∧ "obs" ∈ hdr ∧ "fcst" ∈ hdr.
Proof.
  intros Hs Hh. pose proof (inv_header s Hs) as Hi. rewrite Hh in Hi.
  destruct Hi as (Ht & Hl & Hobs & Hfcst). rewrite Hl in Hobs, Hfcst.
  by rewrite !index_columns_is_Some in *.
Qed.

Lemma process_line_is_Ok s rowstr :
  state_inv s → is_Ok (process_line filename s rowstr) ↔ line_loads (header s) rowstr.
Proof.
  intros Hs. unfold process_line, line_loads.
  destruct (first_char rowstr) as [c|]; simpl; [|split; [by intros [? ?]|done]].
  case_decide; [apply parse_comment_is_Ok|].
  destruct (header s) as [hdr|] eqn:Hh.
  - destruct (state_inv_header s hdr) as (? & ? & ? & ?); [done..|].
    by apply process_row_is_Ok.
  - apply parse_header_is_Ok. pose proof (inv_header s Hs) as Hi. by rewrite Hh in Hi.
Qed.

(** The header after a line that is read. *)
Lemma process_line_header s rowstr s' :
  state_inv s → process_line filename s rowstr = Ok s' →
  header s' = header_after (header s) rowstr.
Proof.
  intros Hs H. unfold process_line in H. unfold header_after.
  destruct (first_char rowstr) as [c|]; [|done]. simpl in H. case_decide.
  - apply parse_comment_inv in H as [_ Hx]; [|done].
    rewrite (ext_header _ _ Hx). by destruct (header s).
  - destruct (header s) as [hdr|] eqn:Hh.
    + apply process_row_inv in H as [_ Hx]; [|done]. by rewrite (ext_header _ _ Hx).
    + unfold parse_header in H. cbv zeta in H. by inv_res.
Qed.

Lemma foldlM_loads lines s :
  state_inv s → is_Ok (foldlM (process_line filename) s lines) ↔ loads (header s) lines.
Proof.
  revert s. induction lines as [|rowstr lines IH]; intros s Hs; simpl.
  { split; [done|intros; apply is_Ok_Ok]. }
  apply is_Ok_bind_iff; [by apply process_line_is_Ok|].
  intros s' H. rewrite <-(process_line_header s rowstr s') by done.
  apply IH. by eapply process_line_inv.
Qed.

Lemma parse_lines_loads lines : is_Ok (parse_lines filename lines) ↔ loads None lines.
Proof. apply (foldlM_loads lines initial_state), initial_state_inv. Qed.

End lines.

(** The conditions of [TextAccept] are sufficient, not necessary. *)
Lemma well_formed_loads lines : well_formed None lines → loads None lines.
Proof. intros H. apply (parse_lines_loads ""). by apply parse_lines_accepts. Qed.

(** The constructor returns exactly on the files that load. *)
Lemma Text_init_is_Ok (filename : string) (lines : list string) :
  is_Ok (Text_init filename lines) ↔ loads None lines.
Proof.
  rewrite <-(parse_lines_loads filename). unfold Text_init.
  apply is_Ok_bind_total. intros s. rewrite assemble_snapshot. apply is_Ok_Ok.
Qed.

(** ** Theorems *)

(** C2: what [Text.__init__] does on every file.  On a file that loads
    (every comment has its words, the header names [obs] and [fcst], every
    row has the header's number of fields and numbers in the columns that
    are read) it returns the object of the rows of the file: the sets of
    their values as coordinates, the identities of the rows as locations,
    the tables of what the rows wrote read at every cell as arrays, the
    variable the comments declare, and the warnings of the ignored comments
    and of the first contradicting row as what was printed.  On every other
    file it ends in an error. *)
Theorem Text_init_specified (filename : string) (lines : list string) :
  match Text_init filename lines with
  | Ok t => loads None lines ∧ ∃ ws, rows lines = Ok ws ∧ t = object filename lines ws
  | Err _ => ¬ loads None lines
  end.
Proof.
  pose proof (Text_init_is_Ok filename lines) as Hl.
  destruct (Text_init filename lines) as [t|e] eqn:H.
  - split; [apply Hl; by exists t|by apply Text_init_object].
  - intros [t [=]]%Hl.
Qed.

(** C6: [Text.__init__], lines 350-560, returns exactly on the files that
    [loads] describes: every comment has a word after the [#] and a second
    one after [units:]; the first other line names [obs] and [fcst]; every
    later line has the header's number of fields, at most 256, a number
    under each of the columns [date], [offset], [id], [lat], [lon], [elev],
    [obs], [fcst] and [pit] that the header has, and, for every column whose
    name starts with [q], or with [p] and is not [pit], a number after the
    first character of the name and a number under the column.  On every
    other file the constructor ends in an error. *)
Theorem Text_init_loads_iff (filename : string) (lines : list string) :
  is_Ok (Text_init filename lines) ↔ loads None lines.
Proof. apply Text_init_is_Ok. Qed.

(** The file of the scenario loads; so does a file with text in a column
    that is not read, which is not well-formed, and a file with text in the
    first of two columns named [obs], of which the last is read; a file with
    text under [lat] does not, nor a file whose column [quality] is read as
    a quantile once a row follows the header. *)
Example Text_init_loads_examples :
  is_Ok (Text_init "f.txt" scenario)
  ∧ is_Ok (Text_init "f.txt" with_station) ∧ ¬ well_formed None with_station
  ∧ is_Ok (Text_init "f.txt" ["obs obs fcst" +:+ nl; "none 1 2" +:+ nl])
  ∧ ¬ is_Ok (Text_init "f.txt" ["lat obs fcst" +:+ nl; "north 1 2" +:+ nl])
  ∧ is_Ok (Text_init "f.txt" ["obs fcst quality" +:+ nl])
  ∧ ¬ is_Ok (Text_init "f.txt" ["obs fcst quality" +:+ nl; "1 2 3" +:+ nl]).
Proof. rewrite !Text_init_loads_iff. split_and!; compute_done. Qed.
