(* ===== verification/InputBase.v ===== *)
(** * The base class [Input] and the test double [Fake]

    [Input] (lines 28-74 of [input.py]) gives every decoder its derived
    names and the list of fields it can serve:
    - [name] (lines 62-67): the file name without its path, by [rfind('/')]
      and a slice;
    - [shortname] (lines 69-74): the name without its extension, by
      [rfind('.')] and a slice;
    - [get_variables] (lines 56-60): observations, the deterministic
      forecast, one field per threshold and one per quantile.
    [name] and [shortname] are properties without setter: an instance cannot
    assign them.  [Fake] (lines 591-602) is a test double whose constructor
    assigns [self.name].

    The model of an instance for attribute assignment is the dictionary of
    its attributes ([obj]) and the names its class declares as read-only
    properties ([setattr]).

    Theorems: [name] is the part of the full name after its last slash, has
    no slash, and is the full name when there is none; [shortname] is the
    part of the name before its last dot when there is one, and the name
    without its last character when there is none; [get_variables] lists two
    fields plus one per threshold and per quantile, in that order; the
    constructor of [Fake] raises [AttributeError] on every input. *)

From Stdlib Require Import Ascii.
From S2P Require Import Prelude PyFloat PyString.

Local Open Scope string_scope.

(** ** Strings: [rfind] and slices *)

(** The last position of [c] in [s], counted from [i]. *)
Fixpoint rfind_from (c : ascii) (i : nat) (s : string) : option nat :=
  match s with
  | EmptyString => None
  | String c' s =>
      match rfind_from c (S i) s with
      | Some j => Some j
      | None => if decide (c' = c) then Some i else None
      end
  end.

(** [s.rfind(c)]: the last position of [c], or -1. *)
Definition rfind (c : ascii) (s : string) : Z :=
  match rfind_from c 0 s with Some j => Z.of_nat j | None => (-1)%Z end.

Fixpoint drop_string (n : nat) (s : string) : string :=
  match n, s with
  | S n, String _ s => drop_string n s
  | _, _ => s
  end.

Fixpoint take_string (n : nat) (s : string) : string :=
  match n, s with
  | S n, String c s => String c (take_string n s)
  | _, _ => ""
  end.

(** A slice bound as Python reads it: a negative bound counts from the end,
    and the result is clamped to the string. *)
Definition bound (i : Z) (s : string) : nat :=
  Z.to_nat (if (i <? 0)%Z then Z.max 0 (Z.of_nat (String.length s) + i) else i).

(** [s[i:]] *)
Definition slice_from (i : Z) (s : string) : string := drop_string (bound i s) s.

(** [s[:i]] *)
Definition slice_to (i : Z) (s : string) : string := take_string (bound i s) s.

(** ** [Input.name], [Input.shortname] *)

(** Lines 62-67 *)
Definition name (fullname : string) : string :=
  let I := rfind "/" fullname in
  slice_from (I + 1) fullname.

(** Lines 69-74 *)
Definition shortname (fullname : string) : string :=
  let I := rfind "." (name fullname) in
  slice_to I (name fullname).

(** ** [Input.get_variables] *)

(** The fields of [verif.field] the method builds. *)
Inductive Field :=
| Obs
| Deterministic
| Threshold (threshold : pyfloat)
| Quantiles (quantile : pyfloat).

#[export] Instance Field_eq_dec : EqDecision Field.
Proof. solve_decision. Defined.

(** Lines 56-60 *)
Definition get_variables (thresholds quantiles : list pyfloat) : list Field :=
  let variables := [Obs; Deterministic] in
  let thresholds := Threshold <$> thresholds in
  let quantiles := Quantiles <$> quantiles in
  variables ++ thresholds ++ quantiles.

(** ** Attribute assignment and [Fake] *)

(** The values [Fake] stores. *)
Inductive value :=
| VStr (s : string)
| VArray (a : list pyfloat).

(** The attributes of an instance. *)
Definition obj := gmap string value.

(** The properties [Input] declares with a getter only (lines 62 and 69). *)
Definition Input_properties : list string := ["name"; "shortname"].

(** [self.attr = v] on an instance of a subclass of [Input]: a property
    without setter refuses the assignment. *)
Definition setattr (attr : string) (v : value) (self : obj) : res obj :=
  if decide (attr ∈ Input_properties) then Err (Raised AttributeError)
  else Ok (<[attr := v]> self).

(** [Fake.__init__] (lines 592-596) *)
Definition Fake_init (obs fcst : list pyfloat) : res obj :=
  self ← setattr "_obs" (VArray obs) ∅;
  self ← setattr "_fcst" (VArray fcst) self;
  self ← setattr "fullname" (VStr "Fake") self;
  setattr "name" (VStr "Fake") self.

(** [Fake.get_obs], [Fake.get_mean] (lines 598-602) *)
Definition Fake_get_obs (self : obj) : res value :=
  result_of_option (Raised AttributeError) (self !! "_obs").

Definition Fake_get_mean (self : obj) : res value :=
  result_of_option (Raised AttributeError) (self !! "_fcst").

(** ** Facts on strings *)

Section slices.
Implicit Types (c : ascii) (s t : string) (i : nat).

Lemma rfind_from_None c i s : rfind_from c i s = None ↔ has c s = false.
Proof.
  revert i. induction s as [|c' s IH]; intros i; simpl; [done|].
  rewrite orb_false_iff, <-(IH (S i)), bool_decide_eq_false.
  destruct (rfind_from c (S i) s); [naive_solver|]. case_decide; naive_solver.
Qed.

(** The last occurrence is the one that no occurrence follows. *)
Lemma rfind_from_last c i s t :
  has c t = false →
  rfind_from c i (s +:+ String c t) = Some (i + String.length s)%nat.
Proof.
  intros Ht. revert i. induction s as [|c' s IH]; intros i.
  - simpl. rewrite (proj2 (rfind_from_None c (S i) t) Ht).
    rewrite decide_True by done. f_equal. lia.
  - rewrite app_cons. simpl. rewrite IH. f_equal. lia.
Qed.

Lemma rfind_last c s t :
  has c t = false → rfind c (s +:+ String c t) = Z.of_nat (String.length s).
Proof. intros. unfold rfind. by rewrite rfind_from_last. Qed.

Lemma rfind_absent c s : has c s = false → rfind c s = (-1)%Z.
Proof. intros. unfold rfind. by rewrite (proj2 (rfind_from_None c 0 s)). Qed.

Lemma length_string_app s t :
  String.length (s +:+ t) = (String.length s + String.length t)%nat.
Proof. induction s; [done|]. rewrite app_cons. simpl. by rewrite IHs. Qed.

Lemma drop_string_app s t : drop_string (String.length s) (s +:+ t) = t.
Proof. induction s; [by destruct t|]. by rewrite app_cons. Qed.

Lemma take_string_app s t : take_string (String.length s) (s +:+ t) = s.
Proof.
  induction s; [by destruct t|]. rewrite app_cons. simpl. by rewrite IHs.
Qed.

Lemma drop_string_0 s : drop_string 0 s = s.
Proof. by destruct s. Qed.

Lemma slice_from_app s c t :
  slice_from (Z.of_nat (String.length s) + 1) (s +:+ String c t) = t.
Proof.
  unfold slice_from, bound.
  rewrite (proj2 (Z.ltb_ge _ _)) by lia.
  replace (Z.to_nat _) with (String.length (s +:+ String c "")).
  - rewrite <-(drop_string_app (s +:+ String c "") t) at 2.
    by rewrite app_assoc'.
  - rewrite length_string_app. simpl. lia.
Qed.

Lemma slice_to_app s t : slice_to (Z.of_nat (String.length s)) (s +:+ t) = s.
Proof.
  unfold slice_to, bound. rewrite (proj2 (Z.ltb_ge _ _)) by lia.
  rewrite Nat2Z.id. apply take_string_app.
Qed.

(** [s[:-1]]: the string without its last character. *)
Lemma slice_to_minus_one s c : slice_to (-1) (s +:+ String c "") = s.
Proof.
  unfold slice_to, bound. simpl. rewrite length_string_app. simpl.
  replace (Z.to_nat _) with (String.length s) by lia. apply take_string_app.
Qed.

End slices.

(** ** Theorems *)

(** [name] is the part of the full name after its last slash: for a
    path [dir/base] where [base] has no slash it is [base], and a full name
    without slash is its own name. *)
Theorem name_base (dir base : string) :
  has "/" base = false →
  name (dir +:+ "/" +:+ base) = base ∧ name base = base.
Proof.
  intros Hb. unfold name. cbv zeta. split.
  - change (dir +:+ "/" +:+ base) with (dir +:+ String "/" base).
    rewrite rfind_last by done. apply slice_from_app.
  - rewrite rfind_absent by done. unfold slice_from, bound. simpl.
    apply drop_string_0.
Qed.

Lemma name_base_witness :
  name ("/data/run1" +:+ "/" +:+ "T.2015.txt") = "T.2015.txt"
  ∧ name "T.2015.txt" = "T.2015.txt".
Proof. by apply (name_base "/data/run1" "T.2015.txt"). Defined.

(** [shortname] is the name without its extension when the name has a
    dot: for [dir/stem.ext], with no slash in [stem] and [ext] and no dot in
    [ext], it is [stem]. *)
Theorem shortname_ext (dir stem ext : string) :
  has "/" stem = false → has "/" ext = false → has "." ext = false →
  shortname (dir +:+ "/" +:+ stem +:+ "." +:+ ext) = stem.
Proof.
  intros Hs He Hd. unfold shortname. cbv zeta.
  destruct (name_base dir (stem +:+ "." +:+ ext)) as [-> _].
  { change ("." +:+ ext) with (String "." ext). rewrite has_app, Hs. simpl.
    by rewrite He. }
  change (stem +:+ "." +:+ ext) with (stem +:+ String "." ext).
  rewrite rfind_last by done. apply slice_to_app.
Qed.

Lemma shortname_ext_witness :
  shortname ("/data/run1" +:+ "/" +:+ "T.2015" +:+ "." +:+ "txt") = "T.2015".
Proof. by apply (shortname_ext "/data/run1" "T.2015" "txt"). Defined.

(** C39: when the name has no dot, [rfind] answers -1 and the slice
    [name[:-1]] drops the last character of the name: the short name of
    [dir/base] is [base] without its last character, not [base]. *)
Theorem shortname_no_dot (dir base : string) (c : ascii) :
  has "/" (base +:+ String c "") = false → has "." (base +:+ String c "") = false →
  shortname (dir +:+ "/" +:+ base +:+ String c "") = base.
Proof.
  intros Hs Hd. unfold shortname. cbv zeta.
  destruct (name_base dir (base +:+ String c "") Hs) as [-> _].
  rewrite rfind_absent by done. apply slice_to_minus_one.
Qed.

Lemma shortname_no_dot_witness :
  shortname ("/data" +:+ "/" +:+ "result" +:+ String "s" "") = "result".
Proof. by apply (shortname_no_dot "/data" "result" "s"). Defined.


(** [get_variables] lists the observations and the deterministic
    forecast, then one field per threshold, then one per quantile, in the
    order of the coordinates. *)
Theorem get_variables_lookup (thresholds quantiles : list pyfloat) (i : nat) :
  get_variables thresholds quantiles !! 0%nat = Some Obs
  ∧ get_variables thresholds quantiles !! 1%nat = Some Deterministic
  ∧ get_variables thresholds quantiles !! (2 + i)%nat
    = match thresholds !! i with
      | Some t => Some (Threshold t)
      | None => Quantiles <$> quantiles !! (i - length thresholds)%nat
      end
  ∧ length (get_variables thresholds quantiles)
    = (2 + length thresholds + length quantiles)%nat.
Proof.
  unfold get_variables. cbv zeta. split_and!; [done..| |].
  - simpl. destruct (thresholds !! i) as [t|] eqn:Ht.
    + rewrite lookup_app_l by (rewrite length_fmap; by eapply lookup_lt_Some).
      by rewrite list_lookup_fmap, Ht.
    + apply lookup_ge_None in Ht.
      rewrite lookup_app_r by (by rewrite length_fmap).
      by rewrite length_fmap, list_lookup_fmap.
  - simpl. rewrite length_app, !length_fmap. lia.
Qed.
