(* ===== verification/Codec.v ===== *)
(** * The naming codec of the legacy format

    [Comps] stores the score of a threshold or a quantile in a variable whose
    name encodes the value: [p03] for the threshold 0.3, [pm5] for -5, [q30]
    for the quantile 0.3.  The four static methods of lines 200-251 of
    [input.py]:
    - [comps_to_verif_threshold] (lines 200-211) and
      [comps_to_verif_quantile] (lines 213-224) decode a variable name;
    - [verif_to_comps_threshold] (lines 226-238) and
      [verif_to_comps_quantile] (lines 240-251) encode a value.
    [verif.util.is_number] is external: it is true of the strings [float()]
    accepts ([is_number]).  The [assert] of line 207 compares a string with
    ["."] and counts the arrays [np.where] returns for the resulting boolean,
    which is always one: it never fails and is not part of the model.

    Theorems: decoding undoes encoding on the thresholds that are integers
    ([threshold_roundtrip_int], for every integer), on the positive
    fractions of at most six digits that are not below 0.0001
    ([threshold_roundtrip_fraction], by the theory of [%g] and [float()] in
    [PyDecimal]), and on the quantiles that are whole percents or below one
    percent ([quantile_roundtrip]); it does not
    on negative fractions ([threshold_negative_fraction], for the negative of
    every such fraction), on values with a fractional part above 1
    (truncated by [%d]), on fractions below 0.0001 of more than one digit
    ([threshold_fraction_limits]) and on the quantiles whose percentage is
    at least 1 and has a fractional part, which get the name of another
    quantile or a name that is none ([quantile_collision], for every such
    percentage of at most six digits).  The name of a threshold
    is no quantile and the name of a quantile no threshold
    ([comps_to_verif_quantile_p], [comps_to_verif_threshold_q]). *)

From Stdlib Require Import Ascii QArith Qcanon Qcabs Qabs Qpower Lqa.
From S2P Require Import Prelude PyFloat PyString PyFormat PyDecimal.

Local Open Scope string_scope.

(** [verif.util.is_number(s)] *)
Definition is_number (s : string) : res bool :=
  match float_of_string s with
  | Ok _ => Ok true
  | Err (Raised ValueError) => Ok false
  | Err e => Err e
  end.

(** [len(variable_name) >= 2 or variable_name[0] == c]: the index is
    evaluated only for a shorter name, and raises on the empty one. *)
Definition long_or_starts (c : ascii) (variable_name : string) : res bool :=
  if bool_decide (2 ≤ String.length variable_name)%nat then Ok true
  else c0 ← first_char variable_name; Ok (bool_decide (c0 = c)).

(** [Comps._comps_to_verif_threshold] (lines 200-211) *)
Definition comps_to_verif_threshold (variable_name : string) : res (option pyfloat) :=
  guard ← long_or_starts "p" variable_name;
  if guard : bool then
    let variable_name := replace "m" "-" variable_name in
    let variable_name := replace "p0" "0." variable_name in
    let variable_name := replace "p" "" variable_name in
    number ← is_number variable_name;
    if number : bool then Some <$> float_of_string variable_name else Ok None
  else Ok None.

(** [Comps._comps_to_verif_quantile] (lines 213-224) *)
Definition comps_to_verif_quantile (variable_name : string) : res (option pyfloat) :=
  guard ← long_or_starts "q" variable_name;
  if guard : bool then
    let variable_name := replace "q0" "0." variable_name in
    let variable_name := replace "q" "" variable_name in
    number ← is_number variable_name;
    if number : bool then
      value ← float_of_string variable_name;
      let temp := (value / of_Z 100)%F in
      Ok (if (temp >=? of_Z 0)%F && (temp <=? of_Z 1)%F then Some temp else None)
    else Ok None
  else Ok None.

(** [Comps._verif_to_comps_threshold] (lines 226-238) *)
Definition verif_to_comps_threshold (threshold : pyfloat) : res string :=
  variable_name ←
    (if (threshold ==? of_Z 0)%F then Ok "0"
     else if (fabs threshold <? of_Z 1)%F then
       replace "." "" <$> format_g threshold
     else format_d threshold);
  let variable_name := replace "-" "m" variable_name in
  Ok ("p" +:+ variable_name).

(** [Comps._verif_to_comps_quantile] (lines 240-251) *)
Definition verif_to_comps_quantile (quantile : pyfloat) : res (option string) :=
  if (quantile <? of_Z 0)%F || (quantile >? of_Z 1)%F then Ok None
  else
    variable_name ←
      (if (quantile ==? of_Z 0)%F then Ok "0"
       else replace "." "" <$> format_g (quantile * of_Z 100)%F);
    Ok (Some ("q" +:+ variable_name)).

(** Encoding, then decoding. *)
Definition threshold_there_and_back (threshold : pyfloat) : res (option pyfloat) :=
  variable_name ← verif_to_comps_threshold threshold;
  comps_to_verif_threshold variable_name.

Definition quantile_there_and_back (quantile : pyfloat) : res (option pyfloat) :=
  variable_name ← verif_to_comps_quantile quantile;
  match variable_name with
  | Some variable_name => comps_to_verif_quantile variable_name
  | None => Ok None
  end.

(** ** Integers *)

Section integers.
Implicit Types (z : Z) (n : N) (body : string) (neg : bool).

Lemma Qred_inject_Z z : Qred (inject_Z z) = inject_Z z.
Proof. apply Qred_identity. simpl. apply Z.gcd_1_r. Qed.

Lemma feq_of_Z z : (of_Z z ==? of_Z 0)%F = bool_decide (z = 0%Z).
Proof.
  unfold feq, cmp2, of_Z. apply bool_decide_ext. split; [|by intros ->].
  intros H. apply (of_Z_inj z 0). unfold of_Z. by rewrite H.
Qed.

Lemma fabs_of_Z_ge_1 z : z ≠ 0%Z → (fabs (of_Z z) <? of_Z 1)%F = false.
Proof.
  intros Hz. unfold flt, fabs, of_Z. simpl. apply bool_decide_eq_false.
  intros H. unfold Qclt, Qcabs in H. cbn [this Q2Qc] in H.
  rewrite !Qred_inject_Z in H. unfold Qlt, Qabs, inject_Z in H. simpl in H. lia.
Qed.

Lemma format_d_of_Z z : format_d (of_Z z) = Ok (string_of_Z z).
Proof. unfold format_d, of_Z. simpl. rewrite Qred_inject_Z. simpl. by rewrite Z.quot_1_r. Qed.

(** The name of a non-zero integer: [m] for the sign, then the digits. *)
Definition int_name neg body : string :=
  String "p" (if neg then String "m" body else body).

Lemma encode_int z :
  z ≠ 0%Z →
  verif_to_comps_threshold (of_Z z)
  = Ok (int_name (bool_decide (z < 0)%Z) (string_of_N (Z.to_N (Z.abs z)))).
Proof.
  intros Hz. unfold verif_to_comps_threshold.
  rewrite feq_of_Z, bool_decide_eq_false_2, fabs_of_Z_ge_1, format_d_of_Z by done.
  cbn [mbind result_bind]. unfold int_name. f_equal. change ("p" +:+ ?s) with (String "p" s).
  f_equal. pose proof (string_of_N_printed (Z.to_N (Z.abs z))) as (_ & Hall & _).
  destruct z as [|p|p]; [done|..]; cbn [string_of_Z Z.abs Z.to_N] in *.
  - rewrite bool_decide_eq_false_2 by lia. by apply replace_absent, all_digits_has.
  - rewrite bool_decide_eq_true_2 by lia.
    change ("-" +:+ ?s) with (String "-" s). rewrite replace_char_head.
    rewrite replace_absent by by apply all_digits_has. done.
Qed.

Lemma decode_int n body neg :
  printed n body → (1 <= n)%N →
  comps_to_verif_threshold (int_name neg body)
  = Ok (Some (of_Z (if neg then - Z.of_N n else Z.of_N n))).
Proof.
  intros Hb Hn. pose proof Hb as (_ & Hall & Hhead & _).
  destruct (Hhead Hn) as (c & r & -> & Hc).
  assert (∀ c', digit_of c' = None → has c' (String c r) = false) as Habs
    by (intros; by apply all_digits_has).
  unfold comps_to_verif_threshold, long_or_starts, int_name.
  rewrite bool_decide_eq_true_2 by (destruct neg; simpl; lia).
  cbn [mbind result_bind]. cbv zeta.
  set (X := if neg then String "-" (String c r) else String c r).
  assert (replace "m" "-" (String "p" (if neg then String "m" (String c r) else String c r))
          = String "p" X) as ->.
  { rewrite replace_miss by done. f_equal. destruct neg.
    - rewrite replace_char_head. by rewrite replace_absent by by apply Habs.
    - by apply replace_absent, Habs. }
  assert (has "p" X = false) as HpX.
  { unfold X. destruct neg; [change (has "p" (String c r) = false)|]; by apply Habs. }
  rewrite (replace_miss "p0").
  2:{ simpl. destruct neg; [done|]. simpl. by rewrite decide_False by done. }
  rewrite (replace_absent "p" "0" "0." X HpX), replace_char_head.
  rewrite (replace_absent "p" "" "" X HpX).
  change ("" +:+ X) with X. unfold is_number.
  pose proof (float_of_string_printed n (String c r) neg Hb) as Hf. fold X in Hf.
  by rewrite Hf.
Qed.

(** The name the encoder gives to the integer threshold [z]. *)
Definition threshold_name (z : Z) : string :=
  if decide (z = 0%Z) then "p0"
  else int_name (bool_decide (z < 0)%Z) (string_of_N (Z.to_N (Z.abs z))).

Lemma encode_threshold_name z :
  verif_to_comps_threshold (of_Z z) = Ok (threshold_name z).
Proof.
  unfold threshold_name. case_decide as Hz; [subst; compute_done|by apply encode_int].
Qed.

Lemma decode_threshold_name z :
  comps_to_verif_threshold (threshold_name z) = Ok (Some (of_Z z)).
Proof.
  unfold threshold_name. case_decide as Hz; [subst; compute_done|].
  rewrite (decode_int (Z.to_N (Z.abs z))); [|apply string_of_N_printed|lia].
  do 2 f_equal. case_bool_decide; f_equal; lia.
Qed.

End integers.

(** ** Fractions *)

Section fractions.
Implicit Types (M : N) (n : nat).

(** The name of a fraction: [p0], then what [%g] prints after the point. *)
Definition fraction_name M n : string :=
  "p0" +:+ zeros (n - String.length (string_of_N M)) +:+ string_of_N M.

Lemma fraction_not_zero M n :
  fraction6 M n → (decimal (Z.of_N M) (- Z.of_nat n) ==? of_Z 0)%F = false.
Proof.
  intros (q & -> & Hq & _)%decimal_fraction. apply bool_decide_eq_false.
  intros ->. exact (Qclt_not_eq _ _ Hq eq_refl).
Qed.

Lemma fraction_below_one M n :
  fraction6 M n → (fabs (decimal (Z.of_N M) (- Z.of_nat n)) <? of_Z 1)%F = true.
Proof.
  intros (q & -> & Hq & H1)%decimal_fraction. apply bool_decide_eq_true.
  by rewrite Qcabs_pos by by apply Qclt_le_weak.
Qed.

Lemma all_digits_fraction M n :
  all_digits (zeros n +:+ string_of_N M) = true.
Proof.
  pose proof (string_of_N_printed M) as (_ & Hall & _).
  by rewrite all_digits_app, all_digits_zeros.
Qed.

(** The encoders drop the point of a spelling. *)
Lemma drop_point D :
  all_digits D = true → replace "." "" (String "0" (String "." D)) = String "0" D.
Proof.
  intros HD. rewrite (replace_miss "." "" "0") by done. rewrite replace_char_head.
  by rewrite (replace_absent "." "" "" D) by by apply all_digits_has.
Qed.

(** The decoders put it back after the prefix [c] and a zero, and find no
    other prefix to remove. *)
Lemma restore_point c D :
  all_digits D = true → digit_of c = None → c ≠ "."%char →
  replace (String c "") "" (replace (String c "0") "0." (String c (String "0" D)))
  = String "0" (String "." D).
Proof.
  intros HD Hc Hp. pose proof (all_digits_has c D HD Hc) as Habs.
  assert (replace (String c "0") "0." (String c (String "0" D))
          = String "0" (String "." D)) as ->.
  { unfold replace. cbn [replace_go strip_prefix String.length Nat.sub].
    rewrite !decide_True by done. rewrite !app_cons. change ("" +:+ ?s) with s.
    do 2 f_equal. by apply (replace_absent c "0" "0." D). }
  rewrite (replace_miss (String c "") "" "0"), (replace_miss (String c "") "" ".").
  - by rewrite (replace_absent c "" "" D).
  - simpl. by rewrite decide_False.
  - simpl. rewrite decide_False; [done|]. intros ->. by vm_compute in Hc.
Qed.

Lemma encode_fraction M n :
  fraction6 M n →
  verif_to_comps_threshold (decimal (Z.of_N M) (- Z.of_nat n)) = Ok (fraction_name M n).
Proof.
  intros HF. unfold verif_to_comps_threshold.
  rewrite fraction_not_zero, fraction_below_one, format_g_fraction by done.
  cbn [fmap result_fmap mbind result_bind]. unfold spelling, fraction_name.
  pose proof (all_digits_fraction M (n - String.length (string_of_N M))) as Hall.
  set (D := zeros _ +:+ string_of_N M) in *. rewrite !app_cons.
  change ("" +:+ D) with D. rewrite drop_point by done.
  rewrite (replace_miss "-" "m" "0") by done.
  by rewrite (replace_absent "-" "" "m" D) by by apply all_digits_has.
Qed.

Lemma decode_fraction M n :
  (String.length (string_of_N M) ≤ n)%nat →
  comps_to_verif_threshold (fraction_name M n)
  = Ok (Some (decimal (Z.of_N M) (- Z.of_nat n))).
Proof.
  intros Hn. pose proof (float_of_string_fraction M n Hn) as Hf.
  unfold comps_to_verif_threshold, long_or_starts, fraction_name.
  unfold spelling in Hf.
  pose proof (all_digits_fraction M (n - String.length (string_of_N M))) as Hall.
  set (D := zeros _ +:+ string_of_N M) in *. rewrite !app_cons in *.
  change ("" +:+ D) with D in *.
  rewrite bool_decide_eq_true_2 by (simpl; lia). cbn [mbind result_bind]. cbv zeta.
  rewrite (replace_miss "m" "-" "p"), (replace_miss "m" "-" "0") by done.
  rewrite (replace_absent "m" "" "-" D) by by apply all_digits_has.
  rewrite restore_point by done. unfold is_number. by rewrite Hf.
Qed.

(** *** Negative fractions *)

(** The name of the negative of a fraction: the minus sign becomes [m],
    between the prefix and the zero. *)
Definition negative_name M n : string :=
  "pm0" +:+ zeros (n - String.length (string_of_N M)) +:+ string_of_N M.

Lemma negative_not_zero M n :
  fraction6 M n → (decimal (- Z.of_N M) (- Z.of_nat n) ==? of_Z 0)%F = false.
Proof.
  intros (q & -> & _ & Hq & _)%decimal_negative. apply bool_decide_eq_false.
  intros ->. exact (Qclt_not_eq _ _ Hq eq_refl).
Qed.

Lemma negative_below_one M n :
  fraction6 M n → (fabs (decimal (- Z.of_N M) (- Z.of_nat n)) <? of_Z 1)%F = true.
Proof.
  intros (q & -> & H1 & H0 & _)%decimal_negative. apply bool_decide_eq_true.
  rewrite Qcabs_neg by by apply Qclt_le_weak. qc_lra.
Qed.

Lemma encode_negative M n :
  fraction6 M n →
  verif_to_comps_threshold (decimal (- Z.of_N M) (- Z.of_nat n)) = Ok (negative_name M n).
Proof.
  intros HF. unfold verif_to_comps_threshold.
  rewrite negative_not_zero, negative_below_one, format_g_negative by done.
  cbn [fmap result_fmap mbind result_bind]. unfold spelling, negative_name.
  pose proof (all_digits_fraction M (n - String.length (string_of_N M))) as Hall.
  set (D := zeros _ +:+ string_of_N M) in *. rewrite !app_cons.
  repeat change ("" +:+ ?s) with s. rewrite (replace_miss "." "" "-") by done.
  rewrite drop_point by done. rewrite replace_char_head.
  rewrite (replace_miss "-" "m" "0") by done.
  by rewrite (replace_absent "-" "" "m" D) by by apply all_digits_has.
Qed.

(** The decoder restores the point after [p0] only: behind [pm] the zero and
    the digits are read as an integer. *)
Lemma decode_negative M n :
  comps_to_verif_threshold (negative_name M n) = Ok (Some (of_Z (- Z.of_N M))).
Proof.
  pose proof (float_of_string_padded true M (n - String.length (string_of_N M))) as Hf.
  unfold comps_to_verif_threshold, long_or_starts, negative_name.
  pose proof (all_digits_fraction M (n - String.length (string_of_N M))) as Hall.
  set (D := zeros _ +:+ string_of_N M) in *. rewrite !app_cons in *.
  repeat change ("" +:+ ?s) with s in *.
  rewrite bool_decide_eq_true_2 by (simpl; lia). cbn [mbind result_bind]. cbv zeta.
  rewrite (replace_miss "m" "-" "p"), replace_char_head, (replace_miss "m" "-" "0") by done.
  rewrite (replace_absent "m" "" "-" D) by by apply all_digits_has.
  change ("-" +:+ ?s) with (String "-" s).
  rewrite (replace_miss "p0" "0." "p"), (replace_miss "p0" "0." "-"),
    (replace_miss "p0" "0." "0") by done.
  rewrite (replace_absent "p" "0" "0." D) by by apply all_digits_has.
  rewrite replace_char_head, (replace_miss "p" "" "-"), (replace_miss "p" "" "0") by done.
  rewrite (replace_absent "p" "" "" D) by by apply all_digits_has.
  change ("" +:+ ?s) with s. unfold is_number. by rewrite Hf.
Qed.

(** *** Quantiles below one percent *)

(** [x / 100] *)
Definition hundredth (x : pyfloat) : pyfloat := (x / of_Z 100)%F.

Lemma Qcdiv_100 (q : Qc) : (q / Q2Qc 100)%Qc == (q * (1 # 100))%Q.
Proof. unfold Qcdiv, Qcmult, Qcinv. cbn [this Q2Qc]. by rewrite !Qred_correct. Qed.

Lemma hundredth_fraction M n :
  fraction6 M n →
  ∃ q : Qc, hundredth (decimal (Z.of_N M) (- Z.of_nat n)) = Fin q
    ∧ (0 < q)%Qc ∧ (q < 1)%Qc
    ∧ (Fin q * of_Z 100)%F = decimal (Z.of_N M) (- Z.of_nat n).
Proof.
  intros (q & -> & H0 & H1)%decimal_fraction. exists (q / Q2Qc 100)%Qc.
  split; [done|]. unfold Qclt in *.
  change (this (Q2Qc 0)) with 0%Q in *. change (this (Q2Qc 1)) with 1%Q in *.
  split_and!; [rewrite Qcdiv_100; lra..|].
  - unfold fmul, lift2, of_Z. f_equal. apply Qc_is_canon. unfold Qcmult.
    cbn [this Q2Qc]. rewrite !Qred_correct, Qcdiv_100.
    change (inject_Z 100) with 100%Q. lra.
Qed.

(** The name of a quantile below one percent. *)
Definition subpercent_name M n : string :=
  "q0" +:+ zeros (n - String.length (string_of_N M)) +:+ string_of_N M.

Lemma encode_subpercent M n :
  fraction6 M n →
  verif_to_comps_quantile (hundredth (decimal (Z.of_N M) (- Z.of_nat n)))
  = Ok (Some (subpercent_name M n)).
Proof.
  intros HF. destruct (hundredth_fraction M n HF) as (q & -> & H0 & H1 & Hmul).
  unfold verif_to_comps_quantile. unfold flt, fgt, flt, feq, cmp2, of_Z.
  rewrite !bool_decide_eq_false_2.
  - cbn [orb]. change (Fin (Q2Qc (inject_Z 100))) with (of_Z 100).
    rewrite Hmul, format_g_fraction by done.
    cbn [fmap result_fmap mbind result_bind]. unfold spelling, subpercent_name.
    rewrite !app_cons. change ("" +:+ ?s) with s.
    by rewrite drop_point by apply all_digits_fraction.
  - intros ->. exact (Qclt_not_eq _ _ H0 eq_refl).
  - by apply Qcle_not_lt, Qclt_le_weak.
  - by apply Qcle_not_lt, Qclt_le_weak.
Qed.

Lemma decode_subpercent M n :
  fraction6 M n →
  comps_to_verif_quantile (subpercent_name M n)
  = Ok (Some (hundredth (decimal (Z.of_N M) (- Z.of_nat n)))).
Proof.
  intros HF. destruct (hundredth_fraction M n HF) as (q & Hq & H0 & H1 & _).
  pose proof (fraction6_length M n HF) as Hn.
  pose proof (float_of_string_fraction M n Hn) as Hf.
  unfold comps_to_verif_quantile, long_or_starts, subpercent_name.
  unfold spelling in Hf. rewrite !app_cons in *. change ("" +:+ ?s) with s in *.
  rewrite bool_decide_eq_true_2 by (simpl; lia). cbn [mbind result_bind]. cbv zeta.
  rewrite restore_point by (done || apply all_digits_fraction).
  unfold is_number. rewrite Hf. cbn [mbind result_bind].
  fold (hundredth (decimal (Z.of_N M) (- Z.of_nat n))). rewrite Hq. unfold fge, fle, cmp2, of_Z.
  by rewrite !bool_decide_eq_true_2 by by apply Qclt_le_weak.
Qed.

End fractions.

(** ** Names of the other kind *)

(** The name of a threshold is no quantile and the name of a quantile no
    threshold: after the replacements the prefix of the other kind is still
    there, and [float()] rejects it. *)
Section other_kind.
Implicit Types (c : ascii) (X : string).

Lemma float_of_string_letter c X :
  c = "p"%char ∨ c = "q"%char → no_space X = true →
  float_of_string (String c X) = Err (Raised ValueError).
Proof.
  intros Hc HX. unfold float_of_string. cbv zeta.
  rewrite strip_no_space by (by destruct Hc as [-> | ->]).
  assert (special_literal (String c X) = false) as ->.
  { apply bool_decide_eq_false. by destruct Hc as [-> | ->]; intros [?|[?|?]]. }
  by destruct Hc as [-> | ->].
Qed.

Lemma is_number_letter c X :
  c = "p"%char ∨ c = "q"%char → no_space X = true → is_number (String c X) = Ok false.
Proof. intros. unfold is_number. by rewrite float_of_string_letter. Qed.

Lemma comps_to_verif_quantile_p X :
  X ≠ "" → has "q" X = false → no_space X = true →
  comps_to_verif_quantile (String "p" X) = Ok None.
Proof.
  intros Hne Hq Hs. unfold comps_to_verif_quantile, long_or_starts.
  rewrite bool_decide_eq_true_2 by (destruct X; [done|simpl; lia]).
  cbn [mbind result_bind]. cbv zeta.
  rewrite (replace_absent "q" "0" "0." (String "p" X)) by done.
  rewrite (replace_absent "q" "" "" (String "p" X)) by done.
  by rewrite is_number_letter by auto.
Qed.

Lemma comps_to_verif_threshold_q X :
  X ≠ "" → has "m" X = false → has "p" X = false → no_space X = true →
  comps_to_verif_threshold (String "q" X) = Ok None.
Proof.
  intros Hne Hm Hp Hs. unfold comps_to_verif_threshold, long_or_starts.
  rewrite bool_decide_eq_true_2 by (destruct X; [done|simpl; lia]).
  cbn [mbind result_bind]. cbv zeta.
  rewrite (replace_absent "m" "" "-" (String "q" X)) by done.
  rewrite (replace_absent "p" "0" "0." (String "q" X)) by done.
  rewrite (replace_absent "p" "" "" (String "q" X)) by done.
  by rewrite is_number_letter by auto.
Qed.

(** Digits hold no letter and no space. *)
Lemma comps_to_verif_quantile_digits D :
  D ≠ "" → all_digits D = true → comps_to_verif_quantile (String "p" D) = Ok None.
Proof.
  intros. apply comps_to_verif_quantile_p;
    [done|by apply all_digits_has|by apply all_digits_no_space].
Qed.

Lemma comps_to_verif_threshold_digits D :
  D ≠ "" → all_digits D = true → comps_to_verif_threshold (String "q" D) = Ok None.
Proof.
  intros. apply comps_to_verif_threshold_q;
    [done|by apply all_digits_has..|by apply all_digits_no_space].
Qed.

End other_kind.

(** ** Whole percents *)

Section percents.
Implicit Types (k : Z).

(** Checking a property of every integer of a range by evaluation. *)
Lemma forall_range (P : Z → Prop) `{∀ k, Decision (P k)} (lo : Z) (len : nat) :
  Forall P (seqZ lo (Z.of_nat len)) → ∀ k, (lo ≤ k < lo + Z.of_nat len)%Z → P k.
Proof.
  intros HP k Hk. eapply Forall_forall; [exact HP|]. apply elem_of_seqZ. lia.
Qed.

(** The quantile of [k] percent, and its name. *)
Definition percent k : pyfloat := of_Q (k # 100).
Definition percent_name k : string := "q" +:+ string_of_N (Z.to_N k).

Lemma encode_percent k :
  (0 ≤ k < 101)%Z → verif_to_comps_quantile (percent k) = Ok (Some (percent_name k)).
Proof.
  apply (forall_range
    (λ k, verif_to_comps_quantile (percent k) = Ok (Some (percent_name k))) 0 101).
  compute_done.
Qed.

Lemma decode_percent k :
  (0 ≤ k < 101)%Z → comps_to_verif_quantile (percent_name k) = Ok (Some (percent k)).
Proof.
  apply (forall_range
    (λ k, comps_to_verif_quantile (percent_name k) = Ok (Some (percent k))) 0 101).
  compute_done.
Qed.

(** The decoder of the other kind finds no value in a name. *)
Lemma threshold_name_quantile z : comps_to_verif_quantile (threshold_name z) = Ok None.
Proof.
  unfold threshold_name, int_name. case_decide; [compute_done|].
  pose proof (string_of_N_printed (Z.to_N (Z.abs z))) as (Hne & Hall & _).
  apply comps_to_verif_quantile_p; destruct (bool_decide _);
    cbn [has no_space orb andb negb]; try done;
    (by apply all_digits_has) || by apply all_digits_no_space.
Qed.

Lemma fraction_name_quantile M n : comps_to_verif_quantile (fraction_name M n) = Ok None.
Proof.
  unfold fraction_name. rewrite !app_cons.
  apply comps_to_verif_quantile_digits; [done|apply (all_digits_fraction M)].
Qed.

Lemma percent_name_threshold k : comps_to_verif_threshold (percent_name k) = Ok None.
Proof.
  pose proof (string_of_N_printed (Z.to_N k)) as (Hne & Hall & _).
  by apply comps_to_verif_threshold_digits.
Qed.

Lemma subpercent_name_threshold M n :
  comps_to_verif_threshold (subpercent_name M n) = Ok None.
Proof.
  unfold subpercent_name. rewrite !app_cons.
  apply comps_to_verif_threshold_digits; [done|apply (all_digits_fraction M)].
Qed.

End percents.

(** ** Names without prefix *)

(** The guard of the decoders lets every name of two characters pass. *)
Section bare.
Implicit Types (n : N) (c : ascii).

Lemma hundredth_of_Z (k : Z) : hundredth (of_Z k) = percent k.
Proof.
  unfold hundredth, percent, of_Z, of_Q, fdiv, lift2. f_equal. apply Qc_is_canon.
  rewrite Qcdiv_100. cbn [this Q2Qc]. rewrite !Qred_correct.
  unfold Qeq, Qmult, inject_Z. cbn [Qnum Qden]. lia.
Qed.

Lemma string_of_N_long n : (10 <= n)%N → (2 ≤ String.length (string_of_N n))%nat.
Proof.
  intros Hn. destruct (string_of_N_length n) as (l & -> & Hlo & Hhi); [lia|].
  destruct l; [simpl in Hhi; lia|lia].
Qed.

Lemma bare_threshold n :
  (10 <= n)%N → comps_to_verif_threshold (string_of_N n) = Ok (Some (of_Z (Z.of_N n))).
Proof.
  intros Hn. pose proof (string_of_N_printed n) as Hp.
  pose proof Hp as (_ & Hall & _).
  unfold comps_to_verif_threshold, long_or_starts.
  rewrite bool_decide_eq_true_2 by by apply string_of_N_long.
  cbn [mbind result_bind]. cbv zeta.
  rewrite (replace_absent "m" "" "-" (string_of_N n)) by by apply all_digits_has.
  rewrite (replace_absent "p" "0" "0." (string_of_N n)) by by apply all_digits_has.
  rewrite (replace_absent "p" "" "" (string_of_N n)) by by apply all_digits_has.
  unfold is_number. by rewrite (float_of_string_printed n _ false Hp).
Qed.

Lemma bare_quantile n :
  (10 <= n <= 100)%N →
  comps_to_verif_quantile (string_of_N n) = Ok (Some (percent (Z.of_N n))).
Proof.
  intros Hn. pose proof (string_of_N_printed n) as Hp.
  pose proof Hp as (_ & Hall & _).
  unfold comps_to_verif_quantile, long_or_starts.
  rewrite bool_decide_eq_true_2 by (apply string_of_N_long; lia).
  cbn [mbind result_bind]. cbv zeta.
  rewrite (replace_absent "q" "0" "0." (string_of_N n)) by by apply all_digits_has.
  rewrite (replace_absent "q" "" "" (string_of_N n)) by by apply all_digits_has.
  unfold is_number. rewrite (float_of_string_printed n _ false Hp).
  cbn [mbind result_bind]. fold (hundredth (of_Z (Z.of_N n))). rewrite hundredth_of_Z.
  assert ((percent (Z.of_N n) >=? of_Z 0)%F && (percent (Z.of_N n) <=? of_Z 1)%F = true)
    as ->; [|done].
  apply andb_true_iff. split; apply bool_decide_eq_true; unfold Qcle; cbn [this Q2Qc];
    rewrite !Qred_correct; unfold Qle; cbn [Qnum Qden inject_Z]; lia.
Qed.

(** A name of one digit is stopped by the guard. *)
Lemma digit_name n c :
  (n < 10)%N → c = "p"%char ∨ c = "q"%char →
  long_or_starts c (string_of_N n) = Ok false.
Proof.
  intros Hn Hc. rewrite string_of_N_digit by done. unfold long_or_starts. simpl.
  do 2 f_equal. apply bool_decide_eq_false. intros E.
  assert (digit_of c = None) as Hd by by destruct Hc as [-> | ->].
  by rewrite <-E, digit_of_digit_char in Hd by done.
Qed.

End bare.

(** ** Percent values with a point *)

(** [%g] prints a percent value of at least 1 that is no integer with a
    point, which the encoder drops: the name is that of the digits. *)
Section dotted.
Implicit Types (M : N) (n : nat).

(** Dropping the point leaves the digits. *)
Lemma drop_point_pointed M n : replace "." "" (pointed M n) = string_of_N M.
Proof.
  pose proof (string_of_N_printed M) as (_ & Hall & _).
  pose proof (all_digits_has "." _ Hall eq_refl) as Hdot.
  unfold pointed. cbv zeta. set (k := (String.length (string_of_N M) - n)%nat).
  rewrite <-(take_drop_s (string_of_N M) k), has_app in Hdot.
  apply orb_false_iff in Hdot as [Ht Hd].
  rewrite replace_absent_app by done. rewrite app_cons, replace_char_head.
  repeat change ("" +:+ ?s) with s. rewrite (replace_absent "." "" "" _ Hd).
  apply take_drop_s.
Qed.

Lemma hundredth_mul (a : Qc) : (hundredth (Fin a) * of_Z 100)%F = Fin a.
Proof.
  unfold hundredth, of_Z, fdiv, fmul, lift2. f_equal. apply Qc_is_canon.
  unfold Qcmult. cbn [this Q2Qc]. rewrite Qred_correct, Qcdiv_100.
  change (Qred (inject_Z 100)) with 100%Q. generalize (this a). intros x. lra.
Qed.

(** A value of at least 1 percent spelt with a point, and at most 100. *)
Lemma mixed_in_unit M n :
  mixed6 M n → (M <= 100 * 10 ^ N.of_nat n)%N →
  ∃ q : Qc, hundredth (decimal (Z.of_N M) (- Z.of_nat n)) = Fin q
    ∧ (0 < q)%Qc ∧ (q <= 1)%Qc ∧ (q < Z.of_N M # 100)%Q.
Proof.
  intros [(_ & _ & Hlo) Hn] Hhi.
  assert (10 <= 10 ^ Z.of_nat n)%Q as H10.
  { rewrite <-pow10_inject. change 10%Q with (inject_Z 10) at 1. rewrite <-Zle_Qle.
    apply (Z.pow_le_mono_r 10 1); lia. }
  destruct (decimal_value (Z.of_N M) (- Z.of_nat n)) as (p & -> & Hp).
  exists (p / Q2Qc 100)%Qc. split; [done|].
  apply N2Z.inj_le in Hlo, Hhi. rewrite N2Z.inj_mul, N2Z.inj_pow, nat_N_Z in Hhi.
  rewrite N2Z.inj_pow, nat_N_Z in Hlo.
  change (Z.of_N 10) with 10%Z in *. change (Z.of_N 100) with 100%Z in *.
  rewrite Zle_Qle in Hlo, Hhi. rewrite inject_Z_mult in Hhi.
  change (inject_Z 100) with 100%Q in Hhi. rewrite pow10_inject in Hlo, Hhi.
  pose proof (pow10_pos (Z.of_nat n)) as Hpos.
  assert (p == inject_Z (Z.of_N M) / 10 ^ Z.of_nat n)%Q as Hp'
    by (rewrite Hp, Qpower_opp; field; lra).
  unfold Qclt, Qcle. rewrite !Qcdiv_100. change (this 0%Qc) with 0%Q.
  change (this 1%Qc) with 1%Q.
  assert (Z.of_N M # 100 == inject_Z (Z.of_N M) / 100)%Q as ->
    by (rewrite Qmake_Qdiv; reflexivity).
  rewrite Hp'. set (m := inject_Z (Z.of_N M)) in *.
  set (t := (10 ^ Z.of_nat n)%Q) in *. clearbody m t.
  split_and!.
  - apply Qmult_lt_0_compat; [|lra]. apply Qlt_shift_div_l; lra.
  - assert (m / t <= 100)%Q by (apply Qle_shift_div_r; lra). lra.
  - assert (m / t < m)%Q as Hlt by (apply Qlt_shift_div_r; [lra|nra]).
    revert Hlt. generalize (m / t)%Q. intros x Hx. unfold Qdiv.
    change (/ 100)%Q with (1 # 100)%Q. lra.
Qed.

Lemma encode_dotted M n :
  mixed6 M n → (M <= 100 * 10 ^ N.of_nat n)%N →
  verif_to_comps_quantile (hundredth (decimal (Z.of_N M) (- Z.of_nat n)))
  = Ok (Some (percent_name (Z.of_N M))).
Proof.
  intros HF Hhi. destruct (mixed_in_unit M n HF Hhi) as (q & Hq & H0 & H1 & _).
  destruct (decimal_value (Z.of_N M) (- Z.of_nat n)) as (p & Hp & _).
  pose proof (hundredth_mul p) as Hmul. rewrite <-Hp, Hq in Hmul.
  unfold verif_to_comps_quantile. rewrite Hq. unfold flt, fgt, flt, feq, cmp2, of_Z.
  rewrite !bool_decide_eq_false_2.
  - cbn [orb]. change (Fin (Q2Qc (inject_Z 100))) with (of_Z 100).
    rewrite Hmul, format_g_mixed by done.
    cbn [fmap result_fmap mbind result_bind]. rewrite drop_point_pointed.
    unfold percent_name. by rewrite N2Z.id.
  - intros ->. exact (Qclt_not_eq _ _ H0 eq_refl).
  - by apply Qcle_not_lt.
  - by apply Qcle_not_lt, Qclt_le_weak.
Qed.

(** The name [q] and the digits of [M] is that of [M] percent. *)
Lemma decode_digits M :
  (1 <= M)%N →
  comps_to_verif_quantile (percent_name (Z.of_N M))
  = Ok (if decide (M <= 100)%N then Some (percent (Z.of_N M)) else None).
Proof.
  intros HM. unfold percent_name. rewrite N2Z.id.
  pose proof (string_of_N_printed M) as Hp. pose proof Hp as (_ & Hall & Hhead & _).
  destruct (Hhead HM) as (c & r & Hs & Hc). rewrite Hs in Hall |- *.
  pose proof (all_digits_has "q" _ Hall eq_refl) as Hq.
  unfold comps_to_verif_quantile, long_or_starts. rewrite app_cons.
  rewrite bool_decide_eq_true_2 by (simpl; lia). cbn [mbind result_bind]. cbv zeta.
  change ("" +:+ ?s) with s.
  rewrite (replace_miss "q0" "0." "q") by (simpl; by rewrite decide_False by done).
  rewrite (replace_absent "q" "0" "0." _ Hq), replace_char_head.
  rewrite (replace_absent "q" "" "" _ Hq). change ("" +:+ ?s) with s.
  rewrite <-Hs. unfold is_number. rewrite (float_of_string_printed M _ false Hp).
  cbn [mbind result_bind]. fold (hundredth (of_Z (Z.of_N M))). rewrite hundredth_of_Z.
  assert ((percent (Z.of_N M) >=? of_Z 0)%F = true) as ->.
  { apply bool_decide_eq_true. unfold Qcle. cbn [this Q2Qc]. rewrite !Qred_correct.
    unfold Qle. cbn [Qnum Qden inject_Z]. lia. }
  cbn [andb]. do 2 f_equal. unfold fle, cmp2, percent, of_Q, of_Z.
  case_decide; [rewrite bool_decide_eq_true_2|rewrite bool_decide_eq_false_2]; try done;
    unfold Qcle; cbn [this Q2Qc]; rewrite !Qred_correct; unfold Qle;
    cbn [Qnum Qden inject_Z]; lia.
Qed.

End dotted.

(** ** Theorems *)

(** C9: decoding undoes encoding on every threshold that is an integer:
    the name of [z] is [p], an [m] when [z] is negative, and the decimal
    digits of its absolute value, and that name decodes to [z]. *)
Theorem threshold_roundtrip_int (z : Z) :
  threshold_there_and_back (of_Z z) = Ok (Some (of_Z z)).
Proof.
  unfold threshold_there_and_back. destruct (decide (z = 0%Z)) as [->|Hz]; [compute_done|].
  rewrite encode_int by done. cbn [mbind result_bind].
  rewrite (decode_int (Z.to_N (Z.abs z))); [|apply string_of_N_printed|lia].
  do 2 f_equal. case_bool_decide; f_equal; lia.
Qed.

(** C10: decoding undoes encoding on every positive threshold below 1 that
    [%g] prints in full in fixed notation: the values [M / 10^n] not below
    0.0001 with [M] of at most six digits.  The name is [p0], the zeros
    between the point and the first digit, and the digits of [M]; the
    decoder puts the point back after [p0] and [float()] reads the value. *)
Theorem threshold_roundtrip_fraction (M : N) (n : nat) :
  fraction6 M n →
  threshold_there_and_back (decimal (Z.of_N M) (- Z.of_nat n))
  = Ok (Some (decimal (Z.of_N M) (- Z.of_nat n))).
Proof.
  intros HF. unfold threshold_there_and_back. rewrite encode_fraction by done.
  cbn [mbind result_bind]. by apply decode_fraction, fraction6_length.
Qed.

Lemma threshold_roundtrip_fraction_witness :
  verif_to_comps_threshold (decimal 25 (-2)) = Ok "p025"
  ∧ threshold_there_and_back (decimal 25 (-2)) = Ok (Some (decimal 25 (-2))).
Proof.
  split; [by apply (encode_fraction 25 2)|].
  by apply (threshold_roundtrip_fraction 25 2).
Defined.

(** Outside that range: a seventh digit is rounded away; below 0.0001 [%g]
    prints an exponent, and the name, without its point, decodes to the value
    only when it has one digit: 0.000015 is [p15em05], which reads as
    0.00015. *)
Example threshold_fraction_limits :
  threshold_there_and_back (decimal 1234567 (-7)) = Ok (Some (decimal 123457 (-6)))
  ∧ verif_to_comps_threshold (decimal 1 (-5)) = Ok "p1em05"
  ∧ threshold_there_and_back (decimal 1 (-5)) = Ok (Some (decimal 1 (-5)))
  ∧ verif_to_comps_threshold (decimal 15 (-6)) = Ok "p15em05"
  ∧ threshold_there_and_back (decimal 15 (-6)) = Ok (Some (decimal 15 (-5))).
Proof. split_and!; compute_done. Qed.

(** C11: decoding does not undo encoding on the negative thresholds above
    -1: for [M / 10^n] not below 0.0001 with [M] of at most six digits, the
    name of [- M / 10^n] is [pm0], the zeros behind the point and the digits
    of [M]; the decoder, which puts the point back only after [p0], reads it
    as the integer [- M], which is another value. *)
Theorem threshold_negative_fraction (M : N) (n : nat) :
  fraction6 M n →
  let threshold := decimal (- Z.of_N M) (- Z.of_nat n) in
  verif_to_comps_threshold threshold = Ok (negative_name M n)
  ∧ threshold_there_and_back threshold = Ok (Some (of_Z (- Z.of_N M)))
  ∧ of_Z (- Z.of_N M) ≠ threshold.
Proof.
  intros HF threshold. pose proof (encode_negative M n HF) as He. split_and!; [done| |].
  - unfold threshold_there_and_back, threshold. rewrite He. apply decode_negative.
  - intros E. pose proof (negative_below_one M n HF) as H1. fold threshold in H1.
    rewrite <-E, fabs_of_Z_ge_1 in H1; [done|]. destruct HF. lia.
Qed.

Lemma threshold_negative_fraction_witness :
  verif_to_comps_threshold (decimal (-5) (-1)) = Ok "pm05"
  ∧ threshold_there_and_back (decimal (-5) (-1)) = Ok (Some (of_Z (-5)))
  ∧ of_Z (-5) ≠ decimal (-5) (-1).
Proof. apply (threshold_negative_fraction 5 1). compute_done. Defined.

(** C35: a threshold of absolute value at least 1 is encoded by its integer
    part: the fractional part is lost in the name. *)
Theorem threshold_truncates (q : Qc) :
  (1 <= Qcabs q)%Qc →
  verif_to_comps_threshold (Fin q)
  = verif_to_comps_threshold (of_Z (Z.quot (Qnum q) (Zpos (Qden q)))).
Proof.
  intros Hq. unfold Qcle, Qcabs in Hq. cbn [this Q2Qc] in Hq.
  destruct q as [[n d] Hc]. unfold Qle, Qabs in Hq. simpl in Hq.
  cbn [this Qnum Qden].
  assert (Z.quot n (Zpos d) ≠ 0%Z) as Hz.
  { intros H0%Z.quot_small_iff; lia. }
  pose proof (encode_int _ Hz) as He. rewrite He.
  unfold verif_to_comps_threshold in He |- *.
  rewrite feq_of_Z, bool_decide_eq_false_2, fabs_of_Z_ge_1, format_d_of_Z in He by done.
  assert ((Fin {| this := n # d; canon := Hc |} ==? of_Z 0)%F = false) as ->.
  { apply bool_decide_eq_false. intros H%(f_equal this). simpl in H.
    injection H as H _. lia. }
  assert ((fabs (Fin {| this := n # d; canon := Hc |}) <? of_Z 1)%F = false) as ->.
  { apply bool_decide_eq_false. unfold Qclt, Qcabs. cbn [this Q2Qc].
    unfold Qlt, Qabs. simpl. lia. }
  exact He.
Qed.

Lemma threshold_truncates_witness :
  verif_to_comps_threshold (of_Q (3 # 2))
  = verif_to_comps_threshold (of_Z (Z.quot 3 2)).
Proof. apply (threshold_truncates (Q2Qc (3 # 2))). compute_done. Defined.

(** Decoding undoes encoding on the quantiles that are whole percents: 0,
    0.01, ..., 1. *)
Lemma quantile_roundtrip_percent (k : Z) :
  (0 ≤ k < 101)%Z →
  quantile_there_and_back (of_Q (k # 100)) = Ok (Some (of_Q (k # 100))).
Proof.
  intros Hk. unfold quantile_there_and_back. fold (percent k).
  rewrite encode_percent by done. by apply decode_percent.
Qed.

(** And on the quantiles below one percent whose percentage has at most
    six digits and is not below 0.0001. *)
Lemma quantile_roundtrip_subpercent (M : N) (n : nat) :
  fraction6 M n →
  quantile_there_and_back (hundredth (decimal (Z.of_N M) (- Z.of_nat n)))
  = Ok (Some (hundredth (decimal (Z.of_N M) (- Z.of_nat n)))).
Proof.
  intros HF. unfold quantile_there_and_back. rewrite encode_subpercent by done.
  cbn [mbind result_bind]. by apply decode_subpercent.
Qed.

(** C34: decoding undoes encoding on the quantiles that are whole percents
    and on those below one percent: a whole percent [k] is named [q] and the
    digits of [k]; a quantile of [M / 10^n] percent, not below 0.0001 percent
    and with [M] of at most six digits, is named [q0], the zeros between the
    point and the first digit, and the digits of [M]. *)
Theorem quantile_roundtrip :
  (∀ k : Z, (0 ≤ k < 101)%Z →
     verif_to_comps_quantile (percent k) = Ok (Some (percent_name k))
     ∧ quantile_there_and_back (percent k) = Ok (Some (percent k)))
  ∧ (∀ (M : N) (n : nat), fraction6 M n →
       let quantile := hundredth (decimal (Z.of_N M) (- Z.of_nat n)) in
       verif_to_comps_quantile quantile = Ok (Some (subpercent_name M n))
       ∧ quantile_there_and_back quantile = Ok (Some quantile)).
Proof.
  split; [intros k Hk; split; [by apply encode_percent|by apply quantile_roundtrip_percent]|].
  intros M n HF. cbv zeta.
  split; [by apply encode_subpercent|by apply quantile_roundtrip_subpercent].
Qed.

Lemma quantile_roundtrip_witness :
  (verif_to_comps_quantile (percent 30) = Ok (Some "q30")
   ∧ quantile_there_and_back (percent 30) = Ok (Some (percent 30)))
  ∧ verif_to_comps_quantile (hundredth (decimal 5 (-1))) = Ok (Some "q05")
  ∧ quantile_there_and_back (hundredth (decimal 5 (-1)))
    = Ok (Some (hundredth (decimal 5 (-1)))).
Proof.
  destruct quantile_roundtrip as [Hp Hs]. split; [apply (Hp 30%Z); lia|].
  by apply (Hs 5%N 1%nat).
Defined.

(** C36: the quantile encoder drops the point of the percent value: a
    quantile whose percentage is at least 1, at most 100 and is written with
    a point and at most six digits ([M / 10 ^ n] percent) gets the name [q]
    and the digits of [M], the name of the quantile [M] percent.  Decoding
    that name gives [M] percent when [M] is at most 100 and nothing beyond,
    never the quantile: 2.5 percent is named [q25] and comes back as 25
    percent. *)
Theorem quantile_collision (M : N) (n : nat) :
  mixed6 M n → (M <= 100 * 10 ^ N.of_nat n)%N →
  let quantile := hundredth (decimal (Z.of_N M) (- Z.of_nat n)) in
  verif_to_comps_quantile quantile = Ok (Some (percent_name (Z.of_N M)))
  ∧ quantile_there_and_back quantile
    = Ok (if decide (M <= 100)%N then Some (percent (Z.of_N M)) else None)
  ∧ quantile ≠ percent (Z.of_N M).
Proof.
  intros HF Hhi quantile. pose proof (encode_dotted M n HF Hhi) as He.
  split_and!; [done| |].
  - unfold quantile_there_and_back, quantile. rewrite He. apply decode_digits.
    destruct HF as [(_ & _ & Hlo) _]. pose proof (N.pow_nonzero 10 (N.of_nat n)). lia.
  - destruct (mixed_in_unit M n HF Hhi) as (q & Hq & _ & _ & Hlt). unfold quantile.
    rewrite Hq. intros [= ->]. cbn [this Q2Qc] in Hlt. rewrite Qred_correct in Hlt.
    by apply Qlt_irrefl in Hlt.
Qed.

Lemma quantile_collision_witness :
  verif_to_comps_quantile (hundredth (decimal 25 (-1))) = Ok (Some "q25")
  ∧ quantile_there_and_back (hundredth (decimal 25 (-1))) = Ok (Some (percent 25))
  ∧ hundredth (decimal 25 (-1)) ≠ percent 25.
Proof. apply (quantile_collision 25 1); compute_done. Defined.

(** C37: the guard of the decoders is [len >= 2 or name[0] == prefix]: a
    name of two characters or more passes without the prefix, so a variable
    whose name is a number of two digits or more is a threshold, and a
    quantile as well when the number is at most 100; a name of one digit is
    neither; the index is evaluated on shorter names only, and raises on the
    empty name. *)
Theorem decoder_guard (n : N) :
  ((10 <= n)%N →
     comps_to_verif_threshold (string_of_N n) = Ok (Some (of_Z (Z.of_N n))))
  ∧ ((10 <= n <= 100)%N →
       comps_to_verif_quantile (string_of_N n) = Ok (Some (percent (Z.of_N n))))
  ∧ ((n < 10)%N →
       comps_to_verif_threshold (string_of_N n) = Ok None
       ∧ comps_to_verif_quantile (string_of_N n) = Ok None)
  ∧ comps_to_verif_threshold "" = Err (Raised IndexError)
  ∧ comps_to_verif_quantile "" = Err (Raised IndexError).
Proof.
  split_and!; [apply bare_threshold|apply bare_quantile| |done..].
  intros Hn. unfold comps_to_verif_threshold, comps_to_verif_quantile.
  by rewrite !digit_name by auto.
Qed.

Lemma decoder_guard_witness :
  comps_to_verif_threshold "50" = Ok (Some (of_Z 50))
  ∧ comps_to_verif_quantile "50" = Ok (Some (percent 50)).
Proof.
  destruct (decoder_guard 50) as (Ht & Hq & _). split; [by apply Ht|by apply Hq].
Defined.

(** ** The errors of decoding *)

(** Decoding a name raises only on the empty name ([variable_name[0]]) and
    where the model of [float] stops. *)
Definition codec_error (e : error) : Prop :=
  e = Raised IndexError ∨ value_error e.

Lemma long_or_starts_ensures c variable_name :
  ensures (λ _, True) codec_error (long_or_starts c variable_name).
Proof.
  unfold long_or_starts. case_bool_decide; [done|].
  destruct variable_name; simpl; [by left|done].
Qed.

Lemma is_number_ensures s : ensures (λ _, True) codec_error (is_number s).
Proof.
  unfold is_number. pose proof (float_of_string_ensures s) as H.
  destruct (float_of_string s) as [x|e]; simpl in *; [done|].
  destruct H as [->|[what ->]]; [done|]. right. right. by eexists.
Qed.

Lemma float_of_string_codec s : ensures (λ _, True) codec_error (float_of_string s).
Proof. eapply ensures_mono; [apply float_of_string_ensures|done|by right]. Qed.

Lemma comps_to_verif_threshold_ensures variable_name :
  ensures (λ _, True) codec_error (comps_to_verif_threshold variable_name).
Proof.
  unfold comps_to_verif_threshold.
  eapply (ensures_bind (λ _, True)); [apply long_or_starts_ensures|intros [] _; [|done]].
  eapply (ensures_bind (λ _, True)); [apply is_number_ensures|intros [] _; [|done]].
  pose proof (float_of_string_codec
    (replace "p" "" (replace "p0" "0." (replace "m" "-" variable_name)))) as H.
  by destruct (float_of_string _).
Qed.

Lemma comps_to_verif_quantile_ensures variable_name :
  ensures (λ _, True) codec_error (comps_to_verif_quantile variable_name).
Proof.
  unfold comps_to_verif_quantile.
  eapply (ensures_bind (λ _, True)); [apply long_or_starts_ensures|intros [] _; [|done]].
  eapply (ensures_bind (λ _, True)); [apply is_number_ensures|intros [] _; [|done]].
  eapply (ensures_bind (λ _, True)); [apply float_of_string_codec|by intros ? _].
Qed.
