(* ===== verification/Dataset.v ===== *)
(** * NetCDF files, as the decoders see them

    The two structured decoders read a file through the NetCDF library: a
    dictionary of named variables, in the order of the file, and global
    attributes.  The model:
    - [ndarray]: the value of a variable, of rank 1, 3 or 4 (a value of rank
      3 or 4 carries its extents, which nested lists lose when a dimension is
      empty);
    - [dataset]: attributes and variables; [hasattr], [getattr],
      [variables_get] ([file.variables[name]], [KeyError] when absent);
    - [util_clean]: the external [verif.util.clean], which turns the
      sentinel values of an array into nan; which values are sentinels is a
      parameter ([sentinel]);
    - [build_locations]: the loop both decoders run over the four coordinate
      arrays ([_get_locations]);
    - [get_units]: the normalisation of units both decoders apply
      ([_get_variable]).

    Facts: [build_locations] on arrays of one length builds the locations
    position by position ([get_locations_from_zip]); reading fails only with
    the errors of [nc_error]; the units are never empty
    ([get_units_ensures]). *)

From S2P Require Import Prelude PyFloat PyString PyArray Location.

Local Open Scope string_scope.

(** ** Data *)

Inductive ndarray :=
| Arr1 (v : list pyfloat)
| Arr3 (s : nat * nat * nat) (v : array3 pyfloat)
| Arr4 (s : nat * nat * nat * nat) (v : array4 pyfloat).

(** The nested lists have the extents the value carries. *)
Definition wf_array (a : ndarray) : Prop :=
  match a with
  | Arr1 _ => True
  | Arr3 s v => shape v s
  | Arr4 s v => shape v s
  end.

Record dataset := mkDataset {
  attrs : gmap string string;
  variables : list (string * ndarray);
}.

(** [hasattr(file, a)] *)
Definition hasattr (file : dataset) (a : string) : bool :=
  bool_decide (is_Some (attrs file !! a)).

(** [file.a] *)
Definition getattr (file : dataset) (a : string) : res string :=
  result_of_option (Raised AttributeError) (attrs file !! a).

Fixpoint assoc (name : string) (l : list (string * ndarray)) : option ndarray :=
  match l with
  | [] => None
  | (n, v) :: l => if decide (n = name) then Some v else assoc name l
  end.

(** [file.variables[name]] *)
Definition variables_get (file : dataset) (name : string) : res ndarray :=
  result_of_option (Raised KeyError) (assoc name (variables file)).

(** A value of rank 1, as the list of its elements. *)
Definition as1 (a : ndarray) : res (list pyfloat) :=
  match a with
  | Arr1 v => Ok v
  | _ => Err (Unmodelled "a coordinate variable of rank other than 1")
  end.

(** A value of rank 3, with its extents. *)
Definition as3 (a : ndarray) : res ((nat * nat * nat) * array3 pyfloat) :=
  match a with
  | Arr3 s v => Ok (s, v)
  | _ => Err (Unmodelled "a score variable of rank other than 3")
  end.

(** ** Locations from four coordinate arrays *)

(** The loop of [_get_locations] (lines 160-163 and 307-310):
    [Location(id[i], lat[i], lon[i], elev[i])] for [i] below the number of
    latitudes. *)
Definition location_at (lat lon id elev : list pyfloat) (locations : list Location)
    (i : nat) : res (list Location) :=
  id_i ← list_index id i;
  lat_i ← list_index lat i;
  lon_i ← list_index lon i;
  elev_i ← list_index elev i;
  Ok (locations ++ [mkLocation id_i lat_i lon_i elev_i])%list.

Definition build_locations (lat lon id elev : list pyfloat) : res (list Location) :=
  foldlM (location_at lat lon id elev) [] (seq 0 (length lat)).

(** ** [verif.util.clean] *)

Section clean.
Context (sentinel : pyfloat → bool).

Definition clean_value (x : pyfloat) : pyfloat := if sentinel x then NaN else x.

(** [verif.util.clean(a)] *)
Definition util_clean (a : ndarray) : ndarray :=
  match a with
  | Arr1 v => Arr1 (clean_value <$> v)
  | Arr3 s v => Arr3 s (amap3 clean_value v)
  | Arr4 s v =>
      Arr4 s (fmap (M:=list) (fmap (M:=list) (fmap (M:=list)
                (fmap (M:=list) clean_value))) v)
  end.

(** [verif.util.clean(file.variables[name])] *)
Definition clean_variable (file : dataset) (name : string) : res ndarray :=
  util_clean <$> variables_get file name.

(** [_get_locations] (lines 155-164 and 304-313), for the names the
    decoder gives to the four coordinate variables. *)
Definition get_locations_from (file : dataset) (lat lon id elev : string) :
    res (list Location) :=
  lat ← clean_variable file lat;
  lon ← clean_variable file lon;
  id ← clean_variable file id;
  elev ← clean_variable file elev;
  lat ← as1 lat; lon ← as1 lon; id ← as1 id; elev ← as1 elev;
  build_locations lat lon id elev.

End clean.

(** The sentinel of the sample files. *)
Definition sample_sentinel (x : pyfloat) : bool := (x ==? of_Z (-999))%F.

(** ** Units *)

(** Lines 186-193 and 326-333: no attribute or an empty one is
    ["No units"], a percent sign is kept, anything else is put between
    dollar signs. *)
Definition get_units (file : dataset) : res string :=
  if hasattr file "Units" then
    Units ← getattr file "Units";
    if decide (Units = "") then Ok "No units"
    else if decide (Units = "%") then Ok "%"
    else Ok ("$" +:+ Units +:+ "$")
  else Ok "No units".

(** ** Facts *)

Section facts.
Implicit Types (lat lon id elev : list pyfloat) (file : dataset).

(** The locations of four arrays of one length, position by position. *)
Definition zip_locations lat lon id elev : list Location :=
  zip_with (λ '(i, la) '(lo, e), mkLocation i la lo e) (zip id lat) (zip lon elev).

Lemma zip_locations_lookup lat lon id elev k i la lo e :
  id !! k = Some i → lat !! k = Some la → lon !! k = Some lo → elev !! k = Some e →
  zip_locations lat lon id elev !! k = Some (mkLocation i la lo e).
Proof.
  intros Hi Hla Hlo He. unfold zip_locations. rewrite lookup_zip_with.
  rewrite (proj2 (lookup_zip_with_Some pair id lat k (i, la))) by eauto.
  simpl. by rewrite (proj2 (lookup_zip_with_Some pair lon elev k (lo, e))) by eauto.
Qed.

Lemma zip_locations_length lat lon id elev :
  length lon = length lat → length id = length lat → length elev = length lat →
  length (zip_locations lat lon id elev) = length lat.
Proof.
  intros. unfold zip_locations. rewrite length_zip_with, !length_zip. lia.
Qed.

Lemma location_at_Ok lat lon id elev acc k i la lo e :
  id !! k = Some i → lat !! k = Some la → lon !! k = Some lo → elev !! k = Some e →
  location_at lat lon id elev acc k = Ok (acc ++ [mkLocation i la lo e])%list.
Proof. intros Hi Hla Hlo He. unfold location_at, list_index. by rewrite Hi, Hla, Hlo, He. Qed.

Lemma build_locations_go lat lon id elev acc k :
  length lon = length lat → length id = length lat → length elev = length lat →
  (k ≤ length lat)%nat →
  foldlM (location_at lat lon id elev) acc (seq k (length lat - k))
  = Ok (acc ++ drop k (zip_locations lat lon id elev))%list.
Proof.
  intros Hlon Hid Helev. remember (length lat - k)%nat as n eqn:Hn.
  revert k acc Hn. induction n as [|n IH]; intros k acc Hn Hk.
  - simpl. rewrite drop_ge, app_nil_r; [done|]. rewrite zip_locations_length; lia.
  - cbn [seq foldlM].
    destruct (lookup_lt_is_Some_2 id k) as [i Hi]; [lia|].
    destruct (lookup_lt_is_Some_2 lat k) as [la Hla]; [lia|].
    destruct (lookup_lt_is_Some_2 lon k) as [lo Hlo]; [lia|].
    destruct (lookup_lt_is_Some_2 elev k) as [e He]; [lia|].
    rewrite (location_at_Ok _ _ _ _ _ _ _ _ _ _ Hi Hla Hlo He).
    cbn [mbind result_bind]. rewrite IH by lia.
    rewrite <-app_assoc. do 2 f_equal.
    by rewrite (drop_S _ _ _ (zip_locations_lookup _ _ _ _ _ _ _ _ _ Hi Hla Hlo He)).
Qed.

Lemma build_locations_zip lat lon id elev :
  length lon = length lat → length id = length lat → length elev = length lat →
  build_locations lat lon id elev = Ok (zip_locations lat lon id elev).
Proof.
  intros. unfold build_locations.
  rewrite <-(Nat.sub_0_r (length lat)). by rewrite build_locations_go by lia.
Qed.

(** The errors of reading a NetCDF file: a missing variable, a missing
    attribute, a coordinate array shorter than the latitudes, and what the
    model leaves out. *)
Definition nc_error (e : error) : Prop :=
  e = Raised KeyError ∨ e = Raised AttributeError ∨ e = Raised IndexError
  ∨ ∃ what, e = Unmodelled what.

Lemma variables_get_ensures file name : ensures (λ _, True) nc_error (variables_get file name).
Proof. unfold variables_get. destruct (assoc _ _); simpl; [done|by left]. Qed.

Lemma getattr_ensures file a : ensures (λ _, True) nc_error (getattr file a).
Proof. unfold getattr. destruct (_ !! _); simpl; [done|right; by left]. Qed.

Lemma clean_variable_ensures sentinel file name :
  ensures (λ _, True) nc_error (clean_variable sentinel file name).
Proof.
  unfold clean_variable. pose proof (variables_get_ensures file name).
  by destruct (variables_get file name).
Qed.

Lemma as1_ensures a : ensures (λ _, True) nc_error (as1 a).
Proof. destruct a; simpl; [done|right; right; right; by eexists..]. Qed.

Lemma build_locations_ensures lat lon id elev :
  ensures (λ _, True) nc_error (build_locations lat lon id elev).
Proof.
  apply ensures_foldlM; [|done]. intros acc k _ _. unfold location_at, list_index.
  repeat (eapply (ensures_bind (λ _, True));
          [apply ensures_of_option; [done|right; right; by left]|intros ? _]).
  done.
Qed.

Lemma get_units_ensures file : ensures (λ u, u ≠ "") nc_error (get_units file).
Proof.
  unfold get_units, hasattr, getattr. case_bool_decide as H; [|done].
  destruct H as [u ->]. simpl. by repeat case_decide.
Qed.

Lemma get_locations_from_ensures sentinel file (nlat nlon nid nelev : string) :
  ensures (λ _, True) nc_error (get_locations_from sentinel file nlat nlon nid nelev).
Proof.
  unfold get_locations_from.
  do 4 (eapply (ensures_bind (λ _, True)); [apply clean_variable_ensures|intros ? _]).
  do 4 (eapply (ensures_bind (λ _, True)); [apply as1_ensures|intros ? _]).
  apply build_locations_ensures.
Qed.

(** On coordinate variables of rank 1 and of one length, the locations are
    the cleaned coordinates, position by position. *)
Lemma get_locations_from_zip sentinel file nlat nlon nid nelev lat lon id elev :
  variables_get file nlat = Ok (Arr1 lat) → variables_get file nlon = Ok (Arr1 lon) →
  variables_get file nid = Ok (Arr1 id) → variables_get file nelev = Ok (Arr1 elev) →
  length lon = length lat → length id = length lat → length elev = length lat →
  get_locations_from sentinel file nlat nlon nid nelev
  = Ok (zip_locations (clean_value sentinel <$> lat) (clean_value sentinel <$> lon)
          (clean_value sentinel <$> id) (clean_value sentinel <$> elev)).
Proof.
  intros Hlat Hlon Hid Helev ???. unfold get_locations_from, clean_variable.
  rewrite Hlat, Hlon, Hid, Helev. simpl.
  apply build_locations_zip; by rewrite !length_fmap.
Qed.

End facts.
