(* ===== verification/NetcdfCf.v ===== *)
(** * Structured decoder A: the self-describing format

    [NetcdfCf] (lines 254-334 of [input.py]) reads everything from variables
    and attributes of fixed names:
    - [NetcdfCf_init] ([__init__], lines 258-267): the coordinates, the
      locations and the variable, read when the object is built;
    - [NetcdfCf_is_valid] ([is_valid], lines 269-279), as a function of what
      opening the file gave;
    - [cf_obs], [cf_deterministic], [cf_ensemble], [cf_threshold_scores],
      [cf_quantile_scores] (the properties of lines 281-299), read on demand;
    - [cf_get_locations] (lines 304-313), [cf_get_variable] (lines 324-334).
    The external [verif.util.clean] is a parameter through [sentinel].

    Theorems: on a file that has the coordinate variables, of rank 1 and of
    one length, and the attribute [standard_name], the constructor succeeds
    and the locations are the cleaned coordinates position by position
    ([NetcdfCf_init_reads]); it fails only with [KeyError] (a variable is
    missing), [AttributeError] (the attribute is missing), [IndexError] (a
    coordinate array is shorter than the latitudes) or on a coordinate of
    another rank ([NetcdfCf_init_ensures]); [is_valid] accepts exactly the
    files that open and carry the convention ([NetcdfCf_is_valid_iff]). *)

From S2P Require Import Prelude PyFloat PyString PyArray Location Dataset.

Local Open Scope string_scope.

Record NetcdfCf := mkNetcdfCf {
  cf_fullname : string;
  cf_file : dataset;
  cf_dates : ndarray;
  cf_offsets : ndarray;
  cf_locations : list Location;
  cf_thresholds : ndarray;
  cf_quantiles : ndarray;
  cf_variable : PyVariable;
}.

(** [NetcdfCf.is_valid] (lines 269-279), given the outcome of
    [netcdf(filename, 'r')]. *)
Definition NetcdfCf_is_valid (opened : res dataset) : bool :=
  match opened with
  | Err _ => false
  | Ok file =>
      hasattr file "Conventions"
      && bool_decide (getattr file "Conventions" = Ok "verif_1.0.0")
  end.

(** [NetcdfCf._get_variable] (lines 324-334) *)
Definition cf_get_variable (file : dataset) : res PyVariable :=
  name ← getattr file "standard_name";
  units ← get_units file;
  Ok (mkVariable name units).

Section decoder.
Context (sentinel : pyfloat → bool).

(** [NetcdfCf._get_locations] (lines 304-313) *)
Definition cf_get_locations (file : dataset) : res (list Location) :=
  get_locations_from sentinel file "lat" "lon" "id" "elev".

(** [NetcdfCf._get_dates], [_get_offsets], [_get_thresholds],
    [_get_quantiles] (lines 301-302 and 315-322) *)
Definition cf_get_dates (file : dataset) : res ndarray :=
  clean_variable sentinel file "date".
Definition cf_get_offsets (file : dataset) : res ndarray :=
  clean_variable sentinel file "offset".
Definition cf_get_thresholds (file : dataset) : res ndarray :=
  clean_variable sentinel file "thresholds".
Definition cf_get_quantiles (file : dataset) : res ndarray :=
  clean_variable sentinel file "quantiles".

(** [NetcdfCf.__init__] (lines 258-267), on the opened file. *)
Definition NetcdfCf_init (filename : string) (file : dataset) : res NetcdfCf :=
  dates ← cf_get_dates file;
  offsets ← cf_get_offsets file;
  locations ← cf_get_locations file;
  thresholds ← cf_get_thresholds file;
  quantiles ← cf_get_quantiles file;
  variable ← cf_get_variable file;
  Ok (mkNetcdfCf filename file dates offsets locations thresholds quantiles variable).

(** The properties (lines 281-299) *)
Definition cf_obs (self : NetcdfCf) : res ndarray :=
  clean_variable sentinel (cf_file self) "obs".
Definition cf_deterministic (self : NetcdfCf) : res ndarray :=
  clean_variable sentinel (cf_file self) "fcst".
Definition cf_ensemble (self : NetcdfCf) : res ndarray :=
  clean_variable sentinel (cf_file self) "ens".
Definition cf_threshold_scores (self : NetcdfCf) : res ndarray :=
  clean_variable sentinel (cf_file self) "cdf".
Definition cf_quantile_scores (self : NetcdfCf) : res ndarray :=
  clean_variable sentinel (cf_file self) "x".

End decoder.

(** ** Facts *)

Lemma NetcdfCf_is_valid_iff (opened : res dataset) :
  NetcdfCf_is_valid opened = true
  ↔ ∃ file, opened = Ok file ∧ attrs file !! "Conventions" = Some "verif_1.0.0".
Proof.
  destruct opened as [file|e]; simpl; [|naive_solver].
  unfold hasattr, getattr. rewrite andb_true_iff, !bool_decide_eq_true.
  destruct (attrs file !! "Conventions") as [c|] eqn:Hc; simpl.
  - split; [intros [_ [= ->]]; eauto|intros (? & [= <-] & Hc'); rewrite Hc in Hc'].
    split; [by eexists|congruence].
  - split; [by intros [[] ?]|intros (? & [= <-] & Hc'); congruence].
Qed.

Lemma cf_get_variable_ensures (file : dataset) :
  ensures (λ v, v_units v ≠ "") nc_error (cf_get_variable file).
Proof.
  unfold cf_get_variable.
  eapply (ensures_bind (λ _, True)); [apply getattr_ensures|intros name _].
  eapply ensures_bind; [apply get_units_ensures|by intros units ?].
Qed.

(** [NetcdfCf.__init__], lines 258-267: the constructor either builds an
    object on the file it was given, with units that are not empty, or fails
    with [KeyError] (a variable is missing), [AttributeError] (the attribute
    [standard_name] is missing), [IndexError] (a coordinate array is shorter
    than the latitudes) or on a coordinate variable of a rank the model does
    not cover; it never reports an error through [verif.util.error]. *)
Lemma NetcdfCf_init_ensures (sentinel : pyfloat → bool) (filename : string)
    (file : dataset) :
  ensures (λ self, cf_fullname self = filename ∧ cf_file self = file
                   ∧ v_units (cf_variable self) ≠ "")
    nc_error (NetcdfCf_init sentinel filename file).
Proof.
  unfold NetcdfCf_init.
  do 2 (eapply (ensures_bind (λ _, True)); [apply clean_variable_ensures|intros ? _]).
  eapply (ensures_bind (λ _, True)); [apply get_locations_from_ensures|intros ? _].
  do 2 (eapply (ensures_bind (λ _, True)); [apply clean_variable_ensures|intros ? _]).
  eapply ensures_bind; [apply cf_get_variable_ensures|by intros v ?].
Qed.

(** C25: [NetcdfCf.__init__], lines 258-267 and 301-334: on a file that has
    the variables [date], [offset], [thresholds] and [quantiles], the
    coordinate variables [lat], [lon], [id] and [elev] of rank 1 and of one
    length, and the attribute [standard_name], the constructor succeeds; the
    arrays are the cleaned variables and the locations are the cleaned
    coordinates taken position by position. *)
Theorem NetcdfCf_init_reads (sentinel : pyfloat → bool) (filename : string)
    (file : dataset) (dates offsets thresholds quantiles : ndarray)
    (lat lon id elev : list pyfloat) (name units : string) :
  variables_get file "date" = Ok dates → variables_get file "offset" = Ok offsets →
  variables_get file "thresholds" = Ok thresholds →
  variables_get file "quantiles" = Ok quantiles →
  variables_get file "lat" = Ok (Arr1 lat) → variables_get file "lon" = Ok (Arr1 lon) →
  variables_get file "id" = Ok (Arr1 id) → variables_get file "elev" = Ok (Arr1 elev) →
  length lon = length lat → length id = length lat → length elev = length lat →
  attrs file !! "standard_name" = Some name → get_units file = Ok units →
  NetcdfCf_init sentinel filename file
  = Ok (mkNetcdfCf filename file (util_clean sentinel dates)
          (util_clean sentinel offsets)
          (zip_locations (clean_value sentinel <$> lat) (clean_value sentinel <$> lon)
             (clean_value sentinel <$> id) (clean_value sentinel <$> elev))
          (util_clean sentinel thresholds) (util_clean sentinel quantiles)
          (mkVariable name units)).
Proof.
  intros Hd Ho Ht Hq Hlat Hlon Hid Helev ??? Hn Hu.
  unfold NetcdfCf_init, cf_get_dates, cf_get_offsets, cf_get_thresholds,
    cf_get_quantiles, cf_get_locations, cf_get_variable, clean_variable, getattr.
  rewrite (get_locations_from_zip sentinel file _ _ _ _ _ _ _ _ Hlat Hlon Hid Helev)
    by done.
  by rewrite Hd, Ho, Ht, Hq, Hn, Hu.
Qed.

(** ** A sample file *)

Definition sample_cf : dataset :=
  mkDataset
    {[ "Conventions" := "verif_1.0.0"; "standard_name" := "Temperature";
       "Units" := "K" ]}
    [("date", Arr1 [of_Z 20120101]); ("offset", Arr1 [of_Z 0; of_Z 6]);
     ("lat", Arr1 [of_Z 49; of_Z 50]); ("lon", Arr1 [of_Z (-123); of_Z (-122)]);
     ("id", Arr1 [of_Z 214; of_Z 180]); ("elev", Arr1 [of_Z 92; of_Z (-999)]);
     ("thresholds", Arr1 [of_Z 5]); ("quantiles", Arr1 []);
     ("obs", Arr3 (1, 2, 2) (full (1, 2, 2) (of_Z 3)))].

Lemma NetcdfCf_init_reads_witness :
  cf_locations <$> NetcdfCf_init sample_sentinel "sample.nc" sample_cf
  = Ok [mkLocation (of_Z 214) (of_Z 49) (of_Z (-123)) (of_Z 92);
        mkLocation (of_Z 180) (of_Z 50) (of_Z (-122)) NaN].
Proof.
  by rewrite (NetcdfCf_init_reads sample_sentinel "sample.nc" sample_cf
    (Arr1 [of_Z 20120101]) (Arr1 [of_Z 0; of_Z 6]) (Arr1 [of_Z 5]) (Arr1 [])
    [of_Z 49; of_Z 50] [of_Z (-123); of_Z (-122)] [of_Z 214; of_Z 180]
    [of_Z 92; of_Z (-999)] "Temperature" "$K$").
Defined.
