(* ===== verification/Comps.v ===== *)
(** * Structured decoder B: the legacy format

    [Comps] (lines 77-198 of [input.py]) reads the coordinates from
    variables of fixed names and discovers the thresholds and the quantiles
    from the names of the other variables, through the naming codec:
    - [Comps_init] ([__init__], lines 86-97);
    - [Comps_is_valid] ([is_valid], lines 99-111), given the outcome of
      opening the file: what it answers and whether it closed the file;
    - [co_get_thresholds], [co_get_quantiles] (lines 166-182): the decodable
      names, in the order of the file;
    - [co_threshold_scores], [co_quantile_scores] (lines 121-153): one
      variable per threshold or quantile, found by encoding the value again,
      stacked along a new trailing axis ([assign_last] is
      [values[:, :, :, t] = temp]);
    - [co_get_locations] (lines 155-164), [co_get_variable] (lines 184-194),
      [co_get_score] (lines 196-198).

    Theorems: the stacked array holds at [(d, o, l, t)] the cleaned value
    of the variable of the [t]-th threshold at [(d, o, l)], so the trailing
    axis follows the thresholds of the input
    ([co_threshold_scores_names], and [co_quantile_scores_stacked] for the
    quantiles); a threshold whose name is not a variable of the file makes
    the stacking raise [KeyError] ([co_threshold_scores_KeyError]), which
    happens for a variable such as [pm05], decoded as -5 and encoded as
    [pm5]; the thresholds are the decodable names in the order of the file
    ([co_get_thresholds_order]); [is_valid] accepts every file that opens
    unless it has [Convensions] and lacks [Convension]
    ([Comps_is_valid_true]), and in that case returns with the file open
    ([Comps_is_valid_leaves_open]); the quantiles of the input lie between
    0 and 1 ([co_get_quantiles_range]); the constructor fails only with the
    errors of [comps_error] ([Comps_init_ensures]). *)

From S2P Require Import Prelude PyFloat PyString PyFormat PyArray Location Dataset Codec.

Local Open Scope string_scope.

Record Comps := mkComps {
  co_fullname : string;
  co_file : dataset;
  co_dates : ndarray;
  co_offsets : ndarray;
  co_thresholds : list pyfloat;
  co_quantiles : list pyfloat;
  co_locations : list Location;
  co_variable : PyVariable;
}.

(** Line 81 *)
Definition dimensionNames : list string :=
  ["Date"; "Offset"; "Location"; "Lat"; "Lon"; "Elev"].

(** [Comps.is_valid] (lines 99-111), given the outcome of
    [netcdf(filename, 'r')]: the answer, and whether the file is closed when
    the method returns.  [file.Convension] is evaluated only when the file
    has the attribute [Convensions]; when it raises, the handler answers
    [False] and [file.close()] has not run. *)
Definition Comps_is_valid (opened : res dataset) : bool * bool :=
  match opened with
  | Err _ => (false, true)
  | Ok file =>
      if hasattr file "Convensions" then
        match getattr file "Convension" with
        | Ok _ => (true, true)
        | Err _ => (false, false)
        end
      else (true, true)
  end.

(** [Comps._get_thresholds] (lines 166-173) *)
Definition co_get_thresholds (file : dataset) : res (list pyfloat) :=
  foldlM (λ thresholds '(var, _),
    if decide (var ∉ dimensionNames) then
      threshold ← comps_to_verif_threshold var;
      Ok (match threshold with
          | Some threshold => thresholds ++ [threshold]
          | None => thresholds
          end)%list
    else Ok thresholds) [] (variables file).

(** [Comps._get_quantiles] (lines 175-182) *)
Definition co_get_quantiles (file : dataset) : res (list pyfloat) :=
  foldlM (λ quantiles '(var, _),
    if decide (var ∉ dimensionNames) then
      quantile ← comps_to_verif_quantile var;
      Ok (match quantile with
          | Some quantile => quantiles ++ [quantile]
          | None => quantiles
          end)%list
    else Ok quantiles) [] (variables file).

(** [Comps._get_variable] (lines 184-194) *)
Definition co_get_variable (file : dataset) : res PyVariable :=
  name ← getattr file "Variable";
  units ← get_units file;
  Ok (mkVariable name units).

(** [values[:, :, :, t] = temp], for [values] of extents [(s, n)] and
    [temp] of extents [s]: every cell of the slice is stored. *)
Definition assign_last (s : nat * nat * nat) (n t : nat) (temp : array3 pyfloat)
    (values : array4 pyfloat) : res (array4 pyfloat) :=
  fill_loop (λ '(i, t'), if decide (t' = t) then aget temp i else None)
    (PyArray.indices (array4 pyfloat) (s, n)) values.

Section decoder.
Context (sentinel : pyfloat → bool).

(** [Comps._get_locations] (lines 155-164) *)
Definition co_get_locations (file : dataset) : res (list Location) :=
  get_locations_from sentinel file "Lat" "Lon" "Location" "Elev".

(** [Comps.__init__] (lines 86-97), on the opened file. *)
Definition Comps_init (filename : string) (file : dataset) : res Comps :=
  dates ← clean_variable sentinel file "Date";
  offsets ← clean_variable sentinel file "Offset";
  thresholds ← co_get_thresholds file;
  quantiles ← co_get_quantiles file;
  locations ← co_get_locations file;
  variable ← co_get_variable file;
  Ok (mkComps filename file dates offsets thresholds quantiles locations variable).

(** [Comps.obs], [Comps.deterministic] (lines 113-119) *)
Definition co_obs (self : Comps) : res ndarray :=
  clean_variable sentinel (co_file self) "obs".
Definition co_deterministic (self : Comps) : res ndarray :=
  clean_variable sentinel (co_file self) "fcst".

(** [Comps._get_score] (lines 196-198) *)
Definition co_get_score (self : Comps) (metric : string) : res ndarray :=
  clean_variable sentinel (co_file self) metric.

(** The body of the stacking loops (lines 127-134, 144-151): the variable
    of the value, a fresh array of zeros on the first pass, the slice. *)
Definition stack_step (self : Comps) (n : nat) (name : string)
    (values : option ((nat * nat * nat) * array4 pyfloat)) (t : nat) :
    res (option ((nat * nat * nat) * array4 pyfloat)) :=
  temp ← co_get_score self name;
  '(s, temp) ← as3 temp;
  let '(s0, values) :=
    match values with
    | Some v => v
    | None => (s, full (s, n) (of_Z 0))
    end in
  if decide (s = s0) then
    values ← assign_last s0 n t temp values; Ok (Some (s0, values))
  else Err (Unmodelled "stacking score variables of different extents").

(** [Comps.threshold_scores] (lines 121-136) *)
Definition co_threshold_scores (self : Comps) :
    res (option ((nat * nat * nat) * array4 pyfloat)) :=
  let thresholds := co_thresholds self in
  let Nt := length thresholds in
  foldlM (λ values t,
    threshold ← list_index thresholds t;
    p_var ← verif_to_comps_threshold threshold;
    stack_step self Nt p_var values t) None (seq 0 Nt).

(** [Comps.quantile_scores] (lines 138-153); a quantile outside [0, 1] has
    no name, and the lookup of [None] among the variables raises
    [KeyError]. *)
Definition co_quantile_scores (self : Comps) :
    res (option ((nat * nat * nat) * array4 pyfloat)) :=
  let quantiles := co_quantiles self in
  let Nq := length quantiles in
  foldlM (λ values q,
    quantile ← list_index quantiles q;
    q_var ← verif_to_comps_quantile quantile;
    match q_var with
    | Some q_var => stack_step self Nq q_var values q
    | None => Err (Raised KeyError)
    end) None (seq 0 Nq).

End decoder.

(** ** The slice assignment *)

Lemma assign_last_spec (s : nat * nat * nat) (n t : nat) (temp : array3 pyfloat)
    (values : array4 pyfloat) :
  shape values (s, n) → shape temp s →
  ∃ values', assign_last s n t temp values = Ok values' ∧ shape values' (s, n)
    ∧ ∀ i t', inb (array4 pyfloat) (s, n) (i, t') →
        aget values' (i, t') = if decide (t' = t) then aget temp i else aget values (i, t').
Proof.
  intros Hv Ht. unfold assign_last.
  destruct (fill_loop_spec (T:=array4 pyfloat)
              (λ '(i, t'), if decide (t' = t) then aget temp i else None)
              (PyArray.indices (array4 pyfloat) (s, n)) values (s, n))
    as (values' & Hfill & Hs' & Hget);
    [exact Hv|apply Forall_forall; intros j; apply elem_of_indices|].
  rewrite Hfill.
  exists values'. split_and!; [done..|]. intros i t' Hin. rewrite Hget.
  destruct (proj2 (shape_inb values (s, n) (i, t') Hv) Hin) as [a Ha]. rewrite Ha.
  cbn [fmap option_fmap option_map]. rewrite filled_in by by apply elem_of_indices.
  case_decide; [|done]. destruct Hin as [Hi _].
  by destruct (proj2 (shape_inb temp s i Ht) Hi) as [x ->].
Qed.

(** ** Stacking *)

Section stacking.
Context (sentinel : pyfloat → bool) (self : Comps) (s : nat * nat * nat) (n : nat).
Context (names : nat → string) (vs : nat → array3 pyfloat).

(** After [k] passes: nothing yet, or an array whose first [k] slices hold
    the cleaned variables and whose other slices hold zeros. *)
Definition stacked (k : nat) (values : option ((nat * nat * nat) * array4 pyfloat)) :
    Prop :=
  match k with
  | O => values = None
  | S _ =>
      ∃ v, values = Some (s, v) ∧ shape v (s, n)
        ∧ ∀ i t, inb (array4 pyfloat) (s, n) (i, t) →
            aget v (i, t) = if decide (t < k)%nat
                            then clean_value sentinel <$> aget (vs t) i
                            else Some (of_Z 0)
  end.

Lemma stack_step_spec k values :
  variables_get (co_file self) (names k) = Ok (Arr3 s (vs k)) → shape (vs k) s →
  stacked k values →
  ∃ values', stack_step sentinel self n (names k) values k = Ok values'
             ∧ stacked (S k) values'.
Proof.
  intros Hvar Hshape Hk. unfold stack_step, co_get_score, clean_variable.
  rewrite Hvar. cbn [fmap result_fmap util_clean as3 mbind result_bind].
  assert (∃ v0, match values with Some v => v | None => (s, full (s, n) (of_Z 0)) end
                = (s, v0) ∧ shape v0 (s, n)
                ∧ ∀ i t, inb (array4 pyfloat) (s, n) (i, t) →
                    aget v0 (i, t) = if decide (t < k)%nat
                                     then clean_value sentinel <$> aget (vs t) i
                                     else Some (of_Z 0)) as (v0 & -> & Hs0 & Hget0).
  { destruct k as [|k]; simpl in Hk.
    - subst values. eexists. split_and!; [done|apply (shape_full (s, n))|].
      intros i t Hin. rewrite decide_False by lia. by apply aget_full_inb.
    - destruct Hk as (v & -> & ? & ?). by exists v. }
  rewrite decide_True by done.
  destruct (assign_last_spec s n k (amap3 (clean_value sentinel) (vs k)) v0)
    as (v1 & -> & Hs1 & Hget1); [done|by apply shape_amap3|].
  eexists. split; [done|]. exists v1. split_and!; [done..|].
  intros i t Hin. rewrite Hget1, Hget0 by done. rewrite aget_amap3.
  repeat case_decide; try done; try lia. by subst.
Qed.

End stacking.

Section stack_loop.
Context (sentinel : pyfloat → bool) (self : Comps) (s : nat * nat * nat) (n m : nat).
Context (names : nat → string) (vs : nat → array3 pyfloat).
Context (f : option ((nat * nat * nat) * array4 pyfloat) → nat →
             res (option ((nat * nat * nat) * array4 pyfloat))).
Hypothesis f_step : ∀ k values,
  (k < m)%nat → f values k = stack_step sentinel self n (names k) values k.
Hypothesis vars : ∀ k,
  (k < m)%nat → variables_get (co_file self) (names k) = Ok (Arr3 s (vs k)) ∧ shape (vs k) s.

(** The first [m] stacking passes fill the first [m] slices. *)
Lemma stack_loop :
  ∃ values, foldlM f None (seq 0 m) = Ok values ∧ stacked sentinel s n vs m values.
Proof.
  apply (foldlM_seq_invariant (stacked sentinel s n vs)); [|done].
  intros k values Hk HP. rewrite f_step by done.
  destruct (vars k Hk). by apply stack_step_spec.
Qed.

Lemma stack_loop_cells :
  m = n → (0 < n)%nat →
  ∃ values, foldlM f None (seq 0 m) = Ok (Some (s, values)) ∧ shape values (s, n)
    ∧ ∀ i t, inb (array4 pyfloat) (s, n) (i, t) →
        aget values (i, t) = clean_value sentinel <$> aget (vs t) i.
Proof.
  intros Hm Hn. destruct stack_loop as (values & -> & HP).
  destruct m as [|m']; [lia|]. destruct HP as (v & -> & Hs & Hget).
  exists v. split_and!; [done..|]. intros i t Hin. rewrite Hget by done.
  destruct Hin as [_ Ht]. rewrite decide_True; [done|lia].
Qed.

(** A pass whose variable is missing ends the loop with [KeyError]. *)
Lemma stack_loop_KeyError :
  (m < n)%nat →
  (∀ values, f values m = stack_step sentinel self n (names m) values m) →
  variables_get (co_file self) (names m) = Err (Raised KeyError) →
  foldlM f None (seq 0 n) = Err (Raised KeyError).
Proof.
  intros Hm Hf Hvar.
  replace (seq 0 n) with (seq 0 m ++ seq m (S (n - S m)))%list
    by (rewrite <-seq_app; f_equal; lia).
  rewrite foldlM_app. destruct stack_loop as (values & -> & _).
  cbn [mbind result_bind seq foldlM Nat.add]. rewrite Hf.
  unfold stack_step, co_get_score, clean_variable. by rewrite Hvar.
Qed.

End stack_loop.

(** [Comps.threshold_scores], lines 121-136: when every threshold of the
    input encodes to the name of a variable of rank 3 and all these variables
    have the same extents, the result has these extents and one trailing
    position per threshold, and the cell [(d, o, l, t)] holds the cleaned
    value at [(d, o, l)] of the variable of the [t]-th threshold. *)
Lemma co_threshold_scores_names (sentinel : pyfloat → bool) (self : Comps)
    (s : nat * nat * nat) (names : nat → string) (vs : nat → array3 pyfloat) :
  co_thresholds self ≠ [] →
  (∀ t th, co_thresholds self !! t = Some th →
     verif_to_comps_threshold th = Ok (names t)
     ∧ variables_get (co_file self) (names t) = Ok (Arr3 s (vs t)) ∧ shape (vs t) s) →
  ∃ values,
    co_threshold_scores sentinel self = Ok (Some (s, values))
    ∧ shape values (s, length (co_thresholds self))
    ∧ ∀ i t, inb (array4 pyfloat) (s, length (co_thresholds self)) (i, t) →
        aget values (i, t) = clean_value sentinel <$> aget (vs t) i.
Proof.
  intros Hne H. unfold co_threshold_scores.
  apply (stack_loop_cells sentinel self s _ _ names vs); [| |done|].
  - intros k values [th Hth]%lookup_lt_is_Some. unfold list_index. rewrite Hth.
    cbn [result_of_option mbind result_bind].
    by destruct (H k th Hth) as (-> & _).
  - intros k [th Hth]%lookup_lt_is_Some. by destruct (H k th Hth) as (_ & ? & ?).
  - destruct (co_thresholds self); [done|simpl; lia].
Qed.

(** [Comps.quantile_scores], lines 138-153: the same for the quantiles of
    the input. *)
Theorem co_quantile_scores_stacked (sentinel : pyfloat → bool) (self : Comps)
    (s : nat * nat * nat) (names : nat → string) (vs : nat → array3 pyfloat) :
  co_quantiles self ≠ [] →
  (∀ q qu, co_quantiles self !! q = Some qu →
     verif_to_comps_quantile qu = Ok (Some (names q))
     ∧ variables_get (co_file self) (names q) = Ok (Arr3 s (vs q)) ∧ shape (vs q) s) →
  ∃ values,
    co_quantile_scores sentinel self = Ok (Some (s, values))
    ∧ shape values (s, length (co_quantiles self))
    ∧ ∀ i q, inb (array4 pyfloat) (s, length (co_quantiles self)) (i, q) →
        aget values (i, q) = clean_value sentinel <$> aget (vs q) i.
Proof.
  intros Hne H. unfold co_quantile_scores.
  apply (stack_loop_cells sentinel self s _ _ names vs); [| |done|].
  - intros k values [qu Hqu]%lookup_lt_is_Some. unfold list_index. rewrite Hqu.
    cbn [result_of_option mbind result_bind].
    by destruct (H k qu Hqu) as (-> & _).
  - intros k [qu Hqu]%lookup_lt_is_Some. by destruct (H k qu Hqu) as (_ & ? & ?).
  - destruct (co_quantiles self); [done|simpl; lia].
Qed.

(** C21: [Comps.threshold_scores], lines 127-130: when the thresholds before
    position [t] encode to names of variables of the file and the threshold
    at [t] encodes to a name that is not a variable of the file, the property
    raises [KeyError]. *)
Theorem co_threshold_scores_KeyError (sentinel : pyfloat → bool) (self : Comps)
    (s : nat * nat * nat) (names : nat → string) (vs : nat → array3 pyfloat)
    (t : nat) :
  (∀ k th, co_thresholds self !! k = Some th → (k ≤ t)%nat →
     verif_to_comps_threshold th = Ok (names k)) →
  (∀ k, (k < t)%nat →
     variables_get (co_file self) (names k) = Ok (Arr3 s (vs k)) ∧ shape (vs k) s) →
  (t < length (co_thresholds self))%nat →
  variables_get (co_file self) (names t) = Err (Raised KeyError) →
  co_threshold_scores sentinel self = Err (Raised KeyError).
Proof.
  intros Hnames Hvars Ht Hvar. unfold co_threshold_scores.
  assert (∀ k values, (k ≤ t)%nat →
    (threshold ← list_index (co_thresholds self) k;
     p_var ← verif_to_comps_threshold threshold;
     stack_step sentinel self (length (co_thresholds self)) p_var values k)
    = stack_step sentinel self (length (co_thresholds self)) (names k) values k)
    as Hstep.
  { intros k values Hk.
    destruct (lookup_lt_is_Some_2 (co_thresholds self) k) as [th Hth]; [lia|].
    unfold list_index. rewrite Hth. cbn [result_of_option mbind result_bind].
    by rewrite (Hnames k th Hth Hk). }
  apply (stack_loop_KeyError sentinel self s _ t names vs); [| |done| |done].
  - intros. apply Hstep. lia.
  - done.
  - intros. by apply Hstep.
Qed.

(** ** Discovery *)

(** What [_get_thresholds] keeps of a variable. *)
Definition kept (d : string → option pyfloat) (entry : string * ndarray) :
    option pyfloat :=
  if decide (entry.1 ∈ dimensionNames) then None else d entry.1.

(** The loop of the two discovery methods, for the decoder of either. *)
Definition discover (decode : string → res (option pyfloat)) (file : dataset) :
    res (list pyfloat) :=
  foldlM (λ found '(var, _),
    if decide (var ∉ dimensionNames) then
      value ← decode var;
      Ok (match value with Some value => found ++ [value] | None => found end)%list
    else Ok found) [] (variables file).

(** Lines 166-173 and 175-182: the values of the input are those decoded
    from the names of the variables that are not coordinates, in the order of
    the file, repetitions included. *)
Lemma discover_order decode (file : dataset) (d : string → option pyfloat) :
  (∀ var v, (var, v) ∈ variables file → var ∉ dimensionNames →
     decode var = Ok (d var)) →
  discover decode file = Ok (omap (kept d) (variables file)).
Proof.
  intros Hd. unfold discover. apply (foldlM_omap _ (kept d) _ []).
  intros acc [var v] Hin. unfold kept. cbn [fst].
  destruct (decide (var ∈ dimensionNames)) as [Hdim|Hdim].
  - rewrite decide_False by naive_solver. simpl. by rewrite List.app_nil_r.
  - rewrite decide_True by done. rewrite (Hd var v Hin Hdim).
    destruct (d var); simpl; [done|by rewrite List.app_nil_r].
Qed.

Lemma co_get_thresholds_order (file : dataset) (d : string → option pyfloat) :
  (∀ var v, (var, v) ∈ variables file → var ∉ dimensionNames →
     comps_to_verif_threshold var = Ok (d var)) →
  co_get_thresholds file = Ok (omap (kept d) (variables file)).
Proof. apply (discover_order comps_to_verif_threshold). Qed.

Lemma co_get_quantiles_order (file : dataset) (d : string → option pyfloat) :
  (∀ var v, (var, v) ∈ variables file → var ∉ dimensionNames →
     comps_to_verif_quantile var = Ok (d var)) →
  co_get_quantiles file = Ok (omap (kept d) (variables file)).
Proof. apply (discover_order comps_to_verif_quantile). Qed.

(** ** The range of the quantiles *)

(** [0 <= q <= 1]; false on nan. *)
Definition in_unit (q : pyfloat) : bool := (q >=? of_Z 0)%F && (q <=? of_Z 1)%F.

Lemma comps_to_verif_quantile_unit var q :
  comps_to_verif_quantile var = Ok (Some q) → in_unit q = true.
Proof.
  unfold comps_to_verif_quantile. intros H. inv_res.
  repeat match goal with H : context [if ?b then _ else _] |- _ =>
    destruct b eqn:?; inv_res; simplify_eq end.
  done.
Qed.

Lemma verif_to_comps_quantile_unit q :
  in_unit q = true → verif_to_comps_quantile q ≠ Ok None.
Proof.
  unfold in_unit, verif_to_comps_quantile. intros [H0 H1]%andb_true_iff.
  destruct q as [|a]; [done|].
  assert ((Fin a <? of_Z 0)%F = false ∧ (Fin a >? of_Z 1)%F = false) as [-> ->].
  { apply fle_Fin in H0, H1. split; [apply bool_decide_eq_false|apply fgt_false_Fin];
      [intros ?; qc_lra|done]. }
  cbn [orb]. by intros (x & _ & [=])%bind_Ok.
Qed.

(** C32: [Comps._get_quantiles] with [_comps_to_verif_quantile], lines
    175-182 and 221-223: every quantile of a legacy input lies between 0 and
    1 (and is not nan), so [quantile_scores] finds a name for each of them:
    the encoder never answers [None] there. *)
Theorem co_get_quantiles_range (file : dataset) (quantiles : list pyfloat) :
  co_get_quantiles file = Ok quantiles →
  Forall (λ q, in_unit q = true ∧ verif_to_comps_quantile q ≠ Ok None) quantiles.
Proof.
  intros H. eapply Forall_impl; [|intros q Hq; split; [exact Hq|]; by
    apply verif_to_comps_quantile_unit].
  revert H. unfold co_get_quantiles. apply foldlM_invariant; [|done].
  intros qs [var v] qs' Hqs H. case_decide; inv_res; [|done].
  match goal with H : comps_to_verif_quantile _ = Ok ?o |- _ =>
    destruct o as [q|]; [|done]; apply comps_to_verif_quantile_unit in H end.
  apply Forall_app. split; [done|]. by apply Forall_singleton.
Qed.

(** ** [is_valid] *)

(** The answer is [True] exactly when the file opens and reading
    [Convension] does not raise; every file without the attribute
    [Convensions] is accepted, whatever it holds. *)
Lemma Comps_is_valid_true (opened : res dataset) :
  (Comps_is_valid opened).1 = true
  ↔ ∃ file, opened = Ok file
      ∧ (is_Some (attrs file !! "Convensions") → is_Some (attrs file !! "Convension")).
Proof.
  destruct opened as [file|e]; simpl; [|naive_solver]. unfold hasattr, getattr.
  case_bool_decide as H1; destruct (attrs file !! "Convension") eqn:H2; simpl;
    split; try done; try (intros _; exists file; split; [done|]; naive_solver).
  intros (? & [= <-] & H). destruct (H H1) as [? ?]. congruence.
Qed.

(** [Comps.is_valid], lines 103-111: the method returns without having
    called [file.close()] exactly when the file opens, has the attribute
    [Convensions] and lacks the attribute [Convension]: reading the missing
    attribute raises inside the [try], and the handler answers [False]. *)
Theorem Comps_is_valid_leaves_open (opened : res dataset) :
  (Comps_is_valid opened).2 = false
  ↔ ∃ file, opened = Ok file ∧ is_Some (attrs file !! "Convensions")
            ∧ attrs file !! "Convension" = None.
Proof.
  destruct opened as [file|e]; simpl; [|naive_solver]. unfold hasattr, getattr.
  case_bool_decide as H1; destruct (attrs file !! "Convension") eqn:H2; simpl;
    naive_solver.
Qed.

(** ** Sample files *)

Definition sample_extents : nat * nat * nat := (1, 2, 2)%nat.

Definition sample_coordinates : list (string * ndarray) :=
  [("Date", Arr1 [of_Z 20120101]); ("Offset", Arr1 [of_Z 0; of_Z 6]);
   ("Location", Arr1 [of_Z 214; of_Z 180]); ("Lat", Arr1 [of_Z 49; of_Z 50]);
   ("Lon", Arr1 [of_Z (-123); of_Z (-122)]); ("Elev", Arr1 [of_Z 92; of_Z 5]);
   ("obs", Arr3 sample_extents (full sample_extents (of_Z 3)));
   ("fcst", Arr3 sample_extents (full sample_extents (of_Z 4)))].

(** Two thresholds, 10 and -5, under the names the encoder gives them. *)
Definition sample_comps : dataset :=
  mkDataset {[ "Variable" := "Temperature"; "Units" := "%" ]}
    (sample_coordinates ++
     [("p10", Arr3 sample_extents (full sample_extents (of_Z 1)));
      ("pm5", Arr3 sample_extents (full sample_extents (of_Z (-999))))]).

(** The threshold -5 under a name with a leading zero. *)
Definition sample_comps_pm05 : dataset :=
  mkDataset {[ "Variable" := "Temperature" ]}
    (sample_coordinates ++
     [("p10", Arr3 sample_extents (full sample_extents (of_Z 1)));
      ("pm05", Arr3 sample_extents (full sample_extents (of_Z 0)))]).

Definition sample_names (t : nat) : string :=
  match t with O => "p10" | _ => "pm5" end.

Definition sample_values (t : nat) : array3 pyfloat :=
  full sample_extents (of_Z match t with O => 1 | _ => -999 end).

Definition sample_self (file : dataset) (units : string) : Comps :=
  mkComps "sample.nc" file (Arr1 [of_Z 20120101]) (Arr1 [of_Z 0; of_Z 6])
    [of_Z 10; of_Z (-5)] []
    [mkLocation (of_Z 214) (of_Z 49) (of_Z (-123)) (of_Z 92);
     mkLocation (of_Z 180) (of_Z 50) (of_Z (-122)) (of_Z 5)]
    (mkVariable "Temperature" units).

Lemma sample_comps_init :
  Comps_init sample_sentinel "sample.nc" sample_comps
  = Ok (sample_self sample_comps "%").
Proof. by vm_compute. Qed.

Lemma sample_comps_pm05_init :
  Comps_init sample_sentinel "sample.nc" sample_comps_pm05
  = Ok (sample_self sample_comps_pm05 "No units").
Proof. by vm_compute. Qed.

Lemma co_threshold_scores_KeyError_witness :
  (Comps_init sample_sentinel "sample.nc" sample_comps_pm05
     ≫= co_threshold_scores sample_sentinel) = Err (Raised KeyError).
Proof.
  rewrite sample_comps_pm05_init. cbn [mbind result_bind].
  apply (co_threshold_scores_KeyError sample_sentinel _ sample_extents sample_names
           sample_values 1).
  - intros [|[|k]] th [= <-] _; by vm_compute.
  - intros [|k] ?; [|lia]. split; [done|apply shape_full].
  - simpl. lia.
  - done.
Defined.

(** ** The errors of the constructor *)

(** Reading the file, and decoding the names of its variables. *)
Definition comps_error (e : error) : Prop := nc_error e ∨ e = Raised ValueError.

Lemma codec_comps_error e : codec_error e → comps_error e.
Proof.
  intros [->|[->|[what ->]]]; [left; right; right; by left|by right|].
  left. right. right. right. by eexists.
Qed.

Lemma co_get_thresholds_ensures file :
  ensures (λ _, True) comps_error (co_get_thresholds file).
Proof.
  apply ensures_foldlM; [|done]. intros acc [var v] _ _. case_decide; [|done].
  eapply (ensures_bind (λ _, True)); [|by intros ? _].
  eapply ensures_mono;
    [apply comps_to_verif_threshold_ensures|done|apply codec_comps_error].
Qed.

Lemma co_get_quantiles_ensures file :
  ensures (λ _, True) comps_error (co_get_quantiles file).
Proof.
  apply ensures_foldlM; [|done]. intros acc [var v] _ _. case_decide; [|done].
  eapply (ensures_bind (λ _, True)); [|by intros ? _].
  eapply ensures_mono;
    [apply comps_to_verif_quantile_ensures|done|apply codec_comps_error].
Qed.

Lemma co_get_variable_ensures file :
  ensures (λ v, v_units v ≠ "") comps_error (co_get_variable file).
Proof.
  unfold co_get_variable.
  eapply (ensures_bind (λ _, True));
    [eapply ensures_mono; [apply getattr_ensures|done|by left]|intros name _].
  eapply ensures_bind;
    [eapply ensures_mono; [apply get_units_ensures|done|by left]|by intros ? ?].
Qed.

Lemma nc_comps_ensures {A} (r : res A) :
  ensures (λ _, True) nc_error r → ensures (λ _, True) comps_error r.
Proof. intros. eapply ensures_mono; [done|done|by left]. Qed.

(** [Comps.__init__], lines 86-97: the constructor either builds an
    object on the file it was given, with units that are not empty, or fails
    with [KeyError] (a coordinate variable is missing), [AttributeError]
    (the attribute [Variable] is missing), [IndexError] (a coordinate array
    is shorter than the latitudes, or a variable has the empty name),
    [ValueError], or where the model stops. *)
Lemma Comps_init_ensures (sentinel : pyfloat → bool) (filename : string)
    (file : dataset) :
  ensures (λ self, co_fullname self = filename ∧ co_file self = file
                   ∧ v_units (co_variable self) ≠ "")
    comps_error (Comps_init sentinel filename file).
Proof.
  unfold Comps_init.
  do 2 (eapply (ensures_bind (λ _, True));
        [apply nc_comps_ensures, clean_variable_ensures|intros ? _]).
  eapply (ensures_bind (λ _, True)); [apply co_get_thresholds_ensures|intros ? _].
  eapply (ensures_bind (λ _, True)); [apply co_get_quantiles_ensures|intros ? _].
  eapply (ensures_bind (λ _, True));
    [apply nc_comps_ensures, get_locations_from_ensures|intros ? _].
  eapply ensures_bind; [apply co_get_variable_ensures|by intros v ?].
Qed.

Lemma co_get_quantiles_range_witness :
  Forall (λ q, in_unit q = true ∧ verif_to_comps_quantile q ≠ Ok None)
    [(of_Z 50 / of_Z 100)%F].
Proof.
  apply (co_get_quantiles_range
           (mkDataset ∅ [("Date", Arr1 []); ("q50", Arr1 []); ("q150", Arr1 [])])).
  by vm_compute.
Defined.
