(* ===== verification/Legacy.v ===== *)
(** * Legacy files whose variables are named by the codec

    The legacy decoder and the naming codec, composed.  [Comps.__init__]
    decodes the names of the file's variables into thresholds and quantiles,
    and [Comps.threshold_scores] and [Comps.quantile_scores] encode each
    value again to find its variable (lines 127-130 and 144-147 of
    [input.py]): reading the scores works when the names of the file are
    those the encoder produces, and when no name is read as a value of the
    other kind.

    What the decoder needs of the codec is the interface [Naming]: a family
    of values, each with the name the encoder gives it, that the decoder
    reads back and that the decoder of the other kind rejects.  The codec
    provides it for the integer thresholds ([integer_thresholds]), the
    thresholds that are fractions ([fraction_thresholds]), both together
    ([sum_naming]), the quantiles that are whole percents
    ([percent_quantiles]) and those below one percent
    ([subpercent_quantiles]).

    Against the interface: a file whose score variables carry the names of
    pairwise distinct values of a naming of thresholds and of a naming of
    quantiles loads with these thresholds and quantiles, in the order of the
    file, and the scores of each kind stack along the trailing axis
    ([legacy_scores]). *)

From Stdlib Require Import Ascii.
From S2P Require Import Prelude PyFloat PyString PyFormat PyDecimal PyArray Location.
From S2P Require Import Dataset Codec Comps.

Local Open Scope string_scope.

(** ** The interface *)

(** [encode] names the values [value k] of the valid [k], [decode] reads the
    names back, [foreign], the decoder of the other kind, finds no value in
    them, and no name is that of a coordinate. *)
Class Naming {K : Type} (encode : pyfloat → res (option string))
    (decode foreign : string → res (option pyfloat))
    (valid : K → Prop) (value : K → pyfloat) (name : K → string) : Prop := {
  naming_encode k : valid k → encode (value k) = Ok (Some (name k));
  naming_decode k : valid k → decode (name k) = Ok (Some (value k));
  naming_foreign k : valid k → foreign (name k) = Ok None;
  naming_fresh k : valid k → name k ∉ dimensionNames;
}.

(** The encoder of thresholds always answers a name. *)
Definition encode_threshold (threshold : pyfloat) : res (option string) :=
  Some <$> verif_to_comps_threshold threshold.

Abbreviation Thresholds :=
  (Naming encode_threshold comps_to_verif_threshold comps_to_verif_quantile).
Abbreviation Quantiles :=
  (Naming verif_to_comps_quantile comps_to_verif_quantile comps_to_verif_threshold).

(** The score variables of the values [ks], each of extents [s]. *)
Definition score_variables {K} (name : K → string) (s : nat * nat * nat)
    (vs : nat → array3 pyfloat) (ks : list K) : list (string * ndarray) :=
  imap (λ i k, (name k, Arr3 s (vs i))) ks.

(** A variable that is a coordinate or in whose name [decode] finds no
    value. *)
Definition other (decode : string → res (option pyfloat)) (entry : string * ndarray) :
    Prop :=
  entry.1 ∈ dimensionNames ∨ decode entry.1 = Ok None.

(** What a name decodes to; nothing when decoding raises. *)
Definition decoded (decode : string → res (option pyfloat)) (var : string) :
    option pyfloat :=
  match decode var with Ok o => o | Err _ => None end.

(** The values [ks] can name the score variables [vs] of a file: they are
    valid and pairwise distinct, there is one at least, and each variable has
    the extents [s]. *)
Definition named_by {K} (valid : K → Prop) (value : K → pyfloat) (s : nat * nat * nat)
    (vs : nat → array3 pyfloat) (ks : list K) : Prop :=
  Forall valid ks ∧ NoDup (value <$> ks) ∧ ks ≠ []
  ∧ ∀ i, (i < length ks)%nat → shape (vs i) s.

(** The outcome [r] is an array of extents [s] and [n] trailing positions
    that holds at [(d, o, l, t)] the cleaned value of [vs t] at [(d, o, l)]. *)
Definition stacks (sentinel : pyfloat → bool) (s : nat * nat * nat) (n : nat)
    (vs : nat → array3 pyfloat) (r : res (option ((nat * nat * nat) * array4 pyfloat))) :
    Prop :=
  ∃ values, r = Ok (Some (s, values)) ∧ shape values (s, n)
    ∧ ∀ i t, inb (array4 pyfloat) (s, n) (i, t) →
        aget values (i, t) = clean_value sentinel <$> aget (vs t) i.

(** Two namings with the same codec, side by side. *)
Definition either {A B C} (f : A → C) (g : B → C) (x : A + B) : C :=
  match x with inl a => f a | inr b => g b end.

(** ** A file named by a naming *)

Section naming.
Context {K : Type} {encode : pyfloat → res (option string)}
  {decode foreign : string → res (option pyfloat)}
  {valid : K → Prop} {value : K → pyfloat} {name : K → string}.
Context `{!Naming encode decode foreign valid value name}.
Context (s : nat * nat * nat).
Implicit Types (k : K) (ks : list K) (vs : nat → array3 pyfloat)
  (l before after : list (string * ndarray)).

Lemma other_name entry k : other decode entry → valid k → entry.1 ≠ name k.
Proof.
  intros [H|H] Hk E; rewrite E in H; [by apply (naming_fresh k)|].
  by rewrite naming_decode in H.
Qed.

(** Names that are equal name the same value. *)
Lemma name_value k1 k2 : valid k1 → valid k2 → name k1 = name k2 → value k1 = value k2.
Proof.
  intros H1 H2 E. pose proof (naming_decode k1 H1) as D.
  rewrite E, naming_decode in D by done. congruence.
Qed.

Lemma score_variables_cons vs k ks :
  score_variables name s vs (k :: ks)
  = (name k, Arr3 s (vs 0%nat)) :: score_variables name s (vs ∘ S) ks.
Proof. done. Qed.

Lemma assoc_other before k l :
  Forall (other decode) before → valid k →
  assoc (name k) (before ++ l) = assoc (name k) l.
Proof.
  intros Ho Hk. induction Ho as [|[var v] before Ho _ IH]; [done|]. simpl.
  rewrite decide_False; [done|]. by apply (other_name (var, v) k).
Qed.

Lemma assoc_scores vs ks i k l :
  Forall valid ks → NoDup (value <$> ks) → ks !! i = Some k →
  assoc (name k) (score_variables name s vs ks ++ l) = Some (Arr3 s (vs i)).
Proof.
  revert vs i. induction ks as [|k' ks IH]; intros vs i Hv Hnd Hi; [done|].
  rewrite score_variables_cons. simpl.
  apply Forall_cons in Hv as [Hk' Hv]. rewrite fmap_cons in Hnd.
  apply NoDup_cons in Hnd as [Hfresh Hnd].
  destruct i as [|i]; simplify_eq/=; [by rewrite decide_True|].
  rewrite decide_False; [by apply (IH (vs ∘ S))|].
  intros E. apply Hfresh. apply list_elem_of_fmap. exists k. split.
  - symmetry. apply name_value; [|done..]. by eapply Forall_lookup_1 in Hv.
  - by eapply list_elem_of_lookup_2.
Qed.

(** The values of the score variables, in their order. *)
Lemma omap_scores vs ks :
  Forall valid ks →
  omap (kept (decoded decode)) (score_variables name s vs ks) = value <$> ks.
Proof.
  intros Hv. revert vs. induction Hv as [|k ks Hk _ IH]; intros vs; [done|].
  rewrite score_variables_cons. cbn [omap list_omap fmap list_fmap]. unfold kept at 1.
  cbn [fst]. rewrite decide_False by by apply naming_fresh.
  unfold decoded at 1. rewrite naming_decode by done. f_equal. apply IH.
Qed.

Lemma omap_other l : Forall (other decode) l → omap (kept (decoded decode)) l = [].
Proof.
  induction 1 as [|[var v] l Ho _ IH]; [done|]. cbn [omap list_omap].
  unfold kept at 1. cbn [fst]. rewrite IH. case_decide; [done|].
  destruct Ho as [?|Ho]; [done|]. unfold decoded. cbn [fst] in Ho. by rewrite Ho.
Qed.

Lemma other_decoded entry :
  other decode entry → entry.1 ∉ dimensionNames →
  decode entry.1 = Ok (decoded decode entry.1).
Proof. unfold decoded. intros [?|H] ?; [done|by rewrite H]. Qed.

(** The decoder of the other kind keeps none of the score variables. *)
Lemma scores_foreign vs ks :
  Forall valid ks → Forall (other foreign) (score_variables name s vs ks).
Proof.
  intros Hv. apply Forall_forall. intros entry (i & k & -> & Hi)%elem_of_lookup_imap.
  right. apply (naming_foreign k). by eapply Forall_lookup_1 in Hv.
Qed.

Section file.
Context (file : dataset) (vs : nat → array3 pyfloat) (ks : list K).
Context (before after : list (string * ndarray)).
Hypothesis file_variables :
  variables file = (before ++ score_variables name s vs ks ++ after)%list.
Hypothesis before_other : Forall (other decode) before.
Hypothesis after_other : Forall (other decode) after.
Hypothesis ks_valid : Forall valid ks.

(** Discovery finds the values of the score variables, in their order. *)
Lemma discover_scores : discover decode file = Ok (value <$> ks).
Proof.
  rewrite (discover_order decode file (decoded decode)).
  - rewrite file_variables, !omap_app, (omap_other before), (omap_other after) by done.
    rewrite omap_scores by done. f_equal. apply List.app_nil_r.
  - intros var v Hin Hdim. rewrite file_variables, !elem_of_app in Hin.
    destruct Hin as [Hin|[Hin|Hin]].
    + eapply Forall_forall in before_other; [|done]. by apply (other_decoded (var, v)).
    + apply elem_of_lookup_imap in Hin as (i & k & [= -> _] & Hi).
      unfold decoded. rewrite naming_decode; [done|]. by eapply Forall_lookup_1 in ks_valid.
    + eapply Forall_forall in after_other; [|done]. by apply (other_decoded (var, v)).
Qed.

(** The name of the [i]-th value finds the [i]-th score variable. *)
Lemma variables_get_scores i k :
  NoDup (value <$> ks) → ks !! i = Some k →
  variables_get file (name k) = Ok (Arr3 s (vs i)).
Proof.
  intros Hnd Hi. unfold variables_get. rewrite file_variables.
  rewrite assoc_other by (done || by eapply Forall_lookup_1 in ks_valid).
  by rewrite (assoc_scores vs ks i k).
Qed.

(** What a stacking pass finds for the [t]-th value. *)
Lemma scores_lookup t th :
  named_by valid value s vs ks → (value <$> ks) !! t = Some th →
  let var := from_option name "" (ks !! t) in
  encode th = Ok (Some var) ∧ variables_get file var = Ok (Arr3 s (vs t)) ∧ shape (vs t) s.
Proof.
  intros (_ & Hnd & _ & Hshape) [k [-> Hk]]%list_lookup_fmap_Some. rewrite Hk.
  cbn [from_option]. split_and!.
  - apply naming_encode. by eapply Forall_lookup_1 in ks_valid.
  - by apply (variables_get_scores t).
  - by eapply Hshape, lookup_lt_Some.
Qed.

End file.

End naming.

(** ** The namings of the codec *)

Section instances.

(** The decoders find no value in the name of a coordinate. *)
Lemma dimension_decoded d :
  d ∈ dimensionNames →
  comps_to_verif_threshold d = Ok None ∧ comps_to_verif_quantile d = Ok None.
Proof.
  unfold dimensionNames. intros H.
  repeat (apply elem_of_cons in H as [->|H]; [by vm_compute|]). by apply elem_of_nil in H.
Qed.

Lemma threshold_fresh name v :
  comps_to_verif_threshold name = Ok (Some v) → name ∉ dimensionNames.
Proof. intros H [E _]%dimension_decoded. by rewrite E in H. Qed.

Lemma quantile_fresh name v :
  comps_to_verif_quantile name = Ok (Some v) → name ∉ dimensionNames.
Proof. intros H [_ E]%dimension_decoded. by rewrite E in H. Qed.

Lemma encode_threshold_Ok threshold name :
  encode_threshold threshold = Ok (Some name) ↔ verif_to_comps_threshold threshold = Ok name.
Proof.
  unfold encode_threshold. destruct (verif_to_comps_threshold threshold); naive_solver.
Qed.

#[export] Instance integer_thresholds : Thresholds (λ _ : Z, True) of_Z threshold_name.
Proof.
  split; intros z _.
  - apply encode_threshold_Ok, encode_threshold_name.
  - apply decode_threshold_name.
  - apply threshold_name_quantile.
  - eapply threshold_fresh, decode_threshold_name.
Qed.

#[export] Instance fraction_thresholds :
  Thresholds (λ f : N * nat, fraction6 f.1 f.2)
    (λ f, decimal (Z.of_N f.1) (- Z.of_nat f.2)) (λ f, fraction_name f.1 f.2).
Proof.
  split; intros [M n] HF; cbn [fst snd] in *.
  - by apply encode_threshold_Ok, encode_fraction.
  - by apply decode_fraction, fraction6_length.
  - apply fraction_name_quantile.
  - by eapply threshold_fresh, decode_fraction, fraction6_length.
Qed.

#[export] Instance percent_quantiles :
  Quantiles (λ k : Z, (0 ≤ k < 101)%Z) percent percent_name.
Proof.
  split; intros k Hk.
  - by apply encode_percent.
  - by apply decode_percent.
  - apply percent_name_threshold.
  - by eapply quantile_fresh, decode_percent.
Qed.

#[export] Instance subpercent_quantiles :
  Quantiles (λ f : N * nat, fraction6 f.1 f.2)
    (λ f, hundredth (decimal (Z.of_N f.1) (- Z.of_nat f.2)))
    (λ f, subpercent_name f.1 f.2).
Proof.
  split; intros [M n] HF; cbn [fst snd] in *.
  - by apply encode_subpercent.
  - by apply decode_subpercent.
  - apply subpercent_name_threshold.
  - by eapply quantile_fresh, decode_subpercent.
Qed.

(** Two namings of one codec make a naming of the values of both. *)
Lemma sum_naming {A B} encode decode foreign
    (validA : A → Prop) valueA nameA (validB : B → Prop) valueB nameB :
  Naming encode decode foreign validA valueA nameA →
  Naming encode decode foreign validB valueB nameB →
  Naming encode decode foreign
    (either validA validB) (either valueA valueB) (either nameA nameB).
Proof.
  intros HA HB. split; intros [a|b] Hk; cbn [either] in *;
    by first [apply naming_encode|apply naming_decode
             |eapply naming_foreign|eapply naming_fresh].
Qed.

End instances.

(** ** The legacy decoder on a file named by the codec *)

(** What [Comps.__init__] stores: the file and the values it discovers. *)
Lemma Comps_init_fields sentinel filename file self :
  Comps_init sentinel filename file = Ok self →
  co_file self = file
  ∧ discover comps_to_verif_threshold file = Ok (co_thresholds self)
  ∧ discover comps_to_verif_quantile file = Ok (co_quantiles self).
Proof. unfold Comps_init. intros H. by inv_res. Qed.

Section legacy.
Context {KT KQ : Type} {validT : KT → Prop} {valueT : KT → pyfloat} {nameT : KT → string}
  {validQ : KQ → Prop} {valueQ : KQ → pyfloat} {nameQ : KQ → string}.
Context `{!Thresholds validT valueT nameT} `{!Quantiles validQ valueQ nameQ}.
Context (sentinel : pyfloat → bool) (filename : string) (file : dataset) (self : Comps).
Context (coords : list (string * ndarray)) (s : nat * nat * nat).
Context (vt vq : nat → array3 pyfloat) (ts : list KT) (qs : list KQ).

(** C14: [Comps.__init__], [Comps.threshold_scores] and
    [Comps.quantile_scores] with the naming codec, lines 86-97, 121-153,
    166-182 and 200-251: in a legacy file whose score variables carry the
    names the encoder gives to pairwise distinct thresholds and quantiles of
    two namings, and in whose other variables neither decoder finds a value,
    the thresholds and the quantiles of the input are these values in the
    order of the file, and each of the two properties holds at
    [(d, o, l, t)] the cleaned value of the [t]-th score variable of its kind
    at [(d, o, l)]. *)
Theorem legacy_scores :
  variables file
  = (coords ++ score_variables nameT s vt ts ++ score_variables nameQ s vq qs)%list →
  Forall (other comps_to_verif_threshold) coords →
  Forall (other comps_to_verif_quantile) coords →
  named_by validT valueT s vt ts → named_by validQ valueQ s vq qs →
  Comps_init sentinel filename file = Ok self →
  co_thresholds self = valueT <$> ts ∧ co_quantiles self = valueQ <$> qs
  ∧ stacks sentinel s (length ts) vt (co_threshold_scores sentinel self)
  ∧ stacks sentinel s (length qs) vq (co_quantile_scores sentinel self).
Proof.
  intros Hvars HcT HcQ HT HQ (Hfile & Hths & Hqs)%Comps_init_fields.
  pose proof HT as (HvT & _ & HneT & _). pose proof HQ as (HvQ & _ & HneQ & _).
  assert (variables file
          = ((coords ++ score_variables nameT s vt ts)
             ++ score_variables nameQ s vq qs ++ [])%list) as Hvars'
    by by rewrite Hvars, List.app_nil_r, <-List.app_assoc.
  assert (Forall (other comps_to_verif_threshold) (score_variables nameQ s vq qs)) as HfQ
    by by apply scores_foreign.
  assert (Forall (other comps_to_verif_quantile) (coords ++ score_variables nameT s vt ts))
    as HfT by (apply Forall_app; split; [done|by apply scores_foreign]).
  rewrite (discover_scores s file vt ts coords _ Hvars) in Hths by done.
  rewrite (discover_scores s file vq qs _ [] Hvars') in Hqs by done.
  injection Hths as Hths. injection Hqs as Hqs. split_and!; [done..| |].
  - pose proof (co_threshold_scores_names sentinel self s
      (λ t, from_option nameT "" (ts !! t)) vt) as Hst.
    rewrite <-Hths, Hfile, length_fmap in Hst. apply Hst; [by destruct ts|].
    intros t th Hth. rewrite <-encode_threshold_Ok.
    by apply (scores_lookup s file vt ts coords _ Hvars).
  - pose proof (co_quantile_scores_stacked sentinel self s
      (λ q, from_option nameQ "" (qs !! q)) vq) as Hst.
    rewrite <-Hqs, Hfile, length_fmap in Hst. apply Hst; [by destruct qs|].
    intros q qu Hqu. by apply (scores_lookup s file vq qs _ [] Hvars').
Qed.

End legacy.

(** ** A sample file *)

(** The thresholds 10 and 0.25, the quantiles of 30 and of 0.5 percent. *)
Definition sample_thresholds : list (Z + N * nat) := [inl 10%Z; inr (25%N, 2%nat)].
Definition sample_quantiles : list (Z + N * nat) := [inl 30%Z; inr (5%N, 1%nat)].

Definition sample_legacy : dataset :=
  mkDataset {[ "Variable" := "Precip"; "Units" := "mm" ]}
    (sample_coordinates ++
     [("p10", Arr3 sample_extents (sample_values 0));
      ("p025", Arr3 sample_extents (sample_values 1));
      ("q30", Arr3 sample_extents (sample_values 1));
      ("q05", Arr3 sample_extents (sample_values 0))]).

Definition sample_legacy_self : Comps :=
  mkComps "sample.nc" sample_legacy (Arr1 [of_Z 20120101]) (Arr1 [of_Z 0; of_Z 6])
    [of_Z 10; decimal 25 (-2)]
    [(of_Z 30 / of_Z 100)%F; (decimal 5 (-1) / of_Z 100)%F]
    [mkLocation (of_Z 214) (of_Z 49) (of_Z (-123)) (of_Z 92);
     mkLocation (of_Z 180) (of_Z 50) (of_Z (-122)) (of_Z 5)]
    (mkVariable "Precip" "$mm$").

Lemma sample_legacy_init :
  Comps_init sample_sentinel "sample.nc" sample_legacy = Ok sample_legacy_self.
Proof. by vm_compute. Qed.

Lemma sample_coordinates_other :
  Forall (other comps_to_verif_threshold) sample_coordinates
  ∧ Forall (other comps_to_verif_quantile) sample_coordinates.
Proof.
  unfold sample_coordinates.
  split; repeat apply Forall_cons_2; try apply Forall_nil_2;
    first [by left; compute_done|by right; compute_done].
Qed.

Lemma sample_values_shape (f : nat → nat) i : shape (sample_values (f i)) sample_extents.
Proof. apply shape_full. Qed.

Lemma legacy_scores_witness :
  ∃ self tv qv,
    Comps_init sample_sentinel "sample.nc" sample_legacy = Ok self
    ∧ co_thresholds self = [of_Z 10; decimal 25 (-2)]
    ∧ co_quantiles self = [percent 30; hundredth (decimal 5 (-1))]
    ∧ co_threshold_scores sample_sentinel self = Ok (Some (sample_extents, tv))
    ∧ aget tv (0, 1, 0, 0)%nat = Some (of_Z 1)
    ∧ aget tv (0, 0, 1, 1)%nat = Some NaN
    ∧ co_quantile_scores sample_sentinel self = Ok (Some (sample_extents, qv))
    ∧ aget qv (0, 1, 1, 0)%nat = Some NaN.
Proof.
  destruct sample_coordinates_other as [HcT HcQ].
  pose proof (sum_naming _ _ _ _ _ _ _ _ _ integer_thresholds fraction_thresholds) as HT.
  pose proof (sum_naming _ _ _ _ _ _ _ _ _ percent_quantiles subpercent_quantiles) as HQ.
  destruct (@legacy_scores _ _ _ _ _ _ _ _ HT HQ sample_sentinel "sample.nc"
              sample_legacy sample_legacy_self sample_coordinates sample_extents
              sample_values (λ q, sample_values (1 - q)) sample_thresholds
              sample_quantiles)
    as (Hths & Hqs & (tv & Ht & _ & Htv) & (qv & Hq & _ & Hqv)).
  - done.
  - done.
  - done.
  - split_and!; [|compute_done|done|intros; apply (sample_values_shape id)].
    repeat apply Forall_cons_2; [done|cbn [either fst snd]; compute_done|done].
  - split_and!; [|compute_done|done|intros; apply (sample_values_shape (λ q, 1 - q)%nat)].
    repeat apply Forall_cons_2; [cbn; lia|cbn [either fst snd]; compute_done|done].
  - apply sample_legacy_init.
  - exists sample_legacy_self, tv, qv.
    split_and!; [apply sample_legacy_init|done..| | |done|];
      rewrite ?Htv, ?Hqv by (cbn; lia); by vm_compute.
Defined.
