(* ===== verification/Dispatch.v ===== *)
(** * The dispatcher

    [get_input] (lines 14-25 of [input.py]) chooses the decoder of a file:
    it asks [NetcdfCf.is_valid], [Comps.is_valid] and [Text.is_valid] in
    that order and builds the first decoder that accepts.

    The file system is a [world]: the paths that exist with what they hold
    (the lines of a text file or a NetCDF dataset) and the home directory
    that [os.path.expanduser] substitutes.  [path_exists], [netcdf] and
    [open_text] are the library calls [os.path.exists], [netcdf(_, 'r')]
    and [open(_, 'rU')] on it.  The [is_valid] methods and [os.path.exists]
    receive the path as given; the constructors ([Text_new], [NetcdfCf_new],
    [Comps_new]) expand it first.

    The class [Input] is the interface the three decoders share: the full
    name they were built with, from which the base class derives [name] and
    [shortname].

    Theorems: which decoder [get_input] chooses, as a function of what the
    file holds ([get_input_chooses]); the error of a path that does not
    exist; that the error "is not a valid input file" cannot occur; that a
    NetCDF file with neither convention attribute is read as the legacy
    format; that a path with a tilde is refused although the constructors
    would read it; the errors of the whole call.  The functions here take
    the file system and give results; [Handles] runs the same code with the
    table of open files as state. *)

From Stdlib Require Import Ascii.
From S2P Require Import Prelude PyFloat PyString PyArray Location.
From S2P Require Import TextParse TextErrors TextDense.
From S2P Require Import InputBase Dataset NetcdfCf Comps.

Local Open Scope string_scope.

(** ** The file system *)

Inductive content :=
| TextFile (lines : list string)
| NcFile (file : dataset).

Record world := mkWorld {
  files : gmap string content;
  home : string;
}.

(** [os.path.expanduser(path)]: a leading tilde, alone or before a slash,
    is replaced by the home directory. *)
Definition expanduser (w : world) (path : string) : string :=
  match path with
  | String "~" EmptyString => home w
  | String "~" (String "/" rest) => home w +:+ String "/" rest
  | _ => path
  end.

(** [os.path.exists(path)] *)
Definition path_exists (w : world) (path : string) : bool :=
  bool_decide (is_Some (files w !! path)).

(** [netcdf(path, 'r')]: raises on a path that does not exist and on a file
    that is not NetCDF. *)
Definition netcdf (w : world) (path : string) : res dataset :=
  match files w !! path with
  | Some (NcFile file) => Ok file
  | _ => Err (Raised IOError)
  end.

(** [open(path, 'rU')], as the lines the loop reads. *)
Definition open_text (w : world) (path : string) : res (list string) :=
  match files w !! path with
  | Some (TextFile lines) => Ok lines
  | Some (NcFile _) => Err (Unmodelled "reading a NetCDF file as text")
  | None => Err (Raised IOError)
  end.

(** ** The constructors, from a path *)

Section decoders.
Context (sentinel : pyfloat → bool).

(** [Text(filename)] (lines 350-353, then the body) *)
Definition Text_new (w : world) (filename : string) : res Text :=
  file ← open_text w (expanduser w filename);
  Text_init filename file.

(** [NetcdfCf(filename)] (lines 258-261, then the body) *)
Definition NetcdfCf_new (w : world) (filename : string) : res NetcdfCf :=
  file ← netcdf w (expanduser w filename);
  NetcdfCf_init sentinel filename file.

(** [Comps(filename)] (lines 86-89, then the body) *)
Definition Comps_new (w : world) (filename : string) : res Comps :=
  file ← netcdf w (expanduser w filename);
  Comps_init sentinel filename file.

(** ** [get_input] *)

Inductive input :=
| InNetcdfCf (i : NetcdfCf)
| InComps (i : Comps)
| InText (i : Text).

(** Lines 14-25 *)
Definition get_input (w : world) (filename : string) : res input :=
  if negb (path_exists w filename) then Err (UtilError (DoesNotExist filename))
  else if NetcdfCf_is_valid (netcdf w filename) then
    InNetcdfCf <$> NetcdfCf_new w filename
  else if (Comps_is_valid (netcdf w filename)).1 then
    InComps <$> Comps_new w filename
  else if Text_is_valid filename then
    InText <$> Text_new w filename
  else Err (UtilError (NotValidInput filename)).

End decoders.

(** ** The interface of the decoders *)

Class Input (T : Type) := { fullname : T → string }.

#[export] Instance Text_Input : Input Text := {| fullname := t_fullname |}.
#[export] Instance NetcdfCf_Input : Input NetcdfCf := {| fullname := cf_fullname |}.
#[export] Instance Comps_Input : Input Comps := {| fullname := co_fullname |}.
#[export] Instance input_Input : Input input := {|
  fullname i :=
    match i with
    | InNetcdfCf i => fullname i
    | InComps i => fullname i
    | InText i => fullname i
    end;
|}.

(** ** What the dispatcher promises *)

Inductive decoder := DNetcdfCf | DComps | DText.

#[export] Instance decoder_eq_dec : EqDecision decoder.
Proof. solve_decision. Defined.

Definition decoder_of (i : input) : decoder :=
  match i with
  | InNetcdfCf _ => DNetcdfCf
  | InComps _ => DComps
  | InText _ => DText
  end.

(** The decoder of a file, read off what it holds. *)
Definition chosen (c : content) : decoder :=
  match c with
  | TextFile _ => DText
  | NcFile file =>
      if decide (attrs file !! "Conventions" = Some "verif_1.0.0") then DNetcdfCf
      else if decide (is_Some (attrs file !! "Convensions")
                      ∧ attrs file !! "Convension" = None) then DText
      else DComps
  end.

(** ** Facts *)

Section dispatch.
Context (sentinel : pyfloat → bool) (w : world).
Implicit Types (filename : string) (c : content) (e : error).

(** The errors of the constructors. *)
Definition decoder_error filename e : Prop :=
  e = Raised IOError ∨ file_error filename e ∨ comps_error e.

(** The errors of [get_input]. *)
Definition input_error filename e : Prop :=
  e = UtilError (DoesNotExist filename) ∨ decoder_error filename e.

Lemma decoder_error_util filename m :
  decoder_error filename (UtilError m) →
  (∃ col, m = MissingColumn filename col) ∨ ∃ n r, m = IncorrectColumns n r.
Proof.
  intros [[=]|[H|H]].
  - destruct H as [(col & _ & [= ->])|[(n & r & [= ->])|[[=]|[[=]|[? [=]]]]]]; eauto.
  - by destruct H as [[[=]|[[=]|[[=]|[? [=]]]]]|[=]].
Qed.

Lemma netcdf_ensures path : ensures (λ _, True) (eq (Raised IOError)) (netcdf w path).
Proof. unfold netcdf. by destruct (files w !! path) as [[]|]. Qed.

Lemma netcdf_decoder_ensures filename path :
  ensures (λ _, True) (decoder_error filename) (netcdf w path).
Proof. eapply ensures_mono; [apply netcdf_ensures|done|]. intros e <-. by left. Qed.

Lemma Text_new_ensures filename :
  ensures (λ t, fullname t = filename) (decoder_error filename) (Text_new w filename).
Proof.
  unfold Text_new, open_text.
  destruct (files w !! expanduser w filename) as [[lines|file]|]; simpl.
  - eapply ensures_mono; [apply Text_init_ensures|done|]. intros e ?. right. by left.
  - do 2 right. left. do 3 right. by eexists.
  - by left.
Qed.

Lemma NetcdfCf_new_ensures filename :
  ensures (λ i, fullname i = filename) (decoder_error filename)
    (NetcdfCf_new sentinel w filename).
Proof.
  unfold NetcdfCf_new.
  eapply (ensures_bind (λ _, True)); [apply netcdf_decoder_ensures|intros file _].
  eapply ensures_mono; [apply NetcdfCf_init_ensures|by intros i []|].
  intros e ?. do 2 right. by left.
Qed.

Lemma Comps_new_ensures filename :
  ensures (λ i, fullname i = filename) (decoder_error filename)
    (Comps_new sentinel w filename).
Proof.
  unfold Comps_new.
  eapply (ensures_bind (λ _, True)); [apply netcdf_decoder_ensures|intros file _].
  eapply ensures_mono; [apply Comps_init_ensures|by intros i []|].
  intros e ?. by do 2 right.
Qed.

(** The cascade of [is_valid] calls computes [chosen]. *)
Lemma chosen_cascade filename c :
  files w !! filename = Some c →
  chosen c = if NetcdfCf_is_valid (netcdf w filename) then DNetcdfCf
             else if (Comps_is_valid (netcdf w filename)).1 then DComps
             else DText.
Proof.
  intros Hc. unfold netcdf. rewrite Hc. destruct c as [lines|file]; [done|].
  unfold chosen, NetcdfCf_is_valid, Comps_is_valid, hasattr, getattr.
  destruct (attrs file !! "Conventions") as [conv|], (attrs file !! "Convensions"),
    (attrs file !! "Convension"); simpl;
    repeat (case_decide || case_bool_decide); simplify_eq/=;
    try done; naive_solver.
Qed.

(** On a path that exists. *)
Lemma get_input_exists filename c :
  files w !! filename = Some c →
  ensures (λ i, fullname i = filename ∧ decoder_of i = chosen c)
    (decoder_error filename) (get_input sentinel w filename).
Proof.
  intros Hc. unfold get_input, path_exists.
  rewrite bool_decide_eq_true_2 by by eexists. simpl.
  generalize (chosen_cascade filename c Hc).
  destruct (NetcdfCf_is_valid _); [|destruct (Comps_is_valid _).1]; simpl;
    intros Hch; apply ensures_fmap;
    (eapply ensures_mono;
     [apply NetcdfCf_new_ensures || apply Comps_new_ensures || apply Text_new_ensures
     |by intros i Hi|done]).
Qed.

Lemma get_input_None filename :
  files w !! filename = None →
  get_input sentinel w filename = Err (UtilError (DoesNotExist filename)).
Proof.
  intros Hc. unfold get_input, path_exists.
  rewrite bool_decide_eq_false_2; [done|]. rewrite Hc. by intros [].
Qed.

Lemma get_input_ensures filename :
  ensures (λ i, fullname i = filename
                ∧ ∃ c, files w !! filename = Some c ∧ decoder_of i = chosen c)
    (input_error filename) (get_input sentinel w filename).
Proof.
  destruct (files w !! filename) as [c|] eqn:Hc.
  - eapply ensures_mono; [by apply get_input_exists|naive_solver|by right].
  - rewrite get_input_None by done. by left.
Qed.

End dispatch.

(** C13: [get_input], lines 14-25: when the call returns an input, the path
    exists, the input carries the path as its full name, and its decoder is
    the one [chosen] reads off the file: the self-describing decoder for a
    NetCDF file whose attribute [Conventions] is [verif_1.0.0], the text
    decoder for a text file and for a NetCDF file that has the attribute
    [Convensions] and lacks [Convension], the legacy decoder for every other
    NetCDF file. *)
Theorem get_input_chooses (sentinel : pyfloat → bool) (w : world) (filename : string)
    (i : input) :
  get_input sentinel w filename = Ok i →
  fullname i = filename
  ∧ ∃ c, files w !! filename = Some c ∧ decoder_of i = chosen c.
Proof. apply (ensures_Ok _ _ _ _ (get_input_ensures sentinel w filename)). Qed.

(** [get_input], lines 14-25: the call fails only with the message of a
    path that does not exist, with [IOError], with the errors of the text
    parser or with the errors of reading a NetCDF file. *)
Theorem get_input_errors (sentinel : pyfloat → bool) (w : world) (filename : string)
    (e : error) :
  get_input sentinel w filename = Err e → input_error filename e.
Proof. apply (ensures_Err _ _ _ _ (get_input_ensures sentinel w filename)). Qed.

(** C23: [get_input], lines 21-24: the message "is not a valid input file"
    is never reported, because [Text.is_valid] accepts every path and no
    constructor reports it. *)
Theorem get_input_never_invalid (sentinel : pyfloat → bool) (w : world)
    (filename filename' : string) :
  get_input sentinel w filename ≠ Err (UtilError (NotValidInput filename')).
Proof.
  intros H. apply (ensures_Err _ _ _ _ (get_input_ensures sentinel w filename)) in H.
  destruct H as [[=]|H%decoder_error_util]. naive_solver.
Qed.

(** C24: [get_input], lines 15-16: the message "does not exist" is reported
    exactly for the paths that do not exist. *)
Theorem get_input_DoesNotExist (sentinel : pyfloat → bool) (w : world)
    (filename : string) :
  get_input sentinel w filename = Err (UtilError (DoesNotExist filename))
  ↔ files w !! filename = None.
Proof.
  split; [|apply get_input_None]. destruct (files w !! filename) as [c|] eqn:Hc; [|done].
  intros H. apply (ensures_Err _ _ _ _ (get_input_exists sentinel w filename c Hc)) in H.
  apply decoder_error_util in H. naive_solver.
Qed.

(** C22: [get_input] with [Comps.is_valid], lines 19-20 and 99-111: a NetCDF
    file whose attribute [Conventions] is not [verif_1.0.0] and that has no
    attribute [Convensions] is given to the legacy decoder, with no look at
    its variables. *)
Theorem get_input_legacy_default (sentinel : pyfloat → bool) (w : world)
    (filename : string) (file : dataset) :
  files w !! filename = Some (NcFile file) →
  attrs file !! "Conventions" ≠ Some "verif_1.0.0" →
  attrs file !! "Convensions" = None →
  get_input sentinel w filename = InComps <$> Comps_new sentinel w filename.
Proof.
  intros Hc Hcf Hco. unfold get_input, path_exists, netcdf. rewrite Hc.
  rewrite bool_decide_eq_true_2 by by eexists.
  unfold NetcdfCf_is_valid, Comps_is_valid, hasattr, getattr. rewrite Hco.
  destruct (attrs file !! "Conventions") as [conv|]; simpl; [|done].
  by rewrite bool_decide_eq_false_2 by congruence.
Qed.

(** The derived name of an input the dispatcher built, through the
    interface: the part of the path after its last slash. *)
Lemma get_input_name (sentinel : pyfloat → bool) (w : world) (dir base : string)
    (i : input) :
  has "/" base = false →
  get_input sentinel w (dir +:+ "/" +:+ base) = Ok i → name (fullname i) = base.
Proof.
  intros Hbase Hi.
  apply (ensures_Ok _ _ _ _ (get_input_ensures sentinel w _)) in Hi as [-> _].
  by apply name_base.
Qed.

(** ** A sample file system *)

Definition sample_world : world :=
  mkWorld {[ "sample.nc" := NcFile sample_comps; "cf.nc" := NcFile sample_cf;
             "bare.nc" := NcFile (mkDataset ∅ []);
             "legacy.nc" := NcFile (mkDataset {[ "Convensions" := "comps" ]} []);
             "/home/u/obs.txt" := TextFile ["obs fcst"; "1 2"];
             "/home/u/bad.txt" := TextFile ["obs fcst"; "1"] ]} "/home/u".

Lemma get_input_chooses_witness :
  ∃ c, files sample_world !! "sample.nc" = Some c ∧ chosen c = DComps.
Proof.
  destruct (get_input_chooses sample_sentinel sample_world "sample.nc"
              (InComps (sample_self sample_comps "%"))) as (_ & c & Hc & Hch);
    [by vm_compute|]. by exists c.
Defined.

Lemma get_input_errors_witness : input_error "bare.nc" (Raised KeyError).
Proof.
  by apply (get_input_errors sample_sentinel sample_world "bare.nc"); vm_compute.
Defined.

Lemma get_input_legacy_default_witness :
  get_input sample_sentinel sample_world "bare.nc" = Err (Raised KeyError).
Proof.
  by rewrite (get_input_legacy_default sample_sentinel sample_world "bare.nc"
                (mkDataset ∅ [])).
Defined.

(** [get_input] and the constructors, lines 15, 88, 260 and 352: the
    existence check takes the path as given and the constructors expand the
    home directory, so a path that starts with a tilde is refused although
    the text decoder reads it. *)
Example get_input_tilde :
  get_input sample_sentinel sample_world "~/obs.txt"
  = Err (UtilError (DoesNotExist "~/obs.txt"))
  ∧ is_Ok (Text_new sample_world "~/obs.txt").
Proof. split; [done|compute_done]. Qed.
