(* ===== verification/Handles.v ===== *)
(** * Open files

    The spec asks that a file handle is released on every exit path of a
    validity check and of a constructor.  [Dispatch] describes what
    [get_input] returns; this file adds the handles: the same code
    ([is_valid] of the three decoders, their constructors, [get_input]) as
    programs of a state-and-error monad [io] whose state is the table of
    open files ([handles]), over a file system [w] that does not change.

    - [IO.netcdf], [IO.open_text] open a file and return a fresh handle;
      [IO.close] releases one; [IO.try] is [try: ... except:].  An error
      keeps the state it was raised in.
    - [IO.NetcdfCf_is_valid] (lines 269-279), [IO.Comps_is_valid] (lines
      99-111), [IO.Text_is_valid] (lines 562-564), [IO.NetcdfCf_new],
      [IO.Comps_new], [IO.Text_new] (with the [file.close()] of line 492)
      and [IO.get_input] (lines 14-25).

    Theorems: the programs refine the functions of [Dispatch]
    ([get_input_refines]: the result is the one [Dispatch.get_input] gives);
    [NetcdfCf.is_valid] leaves the table as it found it
    ([NetcdfCf_is_valid_closes]); [Comps.is_valid] leaves a handle open
    exactly when the file has [Convensions] and lacks [Convension]
    ([Comps_is_valid_leaks]); the text constructor closes its file when the
    parsing loop ends and leaves it open when a line fails
    ([Text_new_handles]); after a successful [get_input] a text input holds
    no handle and a NetCDF input holds one, on the expanded path
    ([get_input_handles]).  Handles are fresh: [fresh] is an invariant of
    every program ([get_input_fresh]). *)

From S2P Require Import Prelude PyFloat PyString PyArray Location.
From S2P Require Import TextParse TextErrors TextDense.
From S2P Require Import TextAccept InputBase Dataset NetcdfCf Comps Dispatch.

Local Open Scope string_scope.

(** ** The table of open files *)

Record handles := mkHandles {
  next_handle : nat;
  open_files : gmap nat string;
}.

(** Every open handle was given out. *)
Definition fresh (σ : handles) : Prop :=
  ∀ h path, open_files σ !! h = Some path → (h < next_handle σ)%nat.

(** The table after opening [path]. *)
Definition opened (path : string) (σ : handles) : handles :=
  mkHandles (S (next_handle σ)) (<[next_handle σ := path]> (open_files σ)).

(** The table after giving out a handle that is closed again. *)
Definition used (σ : handles) : handles :=
  mkHandles (S (next_handle σ)) (open_files σ).

Definition no_handles : handles := mkHandles 0 ∅.

(** ** Programs *)

Definition io (A : Type) : Type := handles → res A * handles.

#[export] Instance io_ret : MRet io := λ A a σ, (Ok a, σ).
#[export] Instance io_bind : MBind io := λ A B f m σ,
  match m σ with
  | (Ok a, σ') => f a σ'
  | (Err e, σ') => (Err e, σ')
  end.
#[export] Instance io_fmap : FMap io := λ A B f m σ,
  match m σ with (r, σ') => (f <$> r, σ') end.

Module IO.

(** A computation without effect on the table. *)
Definition lift {A} (r : res A) : io A := λ σ, (r, σ).

(** [try: m except: ...]: the outcome of [m] as a value.  The handler of a
    bare [except] takes every exception; where the model stops, it stops. *)
Definition try {A} (m : io A) : io (res A) := λ σ,
  match m σ with
  | (Err (Unmodelled what), σ') => (Err (Unmodelled what), σ')
  | (r, σ') => (Ok r, σ')
  end.

(** [file.close()] *)
Definition close (h : nat) : io () := λ σ,
  (Ok (), mkHandles (next_handle σ) (delete h (open_files σ))).

Section programs.
Context (w : world).

(** [netcdf(path, 'r')] *)
Definition netcdf (path : string) : io (nat * dataset) := λ σ,
  match Dispatch.netcdf w path with
  | Ok file => (Ok (next_handle σ, file), opened path σ)
  | Err e => (Err e, σ)
  end.

(** [open(path, 'rU')] *)
Definition open_text (path : string) : io (nat * list string) := λ σ,
  match Dispatch.open_text w path with
  | Ok lines => (Ok (next_handle σ, lines), opened path σ)
  | Err e => (Err e, σ)
  end.

(** [NetcdfCf.is_valid] (lines 269-279) *)
Definition NetcdfCf_is_valid (filename : string) : io bool :=
  file ← try (netcdf filename);
  match file with
  | Err _ => mret false
  | Ok (h, file) =>
      let valid :=
        hasattr file "Conventions"
        && bool_decide (getattr file "Conventions" = Ok "verif_1.0.0") in
      _ ← close h;
      mret valid
  end.

(** [Comps.is_valid] (lines 99-111) *)
Definition Comps_is_valid (filename : string) : io bool :=
  answer ← try (
    '(h, file) ← netcdf filename;
    valid ← (if hasattr file "Convensions" then
               Convension ← lift (getattr file "Convension");
               mret (bool_decide (Convension = "comps"))
             else mret false);
    _ ← close h;
    mret true);
  mret (match answer with Ok answer => answer | Err _ => false end).

(** [Text.is_valid] (lines 562-564) *)
Definition Text_is_valid (filename : string) : io bool := mret true.

Section decoders.
Context (sentinel : pyfloat → bool).

(** [NetcdfCf(filename)] (lines 258-267): the file stays open in
    [self._file]. *)
Definition NetcdfCf_new (filename : string) : io NetcdfCf :=
  '(h, file) ← netcdf (expanduser w filename);
  lift (NetcdfCf_init sentinel filename file).

(** [Comps(filename)] (lines 86-97): the file stays open in [self._file]. *)
Definition Comps_new (filename : string) : io Comps :=
  '(h, file) ← netcdf (expanduser w filename);
  lift (Comps_init sentinel filename file).

(** [Text(filename)] (lines 350-560): the file is closed at line 492, after
    the loop. *)
Definition Text_new (filename : string) : io Text :=
  '(h, file) ← open_text (expanduser w filename);
  s ← lift (parse_lines filename file);
  _ ← close h;
  lift (assemble filename s).

(** [get_input] (lines 14-25) *)
Definition get_input (filename : string) : io input :=
  if negb (path_exists w filename) then
    lift (Err (UtilError (DoesNotExist filename)))
  else
    valid ← NetcdfCf_is_valid filename;
    if valid : bool then InNetcdfCf <$> NetcdfCf_new filename
    else
      valid ← Comps_is_valid filename;
      if valid : bool then InComps <$> Comps_new filename
      else
        valid ← Text_is_valid filename;
        if valid : bool then InText <$> Text_new filename
        else lift (Err (UtilError (NotValidInput filename))).

End decoders.
End programs.
End IO.

(** ** Facts on the table *)

Section table.
Implicit Types (σ : handles) (path : string).

Lemma fresh_no_handles : fresh no_handles.
Proof. by intros h path. Qed.

Lemma fresh_next σ : fresh σ → open_files σ !! next_handle σ = None.
Proof.
  intros Hσ. destruct (open_files σ !! next_handle σ) eqn:E; [|done].
  apply Hσ in E. lia.
Qed.

Lemma fresh_opened path σ : fresh σ → fresh (opened path σ).
Proof.
  intros Hσ h p. unfold opened. simpl. intros [[-> _]|[_ H]]%lookup_insert_Some.
  - lia.
  - apply Hσ in H. lia.
Qed.

Lemma fresh_used σ : fresh σ → fresh (used σ).
Proof. intros Hσ h p H. apply Hσ in H. simpl. lia. Qed.

(** Closing the file just opened gives the table back. *)
Lemma close_opened path σ :
  fresh σ → IO.close (next_handle σ) (opened path σ) = (Ok (), used σ).
Proof.
  intros Hσ. unfold IO.close, opened, used. simpl. do 2 f_equal.
  apply delete_insert_id. by apply fresh_next.
Qed.

Lemma io_bind_run {A B} (m : io A) (f : A → io B) σ :
  (m ≫= f) σ = match m σ with
               | (Ok a, σ') => f a σ'
               | (Err e, σ') => (Err e, σ')
               end.
Proof. done. Qed.

Lemma io_fmap_run {A B} (g : A → B) (m : io A) σ :
  (g <$> m) σ = ((g <$> (m σ).1), (m σ).2).
Proof. unfold fmap, io_fmap. by destruct (m σ). Qed.

End table.

(** Runs a program up to its next case distinction. *)
Ltac io_simp :=
  repeat first
    [ rewrite io_bind_run
    | rewrite close_opened by done
    | progress unfold IO.lift
    | progress cbn [mret io_ret fst snd result_of_option] ].

(** ** The programs and the functions of [Dispatch] *)

Section runs.
Context (sentinel : pyfloat → bool) (w : world).
Implicit Types (σ : handles) (filename : string).

(** The table after a validity check that closes its file. *)
Definition probed filename σ : handles :=
  match netcdf w filename with Ok _ => used σ | Err _ => σ end.

(** [hasattr(file, "Convensions")] holds and [file.Convension] raises. *)
Definition misnamed (file : dataset) : bool :=
  hasattr file "Convensions" && negb (hasattr file "Convension").

(** The table after [Comps.is_valid]. *)
Definition probed_legacy filename σ : handles :=
  match netcdf w filename with
  | Ok file => if misnamed file then opened filename σ else used σ
  | Err _ => σ
  end.

Lemma netcdf_Err path e : netcdf w path = Err e → e = Raised IOError.
Proof. intros H. by apply (ensures_Err _ _ _ _ (netcdf_ensures w path)) in H. Qed.

Lemma run_NetcdfCf_is_valid filename σ :
  fresh σ →
  IO.NetcdfCf_is_valid w filename σ
  = (Ok (NetcdfCf_is_valid (netcdf w filename)), probed filename σ).
Proof.
  intros Hσ. unfold IO.NetcdfCf_is_valid, probed. rewrite io_bind_run.
  unfold IO.try, IO.netcdf. destruct (netcdf w filename) as [file|e] eqn:E.
  - by io_simp.
  - by rewrite (netcdf_Err _ _ E).
Qed.

Lemma run_Comps_is_valid filename σ :
  fresh σ →
  IO.Comps_is_valid w filename σ
  = (Ok (Comps_is_valid (netcdf w filename)).1, probed_legacy filename σ).
Proof.
  intros Hσ. unfold IO.Comps_is_valid, probed_legacy, misnamed. rewrite io_bind_run.
  unfold IO.try. rewrite io_bind_run. unfold IO.netcdf.
  destruct (netcdf w filename) as [file|e] eqn:E; [|by rewrite (netcdf_Err _ _ E)].
  unfold Comps_is_valid, hasattr, getattr.
  case_bool_decide as H1; [|by io_simp].
  by destruct (attrs file !! "Convension") as [c|] eqn:H2; io_simp.
Qed.

Lemma fresh_probed filename σ : fresh σ → fresh (probed filename σ).
Proof. unfold probed. destruct (netcdf _ _); [apply fresh_used|done]. Qed.

Lemma fresh_probed_legacy filename σ : fresh σ → fresh (probed_legacy filename σ).
Proof.
  unfold probed_legacy. destruct (netcdf _ _); [|done].
  case (misnamed _); [apply fresh_opened|apply fresh_used].
Qed.

(** The constructors. *)
Lemma run_NetcdfCf_new filename σ :
  IO.NetcdfCf_new w sentinel filename σ
  = (NetcdfCf_new sentinel w filename,
     match netcdf w (expanduser w filename) with
     | Ok _ => opened (expanduser w filename) σ
     | Err _ => σ
     end).
Proof.
  unfold IO.NetcdfCf_new, NetcdfCf_new. rewrite io_bind_run. unfold IO.netcdf.
  destruct (netcdf w _); by io_simp.
Qed.

Lemma run_Comps_new filename σ :
  IO.Comps_new w sentinel filename σ
  = (Comps_new sentinel w filename,
     match netcdf w (expanduser w filename) with
     | Ok _ => opened (expanduser w filename) σ
     | Err _ => σ
     end).
Proof.
  unfold IO.Comps_new, Comps_new. rewrite io_bind_run. unfold IO.netcdf.
  destruct (netcdf w _); by io_simp.
Qed.

Lemma run_Text_new filename σ :
  fresh σ →
  IO.Text_new w filename σ
  = (Text_new w filename,
     match open_text w (expanduser w filename) with
     | Ok lines =>
         match parse_lines filename lines with
         | Ok _ => used σ
         | Err _ => opened (expanduser w filename) σ
         end
     | Err _ => σ
     end).
Proof.
  intros Hσ. unfold IO.Text_new, Text_new, Text_init. rewrite io_bind_run.
  unfold IO.open_text. destruct (open_text w _) as [lines|e]; [|done].
  cbn [mbind result_bind]. io_simp.
  destruct (parse_lines filename lines) as [s|e]; by io_simp.
Qed.

End runs.

(** ** [get_input] *)

Section get_input.
Context (sentinel : pyfloat → bool) (w : world).
Implicit Types (σ : handles) (filename : string).

(** The table after a constructor of a NetCDF decoder. *)
Definition held filename σ : handles :=
  match netcdf w (expanduser w filename) with
  | Ok _ => opened (expanduser w filename) σ
  | Err _ => σ
  end.

(** The table after the constructor of the text decoder. *)
Definition read filename σ : handles :=
  match open_text w (expanduser w filename) with
  | Ok lines =>
      match parse_lines filename lines with
      | Ok _ => used σ
      | Err _ => opened (expanduser w filename) σ
      end
  | Err _ => σ
  end.

(** The table after [get_input]. *)
Definition dispatched filename σ : handles :=
  if negb (path_exists w filename) then σ
  else if NetcdfCf_is_valid (netcdf w filename) then held filename (probed w filename σ)
  else
    let σ := probed_legacy w filename (probed w filename σ) in
    if (Comps_is_valid (netcdf w filename)).1 then held filename σ
    else read filename σ.

Lemma fresh_held filename σ : fresh σ → fresh (held filename σ).
Proof. unfold held. destruct (netcdf _ _); [apply fresh_opened|done]. Qed.

Lemma fresh_read filename σ : fresh σ → fresh (read filename σ).
Proof.
  unfold read. destruct (open_text _ _); [|done].
  destruct (parse_lines _ _); [apply fresh_used|apply fresh_opened].
Qed.

Lemma fresh_dispatched filename σ : fresh σ → fresh (dispatched filename σ).
Proof.
  intros. unfold dispatched.
  repeat case_match; auto using fresh_held, fresh_read, fresh_probed, fresh_probed_legacy.
Qed.

(** The program computes the result of [Dispatch.get_input] and the table
    [dispatched]. *)
Lemma run_get_input filename σ :
  fresh σ →
  IO.get_input w sentinel filename σ
  = (get_input sentinel w filename, dispatched filename σ).
Proof.
  intros Hσ. unfold IO.get_input, get_input, dispatched.
  destruct (negb (path_exists w filename)); [done|].
  rewrite io_bind_run, run_NetcdfCf_is_valid by done.
  destruct (NetcdfCf_is_valid _).
  { by rewrite io_fmap_run, run_NetcdfCf_new. }
  rewrite io_bind_run, run_Comps_is_valid by by apply fresh_probed.
  destruct (Comps_is_valid _).1.
  { by rewrite io_fmap_run, run_Comps_new. }
  unfold IO.Text_is_valid. io_simp.
  by rewrite io_fmap_run, run_Text_new by by apply fresh_probed_legacy, fresh_probed.
Qed.

Lemma new_opens {A} (init : string → dataset → res A) filename (o : A) :
  (file ← netcdf w (expanduser w filename); init filename file) = Ok o →
  is_Ok (netcdf w (expanduser w filename)).
Proof. intros (file & -> & _)%bind_Ok. by eexists. Qed.

(** After the first check: one handle was used, one is held. *)
Lemma held_one filename σ (o : NetcdfCf) :
  NetcdfCf_is_valid (netcdf w filename) = true →
  NetcdfCf_new sentinel w filename = Ok o →
  ∃ h, (next_handle σ < h)%nat
       ∧ open_files (held filename (probed w filename σ))
         = <[h := expanduser w filename]> (open_files σ).
Proof.
  intros (file & Hf & _)%NetcdfCf_is_valid_iff [file' Hf']%new_opens.
  unfold held, probed. rewrite Hf, Hf'. exists (S (next_handle σ)). by split; [lia|].
Qed.

Lemma Comps_is_valid_misnamed file :
  (Comps_is_valid (Ok file)).1 = negb (misnamed file).
Proof.
  unfold Comps_is_valid, misnamed, hasattr, getattr.
  case_bool_decide; [|done]. by destruct (attrs file !! "Convension").
Qed.

(** After the two checks: two handles were used, one is held. *)
Lemma held_two filename σ (o : Comps) :
  (Comps_is_valid (netcdf w filename)).1 = true →
  Comps_new sentinel w filename = Ok o →
  ∃ h, (next_handle σ < h)%nat
       ∧ open_files (held filename (probed_legacy w filename (probed w filename σ)))
         = <[h := expanduser w filename]> (open_files σ).
Proof.
  intros Hv [file' Hf']%new_opens. unfold held, probed_legacy, probed.
  destruct (netcdf w filename) as [file|e] eqn:Hf; [|done].
  rewrite Comps_is_valid_misnamed in Hv. apply negb_true_iff in Hv.
  rewrite Hv, Hf'. exists (S (S (next_handle σ))). by split; [simpl; lia|].
Qed.

(** A text file that loads leaves no handle. *)
Lemma read_text filename σ lines (o : Text) :
  files w !! filename = Some (TextFile lines) → Text_new w filename = Ok o →
  open_files (read filename (probed_legacy w filename (probed w filename σ)))
  = open_files σ.
Proof.
  intros Hf Ho. unfold probed_legacy, probed, netcdf. rewrite Hf.
  unfold read. unfold Text_new, Text_init in Ho.
  destruct (open_text w _) as [lines'|]; [|done]. simpl in Ho.
  by destruct (parse_lines filename lines').
Qed.

End get_input.


(** C27: [NetcdfCf.is_valid], lines 269-279: the check answers what the
    convention attribute says and leaves the table of open files as it
    found it: the file it opens is closed on every path. *)
Theorem NetcdfCf_is_valid_closes (w : world) (filename : string) (σ : handles) :
  fresh σ →
  ∃ σ', IO.NetcdfCf_is_valid w filename σ
        = (Ok (NetcdfCf_is_valid (netcdf w filename)), σ')
        ∧ open_files σ' = open_files σ ∧ fresh σ'.
Proof.
  intros Hσ. exists (probed w filename σ). rewrite run_NetcdfCf_is_valid by done.
  split_and!; [done| |by apply fresh_probed]. unfold probed. by destruct (netcdf _ _).
Qed.

(** C28: [Comps.is_valid], lines 99-111: the check always answers, and it
    leaves the file open exactly when the file is NetCDF, has the attribute
    [Convensions] and lacks [Convension]: reading the missing attribute
    raises inside the [try] and the handler returns before [file.close()]. *)
Theorem Comps_is_valid_leaks (w : world) (filename : string) (σ : handles) :
  fresh σ →
  ∃ σ', IO.Comps_is_valid w filename σ
        = (Ok (Comps_is_valid (netcdf w filename)).1, σ')
        ∧ open_files σ'
          = match files w !! filename with
            | Some (NcFile file) =>
                if misnamed file then <[next_handle σ := filename]> (open_files σ)
                else open_files σ
            | _ => open_files σ
            end.
Proof.
  intros Hσ. exists (probed_legacy w filename σ). rewrite run_Comps_is_valid by done.
  split; [done|]. unfold probed_legacy, netcdf.
  destruct (files w !! filename) as [[lines|file]|]; [done| |done].
  by destruct (misnamed file).
Qed.

(** C29: [Text.__init__], lines 353 and 492: the constructor closes its file
    after the parsing loop; when a line fails, the error leaves the loop
    before line 492 and the file stays open. *)
Theorem Text_new_handles (w : world) (filename : string) (lines : list string)
    (σ : handles) :
  fresh σ → open_text w (expanduser w filename) = Ok lines →
  IO.Text_new w filename σ
  = match parse_lines filename lines with
    | Ok s => (Ok (snapshot filename s), used σ)
    | Err e => (Err e, opened (expanduser w filename) σ)
    end.
Proof.
  intros Hσ Hlines. rewrite run_Text_new by done.
  unfold Text_new, Text_init. rewrite Hlines. cbn [mbind result_bind].
  destruct (parse_lines filename lines) as [s|e]; [|done].
  cbn [mbind result_bind]. by rewrite assemble_snapshot.
Qed.

(** C30: [get_input], lines 14-25, on success: an input built by a NetCDF
    decoder holds one open file, on the expanded path, and no other handle
    is left; an input built from a text file leaves the table as it was.
    The table stays fresh. *)
Theorem get_input_handles (sentinel : pyfloat → bool) (w : world) (filename : string)
    (σ σ' : handles) (i : input) :
  fresh σ → IO.get_input w sentinel filename σ = (Ok i, σ') →
  fresh σ'
  ∧ match i with
    | InText _ =>
        ∀ lines, files w !! filename = Some (TextFile lines) →
                 open_files σ' = open_files σ
    | _ =>
        ∃ h, (next_handle σ < h)%nat
             ∧ open_files σ' = <[h := expanduser w filename]> (open_files σ)
    end.
Proof.
  intros Hσ. rewrite run_get_input by done. intros [= Hi <-].
  split; [by apply fresh_dispatched|].
  revert Hi. unfold get_input, dispatched.
  destruct (negb (path_exists w filename)); [done|].
  destruct (NetcdfCf_is_valid (netcdf w filename)) eqn:Hcf.
  { intros (o & Ho & ->)%fmap_Ok. by apply (held_one sentinel w filename σ o). }
  destruct (Comps_is_valid (netcdf w filename)).1 eqn:Hco.
  { intros (o & Ho & ->)%fmap_Ok. by apply (held_two sentinel w filename σ o). }
  intros (o & Ho & ->)%fmap_Ok lines Hl. by apply (read_text w filename σ lines o).
Qed.

(** C26: [get_input] on a text file, lines 14-25 and 350-560: for a
    well-formed text file at a path that needs no expansion, the dispatcher
    refuses the two NetCDF decoders, builds the text input, which is the
    snapshot of the state the lines parse into, and returns with every file
    it opened closed again. *)
Theorem get_input_loads (sentinel : pyfloat → bool) (w : world) (filename : string)
    (lines : list string) (σ : handles) :
  fresh σ → files w !! filename = Some (TextFile lines) →
  expanduser w filename = filename → well_formed None lines →
  ∃ s, parse_lines filename lines = Ok s ∧ state_inv s
       ∧ IO.get_input w sentinel filename σ
         = (Ok (InText (snapshot filename s)), used σ).
Proof.
  intros Hσ Hf Hx [s Hs]%(parse_lines_accepts filename). exists s.
  split_and!; [done|apply (ensures_Ok _ _ _ _ (parse_lines_ensures filename lines) Hs)|].
  rewrite run_get_input by done.
  unfold get_input, dispatched, path_exists, read, probed_legacy, probed, Text_new,
    Text_init, netcdf, open_text.
  rewrite Hx, Hf, Hs. rewrite bool_decide_eq_true_2 by by eexists.
  cbn [negb NetcdfCf_is_valid Comps_is_valid fst Text_is_valid mbind result_bind].
  rewrite Hs. cbn [mbind result_bind]. by rewrite assemble_snapshot.
Qed.

(** ** On the sample file system *)


Lemma NetcdfCf_is_valid_closes_witness :
  ∃ σ', IO.NetcdfCf_is_valid sample_world "cf.nc" no_handles
        = (Ok (NetcdfCf_is_valid (netcdf sample_world "cf.nc")), σ')
        ∧ open_files σ' = open_files no_handles ∧ fresh σ'.
Proof. apply NetcdfCf_is_valid_closes, fresh_no_handles. Defined.

Lemma Comps_is_valid_leaks_witness :
  ∃ σ', (IO.Comps_is_valid sample_world "legacy.nc" no_handles).2 = σ'
        ∧ open_files σ' !! 0%nat = Some "legacy.nc".
Proof.
  destruct (Comps_is_valid_leaks sample_world "legacy.nc" no_handles
              fresh_no_handles) as (σ' & Hrun & Htable).
  exists σ'. split; [by rewrite Hrun|]. by rewrite Htable.
Defined.

Lemma Text_new_handles_witness :
  IO.Text_new sample_world "~/bad.txt" no_handles
  = (Err (UtilError (IncorrectColumns 2 "1")), opened "/home/u/bad.txt" no_handles).
Proof.
  by rewrite (Text_new_handles sample_world "~/bad.txt" ["obs fcst"; "1"] no_handles
                fresh_no_handles).
Defined.

Lemma get_input_handles_witness :
  ∃ h, open_files (IO.get_input sample_world sample_sentinel "sample.nc" no_handles).2
       = <[h := "sample.nc"]> ∅.
Proof.
  destruct (get_input_handles sample_sentinel sample_world "sample.nc" no_handles
              (IO.get_input sample_world sample_sentinel "sample.nc" no_handles).2
              (InComps (sample_self sample_comps "%")) fresh_no_handles)
    as (_ & h & _ & Htable).
  - rewrite run_get_input by apply fresh_no_handles. by f_equal.
  - by exists h.
Defined.

(** The table stays fresh, whatever [get_input] returns. *)
Lemma get_input_fresh (sentinel : pyfloat → bool) (w : world) (filename : string)
    (σ : handles) :
  fresh σ → fresh (IO.get_input w sentinel filename σ).2.
Proof. intros. rewrite run_get_input by done. by apply fresh_dispatched. Qed.

Lemma get_input_loads_witness :
  (IO.get_input sample_world sample_sentinel "/home/u/obs.txt" no_handles).2
  = used no_handles.
Proof.
  destruct (get_input_loads sample_sentinel sample_world "/home/u/obs.txt"
              ["obs fcst"; "1 2"] no_handles fresh_no_handles)
    as (s & _ & _ & Hrun); [done|done|compute_done|].
  by rewrite Hrun.
Defined.
